(** * User onboarding and authentication handlers

    A shallow embedding of [cmd/api/auth.go] (registerUserHandler,
    generateUsername, createTokenHandler), of [cmd/api/json.go]
    (readJSON, validatePassword, validateEmailRegex, validateName, the
    validator registry), of the mailers of [internal/mailer] (noop.go,
    smtp.go) and of [cmd/mailtest/main.go], together with the properties
    the design document states about them and further properties of
    the code.

    Conventions.
    - A Go [string] is kept as the list of its runes (code points); the
      texts reaching the handlers come out of the JSON decoder and are
      therefore valid UTF-8.  Byte lengths are recovered with [len].
    - Calls that leave the handler (repository, mailer, random source,
      clock, logger, response writer) are events of a free monad; an
      environment answers them and the answers are recorded in a trace.
    - Parts of the Go runtime that are tables (Unicode case mapping and
      categories beyond ASCII, the JSON name folding, the validator's own
      e-mail check) are fields of the class [GoLib]. *)

From Stdlib Require Import ZArith List Bool String Ascii Lia.
Import ListNotations.
Local Open Scope Z_scope.

Set Implicit Arguments.

(* ================================================================== *)
(** ** Go strings *)

Module GoStr.

Definition rune := Z.
Definition gostring := list rune.

(** ASCII literals. *)
Fixpoint lit (s : string) : gostring :=
  match s with
  | EmptyString => []
  | String c r => Z.of_nat (nat_of_ascii c) :: lit r
  end.

Definition between (lo hi r : rune) : bool := (lo <=? r) && (r <=? hi).

Fixpoint eqb (a b : gostring) : bool :=
  match a, b with
  | [], [] => true
  | x :: a', y :: b' => (x =? y) && eqb a' b'
  | _, _ => false
  end.

Definition isEmpty (s : gostring) : bool :=
  match s with [] => true | _ => false end.

(** utf8.RuneLen, with the three-byte replacement character for what is
    not a scalar value. *)
Definition runeLen (r : rune) : Z :=
  if r <? 0 then 3
  else if r <? 128 then 1
  else if r <? 2048 then 2
  else if between 55296 57343 r then 3
  else if r <? 65536 then 3
  else if r <=? 1114111 then 4
  else 3.

(** [len(s)]: the length in bytes. *)
Definition len (s : gostring) : Z :=
  fold_right (fun r n => runeLen r + n) 0 s.

(** utf8.RuneCountInString *)
Definition runeCount (s : gostring) : Z := Z.of_nat (List.length s).

(** unicode.IsSpace *)
Definition IsSpace (r : rune) : bool :=
  between 9 13 r || (r =? 32) || (r =? 133) || (r =? 160)
  || (r =? 5760) || between 8192 8202 r || (r =? 8232) || (r =? 8233)
  || (r =? 8239) || (r =? 8287) || (r =? 12288).

Fixpoint dropWhile (p : rune -> bool) (s : gostring) : gostring :=
  match s with
  | [] => []
  | c :: r => if p c then dropWhile p r else s
  end.

Fixpoint takeWhile (p : rune -> bool) (s : gostring) : gostring :=
  match s with
  | [] => []
  | c :: r => if p c then c :: takeWhile p r else []
  end.

(** strings.TrimSpace *)
Definition TrimSpace (s : gostring) : gostring :=
  rev (dropWhile IsSpace (rev (dropWhile IsSpace s))).

(** [strings.Split(s, "@")[0]]: the text before the first '@', or all of
    [s] when there is none. *)
Definition beforeAt (s : gostring) : gostring :=
  takeWhile (fun r => negb (r =? 64)) s.

(** [s[:n]] on a string of one-byte runes. *)
Definition prefix (n : nat) (s : gostring) : gostring := firstn n s.

(** The bytes of the UTF-8 encoding, [[]byte(s)]. *)
Definition encodeRune (r : rune) : list Z :=
  if r <? 0 then [239; 191; 189]
  else if r <? 128 then [r]
  else if r <? 2048 then [192 + r / 64; 128 + r mod 64]
  else if between 55296 57343 r then [239; 191; 189]
  else if r <? 65536 then
    [224 + r / 4096; 128 + (r / 64) mod 64; 128 + r mod 64]
  else if r <=? 1114111 then
    [240 + r / 262144; 128 + (r / 4096) mod 64;
     128 + (r / 64) mod 64; 128 + r mod 64]
  else [239; 191; 189].

Definition bytes (s : gostring) : list Z := flat_map encodeRune s.

End GoStr.
Import GoStr.

(* ================================================================== *)
(** ** Tables of the Go runtime taken as given *)

Class GoLib := {
  (** unicode.To(LowerCase, r) for r above MaxASCII *)
  lowerTable : rune -> rune;
  (** unicode.IsLower, IsUpper, IsDigit, IsPunct, IsSymbol above MaxASCII *)
  isLowerTable : rune -> bool;
  isUpperTable : rune -> bool;
  isDigitTable : rune -> bool;
  isPunctTable : rune -> bool;
  isSymbolTable : rune -> bool;
  (** encoding/json: the folded form under which object keys are matched
      with struct fields when no field has the exact name *)
  foldName : gostring -> gostring;
  (** validator/v10: the built-in [email] check *)
  isEmail : gostring -> bool;
  (** regexp: [MatchString] of the two expressions compiled in json.go,
      [emailRegex] and [nameRegex] *)
  emailRegex_MatchString : gostring -> bool;
  nameRegex_MatchString : gostring -> bool
}.

(* ================================================================== *)
(** ** encoding/hex, crypto/sha256, google/uuid *)

Module Hex.

Definition hextable : gostring := lit "0123456789abcdef".

Definition digit (n : Z) : rune := nth (Z.to_nat n) hextable 48.

(** hex.EncodeToString *)
Definition EncodeToString (bs : list Z) : gostring :=
  flat_map (fun v => [digit (Z.shiftr v 4); digit (Z.land v 15)]) bs.

End Hex.

Module Sha256.

Definition w32 (x : Z) : Z := x mod 4294967296.
Definition add32 (x y : Z) : Z := w32 (x + y).
Definition rotr (n x : Z) : Z :=
  Z.lor (Z.shiftr x n) (w32 (Z.shiftl x (32 - n))).
Definition not32 (x : Z) : Z := 4294967295 - x.

Definition Ch (x y z : Z) := Z.lxor (Z.land x y) (Z.land (not32 x) z).
Definition Maj (x y z : Z) :=
  Z.lxor (Z.lxor (Z.land x y) (Z.land x z)) (Z.land y z).
Definition bsig0 x := Z.lxor (Z.lxor (rotr 2 x) (rotr 13 x)) (rotr 22 x).
Definition bsig1 x := Z.lxor (Z.lxor (rotr 6 x) (rotr 11 x)) (rotr 25 x).
Definition ssig0 x := Z.lxor (Z.lxor (rotr 7 x) (rotr 18 x)) (Z.shiftr x 3).
Definition ssig1 x := Z.lxor (Z.lxor (rotr 17 x) (rotr 19 x)) (Z.shiftr x 10).

Definition K : list Z :=
  [1116352408; 1899447441; 3049323471; 3921009573; 961987163; 1508970993;
   2453635748; 2870763221; 3624381080; 310598401; 607225278; 1426881987;
   1925078388; 2162078206; 2614888103; 3248222580; 3835390401; 4022224774;
   264347078; 604807628; 770255983; 1249150122; 1555081692; 1996064986;
   2554220882; 2821834349; 2952996808; 3210313671; 3336571891; 3584528711;
   113926993; 338241895; 666307205; 773529912; 1294757372; 1396182291;
   1695183700; 1986661051; 2177026350; 2456956037; 2730485921; 2820302411;
   3259730800; 3345764771; 3516065817; 3600352804; 4094571909; 275423344;
   430227734; 506948616; 659060556; 883997877; 958139571; 1322822218;
   1537002063; 1747873779; 1955562222; 2024104815; 2227730452; 2361852424;
   2428436474; 2756734187; 3204031479; 3329325298].

Record digest := Digest {
  h0 : Z; h1 : Z; h2 : Z; h3 : Z; h4 : Z; h5 : Z; h6 : Z; h7 : Z
}.

Definition init : digest :=
  Digest 1779033703 3144134277 1013904242 2773480762
         1359893119 2600822924 528734635 1541459225.

(** Padding: 0x80, zeros up to 56 mod 64, the bit length on 8 bytes. *)
Definition be64 (n : Z) : list Z :=
  map (fun i => Z.shiftr n (8 * i) mod 256) [7; 6; 5; 4; 3; 2; 1; 0].

Definition pad (msg : list Z) : list Z :=
  let l := Z.of_nat (List.length msg) in
  let k := (55 - l) mod 64 in
  msg ++ [128] ++ repeat 0 (Z.to_nat k) ++ be64 (8 * l).

Fixpoint words (fuel : nat) (bs : list Z) : list Z :=
  match fuel with
  | O => []
  | S f =>
      match bs with
      | a :: b :: c :: d :: r =>
          (a * 16777216 + b * 65536 + c * 256 + d) :: words f r
      | _ => []
      end
  end.

Fixpoint blocks (fuel : nat) (ws : list Z) : list (list Z) :=
  match fuel with
  | O => []
  | S f =>
      match ws with
      | [] => []
      | _ => firstn 16 ws :: blocks f (skipn 16 ws)
      end
  end.

(** The message schedule, kept newest first. *)
Fixpoint schedule (n : nat) (rev_w : list Z) : list Z :=
  match n with
  | O => rev_w
  | S m =>
      let w2 := nth 1 rev_w 0 in
      let w7 := nth 6 rev_w 0 in
      let w15 := nth 14 rev_w 0 in
      let w16 := nth 15 rev_w 0 in
      schedule m
        (add32 (add32 (ssig1 w2) w7) (add32 (ssig0 w15) w16) :: rev_w)
  end.

Definition round (d : digest) (kw : Z * Z) : digest :=
  let (k, w) := kw in
  let t1 := add32 (add32 (add32 (h7 d) (bsig1 (h4 d)))
                         (add32 (Ch (h4 d) (h5 d) (h6 d)) k)) w in
  let t2 := add32 (bsig0 (h0 d)) (Maj (h0 d) (h1 d) (h2 d)) in
  Digest (add32 t1 t2) (h0 d) (h1 d) (h2 d)
         (add32 (h3 d) t1) (h4 d) (h5 d) (h6 d).

Definition block (d : digest) (ws : list Z) : digest :=
  let w := rev (schedule 48 (rev ws)) in
  let r := fold_left round (combine K w) d in
  Digest (add32 (h0 d) (h0 r)) (add32 (h1 d) (h1 r))
         (add32 (h2 d) (h2 r)) (add32 (h3 d) (h3 r))
         (add32 (h4 d) (h4 r)) (add32 (h5 d) (h5 r))
         (add32 (h6 d) (h6 r)) (add32 (h7 d) (h7 r)).

Definition be32 (x : Z) : list Z :=
  [Z.shiftr x 24 mod 256; Z.shiftr x 16 mod 256;
   Z.shiftr x 8 mod 256; x mod 256].

Definition digestBytes (d : digest) : list Z :=
  be32 (h0 d) ++ be32 (h1 d) ++ be32 (h2 d) ++ be32 (h3 d) ++
  be32 (h4 d) ++ be32 (h5 d) ++ be32 (h6 d) ++ be32 (h7 d).

(** sha256.Sum256 *)
Definition Sum256 (msg : list Z) : list Z :=
  let p := map (fun b => b mod 256) (pad msg) in
  let ws := words (List.length p) p in
  digestBytes (fold_left block (blocks (List.length ws) ws) init).

End Sha256.

Module Uuid.

(** [uuid.New()] reads 16 bytes from the random source and stamps the
    version (4) and the variant (RFC 4122) on bytes 6 and 8. *)
Definition byteAt (r : list Z) (i : nat) : Z := nth i r 0 mod 256.

Definition New (r : list Z) : list Z :=
  [byteAt r 0; byteAt r 1; byteAt r 2; byteAt r 3;
   byteAt r 4; byteAt r 5;
   Z.lor (Z.land (byteAt r 6) 15) 64; byteAt r 7;
   Z.lor (Z.land (byteAt r 8) 63) 128; byteAt r 9;
   byteAt r 10; byteAt r 11; byteAt r 12; byteAt r 13;
   byteAt r 14; byteAt r 15].

(** [UUID.String()]: xxxxxxxx-xxxx-xxxx-xxxx-xxxxxxxxxxxx *)
Definition String (u : list Z) : gostring :=
  Hex.EncodeToString (firstn 4 u) ++ [45] ++
  Hex.EncodeToString (firstn 2 (skipn 4 u)) ++ [45] ++
  Hex.EncodeToString (firstn 2 (skipn 6 u)) ++ [45] ++
  Hex.EncodeToString (firstn 2 (skipn 8 u)) ++ [45] ++
  Hex.EncodeToString (skipn 10 u).

End Uuid.

(* ================================================================== *)
(** ** generateUsername *)

Section Username.
Context {L : GoLib}.

(** unicode.ToLower *)
Definition unicode_ToLower (r : rune) : rune :=
  if r <=? 127 then (if between 65 90 r then r + 32 else r)
  else lowerTable r.

(** strings.ToLower *)
Definition ToLower (s : gostring) : gostring := map unicode_ToLower s.

Definition isAlnumLower (r : rune) : bool :=
  between 97 122 r || between 48 57 r.

(** [regexp.ReplaceAllString] for a pattern [[cls]+]: every maximal run
    of runes of the class is replaced by [repl]. *)
Fixpoint replaceRuns (cls : rune -> bool) (repl : gostring)
         (inRun : bool) (s : gostring) : gostring :=
  match s with
  | [] => []
  | c :: r =>
      if cls c
      then (if inRun then [] else repl) ++ replaceRuns cls repl true r
      else c :: replaceRuns cls repl false r
  end.

(** [usernameNonAlnum = regexp.MustCompile(`[^a-z0-9]+`)] *)
Definition usernameNonAlnum_ReplaceAllString (s repl : gostring) : gostring :=
  replaceRuns (fun r => negb (isAlnumLower r)) repl false s.

(** The base handle computed by the first half of [generateUsername]. *)
Definition usernameBase (firstName lastName email : gostring) : gostring :=
  let base := TrimSpace (ToLower (firstName ++ lit "." ++ lastName)) in
  let base := usernameNonAlnum_ReplaceAllString base [] in
  if isEmpty base then
    let base := ToLower (beforeAt email) in
    usernameNonAlnum_ReplaceAllString base []
  else base.

(** [generateUsername]; [rnd] is what the one call of [uuid.New] made on
    the path taken reads from the random source. *)
Definition generateUsername (firstName lastName email : gostring)
           (rnd : list Z) : gostring :=
  let base := usernameBase firstName lastName email in
  if isEmpty base then prefix 12 (Uuid.String (Uuid.New rnd))
  else
    let base := if 20 <? len base then prefix 20 base else base in
    let suffix := prefix 6 (Uuid.String (Uuid.New rnd)) in
    base ++ suffix.

End Username.

(* ================================================================== *)
(** ** Errors *)

(** Go [error] values.  The three sentinels of [internal/store] are
    compared by identity in the handlers; the others are what the
    decoder, the validator and the collaborators return. *)
Inductive error : Type :=
| ErrNotFound
| ErrDuplicateEmail
| ErrDuplicateUsername
| MaxBytesError (limit : Z)
| SyntaxError
| UnknownFieldError (key : gostring)
| UnmarshalTypeError (field : gostring)
| ValidationErrors (failed : list (string * string))
| OtherError (msg : string).

(* ================================================================== *)
(** ** json.go: readJSON *)

Module Json.

(** A parsed JSON text. *)
#[local] Unset Elimination Schemes.
Inductive value : Type :=
| Null
| Bool (b : bool)
| Number (text : gostring)
| Str (s : gostring)
| Array (items : list value)
| Object (members : list (gostring * value)).
#[local] Set Elimination Schemes.

(** What the scanner of encoding/json makes of the bytes of a body.
    [Value v ends]: after white space, if any, the body starts with the
    well-formed value [v], whose last byte is the [ends]-th byte of the
    body.  [Blank]: the body is empty or all white space.  [Cut]: the
    body stops inside its first value.  [Malformed offset]: the
    [offset]-th byte of the body is one no JSON value can go on with. *)
Inductive Text : Type :=
| Value (v : value) (ends : Z)
| Blank
| Cut
| Malformed (offset : Z).

(** The body of a request: its bytes as the scanner meets them, and
    how many they are. *)
Record Body := { text : Text; size : Z }.

(** The first JSON value of a body, if it starts with one. *)
Definition doc (b : Body) : option value :=
  match text b with
  | Value v _ => Some v
  | _ => None
  end.

Definition inBrackets (v : value) : bool :=
  match v with
  | Array _ | Object _ => true
  | _ => false
  end.

(** The number of bytes [Decoder.readValue] has to be given before it
    returns for another reason than an error of its reader.  For an
    array or an object the scanner reports the end at the closing
    bracket.  For a string, a number or a literal it reports the end one
    byte late: [readValue] needs the byte behind the value, unless the
    body stops there and the reader says so.  Where there is no value
    the scanner stops at the offending byte, or the reader at the end of
    the body. *)
Definition needed (b : Body) : Z :=
  match text b with
  | Value v ends =>
      if inBrackets v || (size b <=? ends) then ends else ends + 1
  | Blank | Cut => size b
  | Malformed offset => offset
  end.

End Json.

Section ReadJSON.
Context {L : GoLib}.

(** The struct a body is decoded into: the names of its [json] tags and
    the assignment of a string to the field of a given name. *)
Record Target (P : Type) := {
  names : list gostring;
  zero : P;
  assign : gostring -> gostring -> P -> P
}.

(** encoding/json looks a key up by its exact name, then by its folded
    name. *)
Definition findField (ns : list gostring) (key : gostring) : option gostring :=
  match find (GoStr.eqb key) ns with
  | Some n => Some n
  | None => find (fun n => GoStr.eqb (foldName n) (foldName key)) ns
  end.

Definition saveError (saved : option error) (e : error) : option error :=
  match saved with
  | Some _ => saved
  | None => Some e
  end.

(** Decoding of the members of an object with [DisallowUnknownFields]:
    the first error met is kept and returned at the end. *)
Fixpoint decodeMembers P (T : Target P) (ms : list (gostring * Json.value))
         (acc : P) (saved : option error) : P * option error :=
  match ms with
  | [] => (acc, saved)
  | (key, v) :: rest =>
      match findField (names T) key with
      | None => decodeMembers T rest acc (saveError saved (UnknownFieldError key))
      | Some n =>
          match v with
          | Json.Str s => decodeMembers T rest (assign T n s acc) saved
          | Json.Null => decodeMembers T rest acc saved
          | _ => decodeMembers T rest acc (saveError saved (UnmarshalTypeError n))
          end
      end
  end.

Definition maxBytes : Z := 1048578.

(** [io.EOF] and [io.ErrUnexpectedEOF], made by [errors.New]. *)
Definition io_EOF : error := OtherError "EOF".
Definition io_ErrUnexpectedEOF : error := OtherError "unexpected EOF".

(** [Decoder.readValue] on a body behind [http.MaxBytesReader].  The
    reader hands over the first [maxBytes] bytes of the body and, if the
    body has more, fails with a [MaxBytesError] from then on; the
    decoder scans what it was given before it looks at the reader's
    error.  So the value is returned when the bytes it needs are among
    the first [maxBytes]; if the scanner meets an offending byte among
    them, that is a syntax error; and a body that ends before either is
    reported as [io.EOF] when it had nothing but white space,
    [io.ErrUnexpectedEOF] otherwise. *)
Definition readValue (body : Json.Body) : error + Json.value :=
  if maxBytes <? Json.needed body then inl (MaxBytesError maxBytes)
  else
    match Json.text body with
    | Json.Value v _ => inr v
    | Json.Blank => inl io_EOF
    | Json.Cut => inl io_ErrUnexpectedEOF
    | Json.Malformed _ => inl SyntaxError
    end.

(** [readJSON]: the body is read through [http.MaxBytesReader] and one
    value is decoded into [data]. *)
Definition readJSON P (T : Target P) (body : Json.Body) : error + P :=
  match readValue body with
  | inl e => inl e
  | inr Json.Null => inr (zero T)
  | inr (Json.Object ms) =>
      match decodeMembers T ms (zero T) None with
      | (p, None) => inr p
      | (_, Some e) => inl e
      end
  | inr _ => inl (UnmarshalTypeError [])
  end.

(** A body the reader refuses: its first value is not complete within
    the limit, or it is an object with a key that matches no field of
    the struct. *)
Definition rejected (ns : list gostring) (body : Json.Body) : Prop :=
  maxBytes < Json.needed body \/
  exists ms key v,
    Json.doc body = Some (Json.Object ms) /\ In (key, v) ms /\
    findField ns key = None.

(** A body the reader can accept: its first value is complete within the
    limit, and is [null] or an object whose keys all match a field and
    whose values are strings or [null]. *)
Definition acceptable (ns : list gostring) (body : Json.Body) : Prop :=
  Json.needed body <= maxBytes /\
  (Json.doc body = Some Json.Null \/
   exists ms,
     Json.doc body = Some (Json.Object ms) /\
     forall key v, In (key, v) ms ->
       findField ns key <> None /\ (v = Json.Null \/ exists s, v = Json.Str s)).

End ReadJSON.

(* ================================================================== *)
(** ** json.go: the validator registry *)

Section Validator.
Context {L : GoLib}.

Definition unicode_IsLower (r : rune) : bool :=
  if r <=? 127 then between 97 122 r else isLowerTable r.
Definition unicode_IsUpper (r : rune) : bool :=
  if r <=? 127 then between 65 90 r else isUpperTable r.
Definition unicode_IsDigit (r : rune) : bool :=
  if r <=? 127 then between 48 57 r else isDigitTable r.
Definition unicode_IsPunct (r : rune) : bool :=
  if r <=? 127 then
    between 33 35 r || between 37 42 r || between 44 47 r ||
    between 58 59 r || between 63 64 r || between 91 93 r ||
    (r =? 95) || (r =? 123) || (r =? 125)
  else isPunctTable r.
Definition unicode_IsSymbol (r : rune) : bool :=
  if r <=? 127 then
    (r =? 36) || (r =? 43) || between 60 62 r || (r =? 94) ||
    (r =? 96) || (r =? 124) || (r =? 126)
  else isSymbolTable r.

Record pwFlags := PwFlags {
  hasLower : bool; hasUpper : bool; hasDigit : bool; hasSpecial : bool
}.

Definition pwStep (f : pwFlags) (r : rune) : pwFlags :=
  if unicode_IsLower r then PwFlags true (hasUpper f) (hasDigit f) (hasSpecial f)
  else if unicode_IsUpper r then PwFlags (hasLower f) true (hasDigit f) (hasSpecial f)
  else if unicode_IsDigit r then PwFlags (hasLower f) (hasUpper f) true (hasSpecial f)
  else if unicode_IsPunct r || unicode_IsSymbol r
       then PwFlags (hasLower f) (hasUpper f) (hasDigit f) true
  else f.

(** [validatePassword] *)
Definition validatePassword (value : gostring) : bool :=
  let f := fold_left pwStep value (PwFlags false false false false) in
  (8 <=? len value) && hasLower f && hasUpper f && hasDigit f && hasSpecial f.

(** The tags of a [validate:"..."] annotation. *)
Inductive tag : Type :=
| tRequired
| tOmitempty
| tMax (n : Z)
| tMin (n : Z)
| tEmail
| tEqfield (field : string)
| tRegistered (name : string).

(** A struct seen by the validator: field name, value, tags. *)
Definition structFields := list (string * gostring * list tag).

Definition validateEmailRegex (value : gostring) : bool :=
  emailRegex_MatchString value.

Definition validateName (value : gostring) : bool :=
  nameRegex_MatchString value.

(** What [init] registers with [Validate.RegisterValidation]. *)
Definition registry := list (string * (gostring -> bool)).

Definition Validate : registry :=
  [("email_regex"%string, validateEmailRegex);
   ("name"%string, validateName);
   ("password"%string, validatePassword)].

Fixpoint lookupField (fs : structFields) (name : string) : gostring :=
  match fs with
  | [] => []
  | (n, v, _) :: rest => if String.eqb n name then v else lookupField rest name
  end.

Fixpoint lookupValidation (reg : registry) (name : string) : option (gostring -> bool) :=
  match reg with
  | [] => None
  | (n, f) :: rest => if String.eqb n name then Some f else lookupValidation rest name
  end.

Definition tagName (t : tag) : string :=
  match t with
  | tRequired => "required"
  | tOmitempty => "omitempty"
  | tMax _ => "max"
  | tMin _ => "min"
  | tEmail => "email"
  | tEqfield _ => "eqfield"
  | tRegistered n => n
  end.

Definition checkTag (reg : registry) (fs : structFields) (v : gostring) (t : tag) : bool :=
  match t with
  | tRequired => negb (isEmpty v)
  | tOmitempty => true
  | tMax n => runeCount v <=? n
  | tMin n => n <=? runeCount v
  | tEmail => isEmail v
  | tEqfield f => GoStr.eqb v (lookupField fs f)
  | tRegistered n =>
      match lookupValidation reg n with
      | Some f => f v
      | None => false
      end
  end.

(** The tags of one field in order; [omitempty] ends the checks of an
    empty field, and the first failing tag is reported. *)
Fixpoint checkTags (reg : registry) (fs : structFields) (v : gostring)
         (ts : list tag) : option string :=
  match ts with
  | [] => None
  | tOmitempty :: rest => if isEmpty v then None else checkTags reg fs v rest
  | t :: rest =>
      if checkTag reg fs v t then checkTags reg fs v rest else Some (tagName t)
  end.

Fixpoint failures (reg : registry) (all fs : structFields) : list (string * string) :=
  match fs with
  | [] => []
  | (n, v, ts) :: rest =>
      match checkTags reg all v ts with
      | Some t => (n, t) :: failures reg all rest
      | None => failures reg all rest
      end
  end.

(** [Validate.Struct] *)
Definition Validate_Struct (reg : registry) (fs : structFields) : option error :=
  match failures reg fs fs with
  | [] => None
  | errs => Some (ValidationErrors errs)
  end.

End Validator.

(* ================================================================== *)
(** ** internal/store: the types the handlers touch *)

Module store.

(** The hashed credential kept by [store.password]. *)
Definition password := list Z.

Record Role := { Name : gostring }.

Record User := {
  ID : Z;
  Username : gostring;
  FirstName : gostring;
  LastName : gostring;
  Country : gostring;
  Email : gostring;
  Password : password;
  Role_ : Role
}.

Definition setID (u : User) (id : Z) : User :=
  {| ID := id; Username := Username u; FirstName := FirstName u;
     LastName := LastName u; Country := Country u; Email := Email u;
     Password := Password u; Role_ := Role_ u |}.

Definition setUsername (u : User) (name : gostring) : User :=
  {| ID := ID u; Username := name; FirstName := FirstName u;
     LastName := LastName u; Country := Country u; Email := Email u;
     Password := Password u; Role_ := Role_ u |}.

Definition setPassword (u : User) (p : password) : User :=
  {| ID := ID u; Username := Username u; FirstName := FirstName u;
     LastName := LastName u; Country := Country u; Email := Email u;
     Password := p; Role_ := Role_ u |}.

(** The fields of a user other than the username. *)
Definition otherFields (u : User) :=
  (ID u, FirstName u, LastName u, Country u, Email u, Password u, Role_ u).

End store.

(* ================================================================== *)
(** ** auth.go: payloads, configuration, responses *)

Record RegisterUserPayload := {
  FirstName : gostring;
  LastName : gostring;
  Country : gostring;
  Email : gostring;
  Password : gostring;
  PasswordConfirmation : gostring;
  Username : gostring
}.

Module token.
Record CreateUserTokenPayload := { Email : gostring; Password : gostring }.
End token.

Record UserWithToken := { User : store.User; Token : gostring }.

(** The variables handed to the welcome template. *)
Record welcomeVars := { vars_Username : gostring; ActivationURL : gostring }.

Inductive claim : Type :=
| claimInt (n : Z)
| claimString (s : gostring).

(** jwt.MapClaims *)
Definition MapClaims := list (string * claim).

Fixpoint getClaim (c : MapClaims) (k : string) : option claim :=
  match c with
  | [] => None
  | (k', v) :: rest => if String.eqb k' k then Some v else getClaim rest k
  end.

(** What [jsonResponse] is given to encode. *)
Inductive responseData : Type :=
| dataUserWithToken (u : UserWithToken)
| dataToken (t : gostring).

(** The fields of [app.config] the two handlers read, with the name of
    the welcome template, a constant of the mailer package. *)
Record config := {
  mail_exp : Z;
  frontendURL : gostring;
  env : gostring;
  auth_token_exp : Z;
  auth_token_iss : gostring;
  UserWelcomeTemplate : gostring
}.

Definition StatusCreated : Z := 201.

(** time.Time as nanoseconds since the epoch. *)
Definition time_Add (t d : Z) : Z := t + d.
Definition time_Unix (t : Z) : Z := t / 1000000000.

(* ================================================================== *)
(** ** Calls that leave the handler *)

Inductive Event : Type -> Type :=
(** [user.Password.Set], [user.Password.Compare] *)
| PasswordSet (plain : gostring) : Event (error + store.password)
| PasswordCompare (p : store.password) (plain : gostring) : Event (option error)
(** the 16 bytes [uuid.New] reads from its random source, which in
    google/uuid is [crypto/rand] *)
| RandRead : Event (list Z)
(** [app.store.Users]; a successful create answers with the id it has
    assigned to the user *)
| CreateAndInvite (u : store.User) (tok : gostring) (exp : Z) : Event (error + Z)
| Delete (id : Z) : Event (option error)
| GetByEmail (email : gostring) : Event (error + store.User)
(** [app.mailer.Send] *)
| Send (templateFile username email : gostring) (data : welcomeVars)
       (isSandbox : bool) : Event (Z * option error)
(** [app.logger] *)
| Errorw (msg : string) (err : error) : Event unit
| Infow (msg : string) (status : Z) : Event unit
(** errors.go and [jsonResponse] *)
| badRequestResponse (err : error) : Event unit
| internalServerError (err : error) : Event unit
| unauthorizedErrorResponse (err : error) : Event unit
| jsonResponse (status : Z) (data : responseData) : Event (option error)
(** [time.Now], [app.authenticator.GenerateToken] *)
| Now : Event Z
| GenerateToken (claims : MapClaims) : Event (error + gostring).

(** A call together with its answer, as a trace keeps it. *)
Inductive Obs : Type :=
| oPasswordSet (plain : gostring) (res : error + store.password)
| oPasswordCompare (p : store.password) (plain : gostring) (res : option error)
| oRandRead (rnd : list Z)
| oCreateAndInvite (u : store.User) (tok : gostring) (exp : Z) (res : error + Z)
| oDelete (id : Z) (res : option error)
| oGetByEmail (email : gostring) (res : error + store.User)
| oSend (templateFile username email : gostring) (data : welcomeVars)
        (isSandbox : bool) (res : Z * option error)
| oErrorw (msg : string) (err : error)
| oInfow (msg : string) (status : Z)
| oBadRequest (err : error)
| oInternalServerError (err : error)
| oUnauthorized (err : error)
| oJsonResponse (status : Z) (data : responseData) (res : option error)
| oNow (t : Z)
| oGenerateToken (claims : MapClaims) (res : error + gostring).

Definition observe X (e : Event X) : X -> Obs :=
  match e in Event T return T -> Obs with
  | PasswordSet plain => oPasswordSet plain
  | PasswordCompare p plain => oPasswordCompare p plain
  | RandRead => oRandRead
  | CreateAndInvite u tok exp => oCreateAndInvite u tok exp
  | Delete id => oDelete id
  | GetByEmail email => oGetByEmail email
  | Send t u e d sb => oSend t u e d sb
  | Errorw msg err => fun _ => oErrorw msg err
  | Infow msg st => fun _ => oInfow msg st
  | badRequestResponse err => fun _ => oBadRequest err
  | internalServerError err => fun _ => oInternalServerError err
  | unauthorizedErrorResponse err => fun _ => oUnauthorized err
  | jsonResponse st d => oJsonResponse st d
  | Now => oNow
  | GenerateToken c => oGenerateToken c
  end.

(** Handlers are finite trees of calls. *)
Inductive Prog (A : Type) : Type :=
| Ret (a : A)
| Vis (X : Type) (e : Event X) (k : X -> Prog A).

Arguments Ret {A} a.
Arguments Vis {A X} e k.

Fixpoint bind A B (p : Prog A) (f : A -> Prog B) : Prog B :=
  match p with
  | Ret a => f a
  | Vis e k => Vis e (fun x => bind (k x) f)
  end.

Definition call X (e : Event X) : Prog X := Vis e Ret.

Declare Scope prog_scope.
Delimit Scope prog_scope with prog.
Notation "x <- p ;; q" := (bind p (fun x => q))
  (at level 61, p at next level, right associativity) : prog_scope.
Notation "p ;; q" := (bind p (fun _ => q))
  (at level 61, right associativity) : prog_scope.
Local Open Scope prog_scope.

(* ================================================================== *)
(** ** auth.go: registerUserHandler and createTokenHandler *)

Section Handlers.
Context {L : GoLib}.
Variable app : config.

Definition registerTarget : Target RegisterUserPayload := {|
  names := map lit ["first_name"; "last_name"; "country"; "email";
                    "password"; "password_confirmation"; "username"]%string;
  zero := Build_RegisterUserPayload [] [] [] [] [] [] [];
  assign := fun n v p =>
    if GoStr.eqb n (lit "first_name") then
      Build_RegisterUserPayload v (LastName p) (Country p) (Email p)
        (Password p) (PasswordConfirmation p) (Username p)
    else if GoStr.eqb n (lit "last_name") then
      Build_RegisterUserPayload (FirstName p) v (Country p) (Email p)
        (Password p) (PasswordConfirmation p) (Username p)
    else if GoStr.eqb n (lit "country") then
      Build_RegisterUserPayload (FirstName p) (LastName p) v (Email p)
        (Password p) (PasswordConfirmation p) (Username p)
    else if GoStr.eqb n (lit "email") then
      Build_RegisterUserPayload (FirstName p) (LastName p) (Country p) v
        (Password p) (PasswordConfirmation p) (Username p)
    else if GoStr.eqb n (lit "password") then
      Build_RegisterUserPayload (FirstName p) (LastName p) (Country p) (Email p)
        v (PasswordConfirmation p) (Username p)
    else if GoStr.eqb n (lit "password_confirmation") then
      Build_RegisterUserPayload (FirstName p) (LastName p) (Country p) (Email p)
        (Password p) v (Username p)
    else if GoStr.eqb n (lit "username") then
      Build_RegisterUserPayload (FirstName p) (LastName p) (Country p) (Email p)
        (Password p) (PasswordConfirmation p) v
    else p
|}.

(** The [validate] tags of [RegisterUserPayload]. *)
Definition registerFields (p : RegisterUserPayload) : structFields :=
  [("FirstName", FirstName p, [tRequired; tMax 100]);
   ("LastName", LastName p, [tRequired; tMax 100]);
   ("Country", Country p, [tRequired; tMax 100]);
   ("Email", Email p, [tRequired; tEmail; tMax 255]);
   ("Password", Password p, [tRequired; tMin 3; tMax 72]);
   ("PasswordConfirmation", PasswordConfirmation p,
      [tRequired; tEqfield "Password"]);
   ("Username", Username p, [tOmitempty; tMax 100])]%string.

Definition tokenTarget : Target token.CreateUserTokenPayload := {|
  names := map lit ["email"; "password"]%string;
  zero := token.Build_CreateUserTokenPayload [] [];
  assign := fun n v p =>
    if GoStr.eqb n (lit "email") then
      token.Build_CreateUserTokenPayload v (token.Password p)
    else if GoStr.eqb n (lit "password") then
      token.Build_CreateUserTokenPayload (token.Email p) v
    else p
|}.

Definition tokenFields (p : token.CreateUserTokenPayload) : structFields :=
  [("Email", token.Email p, [tRequired; tEmail; tMax 255]);
   ("Password", token.Password p, [tRequired; tMin 3; tMax 72])]%string.

(** The retry loop of [registerUserHandler], [remaining] iterations
    before [attempt < 5] fails.  [None]: the handler has returned from
    inside the loop; [Some user]: control reaches the statement after
    the loop, by [break] or because the attempts are used up. *)
Fixpoint createLoop (payload : RegisterUserPayload) (hashToken : gostring)
         (remaining : nat) (user : store.User) : Prog (option store.User) :=
  match remaining with
  | O => Ret (Some user)
  | S n =>
      res <- call (CreateAndInvite user hashToken (mail_exp app)) ;;
      match res with
      | inr id => Ret (Some (store.setID user id))
      | inl ErrDuplicateEmail =>
          call (badRequestResponse ErrDuplicateEmail) ;; Ret None
      | inl ErrDuplicateUsername =>
          rnd <- call RandRead ;;
          createLoop payload hashToken n
            (store.setUsername user
               (generateUsername (FirstName payload) (LastName payload)
                                 (Email payload) rnd))
      | inl err =>
          call (internalServerError err) ;; Ret None
      end
  end.

(** The part of [registerUserHandler] after the loop. *)
Definition afterLoop (user : store.User) (plainToken : gostring) : Prog unit :=
  if store.ID user =? 0 then
    call (badRequestResponse ErrDuplicateUsername)
  else
    let userWithToken := {| User := user; Token := plainToken |} in
    let activationURL := frontendURL app ++ lit "/confirm/" ++ plainToken in
    let isProdEnv := GoStr.eqb (env app) (lit "production") in
    let vars := {| vars_Username := store.Username user;
                   ActivationURL := activationURL |} in
    sent <- call (Send (UserWelcomeTemplate app) (store.Username user)
                       (store.Email user) vars (negb isProdEnv)) ;;
    match snd sent with
    | Some err =>
        call (Errorw "error sending welcome email" err) ;;
        derr <- call (Delete (store.ID user)) ;;
        match derr with
        | Some e => call (Errorw "error deleting user" e)
        | None => Ret tt
        end ;;
        call (internalServerError err)
    | None =>
        call (Infow "Email sent" (fst sent)) ;;
        werr <- call (jsonResponse StatusCreated (dataUserWithToken userWithToken)) ;;
        match werr with
        | Some err => call (internalServerError err)
        | None => Ret tt
        end
    end.

Definition registerUserHandler (body : Json.Body) : Prog unit :=
  match readJSON registerTarget body with
  | inl err => call (badRequestResponse err)
  | inr payload =>
      match Validate_Struct Validate (registerFields payload) with
      | Some err => call (badRequestResponse err)
      | None =>
          username <-
            (if isEmpty (Username payload) then
               rnd <- call RandRead ;;
               Ret (generateUsername (FirstName payload) (LastName payload)
                                     (Email payload) rnd)
             else Ret (Username payload)) ;;
          let user := {|
            store.ID := 0;
            store.Username := username;
            store.FirstName := FirstName payload;
            store.LastName := LastName payload;
            store.Country := Country payload;
            store.Email := Email payload;
            store.Password := [];
            store.Role_ := {| store.Name := lit "user" |}
          |} in
          hashed <- call (PasswordSet (Password payload)) ;;
          match hashed with
          | inl err => call (internalServerError err)
          | inr pw =>
              let user := store.setPassword user pw in
              rnd <- call RandRead ;;
              let plainToken := Uuid.String (Uuid.New rnd) in
              let hash := Sha256.Sum256 (bytes plainToken) in
              let hashToken := Hex.EncodeToString hash in
              out <- createLoop payload hashToken 5 user ;;
              match out with
              | None => Ret tt
              | Some user => afterLoop user plainToken
              end
          end
      end
  end.

Definition createTokenHandler (body : Json.Body) : Prog unit :=
  match readJSON tokenTarget body with
  | inl err => call (badRequestResponse err)
  | inr payload =>
      match Validate_Struct Validate (tokenFields payload) with
      | Some err => call (badRequestResponse err)
      | None =>
          found <- call (GetByEmail (token.Email payload)) ;;
          match found with
          | inl ErrNotFound => call (unauthorizedErrorResponse ErrNotFound)
          | inl err => call (internalServerError err)
          | inr user =>
              cmp <- call (PasswordCompare (store.Password user)
                                           (token.Password payload)) ;;
              match cmp with
              | Some err => call (unauthorizedErrorResponse err)
              | None =>
                  t1 <- call Now ;;
                  t2 <- call Now ;;
                  t3 <- call Now ;;
                  let claims : MapClaims :=
                    [("sub", claimInt (store.ID user));
                     ("exp", claimInt (time_Unix (time_Add t1 (auth_token_exp app))));
                     ("iat", claimInt (time_Unix t2));
                     ("nbf", claimInt (time_Unix t3));
                     ("iss", claimString (auth_token_iss app));
                     ("aud", claimString (auth_token_iss app))]%string in
                  tok <- call (GenerateToken claims) ;;
                  match tok with
                  | inl err => call (internalServerError err)
                  | inr t =>
                      werr <- call (jsonResponse StatusCreated (dataToken t)) ;;
                      match werr with
                      | Some err => call (internalServerError err)
                      | None => Ret tt
                      end
                  end
              end
          end
      end
  end.

End Handlers.

(* ================================================================== *)
(** ** Environments and runs *)

(** An environment answers every call from a state of its own. *)
Record Env := {
  state : Type;
  step : forall X, Event X -> state -> X * state
}.

Fixpoint run (E : Env) A (p : Prog A) (s : state E) : list Obs * A * state E :=
  match p with
  | Ret a => ([], a, s)
  | Vis e k =>
      let (x, s1) := step E e s in
      let '(t, a, s2) := run E (k x) s1 in
      (observe e x :: t, a, s2)
  end.

(** The traces a program can leave, whatever answers it. *)
Fixpoint exec A (p : Prog A) (t : list Obs) (a : A) : Prop :=
  match p with
  | Ret a' => t = [] /\ a = a'
  | Vis e k => exists x t', t = observe e x :: t' /\ exec (k x) t' a
  end.

(** *** Reading a trace *)

Definition isCreate (o : Obs) : bool :=
  match o with oCreateAndInvite _ _ _ _ => true | _ => false end.

Definition isUsernameConflict (o : Obs) : bool :=
  match o with
  | oCreateAndInvite _ _ _ (inl ErrDuplicateUsername) => true
  | _ => false
  end.

Definition isEmailConflict (o : Obs) : bool :=
  match o with
  | oCreateAndInvite _ _ _ (inl ErrDuplicateEmail) => true
  | _ => false
  end.

Definition isSend (o : Obs) : bool :=
  match o with oSend _ _ _ _ _ _ => true | _ => false end.

Definition isDelete (o : Obs) : bool :=
  match o with oDelete _ _ => true | _ => false end.

Definition isRandRead (o : Obs) : bool :=
  match o with oRandRead _ => true | _ => false end.

Definition isStoreCall (o : Obs) : bool :=
  match o with
  | oCreateAndInvite _ _ _ _ | oDelete _ _ | oGetByEmail _ _ => true
  | _ => false
  end.

(** The answers sent to the client. *)
Definition isResponse (o : Obs) : bool :=
  match o with
  | oBadRequest _ | oInternalServerError _ | oUnauthorized _
  | oJsonResponse _ _ _ => true
  | _ => false
  end.

Definition count (p : Obs -> bool) (t : list Obs) : nat :=
  List.length (filter p t).

Definition responses (t : list Obs) : list Obs := filter isResponse t.

(** *** The repository and the mailer as interfaces *)

(** [app.store.Users]; [hasAccount s id] says that the account [id] is
    present in the state [s]. *)
Class UserStore (S : Type) := {
  store_CreateAndInvite : S -> store.User -> gostring -> Z -> (error + Z) * S;
  store_Delete : S -> Z -> option error * S;
  store_GetByEmail : S -> gostring -> (error + store.User) * S;
  hasAccount : S -> Z -> bool
}.

(** A delete that reports no error has removed the account. *)
Class LawfulStore (S : Type) {U : UserStore S} : Prop := {
  delete_removes : forall s id s',
    store_Delete s id = (None, s') -> hasAccount s' id = false
}.

(** [mailer.Client] *)
Class Mailer (M : Type) := {
  mailer_Send : M -> gostring -> gostring -> gostring -> welcomeVars -> bool ->
                (Z * option error) * M
}.

(** What the rest of the process answers: bytes of the random source,
    clock readings and write results in the order they are asked for,
    the password hasher and the token signer. *)
Record Oracle := {
  randoms : list (list Z);
  clock : list Z;
  writes : list (option error);
  hasher : gostring -> error + store.password;
  comparer : store.password -> gostring -> option error;
  signer : MapClaims -> error + gostring
}.

Definition popRandom (o : Oracle) : Oracle :=
  {| randoms := tl (randoms o); clock := clock o; writes := writes o;
     hasher := hasher o; comparer := comparer o; signer := signer o |}.
Definition popClock (o : Oracle) : Oracle :=
  {| randoms := randoms o; clock := tl (clock o); writes := writes o;
     hasher := hasher o; comparer := comparer o; signer := signer o |}.
Definition popWrite (o : Oracle) : Oracle :=
  {| randoms := randoms o; clock := clock o; writes := tl (writes o);
     hasher := hasher o; comparer := comparer o; signer := signer o |}.

Record World (S M : Type) := {
  w_store : S;
  w_mailer : M;
  w_oracle : Oracle
}.

Section WorldEnv.
Context {S M : Type} {U : UserStore S} {Ml : Mailer M}.

Definition withStore (w : World S M) (s : S) : World S M :=
  {| w_store := s; w_mailer := w_mailer w; w_oracle := w_oracle w |}.
Definition withMailer (w : World S M) (m : M) : World S M :=
  {| w_store := w_store w; w_mailer := m; w_oracle := w_oracle w |}.
Definition withOracle (w : World S M) (o : Oracle) : World S M :=
  {| w_store := w_store w; w_mailer := w_mailer w; w_oracle := o |}.

Definition worldStep X (e : Event X) (w : World S M) : X * World S M :=
  match e in Event T return T * World S M with
  | PasswordSet plain => (hasher (w_oracle w) plain, w)
  | PasswordCompare p plain => (comparer (w_oracle w) p plain, w)
  | RandRead =>
      (hd [] (randoms (w_oracle w)), withOracle w (popRandom (w_oracle w)))
  | CreateAndInvite u tok exp =>
      let (r, s) := store_CreateAndInvite (w_store w) u tok exp in
      (r, withStore w s)
  | Delete id =>
      let (r, s) := store_Delete (w_store w) id in (r, withStore w s)
  | GetByEmail email =>
      let (r, s) := store_GetByEmail (w_store w) email in (r, withStore w s)
  | Send t u em d sb =>
      let (r, m) := mailer_Send (w_mailer w) t u em d sb in (r, withMailer w m)
  | Errorw _ _ => (tt, w)
  | Infow _ _ => (tt, w)
  | badRequestResponse _ => (tt, w)
  | internalServerError _ => (tt, w)
  | unauthorizedErrorResponse _ => (tt, w)
  | jsonResponse _ _ =>
      (hd None (writes (w_oracle w)), withOracle w (popWrite (w_oracle w)))
  | Now => (hd 0 (clock (w_oracle w)), withOracle w (popClock (w_oracle w)))
  | GenerateToken c => (signer (w_oracle w) c, w)
  end.

Definition worldEnv : Env := {| state := World S M; step := worldStep |}.

(** The repository state after the repository calls of a trace. *)
Fixpoint storeAfter (t : list Obs) (s : S) : S :=
  match t with
  | [] => s
  | oCreateAndInvite u tok exp _ :: r =>
      storeAfter r (snd (store_CreateAndInvite s u tok exp))
  | oDelete id _ :: r => storeAfter r (snd (store_Delete s id))
  | oGetByEmail em _ :: r => storeAfter r (snd (store_GetByEmail s em))
  | _ :: r => storeAfter r s
  end.

(** The answers a trace records for the repository are the repository's. *)
Fixpoint storeAnswers (t : list Obs) (s : S) : Prop :=
  match t with
  | [] => True
  | oCreateAndInvite u tok exp res :: r =>
      res = fst (store_CreateAndInvite s u tok exp) /\
      storeAnswers r (snd (store_CreateAndInvite s u tok exp))
  | oDelete id res :: r =>
      res = fst (store_Delete s id) /\ storeAnswers r (snd (store_Delete s id))
  | oGetByEmail em res :: r =>
      res = fst (store_GetByEmail s em) /\
      storeAnswers r (snd (store_GetByEmail s em))
  | _ :: r => storeAnswers r s
  end.

End WorldEnv.

(* ================================================================== *)
(** ** internal/mailer *)

Module mailer.

(** noop.go *)
Inductive NoopClient : Type := NewNoopClient.

Definition Noop_Send (c : NoopClient) (templateFile username email : gostring)
           (data : welcomeVars) (isSandbox : bool) : (Z * option error) * NoopClient :=
  ((200, None), c).

(** smtp.go: [smtpClient.Send] parses the template, renders subject and
    body, dials and sends; a failure of any of the four steps returns
    [-1] with the error, a delivery returns [200].  The client is kept
    with what the template files and the SMTP server will do to the next
    messages: [Some err] for a failing step, [None] for a delivery. *)
Record smtpClient := { wire : list (option error) }.

Definition smtp_Send (c : smtpClient) (templateFile username email : gostring)
           (data : welcomeVars) (isSandbox : bool) : (Z * option error) * smtpClient :=
  match wire c with
  | Some err :: rest => ((-1, Some err), {| wire := rest |})
  | None :: rest => ((200, None), {| wire := rest |})
  | [] => ((200, None), c)
  end.

End mailer.

#[export] Instance NoopMailer : Mailer mailer.NoopClient :=
  {| mailer_Send := mailer.Noop_Send |}.

#[export] Instance SmtpMailer : Mailer mailer.smtpClient :=
  {| mailer_Send := mailer.smtp_Send |}.

(* ================================================================== *)
(** ** A repository in memory *)

Module memstore.

Record Account := {
  user : store.User;
  tokenHash : gostring;
  expiry : Z;
  active : bool
}.

(** Modelled from the spec: internal/store is not among the sources.
    The repository keeps accounts with unique e-mail and unique username,
    creates an account together with its invitation in one step
    (section 4.4), assigns ids from [nextID], and deletes by id.
    [outages] lists, for the coming calls, whether the database fails
    the call ([Some err]) or serves it ([None]). *)
Record Repo := {
  accounts : list Account;
  nextID : Z;
  outages : list (option error)
}.

Definition served (r : Repo) : Repo :=
  {| accounts := accounts r; nextID := nextID r; outages := tl (outages r) |}.

Definition outage (r : Repo) : option error :=
  match outages r with
  | Some e :: _ => Some e
  | _ => None
  end.

Definition hasEmail (em : gostring) (a : Account) : bool :=
  GoStr.eqb (store.Email (user a)) em.
Definition hasUsername (n : gostring) (a : Account) : bool :=
  GoStr.eqb (store.Username (user a)) n.
Definition hasID (id : Z) (a : Account) : bool := store.ID (user a) =? id.

(** Modelled from the spec: the atomic create of section 4.4, which
    internal/store implements; a taken e-mail is [ErrDuplicateEmail], a
    taken username [ErrDuplicateUsername], and the new account is pending. *)
Definition CreateAndInvite (r : Repo) (u : store.User) (tok : gostring) (exp : Z)
  : (error + Z) * Repo :=
  match outage r with
  | Some e => (inl e, served r)
  | None =>
      if existsb (hasEmail (store.Email u)) (accounts r)
      then (inl ErrDuplicateEmail, served r)
      else if existsb (hasUsername (store.Username u)) (accounts r)
      then (inl ErrDuplicateUsername, served r)
      else
        let id := nextID r in
        (inr id,
         {| accounts :=
              {| user := store.setID u id; tokenHash := tok;
                 expiry := exp; active := false |} :: accounts r;
            nextID := id + 1;
            outages := tl (outages r) |})
  end.

(** Modelled from the spec: [delete] of the repository boundary
    (section 6), by account id. *)
Definition Delete (r : Repo) (id : Z) : option error * Repo :=
  match outage r with
  | Some e => (Some e, served r)
  | None =>
      (None,
       {| accounts := filter (fun a => negb (hasID id a)) (accounts r);
          nextID := nextID r;
          outages := tl (outages r) |})
  end.

(** Modelled from the spec: [getByEmail] of the repository boundary,
    which reports not-found as [ErrNotFound]. *)
Definition GetByEmail (r : Repo) (em : gostring) : (error + store.User) * Repo :=
  match outage r with
  | Some e => (inl e, served r)
  | None =>
      match find (hasEmail em) (accounts r) with
      | Some a => (inr (user a), served r)
      | None => (inl ErrNotFound, served r)
      end
  end.

(** Modelled from the spec: the account [id] exists. *)
Definition holds (r : Repo) (id : Z) : bool := existsb (hasID id) (accounts r).

End memstore.

#[export] Instance MemStore : UserStore memstore.Repo := {|
  store_CreateAndInvite := memstore.CreateAndInvite;
  store_Delete := memstore.Delete;
  store_GetByEmail := memstore.GetByEmail;
  hasAccount := memstore.holds
|}.

(* ================================================================== *)
(** ** The username allocator as the design document words it *)

Section AllocatorSpec.
Context {L : GoLib}.

(** "stripping all characters outside [a-z0-9]" *)
Definition strip (s : gostring) : gostring := filter isAlnumLower s.

(** "build a base handle by lower-casing and concatenating first+last
    with a separator, stripping ...; if empty, fall back to the local
    part of the email (same stripping)" *)
Definition handleBase (firstName lastName email : gostring) : gostring :=
  let b := strip (ToLower (firstName ++ lit "." ++ lastName)) in
  if isEmpty b then strip (ToLower (beforeAt email)) else b.

End AllocatorSpec.

(* ================================================================== *)
(** ** The traces of registerUserHandler, part by part *)

Section RegisterTraces.
Context {L : GoLib}.
Variable app : config.

(** The user built before the loop. *)
Definition newUser (payload : RegisterUserPayload) (username : gostring)
           (pw : store.password) : store.User :=
  {| store.ID := 0;
     store.Username := username;
     store.FirstName := FirstName payload;
     store.LastName := LastName payload;
     store.Country := Country payload;
     store.Email := Email payload;
     store.Password := pw;
     store.Role_ := {| store.Name := lit "user" |} |}.

Definition regenerate (payload : RegisterUserPayload) (u : store.User)
           (rnd : list Z) : store.User :=
  store.setUsername u
    (generateUsername (FirstName payload) (LastName payload) (Email payload) rnd).

(** Traces of the retry loop with [n] iterations left. *)
Inductive loopRun (payload : RegisterUserPayload) (tok : gostring)
  : nat -> store.User -> list Obs -> option store.User -> Prop :=
| loop_exhausted u :
    loopRun payload tok 0 u [] (Some u)
| loop_created n u id :
    loopRun payload tok (S n) u
      [oCreateAndInvite u tok (mail_exp app) (inr id)]
      (Some (store.setID u id))
| loop_email n u :
    loopRun payload tok (S n) u
      [oCreateAndInvite u tok (mail_exp app) (inl ErrDuplicateEmail);
       oBadRequest ErrDuplicateEmail]
      None
| loop_failed n u e :
    e <> ErrDuplicateEmail -> e <> ErrDuplicateUsername ->
    loopRun payload tok (S n) u
      [oCreateAndInvite u tok (mail_exp app) (inl e); oInternalServerError e]
      None
| loop_retry n u rnd t out :
    loopRun payload tok n (regenerate payload u rnd) t out ->
    loopRun payload tok (S n) u
      (oCreateAndInvite u tok (mail_exp app) (inl ErrDuplicateUsername)
         :: oRandRead rnd :: t)
      out.

Definition welcome (u : store.User) (plain : gostring) (res : Z * option error) : Obs :=
  oSend (UserWelcomeTemplate app) (store.Username u) (store.Email u)
        {| vars_Username := store.Username u;
           ActivationURL := frontendURL app ++ lit "/confirm/" ++ plain |}
        (negb (GoStr.eqb (env app) (lit "production")))
        res.

Definition created (u : store.User) (plain : gostring) (res : option error) : Obs :=
  oJsonResponse StatusCreated
    (dataUserWithToken {| User := u; Token := plain |}) res.

Definition afterError (o : option error) (f : error -> Obs) : list Obs :=
  match o with
  | Some e => [f e]
  | None => []
  end.

(** Traces of the statements after the loop. *)
Inductive tailRun (u : store.User) (plain : gostring) : list Obs -> Prop :=
| tail_exhausted :
    store.ID u = 0 ->
    tailRun u plain [oBadRequest ErrDuplicateUsername]
| tail_sent status werr :
    store.ID u <> 0 ->
    tailRun u plain
      ([welcome u plain (status, None); oInfow "Email sent" status;
        created u plain werr] ++ afterError werr oInternalServerError)
| tail_rollback status merr derr :
    store.ID u <> 0 ->
    tailRun u plain
      ([welcome u plain (status, Some merr);
        oErrorw "error sending welcome email" merr;
        oDelete (store.ID u) derr]
       ++ afterError derr (oErrorw "error deleting user")
       ++ [oInternalServerError merr]).

(** The username the handler starts with, and the draw it costs. *)
Inductive usernameRun (payload : RegisterUserPayload) : list Obs -> gostring -> Prop :=
| username_given :
    isEmpty (Username payload) = false ->
    usernameRun payload [] (Username payload)
| username_generated rnd :
    isEmpty (Username payload) = true ->
    usernameRun payload [oRandRead rnd]
      (generateUsername (FirstName payload) (LastName payload)
                        (Email payload) rnd).

(** Traces of the handler once the payload is decoded and valid. *)
Inductive bodyRun (payload : RegisterUserPayload) : list Obs -> Prop :=
| body_hash_failed pre username err :
    usernameRun payload pre username ->
    bodyRun payload
      (pre ++ [oPasswordSet (Password payload) (inl err);
               oInternalServerError err])
| body_loop pre username pw rnd t1 out t2 :
    usernameRun payload pre username ->
    loopRun payload (Hex.EncodeToString
                       (Sha256.Sum256 (bytes (Uuid.String (Uuid.New rnd)))))
            5 (newUser payload username pw) t1 out ->
    match out with
    | None => t2 = []
    | Some u => tailRun u (Uuid.String (Uuid.New rnd)) t2
    end ->
    bodyRun payload
      (pre ++ oPasswordSet (Password payload) (inr pw) :: oRandRead rnd :: t1 ++ t2).

End RegisterTraces.

(** The plaintext invitation token drawn from 16 random bytes, and the
    text handed to the repository for it. *)
Definition plainTokenOf (rnd : list Z) : gostring := Uuid.String (Uuid.New rnd).
Definition hashTokenOf (plain : gostring) : gostring :=
  Hex.EncodeToString (Sha256.Sum256 (bytes plain)).

(** The 122 bits of a random draw that [uuid.New] keeps: bytes 0 to 15
    with the high nibble of byte 6 and the two high bits of byte 8
    cleared. *)
Definition keptBits (rnd : list Z) : list Z :=
  [Uuid.byteAt rnd 0; Uuid.byteAt rnd 1; Uuid.byteAt rnd 2; Uuid.byteAt rnd 3;
   Uuid.byteAt rnd 4; Uuid.byteAt rnd 5;
   Z.land (Uuid.byteAt rnd 6) 15; Uuid.byteAt rnd 7;
   Z.land (Uuid.byteAt rnd 8) 63; Uuid.byteAt rnd 9;
   Uuid.byteAt rnd 10; Uuid.byteAt rnd 11; Uuid.byteAt rnd 12;
   Uuid.byteAt rnd 13; Uuid.byteAt rnd 14; Uuid.byteAt rnd 15].

(** The number of bits each of them can carry. *)
Definition keptWidths : list Z := [8; 8; 8; 8; 8; 8; 4; 8; 6; 8; 8; 8; 8; 8; 8; 8].

(** ASCII-only tables, for closed examples. *)
Definition asciiLib : GoLib := {|
  lowerTable := fun r => r;
  isLowerTable := fun _ => false;
  isUpperTable := fun _ => false;
  isDigitTable := fun _ => false;
  isPunctTable := fun _ => false;
  isSymbolTable := fun _ => false;
  foldName := map (fun r => if between 97 122 r then r - 32 else r);
  isEmail := fun s =>
    negb (isEmpty (beforeAt s)) &&
    negb (isEmpty (tl (dropWhile (fun r => negb (r =? 64)) s)));
  emailRegex_MatchString := fun _ => false;
  nameRegex_MatchString := fun _ => false
|}.

(** Printing of ASCII texts. *)
Definition show (s : gostring) : string :=
  fold_right (fun r acc => String (ascii_of_nat (Z.to_nat r)) acc) EmptyString s.

(* ================================================================== *)
(** ** The traces of createTokenHandler *)

Section LoginTraces.
Variable app : config.

(** The claim set of line 221. *)
Definition loginClaims (user : store.User) (t1 t2 t3 : Z) : MapClaims :=
  [("sub", claimInt (store.ID user));
   ("exp", claimInt (time_Unix (time_Add t1 (auth_token_exp app))));
   ("iat", claimInt (time_Unix t2));
   ("nbf", claimInt (time_Unix t3));
   ("iss", claimString (auth_token_iss app));
   ("aud", claimString (auth_token_iss app))]%string.

Definition checked (payload : token.CreateUserTokenPayload) (user : store.User)
           (res : option error) : list Obs :=
  [oGetByEmail (token.Email payload) (inr user);
   oPasswordCompare (store.Password user) (token.Password payload) res].

Inductive loginRun (payload : token.CreateUserTokenPayload) : list Obs -> Prop :=
| login_unknown :
    loginRun payload
      [oGetByEmail (token.Email payload) (inl ErrNotFound);
       oUnauthorized ErrNotFound]
| login_lookup_failed err :
    err <> ErrNotFound ->
    loginRun payload
      [oGetByEmail (token.Email payload) (inl err); oInternalServerError err]
| login_wrong_password user err :
    loginRun payload (checked payload user (Some err) ++ [oUnauthorized err])
| login_unsigned user t1 t2 t3 err :
    loginRun payload
      (checked payload user None ++
       [oNow t1; oNow t2; oNow t3;
        oGenerateToken (loginClaims user t1 t2 t3) (inl err);
        oInternalServerError err])
| login_issued user t1 t2 t3 tk werr :
    loginRun payload
      (checked payload user None ++
       [oNow t1; oNow t2; oNow t3;
        oGenerateToken (loginClaims user t1 t2 t3) (inr tk);
        oJsonResponse StatusCreated (dataToken tk) werr]
       ++ afterError werr oInternalServerError).

End LoginTraces.

(** The helper of errors.go a response goes through. *)
Inductive responseKind : Type :=
| BadRequest
| Unauthorized
| InternalServerError
| Written (status : Z).

Definition kindOf (o : Obs) : option responseKind :=
  match o with
  | oBadRequest _ => Some BadRequest
  | oUnauthorized _ => Some Unauthorized
  | oInternalServerError _ => Some InternalServerError
  | oJsonResponse status _ _ => Some (Written status)
  | _ => None
  end.

Definition isGenerateToken (o : Obs) : bool :=
  match o with oGenerateToken _ _ => true | _ => false end.

(* ================================================================== *)
(** ** errors.go: what the caller is told *)

Module errors.

(** Modelled from the spec: errors.go, which holds [badRequestResponse],
    [unauthorizedErrorResponse] and [internalServerError], is not among
    the sources.  Section 7 of the design document says what each kind of
    failure shows to the caller: bad input and the domain conflicts are
    "surfaced to caller"; Unauthorized is "used for both missing-account
    and wrong-password on login [...] specifically to prevent information
    leakage about which condition occurred", "identical error to a wrong
    password"; internal failures "propagate as a generic internal error
    with no leaked implementation detail in the response".  The reply to
    a bad request therefore shows the error, and the replies of the two
    other helpers are the same whatever error they are given. *)
Inductive Reply : Type :=
| BadRequest (err : error)
| Unauthorized
| InternalError
| Success (status : Z) (data : responseData).

(** Modelled from the spec: the reply a call of one of the helpers, or
    of [jsonResponse], sends to the caller. *)
Definition reply (o : Obs) : option Reply :=
  match o with
  | oBadRequest err => Some (BadRequest err)
  | oUnauthorized _ => Some Unauthorized
  | oInternalServerError _ => Some InternalError
  | oJsonResponse status data _ => Some (Success status data)
  | _ => None
  end.

(** What the caller receives in a run. *)
Fixpoint received (t : list Obs) : list Reply :=
  match t with
  | [] => []
  | o :: rest =>
      match reply o with
      | Some r => r :: received rest
      | None => received rest
      end
  end.

End errors.

(* ================================================================== *)
(** ** Scenarios *)

Module scenario.

Definition str (s : string) : Json.value := Json.Str (lit s).

(** The registration of the design document's example. *)
Definition annBody : Json.Body := {|
  Json.text := Json.Value (Json.Object
    [(lit "first_name", str "Ann"); (lit "last_name", str "Lee");
     (lit "country", str "KZ"); (lit "email", str "ann@example.com");
     (lit "password", str "Str0ng!Pass");
     (lit "password_confirmation", str "Str0ng!Pass")]) 161;
  Json.size := 161
|}.

(** The same registration with a username of the caller's choice. *)
Definition annaBody : Json.Body := {|
  Json.text := Json.Value (Json.Object
    [(lit "first_name", str "Ann"); (lit "last_name", str "Lee");
     (lit "country", str "KZ"); (lit "email", str "ann@example.com");
     (lit "password", str "Str0ng!Pass");
     (lit "password_confirmation", str "Str0ng!Pass");
     (lit "username", str "anna")]) 182;
  Json.size := 182
|}.

(** A registration with a field the payload does not declare. *)
Definition adminBody : Json.Body := {|
  Json.text := Json.Value (Json.Object
    [(lit "first_name", str "Ann"); (lit "last_name", str "Lee");
     (lit "country", str "KZ"); (lit "email", str "ann@example.com");
     (lit "password", str "Str0ng!Pass");
     (lit "password_confirmation", str "Str0ng!Pass");
     (lit "role", str "admin")]) 179;
  Json.size := 179
|}.

(** A registration with the password "abc". *)
Definition abcPayload : RegisterUserPayload := {|
  FirstName := lit "Ann"; LastName := lit "Lee"; Country := lit "KZ";
  Email := lit "ann@example.com";
  Password := lit "abc"; PasswordConfirmation := lit "abc";
  Username := []
|}.

Definition loginBody (password : string) : Json.Body := {|
  Json.text := Json.Value (Json.Object
    [(lit "email", str "ann@example.com"); (lit "password", str password)]) 60;
  Json.size := 60
|}.

(** A body of [size] bytes that starts as [body] does. *)
Definition padded (body : Json.Body) (size : Z) : Json.Body :=
  {| Json.text := Json.text body; Json.size := size |}.

(** A body whose first value is [v], ending with the body at byte
    [size]. *)
Definition only (v : Json.value) (size : Z) : Json.Body :=
  {| Json.text := Json.Value v size; Json.size := size |}.

Definition cfg : config := {|
  mail_exp := 259200000000000;
  frontendURL := lit "http://localhost:5173";
  env := lit "development";
  auth_token_exp := 259200000000000;
  auth_token_iss := lit "realestate";
  UserWelcomeTemplate := lit "user_invitation.tmpl"
|}.

Fixpoint sameBytes (a b : list Z) : bool :=
  match a, b with
  | [], [] => true
  | x :: a', y :: b' => (x =? y) && sameBytes a' b'
  | _, _ => false
  end.

(** A stand-in for the password hasher and the token signer. *)
Definition oracle (rs : list (list Z)) (ticks : list Z) : Oracle := {|
  randoms := rs;
  clock := ticks;
  writes := [];
  hasher := fun plain => inr (Sha256.Sum256 (bytes plain));
  comparer := fun h plain =>
    if sameBytes h (Sha256.Sum256 (bytes plain)) then None
    else Some (OtherError "hashedPassword is not the hash of the given password");
  signer := fun c => inr (lit "header.claims.signature")
|}.

Definition account (id : Z) (username email password : string) : memstore.Account := {|
  memstore.user := {|
    store.ID := id; store.Username := lit username;
    store.FirstName := lit "Ann"; store.LastName := lit "Lee";
    store.Country := lit "KZ"; store.Email := lit email;
    store.Password := Sha256.Sum256 (bytes (lit password));
    store.Role_ := {| store.Name := lit "user" |} |};
  memstore.tokenHash := [];
  memstore.expiry := 0;
  memstore.active := true
|}.

Definition emptyRepo (faults : list (option error)) : memstore.Repo :=
  {| memstore.accounts := []; memstore.nextID := 1; memstore.outages := faults |}.

(** A repository in which the username a zero draw produces for Ann Lee
    is taken. *)
Definition crowdedRepo : memstore.Repo :=
  {| memstore.accounts := [account 1 "annlee000000" "other@example.com" "hunter2!"];
     memstore.nextID := 2; memstore.outages := [] |}.

(** A repository in which the username "anna" is taken. *)
Definition annaRepo : memstore.Repo :=
  {| memstore.accounts := [account 1 "anna" "anna@example.com" "hunter2!"];
     memstore.nextID := 2; memstore.outages := [] |}.

(** A repository that holds Ann's account. *)
Definition annRepo : memstore.Repo :=
  {| memstore.accounts := [account 1 "annlee000000" "ann@example.com" "Str0ng!Pass"];
     memstore.nextID := 2; memstore.outages := [] |}.

Definition noopWorld (r : memstore.Repo) (rs : list (list Z)) (ticks : list Z)
  : World memstore.Repo mailer.NoopClient :=
  {| w_store := r; w_mailer := mailer.NewNoopClient; w_oracle := oracle rs ticks |}.

Definition smtpWorld (r : memstore.Repo) (deliveries : list (option error))
  : World memstore.Repo mailer.smtpClient :=
  {| w_store := r; w_mailer := {| mailer.wire := deliveries |};
     w_oracle := oracle [] [] |}.

End scenario.

(* ================================================================== *)
(** ** regexp: the two expressions of json.go *)

Module Regexp.

(** Regular expressions over runes. *)
Inductive re : Type :=
| Never
| Eps
| Class (p : rune -> bool)
| Cat (a b : re)
| Alt (a b : re)
| Star (a : re).

(** [a+] and [a{n,}] *)
Definition Plus (a : re) : re := Cat a (Star a).

Fixpoint Times (n : nat) (a : re) : re :=
  match n with
  | O => Eps
  | S m => Cat a (Times m a)
  end.

Definition AtLeast (n : nat) (a : re) : re := Cat (Times n a) (Star a).

(** The texts an expression matches. *)
Inductive matches : re -> gostring -> Prop :=
| m_eps : matches Eps []
| m_class p c : p c = true -> matches (Class p) [c]
| m_cat a b s1 s2 : matches a s1 -> matches b s2 -> matches (Cat a b) (s1 ++ s2)
| m_alt_l a b s : matches a s -> matches (Alt a b) s
| m_alt_r a b s : matches b s -> matches (Alt a b) s
| m_star_nil a : matches (Star a) []
| m_star_cons a s1 s2 :
    matches a s1 -> matches (Star a) s2 -> matches (Star a) (s1 ++ s2).

Fixpoint nullable (r : re) : bool :=
  match r with
  | Never => false
  | Eps => true
  | Class _ => false
  | Cat a b => nullable a && nullable b
  | Alt a b => nullable a || nullable b
  | Star _ => true
  end.

Fixpoint deriv (c : rune) (r : re) : re :=
  match r with
  | Never => Never
  | Eps => Never
  | Class p => if p c then Eps else Never
  | Cat a b =>
      if nullable a then Alt (Cat (deriv c a) b) (deriv c b)
      else Cat (deriv c a) b
  | Alt a b => Alt (deriv c a) (deriv c b)
  | Star a => Cat (deriv c a) (Star a)
  end.

(** [MatchString] of an expression written between [^] and [$]: the
    whole text has to match. *)
Fixpoint MatchString (r : re) (s : gostring) : bool :=
  match s with
  | [] => nullable r
  | c :: s' => MatchString (deriv c r) s'
  end.

End Regexp.

Section Expressions.

(** Unicode letters and marks above MaxASCII, [\p{L}] and [\p{M}]. *)
Variable letterTable : rune -> bool.
Variable markTable : rune -> bool.

Definition isAsciiLetter (r : rune) : bool := between 65 90 r || between 97 122 r.
Definition isAsciiDigit (r : rune) : bool := between 48 57 r.

(** [[A-Za-z0-9._%+\-]] *)
Definition emailLocalChar (r : rune) : bool :=
  isAsciiLetter r || isAsciiDigit r ||
  (r =? 46) || (r =? 95) || (r =? 37) || (r =? 43) || (r =? 45).

(** [[A-Za-z0-9.\-]] *)
Definition emailDomainChar (r : rune) : bool :=
  isAsciiLetter r || isAsciiDigit r || (r =? 46) || (r =? 45).

(** [emailRegex], [^[A-Za-z0-9._%+\-]+@[A-Za-z0-9.\-]+\.[A-Za-z]{2,}$] *)
Definition emailRegex : Regexp.re :=
  Regexp.Cat (Regexp.Plus (Regexp.Class emailLocalChar))
    (Regexp.Cat (Regexp.Class (fun r => r =? 64))
       (Regexp.Cat (Regexp.Plus (Regexp.Class emailDomainChar))
          (Regexp.Cat (Regexp.Class (fun r => r =? 46))
             (Regexp.AtLeast 2 (Regexp.Class isAsciiLetter))))).

(** [\p{L}], [\p{M}] and [\s] (tab, line feed, form feed, carriage
    return, space) *)
Definition isLetter (r : rune) : bool :=
  if r <=? 127 then isAsciiLetter r else letterTable r.
Definition isMark (r : rune) : bool :=
  if r <=? 127 then false else markTable r.
Definition isPerlSpace (r : rune) : bool :=
  (r =? 9) || (r =? 10) || (r =? 12) || (r =? 13) || (r =? 32).

(** [[\p{L}\p{M}'\-\s]] *)
Definition nameChar (r : rune) : bool :=
  isLetter r || isMark r || (r =? 39) || (r =? 45) || isPerlSpace r.

(** [nameRegex], [^[\p{L}][\p{L}\p{M}'\-\s]*$] *)
Definition nameRegex : Regexp.re :=
  Regexp.Cat (Regexp.Class isLetter) (Regexp.Star (Regexp.Class nameChar)).

(** The runtime tables with the two expressions compiled. *)
Definition withExpressions (base : GoLib) : GoLib := {|
  lowerTable := @lowerTable base;
  isLowerTable := @isLowerTable base;
  isUpperTable := @isUpperTable base;
  isDigitTable := @isDigitTable base;
  isPunctTable := @isPunctTable base;
  isSymbolTable := @isSymbolTable base;
  foldName := @foldName base;
  isEmail := @isEmail base;
  emailRegex_MatchString := Regexp.MatchString emailRegex;
  nameRegex_MatchString := Regexp.MatchString nameRegex
|}.

End Expressions.

(* ================================================================== *)
(** ** validatePassword: the four kinds of character *)

Section PasswordKinds.
Context {L : GoLib}.

(** The cases of the [switch] in [validatePassword], in its order. *)
Definition countsAsLower (r : rune) : bool := unicode_IsLower r.
Definition countsAsUpper (r : rune) : bool :=
  negb (unicode_IsLower r) && unicode_IsUpper r.
Definition countsAsDigit (r : rune) : bool :=
  negb (unicode_IsLower r) && negb (unicode_IsUpper r) && unicode_IsDigit r.
Definition countsAsSpecial (r : rune) : bool :=
  negb (unicode_IsLower r) && negb (unicode_IsUpper r) &&
  negb (unicode_IsDigit r) && (unicode_IsPunct r || unicode_IsSymbol r).

End PasswordKinds.

(** Tables that know one character beyond ASCII: the euro sign, a
    currency symbol (Sc). *)
Definition euroLib : GoLib := {|
  lowerTable := fun r => r;
  isLowerTable := fun _ => false;
  isUpperTable := fun _ => false;
  isDigitTable := fun _ => false;
  isPunctTable := fun _ => false;
  isSymbolTable := fun r => r =? 8364;
  foldName := @foldName asciiLib;
  isEmail := @isEmail asciiLib;
  emailRegex_MatchString := Regexp.MatchString emailRegex;
  nameRegex_MatchString :=
    Regexp.MatchString (nameRegex (fun _ => false) (fun _ => false))
|}.

(* ================================================================== *)
(** ** Readers for the properties below *)

(** The characters of a generated username. *)
Definition isHandleChar (r : rune) : bool := isAlnumLower r || (r =? 45).

(** The value of a hexadecimal digit. *)
Definition undigit (r : rune) : Z := if r <? 58 then r - 48 else r - 87.

Definition isPasswordSet (o : Obs) : bool :=
  match o with oPasswordSet _ _ => true | _ => false end.

Definition isPasswordCompare (o : Obs) : bool :=
  match o with oPasswordCompare _ _ _ => true | _ => false end.

Definition isGetByEmail (o : Obs) : bool :=
  match o with oGetByEmail _ _ => true | _ => false end.

(** The calls the retry loop makes before it answers or leaves. *)
Definition loopCall (o : Obs) : bool := isCreate o || isRandRead o.

Definition isNow (o : Obs) : bool :=
  match o with oNow _ => true | _ => false end.

(** A password hashed without error. *)
Definition isHashed (o : Obs) : bool :=
  match o with oPasswordSet _ (inr _) => true | _ => false end.

(* ================================================================== *)
(** ** Scenarios with failing collaborators *)

Module faults.

(** The process around the handlers when the password hasher, the token
    signer or the response writer fails. *)
Definition oracle (hashing signing : option error) (ws : list (option error))
           (rs : list (list Z)) : Oracle := {|
  randoms := rs;
  clock := [];
  writes := ws;
  hasher := fun plain =>
    match hashing with
    | Some e => inl e
    | None => hasher (scenario.oracle [] []) plain
    end;
  comparer := comparer (scenario.oracle [] []);
  signer := fun c =>
    match signing with
    | Some e => inl e
    | None => signer (scenario.oracle [] []) c
    end
|}.

Definition world (r : memstore.Repo) (o : Oracle)
  : World memstore.Repo mailer.NoopClient :=
  {| w_store := r; w_mailer := mailer.NewNoopClient; w_oracle := o |}.

(** A repository whose next id is 0. *)
Definition zeroRepo : memstore.Repo :=
  {| memstore.accounts := []; memstore.nextID := 0; memstore.outages := [] |}.

Definition tooLong : error :=
  OtherError "bcrypt: password length exceeds 72 bytes".
Definition refused : error := OtherError "dial tcp: connection refused".
Definition brokenPipe : error := OtherError "write: broken pipe".
Definition noKey : error := OtherError "key is of invalid type".

End faults.

(* ================================================================== *)
(** ** internal/mailer/smtp.go in detail *)

Module smtp.

Record SMTPConfig := {
  Host : gostring;
  Port : Z;
  Username : gostring;
  Password : gostring;
  FromEmail : gostring;
  UseTLS : bool;
  InsecureSkipVerify : bool
}.

Record smtpClient := {
  host : gostring;
  port : Z;
  username : gostring;
  password : gostring;
  fromEmail : gostring;
  useTLS : bool;
  insecureSkipVerify : bool
}.

(** [smtpClient{}] *)
Definition zeroClient : smtpClient := {|
  host := []; port := 0; username := []; password := []; fromEmail := [];
  useTLS := false; insecureSkipVerify := false
|}.

Definition errors_New (msg : string) : error := OtherError msg.

Definition NewSMTPClient (cfg : SMTPConfig) : smtpClient * option error :=
  if isEmpty (Host cfg) then
    (zeroClient, Some (errors_New "SMTP host is required"))
  else if Port cfg <=? 0 then
    (zeroClient, Some (errors_New "SMTP port is required"))
  else if isEmpty (Username cfg) then
    (zeroClient, Some (errors_New "SMTP username is required"))
  else if isEmpty (Password cfg) then
    (zeroClient, Some (errors_New "SMTP password is required"))
  else if isEmpty (FromEmail cfg) then
    (zeroClient, Some (errors_New "FROM_EMAIL is required"))
  else
    ({| host := Host cfg; port := Port cfg; username := Username cfg;
        password := Password cfg; fromEmail := FromEmail cfg;
        useTLS := UseTLS cfg; insecureSkipVerify := InsecureSkipVerify cfg |},
     None).

(** A parsed template set: what [ExecuteTemplate] writes for a template
    name and the data, or its error. *)
Record Template := {
  ExecuteTemplate : string -> welcomeVars -> error + gostring
}.

(** gomail's message, with the headers and parts [Send] sets. *)
Record Message := {
  From : gostring * gostring;
  To : gostring;
  Subject : gostring;
  parts : list (gostring * gostring)
}.

Record tls_Config := {
  ServerName : gostring;
  tls_InsecureSkipVerify : bool
}.

Record Dialer := {
  d_Host : gostring;
  d_Port : Z;
  d_Username : gostring;
  d_Password : gostring;
  SSL : bool;
  TLSConfig : option tls_Config
}.

(** [gomail.NewDialer] *)
Definition NewDialer (h : gostring) (p : Z) (u pw : gostring) : Dialer :=
  {| d_Host := h; d_Port := p; d_Username := u; d_Password := pw;
     SSL := p =? 465; TLSConfig := None |}.

(** What [Send] reaches outside the file: the template files embedded in
    the package with the sender's display name, both declared elsewhere
    in the package, and the SMTP server behind [DialAndSend]. *)
Record Outside := {
  ParseFS : gostring -> error + Template;
  FromName : gostring;
  DialAndSend : Dialer -> Message -> option error
}.

(** [smtpClient.Send], with the connections it has made. *)
Definition Send (o : Outside) (m : smtpClient)
           (templateFile username email : gostring) (data : welcomeVars)
           (isSandbox : bool) : (Z * option error) * list (Dialer * Message) :=
  match ParseFS o (lit "templates/" ++ templateFile) with
  | inl err => ((-1, Some err), [])
  | inr tmpl =>
      match ExecuteTemplate tmpl "subject" data with
      | inl err => ((-1, Some err), [])
      | inr subject =>
          match ExecuteTemplate tmpl "body" data with
          | inl err => ((-1, Some err), [])
          | inr body =>
              let message := {|
                From := (fromEmail m, FromName o);
                To := email;
                Subject := subject;
                parts := [(lit "text/html", body)]
              |} in
              let dialer := NewDialer (host m) (port m) (smtp.username m) (password m) in
              let dialer := {|
                d_Host := d_Host dialer; d_Port := d_Port dialer;
                d_Username := d_Username dialer; d_Password := d_Password dialer;
                SSL := useTLS m || (port m =? 465);
                TLSConfig := Some {| ServerName := host m;
                                     tls_InsecureSkipVerify := insecureSkipVerify m |}
              |} in
              match DialAndSend o dialer message with
              | Some err => ((-1, Some err), [(dialer, message)])
              | None => ((200, None), [(dialer, message)])
              end
          end
      end
  end.

(** The client as the application holds it: with what lies outside and
    the connections made so far. *)
Record Service := {
  client : smtpClient;
  outside : Outside;
  outbox : list (Dialer * Message)
}.

Definition Service_Send (s : Service) (templateFile username email : gostring)
           (data : welcomeVars) (isSandbox : bool) : (Z * option error) * Service :=
  let (res, sent) :=
    Send (outside s) (client s) templateFile username email data isSandbox in
  (res, {| client := client s; outside := outside s; outbox := outbox s ++ sent |}).

End smtp.

#[export] Instance SmtpService : Mailer smtp.Service :=
  {| mailer_Send := smtp.Service_Send |}.

(* ================================================================== *)
(** ** flag: the command line of mailtest *)

Module flag.

(** A flag defined with [flag.String]. *)
Record Flag := { Name : gostring; DefValue : gostring; Usage : gostring }.

(** What [FlagSet.Parse] comes to before its error handling: the values
    set, in the order of the command line; [ErrHelp]; or another error,
    with its message. *)
Inductive Outcome : Type :=
| Parsed (actual : list (gostring * gostring))
| ErrHelp
| Failed (msg : gostring).

Definition defined (formal : list Flag) (name : gostring) : bool :=
  existsb (fun f => GoStr.eqb (Name f) name) formal.

(** The text before the first '=' and the text after it, if there is
    one. *)
Fixpoint cut (s : gostring) : gostring * option gostring :=
  match s with
  | [] => ([], None)
  | c :: r =>
      if c =? 61 then ([], Some r)
      else let (n, v) := cut r in (c :: n, v)
  end.

(** The name of a flag and the value given with it as [name=value]:
    "equals cannot be first". *)
Definition nameValue (name : gostring) : gostring * option gostring :=
  match name with
  | [] => ([], None)
  | c :: r => let (n, v) := cut r in (c :: n, v)
  end.

(** [FlagSet.Parse], which calls [parseOne] until it sees no flag.  An
    argument shorter than two bytes or without a leading '-' ends the
    flags, and so does "--".  A flag that is not defined is an error,
    [ErrHelp] if its name is "help" or "h"; a flag of a string needs a
    value, given with '=' or as the next argument. *)
Fixpoint Parse (formal : list Flag) (arguments : list gostring)
         (actual : list (gostring * gostring)) : Outcome :=
  match arguments with
  | [] => Parsed actual
  | s :: rest =>
      if (len s <? 2) || negb (nth 0 s 0 =? 45) then Parsed actual
      else
        let numMinuses := if nth 1 s 0 =? 45 then 2%nat else 1%nat in
        if (numMinuses =? 2)%nat && (len s =? 2) then Parsed actual
        else
          let name := skipn numMinuses s in
          if isEmpty name || (nth 0 name 0 =? 45) || (nth 0 name 0 =? 61)
          then Failed (lit "bad flag syntax: " ++ s)
          else
            let (name, value) := nameValue name in
            if defined formal name then
              match value with
              | Some v => Parse formal rest (actual ++ [(name, v)])
              | None =>
                  match rest with
                  | v :: rest' => Parse formal rest' (actual ++ [(name, v)])
                  | [] => Failed (lit "flag needs an argument: -" ++ name)
                  end
              end
            else if GoStr.eqb name (lit "help") || GoStr.eqb name (lit "h")
                 then ErrHelp
                 else Failed (lit "flag provided but not defined: -" ++ name)
  end.

(** The order of strings. *)
Fixpoint less (a b : gostring) : bool :=
  match a, b with
  | _, [] => false
  | [], _ :: _ => true
  | x :: a', y :: b' => (x <? y) || ((x =? y) && less a' b')
  end.

Fixpoint insert (f : Flag) (fs : list Flag) : list Flag :=
  match fs with
  | [] => [f]
  | g :: r => if less (Name f) (Name g) then f :: g :: r else g :: insert f r
  end.

(** [sortFlags]: the flags by name. *)
Definition sortFlags (fs : list Flag) : list Flag := fold_right insert [] fs.

(** [strconv.Quote] of a text in which nothing is to be escaped, as the
    default values of mailtest are. *)
Definition Quote (s : gostring) : gostring := [34] ++ s ++ [34].

(** The two lines [PrintDefaults] writes for a flag of a string: its
    name and type, then its usage and, unless it is empty, its default
    value. *)
Definition defaults (f : Flag) : list gostring :=
  [lit "  -" ++ Name f ++ lit " string";
   lit "    " ++ [9] ++ Usage f ++
     (if isEmpty (DefValue f) then []
      else lit " (default " ++ Quote (DefValue f) ++ lit ")")].

(** [flag.Usage]: a heading with the name of the program, and
    [PrintDefaults]. *)
Definition usage (prog : gostring) (formal : list Flag) : list gostring :=
  (lit "Usage of " ++ prog ++ lit ":") :: flat_map defaults (sortFlags formal).

(** [flag.Parse()], which is [CommandLine.Parse(os.Args[1:])] with
    [ExitOnError]: the values set or, when parsing fails, the lines
    written to the standard error and the code given to [os.Exit], 0 for
    [ErrHelp] and 2 otherwise.  An error other than [ErrHelp] is written
    before the usage. *)
Definition CommandLine_Parse (prog : gostring) (formal : list Flag)
           (args : list gostring) : list gostring * Z + list (gostring * gostring) :=
  match Parse formal args [] with
  | Parsed actual => inr actual
  | ErrHelp => inl (usage prog formal, 0)
  | Failed msg => inl (msg :: usage prog formal, 2)
  end.

End flag.

(* ================================================================== *)
(** ** cmd/mailtest/main.go *)

Module mailtest.

(** The three flags of [main], as its calls of [flag.String] define
    them. *)
Definition flags : list flag.Flag :=
  [ {| flag.Name := lit "to"; flag.DefValue := [];
       flag.Usage := lit "recipient email address" |};
    {| flag.Name := lit "username"; flag.DefValue := lit "Test User";
       flag.Usage := lit "recipient display username" |};
    {| flag.Name := lit "activation-url";
       flag.DefValue := lit "http://localhost:5173/confirm/test-token";
       flag.Usage := lit "activation URL to include in email" |} ].

(** The values [flag.Parse] has set, by name, in the order of the
    command line. *)
Definition Args := list (gostring * gostring).

(** What the pointer returned by [flag.String] holds after
    [flag.Parse]: the last value given, or the default. *)
Definition flag_String (args : Args) (name : string) (value : gostring) : gostring :=
  fold_left (fun acc kv => if GoStr.eqb (fst kv) (lit name) then snd kv else acc)
            args value.

(** internal/env, which reads the process environment. *)
Record Environ := {
  GetString : string -> gostring -> gostring;
  GetInt : string -> Z -> Z;
  GetBool : string -> bool -> bool
}.

Inductive Operand : Type :=
| text (s : string)
| errorValue (e : error)
| intValue (n : Z)
| written (s : gostring).

(** A line printed with [fmt.Fprintln(os.Stderr, ...)] or [fmt.Println]. *)
Inductive Line : Type :=
| Stderr (operands : list Operand)
| Stdout (operands : list Operand).

Record Exit := {
  code : Z;
  printed : list Line;
  dialed : list (smtp.Dialer * smtp.Message)
}.

(** [main], run as [prog] with the arguments [arguments], which are
    [os.Args[0]] and [os.Args[1:]]. *)
Definition main (prog : gostring) (arguments : list gostring) (env : Environ)
           (o : smtp.Outside) (UserWelcomeTemplate : gostring) : Exit :=
  match flag.CommandLine_Parse prog flags arguments with
  | inl (lines, status) =>
      {| code := status;
         printed := map (fun l => Stderr [written l]) lines;
         dialed := [] |}
  | inr args =>
  let to := flag_String args "to" [] in
  let username := flag_String args "username" (lit "Test User") in
  let activationURL :=
    flag_String args "activation-url"
                (lit "http://localhost:5173/confirm/test-token") in
  if isEmpty to then
    {| code := 2; printed := [Stderr [text "missing required --to"]]; dialed := [] |}
  else
    let cfg := {|
      smtp.Host := GetString env "SMTP_HOST" [];
      smtp.Port := GetInt env "SMTP_PORT" 587;
      smtp.Username := GetString env "SMTP_USERNAME" [];
      smtp.Password := GetString env "SMTP_PASSWORD" [];
      smtp.FromEmail := GetString env "FROM_EMAIL" [];
      smtp.UseTLS := GetBool env "SMTP_TLS" false;
      smtp.InsecureSkipVerify := GetBool env "SMTP_INSECURE_SKIP_VERIFY" false
    |} in
    match smtp.NewSMTPClient cfg with
    | (_, Some err) =>
        {| code := 1;
           printed := [Stderr [text "SMTP config error:"; errorValue err]];
           dialed := [] |}
    | (client, None) =>
        let vars := {| vars_Username := username; ActivationURL := activationURL |} in
        let (res, sent) :=
          smtp.Send o client UserWelcomeTemplate username to vars true in
        match snd res with
        | Some err =>
            {| code := 1;
               printed := [Stderr [text "send failed:"; errorValue err]];
               dialed := sent |}
        | None =>
            {| code := 0;
               printed := [Stdout [text "sent OK, status:"; intValue (fst res)]];
               dialed := sent |}
        end
    end
  end.

(** The command line that gives each of [pairs] as a flag and its
    value. *)
Definition commandLine (pairs : Args) : list gostring :=
  flat_map (fun kv => [lit "--" ++ fst kv; snd kv]) pairs.

End mailtest.

(** A mail setup for closed examples: one template file, and a server
    that accepts connections on port 587 only. *)
Module mailbox.

Definition welcomeTemplate : smtp.Template := {|
  smtp.ExecuteTemplate := fun name data =>
    if String.eqb name "subject" then inr (lit "Finish Registration")
    else if String.eqb name "body" then
      inr (lit "Hi " ++ vars_Username data ++ lit ", confirm at " ++ ActivationURL data)
    else inl (OtherError "template: no such template")
|}.

Definition outside : smtp.Outside := {|
  smtp.ParseFS := fun path =>
    if GoStr.eqb path (lit "templates/user_invitation.tmpl") then inr welcomeTemplate
    else inl (OtherError "template: pattern matches no files");
  smtp.FromName := lit "RealEstate";
  smtp.DialAndSend := fun d m =>
    if smtp.d_Port d =? 587 then None
    else Some (OtherError "dial tcp: connection refused")
|}.

Definition config (p : Z) : smtp.SMTPConfig := {|
  smtp.Host := lit "smtp.example.com"; smtp.Port := p;
  smtp.Username := lit "mailer"; smtp.Password := lit "secret";
  smtp.FromEmail := lit "no-reply@example.com";
  smtp.UseTLS := false; smtp.InsecureSkipVerify := false
|}.

Definition service (p : Z) : smtp.Service := {|
  smtp.client := fst (smtp.NewSMTPClient (config p));
  smtp.outside := outside;
  smtp.outbox := []
|}.

Definition environ (p : Z) : mailtest.Environ := {|
  mailtest.GetString := fun key fallback =>
    if String.eqb key "SMTP_HOST" then lit "smtp.example.com"
    else if String.eqb key "SMTP_USERNAME" then lit "mailer"
    else if String.eqb key "SMTP_PASSWORD" then lit "secret"
    else if String.eqb key "FROM_EMAIL" then lit "no-reply@example.com"
    else fallback;
  mailtest.GetInt := fun key fallback =>
    if String.eqb key "SMTP_PORT" then p else fallback;
  mailtest.GetBool := fun key fallback => fallback
|}.

Definition world (r : memstore.Repo) (p : Z) : World memstore.Repo smtp.Service :=
  {| w_store := r; w_mailer := service p;
     w_oracle := scenario.oracle [[1; 2; 3]; [4; 5; 6]] [] |}.

End mailbox.

(* ================================================================== *)
(** ** The mailer behind a trace *)

Section MailReplay.
Context {M : Type} {Ml : Mailer M}.

(** The mailer after the sends of a trace. *)
Fixpoint mailerAfter (t : list Obs) (m : M) : M :=
  match t with
  | [] => m
  | oSend tf un em d sb _ :: r => mailerAfter r (snd (mailer_Send m tf un em d sb))
  | _ :: r => mailerAfter r m
  end.

(** The answers a trace records for the mailer are the mailer's. *)
Fixpoint mailAnswers (t : list Obs) (m : M) : Prop :=
  match t with
  | [] => True
  | oSend tf un em d sb res :: r =>
      res = fst (mailer_Send m tf un em d sb) /\
      mailAnswers r (snd (mailer_Send m tf un em d sb))
  | _ :: r => mailAnswers r m
  end.

End MailReplay.

(* ================================================================== *)
(** ** The payload and the body, for the properties of the reader *)

(** The fields of [RegisterUserPayload] tagged [required]: the name of
    the [json] tag, the name of the field, the field. *)
Definition requiredFields : list (string * string * (RegisterUserPayload -> gostring)) :=
  [("first_name", "FirstName", FirstName);
   ("last_name", "LastName", LastName);
   ("country", "Country", Country);
   ("email", "Email", Email);
   ("password", "Password", Password);
   ("password_confirmation", "PasswordConfirmation", PasswordConfirmation)]%string.

Section Taken.
Context {L : GoLib}.

(** The members of an object the decoder takes without an error. *)
Definition taken (ns : list gostring) (m : gostring * Json.value) : Prop :=
  findField ns (fst m) <> None /\
  (snd m = Json.Null \/ exists s, snd m = Json.Str s).

End Taken.

(* ================================================================== *)
(** * Properties *)

(** ** Checks of the runtime model against known values *)

Example sha_abc :
  show (Hex.EncodeToString (Sha256.Sum256 (bytes (lit "abc")))) =
  "ba7816bf8f01cfea414140de5dae2223b00361a396177a9cb410ff61f20015ad"%string.
Proof. vm_compute. reflexivity. Qed.

Example sha_two_blocks :
  show (Hex.EncodeToString (Sha256.Sum256 (bytes (lit
    "abcdbcdecdefdefgefghfghighijhijkijkljklmklmnlmnomnopnopq")))) =
  "248d6a61d20638b8e5c026930c3e6039a33ce45964ff2167f6ecedd419db06c1"%string.
Proof. vm_compute. reflexivity. Qed.

Example uuid_text :
  show (Uuid.String (Uuid.New [18; 52; 86; 120; 154; 188; 222; 240;
                               17; 34; 51; 68; 85; 102; 119; 136])) =
  "12345678-9abc-4ef0-9122-334455667788"%string.
Proof. vm_compute. reflexivity. Qed.

Example username_ann_lee :
  show (generateUsername (L:=asciiLib) (lit "Ann") (lit "Lee")
          (lit "ann@example.com")
          [171; 205; 239; 90; 17; 44]) =
  "annleeabcdef"%string.
Proof. vm_compute. reflexivity. Qed.

Example username_from_email :
  show (generateUsername (L:=asciiLib) (lit "!!") (lit "??")
          (lit "J.Doe+x@example.com") [1; 2; 3]) = "jdoex010203"%string.
Proof. vm_compute. reflexivity. Qed.

Example password_rule :
  validatePassword (L:=asciiLib) (lit "Str0ng!Pass") = true /\
  validatePassword (L:=asciiLib) (lit "abc") = false /\
  validatePassword (L:=asciiLib) (lit "alllowercase1!") = false.
Proof. vm_compute. repeat split. Qed.

(** ** Texts over [a-z0-9] *)

Section Texts.
Context {L : GoLib}.

Lemma digit_alnum (n : Z) : 0 <= n < 16 -> isAlnumLower (Hex.digit n) = true.
Proof.
  intros H. unfold Hex.digit.
  assert (Hk : (Z.to_nat n < 16)%nat) by lia.
  remember (Z.to_nat n) as k eqn:Ek. clear Ek H.
  do 16 (destruct k as [| k]; [ reflexivity | ]). lia.
Qed.

Lemma byteAt_range (r : list Z) (i : nat) : 0 <= Uuid.byteAt r i < 256.
Proof. unfold Uuid.byteAt. apply Z.mod_pos_bound. lia. Qed.

Lemma hi_nibble (b : Z) : 0 <= b < 256 -> 0 <= Z.shiftr b 4 < 16.
Proof.
  intros H. rewrite Z.shiftr_div_pow2 by lia. change (2 ^ 4) with 16.
  split; [ apply Z.div_pos; lia | apply Z.div_lt_upper_bound; lia ].
Qed.

Lemma lo_nibble (b : Z) : 0 <= Z.land b 15 < 16.
Proof.
  change 15 with (Z.ones 4). rewrite Z.land_ones by lia.
  apply Z.mod_pos_bound. reflexivity.
Qed.

Lemma hex_byte_alnum (b : Z) :
  0 <= b < 256 ->
  forallb isAlnumLower (Hex.EncodeToString [b]) = true.
Proof.
  intros H. cbn [Hex.EncodeToString flat_map app forallb].
  rewrite (digit_alnum (hi_nibble H)), (digit_alnum (lo_nibble b)).
  reflexivity.
Qed.

(** The first six characters of a UUID text are hexadecimal digits. *)
Lemma uuid_prefix6 (rnd : list Z) :
  prefix 6 (Uuid.String (Uuid.New rnd)) =
    Hex.EncodeToString [Uuid.byteAt rnd 0; Uuid.byteAt rnd 1; Uuid.byteAt rnd 2]
  /\ List.length (prefix 6 (Uuid.String (Uuid.New rnd))) = 6%nat
  /\ forallb isAlnumLower (prefix 6 (Uuid.String (Uuid.New rnd))) = true.
Proof.
  split; [ reflexivity | split; [ reflexivity | ] ].
  change (prefix 6 (Uuid.String (Uuid.New rnd)))
    with (Hex.EncodeToString [Uuid.byteAt rnd 0] ++
          Hex.EncodeToString [Uuid.byteAt rnd 1] ++
          Hex.EncodeToString [Uuid.byteAt rnd 2]).
  rewrite !forallb_app, !hex_byte_alnum by apply byteAt_range.
  reflexivity.
Qed.

Lemma replaceRuns_filter (cls : rune -> bool) (s : gostring) (b : bool) :
  replaceRuns cls [] b s = filter (fun r => negb (cls r)) s.
Proof.
  revert b. induction s as [| c s IH]; intros b; cbn [replaceRuns filter].
  - reflexivity.
  - destruct (cls c); cbn [negb].
    + destruct b; cbn [app]; apply IH.
    + f_equal. apply IH.
Qed.

Lemma strip_is_replace (s : gostring) :
  usernameNonAlnum_ReplaceAllString s [] = strip s.
Proof.
  unfold usernameNonAlnum_ReplaceAllString, strip.
  rewrite replaceRuns_filter. apply filter_ext. intros r.
  apply negb_involutive.
Qed.

Lemma space_not_alnum (r : rune) : IsSpace r = true -> isAlnumLower r = false.
Proof.
  unfold IsSpace, isAlnumLower, between. intros H.
  repeat rewrite orb_true_iff in H. repeat rewrite andb_true_iff in H.
  apply orb_false_iff. split; apply andb_false_iff; lia.
Qed.

Lemma strip_dropWhile_space (s : gostring) :
  strip (dropWhile IsSpace s) = strip s.
Proof.
  induction s as [| c s IH]; [ reflexivity | ].
  cbn [dropWhile]. destruct (IsSpace c) eqn:Hc; [ | reflexivity ].
  rewrite IH. unfold strip. cbn [filter].
  rewrite (space_not_alnum _ Hc). reflexivity.
Qed.

Lemma strip_rev (s : gostring) : strip (rev s) = rev (strip s).
Proof.
  unfold strip. induction s as [| c s IH]; [ reflexivity | ].
  cbn [rev filter]. rewrite filter_app, IH. cbn [filter].
  destruct (isAlnumLower c); cbn [rev]; [ reflexivity | apply app_nil_r ].
Qed.

Lemma strip_TrimSpace (s : gostring) : strip (TrimSpace s) = strip s.
Proof.
  unfold TrimSpace.
  rewrite strip_rev, strip_dropWhile_space, strip_rev, rev_involutive.
  apply strip_dropWhile_space.
Qed.

Lemma usernameBase_handleBase (f l e : gostring) :
  usernameBase f l e = handleBase f l e.
Proof.
  unfold usernameBase, handleBase.
  rewrite !strip_is_replace, strip_TrimSpace. reflexivity.
Qed.

Lemma strip_alnum (s : gostring) : forallb isAlnumLower (strip s) = true.
Proof.
  unfold strip. induction s as [| c s IH]; [ reflexivity | ].
  cbn [filter]. destruct (isAlnumLower c) eqn:Hc; [ | exact IH ].
  cbn [forallb]. rewrite Hc. exact IH.
Qed.

Lemma handleBase_alnum (f l e : gostring) :
  forallb isAlnumLower (handleBase f l e) = true.
Proof.
  unfold handleBase.
  destruct (isEmpty (strip (ToLower (f ++ lit "." ++ l)))); apply strip_alnum.
Qed.

(** On such texts bytes and runes coincide. *)
Lemma alnum_len (s : gostring) :
  forallb isAlnumLower s = true -> len s = Z.of_nat (List.length s).
Proof.
  induction s as [| c s IH]; [ reflexivity | ].
  cbn [forallb]. intros H. apply andb_true_iff in H. destruct H as [Hc Hs].
  unfold len in *. cbn [fold_right List.length]. rewrite (IH Hs).
  assert (Hr : runeLen c = 1).
  { unfold isAlnumLower, between in Hc. unfold runeLen.
    destruct (c <? 0) eqn:E0; [ lia | ].
    destruct (c <? 128) eqn:E1; [ reflexivity | ]. lia. }
  rewrite Hr. lia.
Qed.

Lemma truncate20 (s : gostring) :
  forallb isAlnumLower s = true ->
  (if 20 <? len s then prefix 20 s else s) = firstn 20 s.
Proof.
  intros H. rewrite (alnum_len _ H).
  destruct (20 <? Z.of_nat (List.length s)) eqn:E; [ reflexivity | ].
  symmetry. apply firstn_all2. lia.
Qed.

End Texts.

(* ================================================================== *)
(** ** C4: the username allocator *)

(** C4, as the code has it.  For every first name, last name and e-mail
    the base handle is the [a-z0-9] characters of the lower-cased
    "first.last", or, when there are none, those of the lower-cased local
    part of the e-mail.  When the base is not empty the username is its
    first 20 characters followed by a suffix of 6 characters of [a-z0-9]
    taken from a random UUID; when the base is empty the username is the
    first 12 characters of a random UUID, with no suffix.  For "Ann" and
    "Lee" the username is "annlee" followed by 6 characters of [a-z0-9],
    whatever the e-mail and the random draw. *)
Theorem generateUsername_shape :
  forall (L : GoLib) (firstName lastName email : gostring) (rnd : list Z),
    let base := handleBase firstName lastName email in
    let suffix := prefix 6 (Uuid.String (Uuid.New rnd)) in
    generateUsername firstName lastName email rnd =
      (if isEmpty base then prefix 12 (Uuid.String (Uuid.New rnd))
       else firstn 20 base ++ suffix)
    /\ List.length suffix = 6%nat
    /\ forallb isAlnumLower suffix = true
    /\ forallb isAlnumLower base = true
    /\ generateUsername (lit "Ann") (lit "Lee") email rnd = lit "annlee" ++ suffix.
Proof.
  intros L f l e rnd base suffix.
  destruct (uuid_prefix6 rnd) as (_ & Hlen & Hal).
  assert (Hgen : forall f' l', generateUsername f' l' e rnd =
            (if isEmpty (handleBase f' l' e)
             then prefix 12 (Uuid.String (Uuid.New rnd))
             else firstn 20 (handleBase f' l' e) ++ suffix)).
  { intros f' l'. unfold generateUsername.
    rewrite usernameBase_handleBase.
    destruct (isEmpty (handleBase f' l' e)); [ reflexivity | ].
    rewrite (truncate20 _ (handleBase_alnum f' l' e)). reflexivity. }
  split; [ apply Hgen | ].
  split; [ exact Hlen | ].
  split; [ exact Hal | ].
  split; [ apply handleBase_alnum | ].
  rewrite Hgen. reflexivity.
Qed.

(** C4, as the claim words it, fails: with names that have no character
    of [a-z0-9] after lower-casing and an e-mail whose local part has
    none either, the username is 12 characters of a UUID ("00000000-000"
    when the random source gives zeros), and it does not end in a suffix of
    6 characters of [a-z0-9]. *)
Lemma generateUsername_without_suffix :
  let u := generateUsername (L:=asciiLib) [26446] [26126]
             (lit "_@example.com") (repeat 0 16) in
  show u = "00000000-000"%string /\
  ~ (exists base suffix : gostring,
       u = base ++ suffix /\ List.length suffix = 6%nat /\
       forallb isAlnumLower suffix = true).
Proof.
  split; [ vm_compute; reflexivity | ].
  intros (base & suffix & Heq & Hlen & Hal).
  vm_compute in Heq.
  change (@List.length Z suffix = 6%nat) in Hlen.
  assert (Hb : @List.length Z base = 6%nat).
  { apply (f_equal (@List.length Z)) in Heq. rewrite length_app in Heq.
    cbn [List.length] in Heq. lia. }
  do 7 (destruct base as [| ? base]; try discriminate Hb).
  do 7 (destruct suffix as [| ? suffix]; try discriminate Hlen).
  cbn [app] in Heq. injection Heq as <- <- <- <- <- <- <- <- <- <- <- <-.
  vm_compute in Hal. discriminate Hal.
Qed.

(* ================================================================== *)
(** ** Runs and traces *)

Lemma exec_bind A B (p : Prog A) (f : A -> Prog B) (t : list Obs) (b : B) :
  exec (bind p f) t b ->
  exists t1 a t2, exec p t1 a /\ exec (f a) t2 b /\ t = t1 ++ t2.
Proof.
  revert t. induction p as [a | X e k IH]; intros t H; cbn [bind exec] in *.
  - exists [], a, t. repeat split; assumption.
  - destruct H as (x & t' & -> & H).
    destruct (IH x _ H) as (t1 & a & t2 & H1 & H2 & ->).
    exists (observe e x :: t1), a, t2. repeat split; try assumption.
    exists x, t1. split; [ reflexivity | assumption ].
Qed.

Lemma exec_call X (e : Event X) (t : list Obs) (x : X) :
  exec (call e) t x -> t = [observe e x].
Proof.
  cbn. intros (y & t' & -> & -> & ->). reflexivity.
Qed.

Lemma run_exec (E : Env) A (p : Prog A) (s s' : state E) (t : list Obs) (a : A) :
  run E p s = (t, a, s') -> exec p t a.
Proof.
  revert s t. induction p as [a0 | X e k IH]; intros s t H; cbn [run exec] in *.
  - injection H as <- <- _. split; reflexivity.
  - destruct (step E e s) as [x s1].
    destruct (run E (k x) s1) as [[t0 a0] s2] eqn:Hr.
    injection H as <- <- <-.
    exists x, t0. split; [ reflexivity | exact (IH x _ _ Hr) ].
Qed.

(** One call of a program under [exec]: its answer and the rest of the
    trace. *)
Ltac exec_step H :=
  cbn [bind call exec] in H;
  let x := fresh "x" in
  let t' := fresh "t" in
  destruct H as (x & t' & -> & H).

(** A handler returns nothing: a run is its trace and its final state. *)
Lemma run_unit (E : Env) (p : Prog unit) (s : state E) :
  run E p s = (fst (fst (run E p s)), tt, snd (run E p s)).
Proof. destruct (run E p s) as [[t []] s']. reflexivity. Qed.

Section WorldRuns.
Context {S M : Type} {U : UserStore S} {Ml : Mailer M}.

(** In a run against a world the repository is moved by the repository
    calls of the trace alone, and the trace records its answers. *)
Lemma world_run_store A (p : Prog A) (w w' : World S M) (t : list Obs) (a : A) :
  run worldEnv p w = (t, a, w') ->
  w_store w' = storeAfter t (w_store w) /\ storeAnswers t (w_store w).
Proof.
  revert w t. induction p as [a0 | X e k IH]; intros w t H; cbn [run] in H.
  - injection H as <- <- <-. split; [ reflexivity | exact I ].
  - destruct (step worldEnv e w) as [x w1] eqn:Hs.
    destruct (run worldEnv (k x) w1) as [[t0 a0] w2] eqn:Hr.
    injection H as <- <- <-.
    destruct (IH x _ _ Hr) as [H1 H2].
    cbn [step worldEnv] in Hs.
    destruct e; cbn [worldStep] in Hs;
      try (injection Hs as <- <-; cbn [observe storeAfter storeAnswers];
           split; assumption).
    + destruct (store_CreateAndInvite (w_store w) u tok exp) as [r s1] eqn:Hc.
      injection Hs as <- <-. cbn [observe storeAfter storeAnswers].
      rewrite Hc. cbn [fst snd]. repeat split; assumption.
    + destruct (store_Delete (w_store w) id) as [r s1] eqn:Hc.
      injection Hs as <- <-. cbn [observe storeAfter storeAnswers].
      rewrite Hc. cbn [fst snd]. repeat split; assumption.
    + destruct (store_GetByEmail (w_store w) email) as [r s1] eqn:Hc.
      injection Hs as <- <-. cbn [observe storeAfter storeAnswers].
      rewrite Hc. cbn [fst snd]. repeat split; assumption.
    + destruct (mailer_Send (w_mailer w) templateFile username email data isSandbox)
        as [r m1] eqn:Hc.
      injection Hs as <- <-. cbn [observe storeAfter storeAnswers].
      split; assumption.
Qed.

End WorldRuns.

(* ================================================================== *)
(** ** The shape of the traces of registerUserHandler *)

Section RegisterShape.
Context {L : GoLib}.
Variable app : config.

Lemma createLoop_loopRun (payload : RegisterUserPayload) (tok : gostring)
      (n : nat) (u : store.User) (t : list Obs) (out : option store.User) :
  exec (createLoop app payload tok n u) t out -> loopRun app payload tok n u t out.
Proof.
  revert u t. induction n as [| n IH]; intros u t H; cbn [createLoop] in H.
  - destruct H as [-> ->]. constructor.
  - exec_step H. cbn [observe].
    destruct x as [err | id].
    + destruct err;
        try (exec_step H; destruct H as [-> ->]; cbn [observe];
             first [ apply loop_email
                   | apply loop_failed; discriminate ]).
      exec_step H. cbn [observe].
      apply loop_retry. apply IH. exact H.
    + cbn [exec] in H. destruct H as [-> ->]. apply loop_created.
Qed.

Lemma afterLoop_tailRun (u : store.User) (plain : gostring) (t : list Obs) :
  exec (afterLoop app u plain) t tt -> tailRun app u plain t.
Proof.
  unfold afterLoop. intros H.
  destruct (store.ID u =? 0) eqn:Hid.
  - apply exec_call in H. subst t. apply tail_exhausted. lia.
  - assert (Hne : store.ID u <> 0) by lia.
    exec_step H. destruct x as [status [merr |]]; cbn [snd fst] in H.
    + exec_step H. exec_step H.
      destruct x0 as [e |].
      * exec_step H. exec_step H. destruct H as [-> _].
        exact (tail_rollback app u plain status merr (Some e) Hne).
      * exec_step H. destruct H as [-> _].
        exact (tail_rollback app u plain status merr None Hne).
    + exec_step H. exec_step H.
      destruct x0 as [e |].
      * exec_step H. destruct H as [-> _].
        exact (tail_sent app u plain status (Some e) Hne).
      * destruct H as [-> _].
        exact (tail_sent app u plain status None Hne).
Qed.

(** Every trace of the handler is an answer to a body that cannot be
    decoded or validated, or a trace of [bodyRun]. *)
Lemma register_shape (body : Json.Body) (t : list Obs) :
  exec (registerUserHandler app body) t tt ->
  match readJSON registerTarget body with
  | inl err => t = [oBadRequest err]
  | inr payload =>
      match Validate_Struct Validate (registerFields payload) with
      | Some err => t = [oBadRequest err]
      | None => bodyRun app payload t
      end
  end.
Proof.
  unfold registerUserHandler. intros H.
  destruct (readJSON registerTarget body) as [err | payload].
  { apply exec_call in H. exact H. }
  destruct (Validate_Struct Validate (registerFields payload)) as [err |].
  { apply exec_call in H. exact H. }
  apply exec_bind in H. destruct H as (pre & username & t0 & Hu & H & ->).
  assert (Hpre : usernameRun payload pre username).
  { destruct (isEmpty (Username payload)) eqn:He.
    - exec_step Hu. destruct Hu as [-> ->]. cbn [observe].
      apply username_generated. exact He.
    - destruct Hu as [-> ->]. apply username_given. exact He. }
  exec_step H. cbn [observe]. destruct x as [err | pw].
  { apply exec_call in H. subst. cbn [observe].
    exact (body_hash_failed app err Hpre). }
  exec_step H. cbn [observe].
  apply exec_bind in H. destruct H as (t1 & out & t2 & Hl & H & ->).
  apply createLoop_loopRun in Hl.
  eapply body_loop with (out := out); [ exact Hpre | exact Hl | ].
  destruct out as [u |].
  - apply afterLoop_tailRun. exact H.
  - destruct H as [-> _]. reflexivity.
Qed.

End RegisterShape.

(* ================================================================== *)
(** ** Lists of calls *)

Lemma count_app (p : Obs -> bool) (a b : list Obs) :
  count p (a ++ b) = (count p a + count p b)%nat.
Proof. unfold count. rewrite filter_app, length_app. reflexivity. Qed.

Lemma count_cons (p : Obs -> bool) (x : Obs) (a : list Obs) :
  count p (x :: a) = ((if p x then 1 else 0) + count p a)%nat.
Proof. unfold count. cbn [filter]. destruct (p x); reflexivity. Qed.

Lemma count_none_in (p : Obs -> bool) (a : list Obs) (x : Obs) :
  count p a = 0%nat -> In x a -> p x = false.
Proof.
  unfold count. induction a as [| y a IH]; intros Hc Hin; [ destruct Hin | ].
  cbn [filter] in Hc. destruct Hin as [-> | Hin].
  - destruct (p x); [ discriminate Hc | reflexivity ].
  - destruct (p y); [ discriminate Hc | exact (IH Hc Hin) ].
Qed.

(** An element with a property that a prefix lacks lies behind it. *)
Lemma split_behind (p : Obs -> bool) (l1 l a b : list Obs) (x : Obs) :
  l1 ++ l = a ++ x :: b -> p x = true -> count p l1 = 0%nat ->
  exists a', a = l1 ++ a' /\ l = a' ++ x :: b.
Proof.
  revert a. induction l1 as [| c l1 IH]; intros a Heq Hx Hc.
  - exists a. split; [ reflexivity | exact Heq ].
  - rewrite count_cons in Hc. destruct (p c) eqn:Hpc; [ discriminate Hc | ].
    destruct a as [| c' a]; cbn [app] in Heq.
    + injection Heq as -> _. congruence.
    + injection Heq as -> Heq.
      destruct (IH a Heq Hx Hc) as (a' & -> & ->).
      exists a'. split; reflexivity.
Qed.

(** An element with a property that a suffix lacks lies before it. *)
Lemma split_before (p : Obs -> bool) (l l3 a b : list Obs) (x : Obs) :
  l ++ l3 = a ++ x :: b -> p x = true -> count p l3 = 0%nat ->
  exists b', b = b' ++ l3 /\ l = a ++ x :: b'.
Proof.
  revert a. induction l as [| c l IH]; intros a Heq Hx Hc.
  - cbn [app] in Heq. subst l3.
    rewrite count_app, count_cons, Hx in Hc. lia.
  - destruct a as [| c' a]; cbn [app] in Heq.
    + injection Heq as -> <-. exists l. split; reflexivity.
    + injection Heq as -> Heq.
      destruct (IH a Heq Hx Hc) as (b' & -> & ->).
      exists b'. split; reflexivity.
Qed.

(* ================================================================== *)
(** ** The retry loop *)

Section RetryLoop.
Context {L : GoLib}.
Variable app : config.
Variable payload : RegisterUserPayload.
Variable tok : gostring.

Lemma loop_head (n : nat) (u : store.User) (t : list Obs) (out : option store.User) :
  loopRun app payload tok n u t out ->
  match n with
  | O => t = [] /\ out = Some u
  | S _ => exists res t', t = oCreateAndInvite u tok (mail_exp app) res :: t'
  end.
Proof.
  intros H. destruct H; [ split; reflexivity | | | | ]; eexists; eexists; reflexivity.
Qed.

(** What the loop does around a create that is answered with a username
    conflict. *)
Lemma loop_conflict (n : nat) (u : store.User) (t : list Obs) (out : option store.User) :
  loopRun app payload tok n u t out ->
  forall a u' tok' exp' b,
    t = a ++ oCreateAndInvite u' tok' exp' (inl ErrDuplicateUsername) :: b ->
    (count isCreate a < n)%nat /\ tok' = tok /\ exp' = mail_exp app /\
    store.ID u' = store.ID u /\
    (count isCreate a = 0%nat -> u' = u) /\
    exists rnd b', b = oRandRead rnd :: b' /\
      loopRun app payload tok (n - 1 - count isCreate a)
              (regenerate payload u' rnd) b' out.
Proof.
  induction 1 as [u | n u id | n u | n u e He1 He2 | n u rnd t out H IH];
    intros a u' tok' exp' b Heq.
  - destruct a; discriminate Heq.
  - destruct a as [| ? [| ? ?]]; discriminate Heq.
  - destruct a as [| ? [| ? [| ? ?]]]; discriminate Heq.
  - destruct a as [| ? [| ? [| ? ?]]]; try discriminate Heq.
    injection Heq as _ _ _ Hr _. congruence.
  - destruct a as [| c a]; cbn [List.app] in Heq.
    + injection Heq as <- <- <- <-.
      change (count isCreate []) with 0%nat.
      rewrite Nat.sub_0_r. cbn [Nat.sub].
      repeat (split; [ first [ lia | reflexivity ] | ]).
      exists rnd, t. split; [ reflexivity | ]. rewrite Nat.sub_0_r. exact H.
    + injection Heq as <- Heq.
      destruct a as [| d a]; cbn [List.app] in Heq; [ discriminate Heq | ].
      injection Heq as <- Heq.
      destruct (IH _ _ _ _ _ Heq) as (Hlt & -> & -> & Hid & _ & rnd' & b' & -> & Hl).
      rewrite !count_cons. cbn [isCreate].
      split; [ lia | ]. split; [ reflexivity | ]. split; [ reflexivity | ].
      split; [ exact Hid | ]. split; [ intros Hz; discriminate Hz | ].
      exists rnd', b'. split; [ reflexivity | ].
      replace (Datatypes.S n - 1 - (1 + (0 + count isCreate a)))%nat
        with (n - 1 - count isCreate a)%nat by lia.
      exact Hl.
Qed.

(** Counts over a loop trace. *)
Lemma loop_counts (n : nat) (u : store.User) (t : list Obs) (out : option store.User) :
  loopRun app payload tok n u t out ->
  (count isCreate t <= n)%nat /\
  (count isUsernameConflict t <= n)%nat /\
  count isSend t = 0%nat /\
  (count isUsernameConflict t = n ->
   responses t = [] /\ exists u', out = Some u' /\ store.ID u' = store.ID u).
Proof.
  induction 1 as [u | n u id | n u | n u e He1 He2 | n u rnd t out H IH].
  - repeat split; try (cbn; lia). exists u. split; reflexivity.
  - repeat split; try (cbn; lia); cbn in H; lia.
  - repeat split; try (cbn; lia); cbn in H; lia.
  - assert (Hc : isUsernameConflict
                   (oCreateAndInvite u tok (mail_exp app) (inl e)) = false).
    { destruct e; try reflexivity; congruence. }
    unfold count. cbn [filter isCreate isSend]. rewrite Hc. cbn [filter isUsernameConflict isSend List.length].
    repeat split; try lia.
  - destruct IH as (H1 & H2 & H3 & H4).
    rewrite !count_cons. cbn [isCreate isUsernameConflict isSend].
    repeat split; try lia.
    + unfold responses. cbn [filter isResponse]. apply H4. lia.
    + destruct H4 as [_ (u' & -> & Hid)]; [ lia | ].
      exists u'. split; [ reflexivity | exact Hid ].
Qed.

End RetryLoop.

(* ================================================================== *)
(** ** registerUserHandler: facts about its traces *)

Section RegisterFacts.
Context {L : GoLib}.
Variable app : config.

Lemma responses_app (a b : list Obs) : responses (a ++ b) = responses a ++ responses b.
Proof. apply filter_app. Qed.

Lemma username_counts (payload : RegisterUserPayload) (pre : list Obs) (name : gostring) :
  usernameRun payload pre name ->
  count isCreate pre = 0%nat /\ count isUsernameConflict pre = 0%nat /\
  count isSend pre = 0%nat /\ responses pre = [] /\
  (isEmpty (Username payload) = false -> name = Username payload).
Proof.
  intros H. destruct H as [He | rnd He]; repeat split; try reflexivity.
  intros H. congruence.
Qed.

Lemma tail_counts (u : store.User) (plain : gostring) (t : list Obs) :
  tailRun app u plain t ->
  count isCreate t = 0%nat /\ count isUsernameConflict t = 0%nat /\
  (store.ID u = 0 -> t = [oBadRequest ErrDuplicateUsername]).
Proof.
  intros H.
  destruct H as [Hz | status werr Hnz | status merr derr Hnz].
  - repeat split.
  - destruct werr; repeat split; intros; contradiction.
  - destruct derr; repeat split; intros; contradiction.
Qed.

Lemma body_conflict (payload : RegisterUserPayload) (t : list Obs) :
  bodyRun app payload t ->
  forall a u tok exp b,
    t = a ++ oCreateAndInvite u tok exp (inl ErrDuplicateUsername) :: b ->
    (count isCreate a < 5)%nat /\
    (count isCreate a = 0%nat -> isEmpty (Username payload) = false ->
     store.Username u = Username payload) /\
    exists rnd b', b = oRandRead rnd :: b' /\
      ((count isCreate a < 4)%nat ->
       exists res b'', b' = oCreateAndInvite (regenerate payload u rnd) tok exp res :: b'') /\
      (count isCreate a = 4%nat -> b' = [oBadRequest ErrDuplicateUsername]).
Proof.
  intros H a u tok exp b Heq.
  destruct H as [pre name err Hu | pre name pw rnd0 t1 out t2 Hu Hl Ht].
  { exfalso. destruct (username_counts Hu) as (Hc & _).
    apply (f_equal (count isCreate)) in Heq.
    rewrite !count_app, Hc, count_cons in Heq. cbn in Heq. lia. }
  destruct (username_counts Hu) as (Hc & _ & _ & _ & Hname).
  change (pre ++ oPasswordSet (Password payload) (inr pw) :: oRandRead rnd0 :: t1 ++ t2)
    with (pre ++ [oPasswordSet (Password payload) (inr pw); oRandRead rnd0] ++ t1 ++ t2)
    in Heq.
  rewrite app_assoc in Heq.
  apply (split_behind isCreate) in Heq;
    [ | reflexivity | rewrite count_app, Hc; reflexivity ].
  destruct Heq as (a' & -> & Heq).
  assert (Ht2 : count isCreate t2 = 0%nat /\
                (forall u', out = Some u' -> store.ID u' = 0 ->
                            t2 = [oBadRequest ErrDuplicateUsername])).
  { destruct out as [u' |].
    - destruct (tail_counts Ht) as (H1 & _ & H3). split; [ exact H1 | ].
      intros u'' Hu' Hid. injection Hu' as <-. exact (H3 Hid).
    - subst t2. split; [ reflexivity | ]. intros u' Hu'. discriminate Hu'. }
  destruct Ht2 as [Hc2 Hex].
  apply (split_before isCreate) in Heq; [ | reflexivity | exact Hc2 ].
  destruct Heq as (bl & -> & ->).
  destruct (loop_conflict Hl a' u tok exp bl eq_refl)
    as (Hlt & -> & -> & Hid & Hfirst & rnd & b' & -> & Hrest).
  rewrite !count_app, Hc. cbn [count filter isCreate List.length Nat.add].
  split; [ exact Hlt | ].
  split.
  { intros Hz Hne. rewrite (Hfirst Hz). cbn [newUser store.Username].
    exact (Hname Hne). }
  exists rnd, (b' ++ t2). split; [ reflexivity | ].
  apply loop_head in Hrest.
  split.
  - intros H4.
    destruct (5 - 1 - count isCreate a')%nat as [| m] eqn:Hm; [ lia | ].
    destruct Hrest as (res & t' & ->).
    exists res, (t' ++ t2). reflexivity.
  - intros H4. rewrite H4 in Hrest. cbn [Nat.sub] in Hrest.
    destruct Hrest as [-> ->]. cbn [List.app].
    apply (Hex _ eq_refl). cbn [regenerate store.setUsername store.ID].
    rewrite Hid. reflexivity.
Qed.

Lemma body_counts (payload : RegisterUserPayload) (t : list Obs) :
  bodyRun app payload t ->
  (count isCreate t <= 5)%nat /\
  (count isUsernameConflict t = 5%nat ->
   responses t = [oBadRequest ErrDuplicateUsername]).
Proof.
  intros H.
  destruct H as [pre name err Hu | pre name pw rnd0 t1 out t2 Hu Hl Ht];
    destruct (username_counts Hu) as (Hc & Hcc & _ & Hr & _).
  { rewrite !count_app, Hc, Hcc. cbn. split; [ lia | intros H; discriminate H ]. }
  destruct (loop_counts Hl) as (H1 & H2 & _ & H4).
  assert (Ht2 : count isCreate t2 = 0%nat /\ count isUsernameConflict t2 = 0%nat).
  { destruct out as [u' |].
    - destruct (tail_counts Ht) as (Ha & Hb & _). split; assumption.
    - subst t2. split; reflexivity. }
  destruct Ht2 as [Hc2 Hcc2].
  rewrite !count_app, !count_cons, !count_app, Hc, Hcc, Hc2, Hcc2.
  cbn [isCreate isUsernameConflict].
  split; [ lia | ].
  intros H5.
  destruct H4 as (Hr1 & u' & -> & Hid); [ lia | ].
  destruct (tail_counts Ht) as (_ & _ & Hz).
  rewrite (Hz Hid).
  rewrite responses_app, Hr. cbn [List.app].
  unfold responses at 1. cbn [filter isResponse].
  change (filter isResponse (t1 ++ [oBadRequest ErrDuplicateUsername]))
    with (responses (t1 ++ [oBadRequest ErrDuplicateUsername])).
  rewrite responses_app, Hr1. reflexivity.
Qed.

End RegisterFacts.

(* ================================================================== *)
(** ** C1: bounded retry on username conflicts *)

(** C1.  In every run of the registration handler at most 5 creates are
    attempted.  Whenever a create is answered with [ErrDuplicateUsername]
    the handler draws a new username with [generateUsername] from the
    payload's first name, last name and e-mail: the account it goes on
    with has that username and is otherwise the account of the refused
    create.  If fewer than 4 creates came before, the next call is a
    create for that account, with the same token and expiry; if it was
    the fifth create, the handler answers with a bad request carrying
    [ErrDuplicateUsername] and stops.  A run with 5 username conflicts has
    that bad request as its only response (no internal server error). *)
Theorem register_username_conflict_retries :
  forall (L : GoLib) (app : config) (E : Env) (s s' : state E)
         (body : Json.Body) (t : list Obs),
    run E (registerUserHandler app body) s = (t, tt, s') ->
    (count isCreate t <= 5)%nat /\
    (forall a u tok exp b,
        t = a ++ oCreateAndInvite u tok exp (inl ErrDuplicateUsername) :: b ->
        exists payload rnd b',
          readJSON registerTarget body = inr payload /\
          b = oRandRead rnd :: b' /\
          store.Username (regenerate payload u rnd) =
            generateUsername (FirstName payload) (LastName payload)
                             (Email payload) rnd /\
          store.otherFields (regenerate payload u rnd) = store.otherFields u /\
          ((count isCreate a < 4)%nat ->
           exists res b'',
             b' = oCreateAndInvite (regenerate payload u rnd) tok exp res :: b'') /\
          (count isCreate a = 4%nat -> b' = [oBadRequest ErrDuplicateUsername])) /\
    (count isUsernameConflict t = 5%nat ->
     responses t = [oBadRequest ErrDuplicateUsername]).
Proof.
  intros L app E s s' body t Hrun.
  apply run_exec, register_shape in Hrun.
  destruct (readJSON registerTarget body) as [err | payload] eqn:Hread.
  { subst t. split; [ cbn; lia | ]. split; [ | intros H; discriminate H ].
    intros a u tok exp b Heq. destruct a as [| ? [| ? ?]]; discriminate Heq. }
  destruct (Validate_Struct Validate (registerFields payload)) as [err |].
  { subst t. split; [ cbn; lia | ]. split; [ | intros H; discriminate H ].
    intros a u tok exp b Heq. destruct a as [| ? [| ? ?]]; discriminate Heq. }
  destruct (body_counts Hrun) as [Hc Hx].
  split; [ exact Hc | ]. split; [ | exact Hx ].
  intros a u tok exp b Heq.
  destruct (body_conflict Hrun _ _ _ _ _ Heq) as (_ & _ & rnd & b' & -> & H4 & H5).
  exists payload, rnd, b'.
  split; [ reflexivity | ]. split; [ reflexivity | ].
  split; [ reflexivity | ]. split; [ reflexivity | ].
  split; assumption.
Qed.

(** Ann Lee registers while "annlee000000" is taken.  When the random
    source keeps giving zeros: five creates, five conflicts, one bad
    request.  When its third draw is 1, 2, 3: the first create is refused
    and the second is for "annlee010203". *)
Lemma register_username_conflict_retries_witness :
  let r := run worldEnv
               (registerUserHandler (L:=asciiLib) scenario.cfg scenario.annBody)
               (scenario.noopWorld scenario.crowdedRepo [] []) in
  let r2 := run worldEnv
                (registerUserHandler (L:=asciiLib) scenario.cfg scenario.annBody)
                (scenario.noopWorld scenario.crowdedRepo [[]; []; [1; 2; 3]] []) in
  (count isCreate (fst (fst r)) = 5%nat /\
   responses (fst (fst r)) = [oBadRequest ErrDuplicateUsername] /\
   hasAccount (w_store (snd r)) 2 = false) /\
  exists a u u' tok exp res b,
    fst (fst r2) =
      a ++ oCreateAndInvite u tok exp (inl ErrDuplicateUsername)
        :: oRandRead [1; 2; 3] :: oCreateAndInvite u' tok exp res :: b /\
    show (store.Username u) = "annlee000000"%string /\
    show (store.Username u') = "annlee010203"%string /\
    store.otherFields u' = store.otherFields u.
Proof.
  cbv zeta. split; [ | ].
  2: {
    pose (r2 := run worldEnv
                  (registerUserHandler (L:=asciiLib) scenario.cfg scenario.annBody)
                  (scenario.noopWorld scenario.crowdedRepo [[]; []; [1; 2; 3]] [])).
    assert (Ht : exists a u tok exp b,
               fst (fst r2) =
                 a ++ oCreateAndInvite u tok exp (inl ErrDuplicateUsername) :: b
               /\ count isCreate a = 0%nat
               /\ hd (oRandRead []) b = oRandRead [1; 2; 3]
               /\ show (store.Username u) = "annlee000000"%string).
    { vm_compute. eexists [_; _; _], _, _, _, _. split; [ reflexivity | ].
      repeat split. }
    destruct Ht as (a & u & tok & exp & b & Heq & Hz & Hhd & Hu).
    destruct (@register_username_conflict_retries asciiLib scenario.cfg
                worldEnv
                (scenario.noopWorld scenario.crowdedRepo [[]; []; [1; 2; 3]] [])
                (snd r2) scenario.annBody (fst (fst r2)) (run_unit _ _ _))
      as (_ & Hretry & _).
    destruct (Hretry a u tok exp b Heq)
      as (payload & rnd & b' & Hread & -> & Hname & Hrest & Hnext & _).
    cbn [hd] in Hhd. injection Hhd as ->.
    destruct Hnext as (res & b'' & ->); [ rewrite Hz; lia | ].
    exists a, u, (regenerate (L:=asciiLib) payload u [1; 2; 3]), tok, exp, res, b''.
    split; [ exact Heq | ]. split; [ exact Hu | ]. split; [ | exact Hrest ].
    rewrite Hname. vm_compute in Hread. injection Hread as <-.
    vm_compute. reflexivity. }
  cbv zeta.
  pose proof (@register_username_conflict_retries asciiLib scenario.cfg
                worldEnv (scenario.noopWorld scenario.crowdedRepo [] [])
                (snd (run worldEnv
                        (registerUserHandler (L:=asciiLib) scenario.cfg scenario.annBody)
                        (scenario.noopWorld scenario.crowdedRepo [] [])))
                scenario.annBody
                (fst (fst (run worldEnv
                        (registerUserHandler (L:=asciiLib) scenario.cfg scenario.annBody)
                        (scenario.noopWorld scenario.crowdedRepo [] [])))))
    as H.
  destruct H as (_ & _ & H3); [ apply run_unit | ].
  split; [ vm_compute; reflexivity | ].
  split; [ apply H3; vm_compute; reflexivity | vm_compute; reflexivity ].
Defined.

(* ================================================================== *)
(** ** C3: an e-mail conflict is terminal *)

Section EmailConflict.
Context {L : GoLib}.
Variable app : config.

Lemma loop_email_conflict (payload : RegisterUserPayload) (tok : gostring)
      (n : nat) (u : store.User) (t : list Obs) (out : option store.User) :
  loopRun app payload tok n u t out ->
  forall u' tok' exp',
    In (oCreateAndInvite u' tok' exp' (inl ErrDuplicateEmail)) t ->
    out = None /\
    exists t0,
      t = t0 ++ [oCreateAndInvite u' tok' exp' (inl ErrDuplicateEmail);
                 oBadRequest ErrDuplicateEmail] /\
      responses t0 = [].
Proof.
  induction 1 as [u | n u id | n u | n u e He1 He2 | n u rnd t out H IH];
    intros u' tok' exp' Hin.
  - destruct Hin.
  - destruct Hin as [Hin | []]. discriminate Hin.
  - destruct Hin as [Hin | [Hin | []]]; [ | discriminate Hin ].
    injection Hin as <- <- <-. split; [ reflexivity | ].
    exists []. split; reflexivity.
  - destruct Hin as [Hin | [Hin | []]]; [ | discriminate Hin ].
    injection Hin as _ _ _ ->. congruence.
  - destruct Hin as [Hin | [Hin | Hin]]; try discriminate Hin.
    destruct (IH _ _ _ Hin) as (-> & t0 & -> & Hr).
    split; [ reflexivity | ].
    exists (oCreateAndInvite u tok (mail_exp app) (inl ErrDuplicateUsername)
              :: oRandRead rnd :: t0).
    split; [ reflexivity | exact Hr ].
Qed.

Lemma body_email_conflict (payload : RegisterUserPayload) (t : list Obs) :
  bodyRun app payload t ->
  forall u tok exp,
    In (oCreateAndInvite u tok exp (inl ErrDuplicateEmail)) t ->
    exists t0,
      t = t0 ++ [oCreateAndInvite u tok exp (inl ErrDuplicateEmail);
                 oBadRequest ErrDuplicateEmail] /\
      responses t0 = [] /\ count isSend t = 0%nat.
Proof.
  intros H u tok exp Hin.
  destruct H as [pre name err Hu | pre name pw rnd0 t1 out t2 Hu Hl Ht];
    destruct (username_counts Hu) as (Hc & _ & Hs & Hr & _).
  { exfalso. apply in_app_or in Hin. destruct Hin as [Hin | Hin].
    - pose proof (count_none_in _ _ _ Hc Hin) as Hf. discriminate Hf.
    - destruct Hin as [Hin | [Hin | []]]; discriminate Hin. }
  apply in_app_or in Hin. destruct Hin as [Hin | Hin].
  { exfalso. pose proof (count_none_in _ _ _ Hc Hin) as Hf. discriminate Hf. }
  destruct Hin as [Hin | [Hin | Hin]]; try discriminate Hin.
  apply in_app_or in Hin. destruct Hin as [Hin | Hin].
  - destruct (loop_email_conflict Hl _ _ _ Hin) as (-> & t0 & -> & Hr0).
    subst t2. rewrite app_nil_r.
    exists (pre ++ oPasswordSet (Password payload) (inr pw) :: oRandRead rnd0 :: t0).
    split; [ rewrite <- app_assoc; reflexivity | ].
    split.
    + rewrite responses_app, Hr. cbn [List.app].
      unfold responses. cbn [filter isResponse]. exact Hr0.
    + destruct (loop_counts Hl) as (_ & _ & Hs1 & _).
      rewrite count_app, !count_cons, Hs, Hs1. reflexivity.
  - exfalso. destruct out as [u' |].
    + destruct (tail_counts Ht) as (Hc2 & _).
      pose proof (count_none_in _ _ _ Hc2 Hin) as Hf. discriminate Hf.
    + subst t2. destruct Hin.
Qed.

End EmailConflict.

(** C3.  In every run of the registration handler in which a create is
    answered with [ErrDuplicateEmail], that create is the last call before
    the response: the trace ends with the create and a bad request
    carrying [ErrDuplicateEmail], nothing was answered before, so that
    this is the only response, and the mailer is not called anywhere in
    the run.  No create and no draw of a username follow the conflict. *)
Theorem register_email_conflict_is_final :
  forall (L : GoLib) (app : config) (E : Env) (s s' : state E)
         (body : Json.Body) (t : list Obs),
    run E (registerUserHandler app body) s = (t, tt, s') ->
    forall u tok exp,
      In (oCreateAndInvite u tok exp (inl ErrDuplicateEmail)) t ->
      (exists t0,
         t = t0 ++ [oCreateAndInvite u tok exp (inl ErrDuplicateEmail);
                    oBadRequest ErrDuplicateEmail] /\
         responses t0 = []) /\
      responses t = [oBadRequest ErrDuplicateEmail] /\
      count isSend t = 0%nat.
Proof.
  intros L app E s s' body t Hrun u tok exp Hin.
  apply run_exec, register_shape in Hrun.
  destruct (readJSON registerTarget body) as [err | payload].
  { subst t. destruct Hin as [Hin | []]. discriminate Hin. }
  destruct (Validate_Struct Validate (registerFields payload)) as [err |].
  { subst t. destruct Hin as [Hin | []]. discriminate Hin. }
  destruct (body_email_conflict Hrun _ _ _ Hin) as (t0 & -> & Hr & Hs).
  split; [ exists t0; split; [ reflexivity | exact Hr ] | ].
  split; [ | exact Hs ].
  rewrite responses_app, Hr. reflexivity.
Qed.

(** Ann registers a second time with the same e-mail. *)
Lemma register_email_conflict_is_final_witness :
  let r := run worldEnv
               (registerUserHandler (L:=asciiLib) scenario.cfg scenario.annBody)
               (scenario.noopWorld scenario.annRepo [] []) in
  responses (fst (fst r)) = [oBadRequest ErrDuplicateEmail] /\
  count isSend (fst (fst r)) = 0%nat /\
  count isCreate (fst (fst r)) = 1%nat.
Proof.
  cbv zeta.
  pose proof (@register_email_conflict_is_final asciiLib scenario.cfg
                worldEnv (scenario.noopWorld scenario.annRepo [] []) _
                scenario.annBody _ (run_unit _ _ _)) as H.
  edestruct H as (_ & H2 & H3).
  { vm_compute. right. right. right. left. reflexivity. }
  split; [ exact H2 | ]. split; [ exact H3 | vm_compute; reflexivity ].
Defined.

(* ================================================================== *)
(** ** C9: a username supplied by the caller is replaced on conflict *)

(** C9.  When the payload carries a non-empty username, the first create
    is for that username, and if it is answered with
    [ErrDuplicateUsername] the handler draws random bytes and next
    attempts a create for the same user with the username replaced by
    [generateUsername] of the first name, last name and e-mail: the
    account of the second create has the generated username, in which the
    caller's username plays no part, and the other fields of the first;
    the request goes on and the caller's username is dropped. *)
Theorem register_supplied_username_is_replaced :
  forall (L : GoLib) (app : config) (E : Env) (s s' : state E)
         (body : Json.Body) (t : list Obs) (payload : RegisterUserPayload),
    run E (registerUserHandler app body) s = (t, tt, s') ->
    readJSON registerTarget body = inr payload ->
    isEmpty (Username payload) = false ->
    forall a u tok exp b,
      t = a ++ oCreateAndInvite u tok exp (inl ErrDuplicateUsername) :: b ->
      count isCreate a = 0%nat ->
      store.Username u = Username payload /\
      exists rnd res b',
        b = oRandRead rnd
              :: oCreateAndInvite
                   (store.setUsername u
                      (generateUsername (FirstName payload) (LastName payload)
                                        (Email payload) rnd))
                   tok exp res
              :: b' /\
        store.Username
          (store.setUsername u
             (generateUsername (FirstName payload) (LastName payload)
                               (Email payload) rnd)) =
          generateUsername (FirstName payload) (LastName payload)
                           (Email payload) rnd /\
        store.otherFields
          (store.setUsername u
             (generateUsername (FirstName payload) (LastName payload)
                               (Email payload) rnd)) =
          store.otherFields u.
Proof.
  intros L app E s s' body t payload Hrun Hread Hne a u tok exp b Heq Hfirst.
  apply run_exec, register_shape in Hrun. rewrite Hread in Hrun.
  destruct (Validate_Struct Validate (registerFields payload)) as [err |].
  { subst t. destruct a as [| ? [| ? ?]]; discriminate Heq. }
  destruct (body_conflict Hrun _ _ _ _ _ Heq) as (_ & Hname & rnd & b' & -> & H4 & _).
  split; [ exact (Hname Hfirst Hne) | ].
  destruct H4 as (res & b'' & ->); [ lia | ].
  exists rnd, res, b''.
  split; [ reflexivity | ]. split; reflexivity.
Qed.

(** Ann asks for "anna", which is taken: the second create is for
    "annlee040506". *)
Lemma register_supplied_username_is_replaced_witness :
  let r := run worldEnv
               (registerUserHandler (L:=asciiLib) scenario.cfg scenario.annaBody)
               (scenario.noopWorld scenario.annaRepo [[1; 2; 3]; [4; 5; 6]] []) in
  exists a u tok exp res b',
    fst (fst r) =
      a ++ oCreateAndInvite u tok exp (inl ErrDuplicateUsername)
        :: oRandRead [4; 5; 6]
        :: oCreateAndInvite (store.setUsername u (lit "annlee040506")) tok exp res
        :: b' /\
    show (store.Username u) = "anna"%string /\
    show (store.Username (store.setUsername u (lit "annlee040506"))) =
      "annlee040506"%string.
Proof.
  cbv zeta.
  pose (r := run worldEnv
               (registerUserHandler (L:=asciiLib) scenario.cfg scenario.annaBody)
               (scenario.noopWorld scenario.annaRepo [[1; 2; 3]; [4; 5; 6]] [])).
  assert (Ht : exists a u tok exp b,
             fst (fst r) = a ++ oCreateAndInvite u tok exp (inl ErrDuplicateUsername) :: b
             /\ count isCreate a = 0%nat /\ hd (oRandRead []) b = oRandRead [4; 5; 6]).
  { vm_compute. eexists [_; _], _, _, _, _. split; [ reflexivity | ].
    split; reflexivity. }
  destruct Ht as (a & u & tok & exp & b & Heq & Hz & Hhd).
  destruct (@register_supplied_username_is_replaced asciiLib scenario.cfg
              worldEnv (scenario.noopWorld scenario.annaRepo [[1; 2; 3]; [4; 5; 6]] [])
              (snd r) scenario.annaBody (fst (fst r))
              (Build_RegisterUserPayload
                 (lit "Ann") (lit "Lee") (lit "KZ") (lit "ann@example.com")
                 (lit "Str0ng!Pass") (lit "Str0ng!Pass") (lit "anna"))
              (run_unit _ _ _) eq_refl eq_refl a u tok exp b Heq Hz)
    as (Hname & rnd & res & b' & -> & Hgen & _).
  cbn [hd] in Hhd. injection Hhd as ->.
  exists a, u, tok, exp, res, b'.
  split; [ exact Heq | ]. split; [ rewrite Hname; reflexivity | ].
  change (lit "annlee040506")
    with (generateUsername (L:=asciiLib) (lit "Ann") (lit "Lee")
            (lit "ann@example.com") [4; 5; 6]).
  cbn [FirstName LastName Email] in Hgen. rewrite Hgen.
  vm_compute. reflexivity.
Defined.

(* ================================================================== *)
(** ** C2: compensation when the welcome mail cannot be sent *)

Section Compensation.
Context {L : GoLib}.
Variable app : config.

Lemma loop_success (payload : RegisterUserPayload) (tok : gostring)
      (n : nat) (u : store.User) (t : list Obs) (out : option store.User) :
  loopRun app payload tok n u t out ->
  count isDelete t = 0%nat /\
  forall u', out = Some u' -> store.ID u' <> store.ID u ->
    exists t0 u0 id,
      t = t0 ++ [oCreateAndInvite u0 tok (mail_exp app) (inr id)] /\
      u' = store.setID u0 id /\ responses t0 = [].
Proof.
  induction 1 as [u | n u id | n u | n u e He1 He2 | n u rnd t out H IH].
  - split; [ reflexivity | ]. intros u' Hu Hid. injection Hu as <-. contradiction.
  - split; [ reflexivity | ]. intros u' Hu Hid. injection Hu as <-.
    exists [], u, id. repeat split.
  - split; [ reflexivity | ]. intros u' Hu. discriminate Hu.
  - split; [ reflexivity | ]. intros u' Hu. discriminate Hu.
  - destruct IH as [Hd IH]. split; [ rewrite !count_cons; exact Hd | ].
    intros u' Hu Hid.
    destruct (IH u' Hu Hid) as (t0 & u0 & id & -> & -> & Hr).
    exists (oCreateAndInvite u tok (mail_exp app) (inl ErrDuplicateUsername)
              :: oRandRead rnd :: t0), u0, id.
    repeat split. exact Hr.
Qed.

(** The traces in which the mailer reports a failure. *)
Lemma body_rollback (payload : RegisterUserPayload) (t : list Obs) :
  bodyRun app payload t ->
  forall tmpl un em d sb status merr,
    In (oSend tmpl un em d sb (status, Some merr)) t ->
    exists t0 u tok exp id derr,
      t = t0 ++ [oCreateAndInvite u tok exp (inr id);
                 oSend tmpl un em d sb (status, Some merr);
                 oErrorw "error sending welcome email" merr;
                 oDelete id derr]
             ++ afterError derr (oErrorw "error deleting user")
             ++ [oInternalServerError merr] /\
      responses t0 = [] /\ count isDelete t0 = 0%nat.
Proof.
  intros H tmpl un em d sb status merr Hin.
  destruct H as [pre name err Hu | pre name pw rnd0 t1 out t2 Hu Hl Ht];
    destruct (username_counts Hu) as (_ & _ & Hs & Hr & _).
  { exfalso. apply in_app_or in Hin. destruct Hin as [Hin | Hin].
    - pose proof (count_none_in _ _ _ Hs Hin) as Hf. discriminate Hf.
    - destruct Hin as [Hin | [Hin | []]]; discriminate Hin. }
  assert (Hdp : count isDelete pre = 0%nat).
  { destruct Hu; reflexivity. }
  destruct (loop_counts Hl) as (_ & _ & Hs1 & _).
  destruct (loop_success Hl) as [Hd1 Hok].
  assert (Hin2 : In (oSend tmpl un em d sb (status, Some merr)) t2).
  { apply in_app_or in Hin. destruct Hin as [Hin | Hin].
    - pose proof (count_none_in _ _ _ Hs Hin) as Hf. discriminate Hf.
    - destruct Hin as [Hin | [Hin | Hin]]; try discriminate Hin.
      apply in_app_or in Hin. destruct Hin as [Hin | Hin]; [ | exact Hin ].
      pose proof (count_none_in _ _ _ Hs1 Hin) as Hf. discriminate Hf. }
  destruct out as [u' |]; [ | subst t2; destruct Hin2 ].
  destruct Ht as [Hz | status' werr Hnz | status' merr' derr Hnz].
  - destruct Hin2 as [Hin2 | []]. discriminate Hin2.
  - exfalso. destruct werr; cbn in Hin2;
      repeat (destruct Hin2 as [Hin2 | Hin2]; try discriminate Hin2); exact Hin2.
  - assert (Hsend : oSend tmpl un em d sb (status, Some merr) =
                    welcome app u' (Uuid.String (Uuid.New rnd0)) (status', Some merr')).
    { destruct derr; cbn in Hin2;
        repeat (destruct Hin2 as [Hin2 | Hin2]; try discriminate Hin2);
        first [ symmetry; exact Hin2 | contradiction ]. }
    assert (Hm : merr' = merr).
    { unfold welcome in Hsend. injection Hsend as _ _ _ _ _ _ Hm. symmetry. exact Hm. }
    subst merr'. rewrite Hsend.
    destruct (Hok u' eq_refl) as (t0 & u0 & id & -> & -> & Hr0).
    { cbn [newUser store.ID]. exact Hnz. }
    exists (pre ++ oPasswordSet (Password payload) (inr pw) :: oRandRead rnd0 :: t0),
      u0, (Hex.EncodeToString (Sha256.Sum256 (bytes (Uuid.String (Uuid.New rnd0))))),
      (mail_exp app), id, derr.
    split; [ | split ].
    + cbn [store.ID store.setID]. rewrite <- ?app_assoc. cbn [List.app].
      rewrite <- ?app_assoc. reflexivity.
    + rewrite responses_app, Hr. cbn [List.app]. unfold responses.
      cbn [filter isResponse]. exact Hr0.
    + rewrite count_app, count_cons, count_cons, Hdp.
      rewrite count_app in Hd1. cbn [isDelete]. lia.
Qed.

End Compensation.

Section StoreReplay.
Context {S M : Type} {U : UserStore S} {Ml : Mailer M}.

Lemma storeAfter_app (a b : list Obs) (s : S) :
  storeAfter (a ++ b) s = storeAfter b (storeAfter a s).
Proof.
  revert s. induction a as [| o a IH]; intros s; [ reflexivity | ].
  destruct o; cbn [List.app storeAfter]; apply IH.
Qed.

Lemma storeAnswers_app (a b : list Obs) (s : S) :
  storeAnswers (a ++ b) s -> storeAnswers b (storeAfter a s).
Proof.
  revert s. induction a as [| o a IH]; intros s H; [ exact H | ].
  destruct o; cbn [List.app storeAfter storeAnswers] in *;
    try (apply IH; exact H); destruct H as [_ H]; apply IH; exact H.
Qed.

End StoreReplay.

(** C2, as the code has it.  In every run of the registration handler in
    which the mailer reports a failure, the create has succeeded just
    before with some id; the handler logs the failure, calls [Delete] for
    that id, logs a failure of the delete if there is one, and answers
    with an internal server error carrying the mailer's error, which is
    the only response whatever the delete returned.  [Delete] is called
    once in the run: a delete that fails is not tried again.  If the
    delete reported no error, the account is no longer in the repository
    when the handler returns. *)
Theorem register_compensates_failed_dispatch :
  forall (L : GoLib) (S M : Type) (U : UserStore S) (Law : @LawfulStore S U)
         (Ml : Mailer M) (app : config) (w w' : World S M)
         (body : Json.Body) (t : list Obs),
    run worldEnv (registerUserHandler app body) w = (t, tt, w') ->
    forall tmpl un em d sb status merr,
      In (oSend tmpl un em d sb (status, Some merr)) t ->
      (exists t0 u tok exp id derr,
         t = t0 ++ [oCreateAndInvite u tok exp (inr id);
                    oSend tmpl un em d sb (status, Some merr);
                    oErrorw "error sending welcome email" merr;
                    oDelete id derr]
                ++ afterError derr (oErrorw "error deleting user")
                ++ [oInternalServerError merr]) /\
      responses t = [oInternalServerError merr] /\
      count isDelete t = 1%nat /\
      (forall id, In (oDelete id None) t -> hasAccount (w_store w') id = false).
Proof.
  intros L S M U Law Ml app w w' body t Hrun tmpl un em d sb status merr Hin.
  destruct (world_run_store _ _ Hrun) as [Hst Hans].
  apply run_exec, register_shape in Hrun.
  destruct (readJSON registerTarget body) as [err | payload].
  { subst t. destruct Hin as [Hin | []]. discriminate Hin. }
  destruct (Validate_Struct Validate (registerFields payload)) as [err |].
  { subst t. destruct Hin as [Hin | []]. discriminate Hin. }
  destruct (body_rollback Hrun _ _ _ _ _ _ _ Hin)
    as (t0 & u & tok & exp & id & derr & -> & Hr & Hd).
  split; [ exists t0, u, tok, exp, id, derr; reflexivity | ].
  split.
  { rewrite responses_app, Hr. destruct derr; reflexivity. }
  split.
  { rewrite count_app, Hd. destruct derr; reflexivity. }
  intros id' Hin'.
  assert (Hid : id' = id /\ derr = None).
  { apply in_app_or in Hin'. destruct Hin' as [Hin' | Hin'].
    - pose proof (count_none_in _ _ _ Hd Hin') as Hf. discriminate Hf.
    - destruct derr; cbn in Hin';
        repeat (destruct Hin' as [Hin' | Hin']; try discriminate Hin');
        try contradiction.
      injection Hin' as <-. split; reflexivity. }
  destruct Hid as [-> ->].
  rewrite Hst, storeAfter_app. apply storeAnswers_app in Hans.
  cbn [afterError List.app storeAfter storeAnswers] in *.
  destruct Hans as (_ & Hdel & _).
  apply delete_removes
    with (s := snd (store_CreateAndInvite (storeAfter t0 (w_store w)) u tok exp)).
  rewrite (surjective_pairing (store_Delete _ id)), <- Hdel. reflexivity.
Qed.

Lemma memstore_filter_removes (id : Z) (l : list memstore.Account) :
  existsb (memstore.hasID id)
          (filter (fun a => negb (memstore.hasID id a)) l) = false.
Proof.
  induction l as [| a l IH]; [ reflexivity | ].
  cbn [filter]. destruct (memstore.hasID id a) eqn:Ha; cbn [negb]; [ exact IH | ].
  cbn [existsb]. rewrite Ha, IH. reflexivity.
Qed.

(** The repository in memory removes what it deletes. *)
Lemma memstore_lawful : @LawfulStore memstore.Repo MemStore.
Proof.
  constructor. intros s id s' H.
  cbn [store_Delete MemStore] in H. unfold memstore.Delete in H.
  destruct (memstore.outage s); [ discriminate H | ].
  injection H as <-.
  cbn [hasAccount MemStore]. unfold memstore.holds. cbn [memstore.accounts].
  apply memstore_filter_removes.
Qed.

(** Ann registers, the SMTP server cannot be reached, the repository
    serves the delete: an internal server error, and no account. *)
Lemma register_compensates_failed_dispatch_witness :
  let r := run worldEnv
               (registerUserHandler (L:=asciiLib) scenario.cfg scenario.annBody)
               (scenario.smtpWorld (scenario.emptyRepo [])
                  [Some (OtherError "dial tcp: i/o timeout")]) in
  responses (fst (fst r)) =
    [oInternalServerError (OtherError "dial tcp: i/o timeout")] /\
  hasAccount (w_store (snd r)) 1 = false /\
  fst (store_GetByEmail (w_store (snd r)) (lit "ann@example.com")) = inl ErrNotFound.
Proof.
  cbv zeta.
  pose proof (@register_compensates_failed_dispatch asciiLib _ _ MemStore
                memstore_lawful SmtpMailer scenario.cfg
                (scenario.smtpWorld (scenario.emptyRepo [])
                   [Some (OtherError "dial tcp: i/o timeout")])
                _ scenario.annBody _ (run_unit _ _ _)) as H.
  edestruct H as (_ & H2 & _ & H3).
  { vm_compute. do 4 right. left. reflexivity. }
  split; [ exact H2 | ].
  split; [ | vm_compute; reflexivity ].
  apply H3. vm_compute. do 6 right. left. reflexivity.
Defined.

(** C2, as the claim words it, fails when the delete itself fails: Ann
    registers, the SMTP server cannot be reached and the database refuses
    the delete.  The handler answers with the same internal server error,
    and the account created in the request is still in the repository,
    where a lookup by e-mail finds it. *)
Lemma register_failed_delete_leaves_account :
  let r := run worldEnv
               (registerUserHandler (L:=asciiLib) scenario.cfg scenario.annBody)
               (scenario.smtpWorld
                  (scenario.emptyRepo [None; Some (OtherError "connection reset")])
                  [Some (OtherError "dial tcp: i/o timeout")]) in
  In (oDelete 1 (Some (OtherError "connection reset"))) (fst (fst r)) /\
  responses (fst (fst r)) =
    [oInternalServerError (OtherError "dial tcp: i/o timeout")] /\
  hasAccount (w_store (snd r)) 1 = true /\
  exists u, fst (store_GetByEmail (w_store (snd r)) (lit "ann@example.com")) = inr u
            /\ store.ID u = 1.
Proof.
  cbv zeta. split; [ vm_compute; do 6 right; left; reflexivity | ].
  split; [ vm_compute; reflexivity | ].
  split; [ vm_compute; reflexivity | ].
  eexists. split; vm_compute; reflexivity.
Qed.

(* ================================================================== *)
(** ** C5: the invitation token *)

Lemma sum256_length (msg : list Z) : List.length (Sha256.Sum256 msg) = 32%nat.
Proof. unfold Sha256.Sum256. reflexivity. Qed.

Lemma hex_length (bs : list Z) :
  List.length (Hex.EncodeToString bs) = (2 * List.length bs)%nat.
Proof.
  induction bs as [| b bs IH]; [ reflexivity | ].
  change (Hex.EncodeToString (b :: bs))
    with (Hex.digit (Z.shiftr b 4) :: Hex.digit (Z.land b 15) :: Hex.EncodeToString bs).
  cbn [List.length]. rewrite IH. lia.
Qed.

Lemma plainToken_length (rnd : list Z) : List.length (plainTokenOf rnd) = 36%nat.
Proof. reflexivity. Qed.

Lemma hashToken_length (plain : gostring) : List.length (hashTokenOf plain) = 64%nat.
Proof. unfold hashTokenOf. rewrite hex_length, sum256_length. reflexivity. Qed.

Lemma hashToken_differs (rnd : list Z) : hashTokenOf (plainTokenOf rnd) <> plainTokenOf rnd.
Proof.
  intros H. apply (f_equal (@List.length Z)) in H.
  rewrite hashToken_length, plainToken_length in H. discriminate H.
Qed.

Lemma byteAt_kept (rnd : list Z) (i : nat) : Uuid.byteAt rnd i mod 256 = Uuid.byteAt rnd i.
Proof. unfold Uuid.byteAt. apply Z.mod_mod. lia. Qed.

Lemma land_small (b m : Z) : 0 <= m < 256 -> 0 <= b -> Z.land b m mod 256 = Z.land b m.
Proof.
  intros Hm Hb. apply Z.mod_small.
  assert (H0 : 0 <= Z.land b m) by (apply Z.land_nonneg; left; exact Hb).
  split; [ exact H0 | ].
  destruct (Z.eq_dec (Z.land b m) 0) as [-> | Hz]; [ lia | ].
  assert (Hl : Z.log2 (Z.land b m) <= Z.log2 m).
  { etransitivity; [ apply Z.log2_land; lia | apply Z.le_min_r ]. }
  assert (Hm8 : Z.log2 m < 8).
  { destruct (Z.eq_dec m 0) as [-> | Hmz]; [ reflexivity | ].
    apply Z.log2_lt_pow2; lia. }
  apply Z.log2_lt_cancel. change (Z.log2 256) with 8. lia.
Qed.

Lemma new_kept (rnd : list Z) : Uuid.New (keptBits rnd) = Uuid.New rnd.
Proof.
  pose proof (byteAt_range rnd 6) as H6. pose proof (byteAt_range rnd 8) as H8.
  unfold Uuid.New, keptBits.
  repeat match goal with
         | |- context [Uuid.byteAt (?a :: ?l) ?i] =>
             progress change (Uuid.byteAt (a :: l) i)
               with (nth i (a :: l) 0 mod 256); cbn [nth]
         end.
  rewrite !byteAt_kept.
  rewrite (@land_small (Uuid.byteAt rnd 6) 15) by lia.
  rewrite (@land_small (Uuid.byteAt rnd 8) 63) by lia.
  rewrite <- !Z.land_assoc. reflexivity.
Qed.

Lemma kept_widths (rnd : list Z) :
  Forall2 (fun b width => 0 <= b < 2 ^ width) (keptBits rnd) keptWidths.
Proof.
  assert (H4 : forall b, 0 <= Z.land b 15 < 2 ^ 4).
  { intros b. change 15 with (Z.ones 4). rewrite Z.land_ones by lia.
    apply Z.mod_pos_bound. reflexivity. }
  assert (H6 : forall b, 0 <= Z.land b 63 < 2 ^ 6).
  { intros b. change 63 with (Z.ones 6). rewrite Z.land_ones by lia.
    apply Z.mod_pos_bound. reflexivity. }
  unfold keptBits, keptWidths.
  repeat (constructor;
          [ first [ apply H4 | apply H6 | exact (byteAt_range rnd _) ] | ]).
  constructor.
Qed.

Lemma uuid_byte_range (rnd : list Z) : Forall (fun b => 0 <= b < 256) (Uuid.New rnd).
Proof.
  assert (H6 : 0 <= Z.lor (Z.land (Uuid.byteAt rnd 6) 15) 64 < 256).
  { pose proof (lo_nibble (Uuid.byteAt rnd 6)) as Hn.
    split; [ apply Z.lor_nonneg; lia | ].
    apply Z.log2_lt_cancel.
    destruct (Z.eq_dec (Z.land (Uuid.byteAt rnd 6) 15) 0) as [-> | Hz]; [ reflexivity | ].
    rewrite Z.log2_lor by lia. change (Z.log2 256) with 8. change (Z.log2 64) with 6.
    assert (Z.log2 (Z.land (Uuid.byteAt rnd 6) 15) < 4) by (apply Z.log2_lt_pow2; lia).
    lia. }
  assert (H8 : 0 <= Z.lor (Z.land (Uuid.byteAt rnd 8) 63) 128 < 256).
  { assert (Hn : 0 <= Z.land (Uuid.byteAt rnd 8) 63 < 64).
    { change 63 with (Z.ones 6). rewrite Z.land_ones by lia.
      apply Z.mod_pos_bound. reflexivity. }
    split; [ apply Z.lor_nonneg; lia | ].
    apply Z.log2_lt_cancel.
    destruct (Z.eq_dec (Z.land (Uuid.byteAt rnd 8) 63) 0) as [-> | Hz]; [ reflexivity | ].
    rewrite Z.log2_lor by lia. change (Z.log2 256) with 8. change (Z.log2 128) with 7.
    assert (Z.log2 (Z.land (Uuid.byteAt rnd 8) 63) < 6) by (apply Z.log2_lt_pow2; lia).
    lia. }
  unfold Uuid.New.
  repeat (constructor; [ first [ exact H6 | exact H8 | apply byteAt_range ] | ]).
  constructor.
Qed.

(** The two hexadecimal digits of a byte give the byte back. *)
Lemma undigit_digit (n : Z) : 0 <= n < 16 -> undigit (Hex.digit n) = n.
Proof.
  intros H. unfold Hex.digit.
  assert (Hk : (Z.to_nat n < 16)%nat) by lia.
  assert (Hn : n = Z.of_nat (Z.to_nat n)) by lia.
  rewrite Hn at 2. remember (Z.to_nat n) as k eqn:Ek. clear Ek H Hn.
  do 16 (destruct k as [| k]; [ reflexivity | ]). lia.
Qed.

Lemma hex_byte_inj (a b : Z) :
  0 <= a < 256 -> 0 <= b < 256 ->
  Hex.digit (Z.shiftr a 4) = Hex.digit (Z.shiftr b 4) ->
  Hex.digit (Z.land a 15) = Hex.digit (Z.land b 15) ->
  a = b.
Proof.
  intros Ha Hb Hhi Hlo.
  apply (f_equal undigit) in Hhi. apply (f_equal undigit) in Hlo.
  rewrite !undigit_digit in Hhi, Hlo
    by first [ apply hi_nibble; assumption | apply lo_nibble ].
  rewrite !Z.shiftr_div_pow2 in Hhi by lia.
  change 15 with (Z.ones 4) in Hlo. rewrite !Z.land_ones in Hlo by lia.
  change (2 ^ 4) with 16 in *.
  rewrite (Z.div_mod a 16), (Z.div_mod b 16) by lia. lia.
Qed.

(** The text of a UUID gives its 16 bytes back. *)
Lemma uuid_text_inj (r1 r2 : list Z) :
  Uuid.String (Uuid.New r1) = Uuid.String (Uuid.New r2) -> Uuid.New r1 = Uuid.New r2.
Proof.
  intros H.
  pose proof (uuid_byte_range r1) as R1. pose proof (uuid_byte_range r2) as R2.
  assert (Hbyte : forall i p,
             nth p (Uuid.String (Uuid.New r1)) 0 =
               Hex.digit (Z.shiftr (nth i (Uuid.New r1) 0) 4) ->
             nth (S p) (Uuid.String (Uuid.New r1)) 0 =
               Hex.digit (Z.land (nth i (Uuid.New r1) 0) 15) ->
             nth p (Uuid.String (Uuid.New r2)) 0 =
               Hex.digit (Z.shiftr (nth i (Uuid.New r2) 0) 4) ->
             nth (S p) (Uuid.String (Uuid.New r2)) 0 =
               Hex.digit (Z.land (nth i (Uuid.New r2) 0) 15) ->
             (i < 16)%nat ->
             nth i (Uuid.New r1) 0 = nth i (Uuid.New r2) 0).
  { intros i p A1 B1 A2 B2 Hi.
    assert (In1 : 0 <= nth i (Uuid.New r1) 0 < 256).
    { apply (proj1 (Forall_forall _ _) R1). apply nth_In. exact Hi. }
    assert (In2 : 0 <= nth i (Uuid.New r2) 0 < 256).
    { apply (proj1 (Forall_forall _ _) R2). apply nth_In. exact Hi. }
    apply hex_byte_inj; try assumption.
    - rewrite <- A1, <- A2, H. reflexivity.
    - rewrite <- B1, <- B2, H. reflexivity. }
  assert (H0 := Hbyte 0%nat 0%nat eq_refl eq_refl eq_refl eq_refl ltac:(cbn; lia)).
  assert (H1 := Hbyte 1%nat 2%nat eq_refl eq_refl eq_refl eq_refl ltac:(cbn; lia)).
  assert (H2 := Hbyte 2%nat 4%nat eq_refl eq_refl eq_refl eq_refl ltac:(cbn; lia)).
  assert (H3 := Hbyte 3%nat 6%nat eq_refl eq_refl eq_refl eq_refl ltac:(cbn; lia)).
  assert (H4 := Hbyte 4%nat 9%nat eq_refl eq_refl eq_refl eq_refl ltac:(cbn; lia)).
  assert (H5 := Hbyte 5%nat 11%nat eq_refl eq_refl eq_refl eq_refl ltac:(cbn; lia)).
  assert (H6 := Hbyte 6%nat 14%nat eq_refl eq_refl eq_refl eq_refl ltac:(cbn; lia)).
  assert (H7 := Hbyte 7%nat 16%nat eq_refl eq_refl eq_refl eq_refl ltac:(cbn; lia)).
  assert (H8 := Hbyte 8%nat 19%nat eq_refl eq_refl eq_refl eq_refl ltac:(cbn; lia)).
  assert (H9 := Hbyte 9%nat 21%nat eq_refl eq_refl eq_refl eq_refl ltac:(cbn; lia)).
  assert (H10 := Hbyte 10%nat 24%nat eq_refl eq_refl eq_refl eq_refl ltac:(cbn; lia)).
  assert (H11 := Hbyte 11%nat 26%nat eq_refl eq_refl eq_refl eq_refl ltac:(cbn; lia)).
  assert (H12 := Hbyte 12%nat 28%nat eq_refl eq_refl eq_refl eq_refl ltac:(cbn; lia)).
  assert (H13 := Hbyte 13%nat 30%nat eq_refl eq_refl eq_refl eq_refl ltac:(cbn; lia)).
  assert (H14 := Hbyte 14%nat 32%nat eq_refl eq_refl eq_refl eq_refl ltac:(cbn; lia)).
  assert (H15 := Hbyte 15%nat 34%nat eq_refl eq_refl eq_refl eq_refl ltac:(cbn; lia)).
  clear Hbyte H R1 R2.
  unfold Uuid.New in *. cbn [nth] in *.
  congruence.
Qed.

(** The version and the variant written over a byte leave its other bits
    readable. *)
Lemma marked_nibble (x y : Z) :
  Z.lor (Z.land x 15) 64 = Z.lor (Z.land y 15) 64 -> Z.land x 15 = Z.land y 15.
Proof.
  intros H. apply (f_equal (fun v => Z.land v 15)) in H.
  rewrite !Z.land_lor_distr_l, <- !Z.land_assoc in H.
  change (Z.land 15 15) with 15 in H. change (Z.land 64 15) with 0 in H.
  rewrite !Z.lor_0_r in H. exact H.
Qed.

Lemma marked_variant (x y : Z) :
  Z.lor (Z.land x 63) 128 = Z.lor (Z.land y 63) 128 -> Z.land x 63 = Z.land y 63.
Proof.
  intros H. apply (f_equal (fun v => Z.land v 63)) in H.
  rewrite !Z.land_lor_distr_l, <- !Z.land_assoc in H.
  change (Z.land 63 63) with 63 in H. change (Z.land 128 63) with 0 in H.
  rewrite !Z.lor_0_r in H. exact H.
Qed.

(** Two draws give the same token exactly when they agree on the bits
    that [uuid.New] keeps. *)
Lemma token_kept (r1 r2 : list Z) :
  plainTokenOf r1 = plainTokenOf r2 <-> keptBits r1 = keptBits r2.
Proof.
  unfold plainTokenOf. split; intros H.
  - apply uuid_text_inj in H. unfold Uuid.New in H.
    injection H as E0 E1 E2 E3 E4 E5 E6 E7 E8 E9 E10 E11 E12 E13 E14 E15.
    apply marked_nibble in E6. apply marked_variant in E8.
    unfold keptBits. congruence.
  - rewrite <- (new_kept r1), <- (new_kept r2), H. reflexivity.
Qed.

(** Every value of the 122 bits is kept from some draw: from itself. *)
Lemma kept_onto (bits : list Z) :
  Forall2 (fun b width => 0 <= b < 2 ^ width) bits keptWidths -> keptBits bits = bits.
Proof.
  unfold keptWidths. intros H.
  repeat match goal with
         | H : Forall2 _ _ (_ :: _) |- _ =>
             let Hb := fresh "Hb" in
             let Hr := fresh "Hr" in
             inversion H as [| ? ? ? ? Hb Hr]; subst; clear H
         | H : Forall2 _ _ [] |- _ => inversion H; subst; clear H
         end.
  unfold keptBits, Uuid.byteAt. cbn [nth].
  repeat match goal with
         | Hb : 0 <= ?x < 2 ^ 8 |- context [?x mod 256] =>
             rewrite (Z.mod_small x 256) by (change (2 ^ 8) with 256 in Hb; lia)
         end.
  match goal with
  | H4 : 0 <= ?x < 2 ^ 4 |- _ =>
      rewrite (Z.mod_small x 256) by (change (2 ^ 4) with 16 in H4; lia);
      change 15 with (Z.ones 4); rewrite (Z.land_ones x 4) by lia;
      rewrite (Z.mod_small x (2 ^ 4)) by exact H4
  end.
  match goal with
  | H6 : 0 <= ?x < 2 ^ 6 |- _ =>
      rewrite (Z.mod_small x 256) by (change (2 ^ 6) with 64 in H6; lia);
      change 63 with (Z.ones 6); rewrite (Z.land_ones x 6) by lia;
      rewrite (Z.mod_small x (2 ^ 6)) by exact H6
  end.
  reflexivity.
Qed.

Section Token.
Context {L : GoLib}.
Variable app : config.

Lemma loop_tokens (payload : RegisterUserPayload) (tok : gostring)
      (n : nat) (u : store.User) (t : list Obs) (out : option store.User) :
  loopRun app payload tok n u t out ->
  (forall u' tok' exp' res, In (oCreateAndInvite u' tok' exp' res) t -> tok' = tok) /\
  (forall st data werr, ~ In (oJsonResponse st data werr) t).
Proof.
  induction 1 as [u | n u id | n u | n u e He1 He2 | n u rnd t out H IH].
  - split; [ intros u' tok' exp' res [] | intros st data werr [] ].
  - split.
    + intros u' tok' exp' res [Hin | []]. injection Hin as _ <- _ _. reflexivity.
    + intros st data werr [Hin | []]. discriminate Hin.
  - split.
    + intros u' tok' exp' res [Hin | [Hin | []]]; [ | discriminate Hin ].
      injection Hin as _ <- _ _. reflexivity.
    + intros st data werr [Hin | [Hin | []]]; discriminate Hin.
  - split.
    + intros u' tok' exp' res [Hin | [Hin | []]]; [ | discriminate Hin ].
      injection Hin as _ <- _ _. reflexivity.
    + intros st data werr [Hin | [Hin | []]]; discriminate Hin.
  - destruct IH as (H1 & H2). split.
    + intros u' tok' exp' res [Hin | [Hin | Hin]]; [ | discriminate Hin | ].
      * injection Hin as _ <- _ _. reflexivity.
      * exact (H1 _ _ _ _ Hin).
    + intros st data werr [Hin | [Hin | Hin]]; try discriminate Hin.
      exact (H2 _ _ _ Hin).
Qed.

Lemma body_token (payload : RegisterUserPayload) (t : list Obs) :
  bodyRun app payload t ->
  forall st data werr,
    In (oJsonResponse st data werr) t ->
    exists rnd u,
      In (oRandRead rnd) t /\ st = StatusCreated /\
      data = dataUserWithToken {| User := u; Token := plainTokenOf rnd |} /\
      (forall u' tok exp res,
          In (oCreateAndInvite u' tok exp res) t ->
          tok = hashTokenOf (plainTokenOf rnd)) /\
      (exists u0 exp,
          In (oCreateAndInvite u0 (hashTokenOf (plainTokenOf rnd)) exp
                               (inr (store.ID u))) t) /\
      (exists tmpl un em d sb res,
          In (oSend tmpl un em d sb res) t /\
          ActivationURL d = frontendURL app ++ lit "/confirm/" ++ plainTokenOf rnd).
Proof.
  intros H st data werr Hin.
  destruct H as [pre name err Hu | pre name pw rnd0 t1 out t2 Hu Hl Ht].
  { exfalso. apply in_app_or in Hin. destruct Hin as [Hin | Hin].
    - destruct Hu; [ destruct Hin | destruct Hin as [Hin | []]; discriminate Hin ].
    - destruct Hin as [Hin | [Hin | []]]; discriminate Hin. }
  destruct (loop_tokens Hl) as (Htok & Hnj).
  destruct (loop_success Hl) as [_ Hok].
  assert (Hpre : forall o, In o pre -> isRandRead o = true).
  { intros o Ho. destruct Hu; [ destruct Ho | ].
    destruct Ho as [<- | []]. reflexivity. }
  assert (Hin2 : In (oJsonResponse st data werr) t2).
  { apply in_app_or in Hin. destruct Hin as [Hin | Hin].
    - apply Hpre in Hin. discriminate Hin.
    - destruct Hin as [Hin | [Hin | Hin]]; try discriminate Hin.
      apply in_app_or in Hin. destruct Hin as [Hin | Hin]; [ | exact Hin ].
      exfalso. exact (Hnj _ _ _ Hin). }
  destruct out as [u |]; [ | subst t2; destruct Hin2 ].
  destruct Ht as [Hz | status werr' Hnz | status merr derr Hnz].
  - destruct Hin2 as [Hin2 | []]. discriminate Hin2.
  - assert (Hj : oJsonResponse st data werr =
                 created u (Uuid.String (Uuid.New rnd0)) werr').
    { destruct werr'; cbn in Hin2;
        repeat (destruct Hin2 as [Hin2 | Hin2]; try discriminate Hin2);
        first [ symmetry; exact Hin2 | contradiction ]. }
    unfold created in Hj. injection Hj as -> -> _.
    destruct (Hok u eq_refl) as (t0 & u0 & id & -> & -> & _).
    { cbn [newUser store.ID]. exact Hnz. }
    exists rnd0, (store.setID u0 id).
    split; [ apply in_or_app; right; right; left; reflexivity | ].
    split; [ reflexivity | ]. split; [ reflexivity | ].
    split; [ | split ].
    + intros u' tok exp res Hc.
      apply in_app_or in Hc. destruct Hc as [Hc | Hc].
      { apply Hpre in Hc. discriminate Hc. }
      destruct Hc as [Hc | [Hc | Hc]]; try discriminate Hc.
      apply in_app_or in Hc. destruct Hc as [Hc | Hc].
      { exact (Htok _ _ _ _ Hc). }
      destruct werr'; cbn in Hc;
        repeat (destruct Hc as [Hc | Hc]; try discriminate Hc); contradiction.
    + exists u0, (mail_exp app).
      apply in_or_app; right; right; right.
      apply in_or_app; left. apply in_or_app; right. left. reflexivity.
    + eexists _, _, _, _, _, _. split.
      * apply in_or_app; right; right; right.
        apply in_or_app; right. left. reflexivity.
      * reflexivity.
  - exfalso. destruct derr; cbn in Hin2;
      repeat (destruct Hin2 as [Hin2 | Hin2]; try discriminate Hin2); exact Hin2.
Qed.

End Token.

(** C5, as the code has it.  In every run of the registration handler
    that writes the success response, the plaintext token is the text of
    a version 4 UUID made from 16 bytes that [uuid.New] has read from its
    random source, and from nothing else.  It carries 122 of their bits,
    no more and no fewer (the version and variant bits are fixed): two
    draws give the same token exactly when they agree on those 122 bits,
    and every value of the 122 bits is that of some draw.  Every create
    of the run was given the hexadecimal SHA-256 of that text, which has
    64 characters against the 36 of the plaintext and so is never the
    plaintext itself; the create that succeeded was for the account of
    the response; and the response, with status 201, carries that account
    and the plaintext, which is also the end of the activation address
    given to the mailer. *)
Theorem register_invitation_token :
  forall (L : GoLib) (app : config) (E : Env) (s s' : state E)
         (body : Json.Body) (t : list Obs),
    run E (registerUserHandler app body) s = (t, tt, s') ->
    forall st data werr,
      In (oJsonResponse st data werr) t ->
      exists rnd u,
        In (oRandRead rnd) t /\ st = StatusCreated /\
        data = dataUserWithToken {| User := u; Token := plainTokenOf rnd |} /\
        (forall u' tok exp res,
            In (oCreateAndInvite u' tok exp res) t ->
            tok = hashTokenOf (plainTokenOf rnd)) /\
        (exists u0 exp,
            In (oCreateAndInvite u0 (hashTokenOf (plainTokenOf rnd)) exp
                                 (inr (store.ID u))) t) /\
        (exists tmpl un em d sb res,
            In (oSend tmpl un em d sb res) t /\
            ActivationURL d = frontendURL app ++ lit "/confirm/" ++ plainTokenOf rnd) /\
        hashTokenOf (plainTokenOf rnd) <> plainTokenOf rnd /\
        List.length (hashTokenOf (plainTokenOf rnd)) = 64%nat /\
        List.length (plainTokenOf rnd) = 36%nat /\
        plainTokenOf rnd = plainTokenOf (keptBits rnd) /\
        Forall2 (fun b width => 0 <= b < 2 ^ width) (keptBits rnd) keptWidths /\
        fold_right Z.add 0 keptWidths = 122 /\
        (forall rnd',
            plainTokenOf rnd' = plainTokenOf rnd <-> keptBits rnd' = keptBits rnd) /\
        (forall bits,
            Forall2 (fun b width => 0 <= b < 2 ^ width) bits keptWidths ->
            keptBits bits = bits).
Proof.
  intros L app E s s' body t Hrun st data werr Hin.
  apply run_exec, register_shape in Hrun.
  destruct (readJSON registerTarget body) as [err | payload].
  { subst t. destruct Hin as [Hin | []]. discriminate Hin. }
  destruct (Validate_Struct Validate (registerFields payload)) as [err |].
  { subst t. destruct Hin as [Hin | []]. discriminate Hin. }
  destruct (body_token Hrun _ _ _ Hin) as (rnd & u & H1 & H2 & H3 & H4 & H5 & H6).
  exists rnd, u.
  repeat (split; [ assumption | ]).
  split; [ apply hashToken_differs | ].
  split; [ apply hashToken_length | ].
  split; [ apply plainToken_length | ].
  split; [ unfold plainTokenOf; rewrite new_kept; reflexivity | ].
  split; [ apply kept_widths | ].
  split; [ reflexivity | ].
  split; [ intros rnd'; apply token_kept | exact kept_onto ].
Qed.

(** Ann registers in an empty repository: the repository is given the
    SHA-256 of the token of the response. *)
Lemma register_invitation_token_witness :
  let r := run worldEnv
               (registerUserHandler (L:=asciiLib) scenario.cfg scenario.annBody)
               (scenario.noopWorld (scenario.emptyRepo []) [[1; 2; 3]; [4; 5; 6]] []) in
  count isCreate (fst (fst r)) = 1%nat /\
  forall u' tok exp res,
    In (oCreateAndInvite u' tok exp res) (fst (fst r)) ->
    tok = hashTokenOf (lit "04050600-0000-4000-8000-000000000000").
Proof.
  cbv zeta. split; [ vm_compute; reflexivity | ].
  intros u' tok exp res Hc.
  edestruct (@register_invitation_token asciiLib scenario.cfg worldEnv
               (scenario.noopWorld (scenario.emptyRepo []) [[1; 2; 3]; [4; 5; 6]] [])
               _ scenario.annBody _ (run_unit _ _ _))
    as (rnd & u & _ & _ & Hd & Htok & _).
  { vm_compute. do 6 right. left. reflexivity. }
  rewrite (Htok _ _ _ _ Hc).
  apply (f_equal (fun d => match d with
                           | dataUserWithToken x => Token x
                           | dataToken x => x
                           end)) in Hd.
  cbn beta iota delta [Token] in Hd. rewrite <- Hd. reflexivity.
Defined.

(** C5, as the claim words it, fails on the entropy: the token does not
    carry 128 random bits.  Two different draws of 16 random bytes, which
    differ in the bits that [uuid.New] overwrites, give the same token. *)
Lemma invitation_token_not_128_bits :
  let r1 := [0; 0; 0; 0; 0; 0; 0; 0; 0; 0; 0; 0; 0; 0; 0; 0] in
  let r2 := [0; 0; 0; 0; 0; 0; 240; 0; 192; 0; 0; 0; 0; 0; 0; 0] in
  r1 <> r2 /\
  Forall (fun b => 0 <= b < 256) r1 /\ Forall (fun b => 0 <= b < 256) r2 /\
  plainTokenOf r1 = plainTokenOf r2 /\
  show (plainTokenOf r1) = "00000000-0000-4000-8000-000000000000"%string.
Proof.
  cbv zeta. split; [ discriminate | ].
  split; [ repeat constructor; lia | ].
  split; [ repeat constructor; lia | ].
  split; vm_compute; reflexivity.
Qed.

(* ================================================================== *)
(** ** createTokenHandler *)

Section LoginShape.
Context {L : GoLib}.
Variable app : config.

Lemma login_shape (body : Json.Body) (t : list Obs) :
  exec (createTokenHandler app body) t tt ->
  match readJSON tokenTarget body with
  | inl err => t = [oBadRequest err]
  | inr payload =>
      match Validate_Struct Validate (tokenFields payload) with
      | Some err => t = [oBadRequest err]
      | None => loginRun app payload t
      end
  end.
Proof.
  unfold createTokenHandler. intros H.
  destruct (readJSON tokenTarget body) as [err | payload].
  { apply exec_call in H. exact H. }
  destruct (Validate_Struct Validate (tokenFields payload)) as [err |].
  { apply exec_call in H. exact H. }
  exec_step H. cbn [observe]. destruct x as [err | user].
  { destruct err;
      try (apply exec_call in H; subst; cbn [observe];
           first [ apply login_unknown | apply login_lookup_failed; discriminate ]). }
  exec_step H. cbn [observe]. destruct x as [err |].
  { apply exec_call in H. subst. cbn [observe].
    exact (login_wrong_password app payload user err). }
  exec_step H. exec_step H. exec_step H. exec_step H. cbn [observe].
  destruct x2 as [err | tk].
  { apply exec_call in H. subst. cbn [observe].
    exact (login_unsigned app payload user x x0 x1 err). }
  exec_step H. cbn [observe]. destruct x2 as [err |].
  - apply exec_call in H. subst. cbn [observe].
    exact (login_issued app payload user x x0 x1 tk (Some err)).
  - destruct H as [-> _].
    exact (login_issued app payload user x x0 x1 tk None).
Qed.

End LoginShape.

Lemma received_responses (t : list Obs) :
  errors.received t = errors.received (responses t).
Proof.
  induction t as [| o t IH]; [ reflexivity | ].
  destruct o; cbn [errors.received errors.reply responses filter isResponse];
    fold (responses t); cbn [errors.received errors.reply];
    rewrite <- ?IH; reflexivity.
Qed.

(** The two ways a login is refused, on the trace. *)
Lemma login_refused (L : GoLib) (app : config) (E : Env) (s s' : state E)
      (body : Json.Body) (t : list Obs) :
  run E (createTokenHandler app body) s = (t, tt, s') ->
  (forall em,
      In (oGetByEmail em (inl ErrNotFound)) t ->
      responses t = [oUnauthorized ErrNotFound] /\
      map kindOf (responses t) = [Some Unauthorized] /\
      count isGenerateToken t = 0%nat) /\
  (forall p plain err,
      In (oPasswordCompare p plain (Some err)) t ->
      responses t = [oUnauthorized err] /\
      map kindOf (responses t) = [Some Unauthorized] /\
      count isGenerateToken t = 0%nat).
Proof.
  intros Hrun.
  apply run_exec, login_shape in Hrun.
  destruct (readJSON tokenTarget body) as [err | payload].
  { subst t. split; intros; destruct H as [H | []]; discriminate H. }
  destruct (Validate_Struct Validate (tokenFields payload)) as [err |].
  { subst t. split; intros; destruct H as [H | []]; discriminate H. }
  destruct Hrun as [ | err Hne | user err | user t1 t2 t3 err | user t1 t2 t3 tk werr ].
  - split; [ intros em _; repeat split | ].
    intros p plain err [H | [H | []]]; discriminate H.
  - split.
    + intros em [H | [H | []]]; [ | discriminate H ].
      injection H as _ H. congruence.
    + intros p plain err' [H | [H | []]]; discriminate H.
  - split.
    + intros em [H | [H | [H | []]]]; discriminate H.
    + intros p plain err' [H | [H | [H | []]]]; try discriminate H.
      injection H as _ _ <-. repeat split.
  - split.
    + intros em H. cbn in H.
      repeat (destruct H as [H | H]; try discriminate H). contradiction.
    + intros p plain err' H. cbn in H.
      repeat (destruct H as [H | H]; try discriminate H). contradiction.
  - split.
    + intros em H. destruct werr; cbn in H;
        repeat (destruct H as [H | H]; try discriminate H); contradiction.
    + intros p plain err' H. destruct werr; cbn in H;
        repeat (destruct H as [H | H]; try discriminate H); contradiction.
Qed.

(** C6.  In every run of the login handler, a lookup that finds no
    account ([ErrNotFound]) and a password comparison that fails both end
    in exactly one response, made by [unauthorizedErrorResponse]: the
    kind of the response is the same in the two cases, and no token is
    generated in either.  The handler passes the underlying error to the
    helper, which is in errors.go; with the helper as the design document
    describes it, the caller receives the same single reply in the two
    cases, so that nothing it receives tells a missing account from a
    wrong password. *)
Theorem login_failures_are_unauthorized :
  forall (L : GoLib) (app : config) (E : Env) (s s' : state E)
         (body : Json.Body) (t : list Obs),
    run E (createTokenHandler app body) s = (t, tt, s') ->
    (forall em,
        In (oGetByEmail em (inl ErrNotFound)) t ->
        responses t = [oUnauthorized ErrNotFound] /\
        map kindOf (responses t) = [Some Unauthorized] /\
        errors.received t = [errors.Unauthorized] /\
        count isGenerateToken t = 0%nat) /\
    (forall p plain err,
        In (oPasswordCompare p plain (Some err)) t ->
        responses t = [oUnauthorized err] /\
        map kindOf (responses t) = [Some Unauthorized] /\
        errors.received t = [errors.Unauthorized] /\
        count isGenerateToken t = 0%nat) /\
    (forall (E2 : Env) (s2 s2' : state E2) (body2 : Json.Body) (t2 : list Obs),
        run E2 (createTokenHandler app body2) s2 = (t2, tt, s2') ->
        forall em p plain err,
          In (oGetByEmail em (inl ErrNotFound)) t ->
          In (oPasswordCompare p plain (Some err)) t2 ->
          errors.received t = errors.received t2).
Proof.
  intros L app E s s' body t Hrun.
  destruct (@login_refused _ _ _ _ _ _ _ Hrun) as [Hn Hc].
  split; [ | split ].
  - intros em Hin. destruct (Hn em Hin) as (H1 & H2 & H3).
    repeat split; try assumption.
    rewrite received_responses, H1. reflexivity.
  - intros p plain err Hin. destruct (Hc p plain err Hin) as (H1 & H2 & H3).
    repeat split; try assumption.
    rewrite received_responses, H1. reflexivity.
  - intros E2 s2 s2' body2 t2 Hrun2 em p plain err Hin Hin2.
    destruct (@login_refused _ _ _ _ _ _ _ Hrun2) as [_ Hc2].
    destruct (Hn em Hin) as (H1 & _). destruct (Hc2 p plain err Hin2) as (H2 & _).
    rewrite (received_responses t), (received_responses t2), H1, H2. reflexivity.
Qed.

(** A wrong password for Ann, and a login for an e-mail nobody has: the
    same kind of response, and the same reply. *)
Lemma login_failures_are_unauthorized_witness :
  let wrong := run worldEnv
                   (createTokenHandler (L:=asciiLib) scenario.cfg
                      (scenario.loginBody "not-the-password"))
                   (scenario.noopWorld scenario.annRepo [] []) in
  let unknown := run worldEnv
                     (createTokenHandler (L:=asciiLib) scenario.cfg
                        (scenario.loginBody "not-the-password"))
                     (scenario.noopWorld (scenario.emptyRepo []) [] []) in
  map kindOf (responses (fst (fst wrong))) = [Some Unauthorized] /\
  map kindOf (responses (fst (fst unknown))) = [Some Unauthorized] /\
  count isGenerateToken (fst (fst wrong)) = 0%nat /\
  count isGenerateToken (fst (fst unknown)) = 0%nat /\
  errors.received (fst (fst unknown)) = errors.received (fst (fst wrong)) /\
  errors.received (fst (fst wrong)) = [errors.Unauthorized].
Proof.
  cbv zeta.
  destruct (@login_failures_are_unauthorized asciiLib scenario.cfg worldEnv
              (scenario.noopWorld scenario.annRepo [] []) _
              (scenario.loginBody "not-the-password") _ (run_unit _ _ _))
    as (_ & Hw & _).
  destruct (@login_failures_are_unauthorized asciiLib scenario.cfg worldEnv
              (scenario.noopWorld (scenario.emptyRepo []) [] []) _
              (scenario.loginBody "not-the-password") _ (run_unit _ _ _))
    as (Hu & _ & Hsame).
  edestruct Hw as (_ & Hw2 & Hw3 & Hw4).
  { vm_compute. right. left. reflexivity. }
  edestruct Hu as (_ & Hu2 & _ & Hu4).
  { vm_compute. left. reflexivity. }
  split; [ exact Hw2 | ]. split; [ exact Hu2 | ].
  split; [ exact Hw4 | ]. split; [ exact Hu4 | ].
  split; [ | exact Hw3 ].
  eapply (Hsame worldEnv (scenario.noopWorld scenario.annRepo [] []) _
            (scenario.loginBody "not-the-password") _ (run_unit _ _ _)).
  - vm_compute. left. reflexivity.
  - vm_compute. right. left. reflexivity.
Defined.

(** C7.  In every run of the login handler in which a token is minted,
    the account was found by e-mail and the password compared without
    error; the clock is then read three times, and the claim set has
    "sub" the id of the account, "exp" the Unix time of the first reading
    plus the configured duration, "iat" and "nbf" the Unix times of the
    second and third readings, and "iss" and "aud" both the configured
    issuer, six claims in all.  The lookup by e-mail is the only call to
    the repository in the run: nothing is stored or read for a session. *)
Theorem login_mints_time_bound_claims :
  forall (L : GoLib) (app : config) (E : Env) (s s' : state E)
         (body : Json.Body) (t : list Obs),
    run E (createTokenHandler app body) s = (t, tt, s') ->
    forall claims res,
      In (oGenerateToken claims res) t ->
      exists em plain user t1 t2 t3 rest,
        t = [oGetByEmail em (inr user);
             oPasswordCompare (store.Password user) plain None;
             oNow t1; oNow t2; oNow t3; oGenerateToken claims res] ++ rest /\
        getClaim claims "sub" = Some (claimInt (store.ID user)) /\
        getClaim claims "exp" =
          Some (claimInt (time_Unix (time_Add t1 (auth_token_exp app)))) /\
        getClaim claims "iat" = Some (claimInt (time_Unix t2)) /\
        getClaim claims "nbf" = Some (claimInt (time_Unix t3)) /\
        getClaim claims "iss" = Some (claimString (auth_token_iss app)) /\
        getClaim claims "aud" = Some (claimString (auth_token_iss app)) /\
        List.length claims = 6%nat /\
        filter isStoreCall t = [oGetByEmail em (inr user)].
Proof.
  intros L app E s s' body t Hrun claims res Hin.
  apply run_exec, login_shape in Hrun.
  destruct (readJSON tokenTarget body) as [err | payload].
  { subst t. destruct Hin as [H | []]. discriminate H. }
  destruct (Validate_Struct Validate (tokenFields payload)) as [err |].
  { subst t. destruct Hin as [H | []]. discriminate H. }
  destruct Hrun as [ | err Hne | user err | user t1 t2 t3 err | user t1 t2 t3 tk werr ].
  - destruct Hin as [H | [H | []]]; discriminate H.
  - destruct Hin as [H | [H | []]]; discriminate H.
  - destruct Hin as [H | [H | [H | []]]]; discriminate H.
  - cbn in Hin. repeat (destruct Hin as [Hin | Hin]; try discriminate Hin);
      [ | contradiction ].
    injection Hin as <- <-.
    exists (token.Email payload), (token.Password payload), user, t1, t2, t3,
      [oInternalServerError err].
    repeat split.
  - assert (Hg : claims = loginClaims app user t1 t2 t3 /\ res = inr tk).
    { destruct werr; cbn in Hin;
        repeat (destruct Hin as [Hin | Hin]; try discriminate Hin);
        try contradiction; injection Hin as <- <-; split; reflexivity. }
    destruct Hg as [-> ->].
    exists (token.Email payload), (token.Password payload), user, t1, t2, t3,
      (oJsonResponse StatusCreated (dataToken tk) werr
         :: afterError werr oInternalServerError).
    repeat split. destruct werr; reflexivity.
Qed.

(** Ann logs in at 1700000000.25 s, the clock moving on between the
    readings. *)
Lemma login_mints_time_bound_claims_witness :
  let r := run worldEnv
               (createTokenHandler (L:=asciiLib) scenario.cfg
                  (scenario.loginBody "Str0ng!Pass"))
               (scenario.noopWorld scenario.annRepo []
                  [1700000000250000000; 1700000000250000400; 1700000000250000900]) in
  exists claims,
    In (oGenerateToken claims (inr (lit "header.claims.signature"))) (fst (fst r)) /\
    getClaim claims "sub" = Some (claimInt 1) /\
    getClaim claims "iat" = Some (claimInt 1700000000) /\
    getClaim claims "nbf" = Some (claimInt 1700000000) /\
    getClaim claims "exp" = Some (claimInt 1700259200) /\
    count isStoreCall (fst (fst r)) = 1%nat.
Proof.
  cbv zeta.
  pose proof (@login_mints_time_bound_claims asciiLib scenario.cfg worldEnv
                (scenario.noopWorld scenario.annRepo []
                   [1700000000250000000; 1700000000250000400; 1700000000250000900])
                _ (scenario.loginBody "Str0ng!Pass") _ (run_unit _ _ _)) as H.
  eexists. split; [ vm_compute; do 5 right; left; reflexivity | ].
  edestruct H as (em & plain & user & t1 & t2 & t3 & rest & Ht & _).
  { vm_compute. do 5 right. left. reflexivity. }
  repeat split; vm_compute; reflexivity.
Defined.

(** C7, as the claim words it, with one current time for "iat", "nbf"
    and "exp", fails: [time.Now()] is called once for each of the three.
    When the readings are 0.999999999 s, 1 s and 2 s, Ann's login
    succeeds with "exp" 259200, "iat" 1 and "nbf" 2, and no instant gives
    these three claims. *)
Lemma login_claims_from_three_readings :
  let r := run worldEnv
               (createTokenHandler (L:=asciiLib) scenario.cfg
                  (scenario.loginBody "Str0ng!Pass"))
               (scenario.noopWorld scenario.annRepo []
                  [999999999; 1000000000; 2000000000]) in
  exists claims,
    In (oGenerateToken claims (inr (lit "header.claims.signature"))) (fst (fst r)) /\
    responses (fst (fst r)) =
      [oJsonResponse StatusCreated (dataToken (lit "header.claims.signature")) None] /\
    getClaim claims "exp" = Some (claimInt 259200) /\
    getClaim claims "iat" = Some (claimInt 1) /\
    getClaim claims "nbf" = Some (claimInt 2) /\
    ~ exists now,
        getClaim claims "iat" = Some (claimInt (time_Unix now)) /\
        getClaim claims "nbf" = Some (claimInt (time_Unix now)) /\
        getClaim claims "exp" =
          Some (claimInt (time_Unix (time_Add now (auth_token_exp scenario.cfg)))).
Proof.
  cbv zeta. eexists.
  split; [ vm_compute; do 5 right; left; reflexivity | ].
  split; [ vm_compute; reflexivity | ].
  match goal with
  | |- _ /\ ?i = _ /\ ?n = _ /\ _ =>
      assert (Hi : i = Some (claimInt 1)) by (vm_compute; reflexivity);
      assert (Hn : n = Some (claimInt 2)) by (vm_compute; reflexivity)
  end.
  split; [ vm_compute; reflexivity | ].
  split; [ exact Hi | ]. split; [ exact Hn | ].
  intros (now & Hi' & Hn' & _).
  rewrite Hi in Hi'. rewrite Hn in Hn'.
  injection Hi' as Hi'. injection Hn' as Hn'.
  rewrite <- Hi' in Hn'. discriminate Hn'.
Qed.

(* ================================================================== *)
(** ** C8: what the registration payload asks of a password *)

Lemma eqb_eq (a b : gostring) : GoStr.eqb a b = true <-> a = b.
Proof.
  revert b. induction a as [| x a IH]; intros [| y b]; cbn [GoStr.eqb];
    split; intros H; try reflexivity; try discriminate H.
  - apply andb_true_iff in H. destruct H as [H1 H2].
    apply Z.eqb_eq in H1. apply IH in H2. subst. reflexivity.
  - injection H as -> ->. rewrite Z.eqb_refl. apply IH. reflexivity.
Qed.

Section Validation.
Context {L : GoLib}.

Lemma failures_nil (reg : registry) (all fs : structFields) :
  failures reg all fs = [] <->
  Forall (fun f => checkTags reg all (snd (fst f)) (snd f) = None) fs.
Proof.
  induction fs as [| [[n v] ts] fs IH]; cbn [failures].
  - split; [ constructor | reflexivity ].
  - destruct (checkTags reg all v ts) eqn:Hc.
    + split; [ discriminate | ]. intros H. inversion H as [| ? ? H1 _]; subst.
      cbn [fst snd] in H1. congruence.
    + rewrite IH. split; intros H.
      * constructor; [ exact Hc | exact H ].
      * inversion H; assumption.
Qed.

Lemma Validate_Struct_ok (reg : registry) (fs : structFields) :
  Validate_Struct reg fs = None <-> failures reg fs fs = [].
Proof.
  unfold Validate_Struct. destruct (failures reg fs fs); split; intros H;
    first [ reflexivity | discriminate H ].
Qed.

Lemma check_required_max (reg : registry) (all : structFields) (v : gostring) (n : Z) :
  checkTags reg all v [tRequired; tMax n] = None <->
  isEmpty v = false /\ runeCount v <= n.
Proof.
  cbn [checkTags checkTag tagName].
  destruct (isEmpty v); cbn [negb]; [ split; [ discriminate | intros [H _]; discriminate H ] | ].
  destruct (runeCount v <=? n) eqn:E.
  - split; [ intros _; split; [ reflexivity | lia ] | reflexivity ].
  - split; [ discriminate | intros [_ H]; lia ].
Qed.

Lemma check_required_email_max (reg : registry) (all : structFields) (v : gostring) (n : Z) :
  checkTags reg all v [tRequired; tEmail; tMax n] = None <->
  isEmpty v = false /\ isEmail v = true /\ runeCount v <= n.
Proof.
  cbn [checkTags checkTag tagName].
  destruct (isEmpty v); cbn [negb]; [ split; [ discriminate | intros [H _]; discriminate H ] | ].
  destruct (isEmail v); [ | split; [ discriminate | intros (_ & H & _); discriminate H ] ].
  destruct (runeCount v <=? n) eqn:E.
  - split; [ intros _; repeat split; lia | reflexivity ].
  - split; [ discriminate | intros (_ & _ & H); lia ].
Qed.

Lemma check_required_min_max (reg : registry) (all : structFields) (v : gostring) (lo hi : Z) :
  0 < lo ->
  (checkTags reg all v [tRequired; tMin lo; tMax hi] = None <->
   lo <= runeCount v <= hi).
Proof.
  intros Hlo. cbn [checkTags checkTag tagName].
  destruct v as [| c v]; cbn [isEmpty negb].
  - split; [ discriminate | ]. unfold runeCount. cbn [List.length]. lia.
  - destruct (lo <=? runeCount (c :: v)) eqn:E1;
      [ | split; [ discriminate | lia ] ].
    destruct (runeCount (c :: v) <=? hi) eqn:E2.
    + split; [ lia | reflexivity ].
    + split; [ discriminate | lia ].
Qed.

Lemma check_required_eqfield (reg : registry) (all : structFields) (v : gostring) (f : string) :
  checkTags reg all v [tRequired; tEqfield f] = None <->
  isEmpty v = false /\ v = lookupField all f.
Proof.
  cbn [checkTags checkTag tagName].
  destruct (isEmpty v); cbn [negb]; [ split; [ discriminate | intros [H _]; discriminate H ] | ].
  destruct (GoStr.eqb v (lookupField all f)) eqn:E.
  - apply eqb_eq in E. split; [ intros _; split; [ reflexivity | exact E ] | reflexivity ].
  - split; [ discriminate | ]. intros [_ H]. apply eqb_eq in H. congruence.
Qed.

Lemma check_omitempty_max (reg : registry) (all : structFields) (v : gostring) (n : Z) :
  checkTags reg all v [tOmitempty; tMax n] = None <->
  isEmpty v = true \/ runeCount v <= n.
Proof.
  cbn [checkTags checkTag tagName].
  destruct (isEmpty v); [ split; [ left; reflexivity | reflexivity ] | ].
  destruct (runeCount v <=? n) eqn:E.
  - split; [ right; lia | reflexivity ].
  - split; [ discriminate | intros [H | H]; [ discriminate H | lia ] ].
Qed.

End Validation.

(** C8.  For every registration payload the Password field carries the
    tags required, min=3 and max=72 and nothing else, and it passes them
    exactly when it has between 3 and 72 characters; no field of the
    payload carries a registered validation, so that the outcome of
    [Validate.Struct] is the same whatever is registered; the payload is
    valid exactly when each field meets its own tags, the confirmation
    being equal to the password.  The password "abc" with the same
    confirmation passes (the whole payload passes if the e-mail does),
    although [validatePassword], registered under the name "password",
    refuses "abc". *)
Theorem register_password_needs_only_length :
  forall (L : GoLib) (p : RegisterUserPayload),
    In ("Password"%string, Password p, [tRequired; tMin 3; tMax 72])
       (registerFields p) /\
    (forall reg,
        checkTags reg (registerFields p) (Password p) [tRequired; tMin 3; tMax 72]
          = None <->
        3 <= runeCount (Password p) <= 72) /\
    (forall n v ts name,
        In (n, v, ts) (registerFields p) -> ~ In (tRegistered name) ts) /\
    (forall reg,
        Validate_Struct reg (registerFields p) =
        Validate_Struct Validate (registerFields p)) /\
    (Validate_Struct Validate (registerFields p) = None <->
     (isEmpty (FirstName p) = false /\ runeCount (FirstName p) <= 100) /\
     (isEmpty (LastName p) = false /\ runeCount (LastName p) <= 100) /\
     (isEmpty (Country p) = false /\ runeCount (Country p) <= 100) /\
     (isEmpty (Email p) = false /\ isEmail (Email p) = true /\
      runeCount (Email p) <= 255) /\
     3 <= runeCount (Password p) <= 72 /\
     (isEmpty (PasswordConfirmation p) = false /\
      PasswordConfirmation p = Password p) /\
     (isEmpty (Username p) = true \/ runeCount (Username p) <= 100)) /\
    Validate_Struct Validate (registerFields scenario.abcPayload) =
      (if isEmail (lit "ann@example.com") then None
       else Some (ValidationErrors [("Email", "email")]%string)) /\
    lookupValidation Validate "password" = Some validatePassword /\
    validatePassword (lit "abc") = false.
Proof.
  intros L p.
  split; [ cbn; tauto | ].
  split; [ intros reg; apply check_required_min_max; lia | ].
  split.
  { intros n v ts name Hin Ht. cbn in Hin.
    repeat (destruct Hin as [Hin | Hin];
            [ injection Hin as _ _ <-; cbn in Ht;
              repeat (destruct Ht as [Ht | Ht]; try discriminate Ht); exact Ht | ]).
    exact Hin. }
  split; [ intros reg; reflexivity | ].
  split.
  { rewrite Validate_Struct_ok, failures_nil. unfold registerFields.
    rewrite !Forall_cons_iff. cbn [fst snd].
    rewrite !check_required_max, check_required_email_max,
      (check_required_min_max _ _ _ (lo:=3)) by lia.
    rewrite check_required_eqfield, check_omitempty_max.
    cbn [lookupField String.eqb Ascii.eqb Bool.eqb].
    split; intros H; repeat split; try tauto. constructor. }
  split; [ | split; reflexivity ].
  unfold Validate_Struct, registerFields, scenario.abcPayload.
  cbn -[isEmail]. destruct (isEmail _); reflexivity.
Qed.

(* ================================================================== *)
(** ** C10: the body reader *)

(** [readValue], case by case. *)
Lemma readValue_cases (body : Json.Body) :
  (maxBytes < Json.needed body /\ readValue body = inl (MaxBytesError maxBytes)) \/
  (Json.needed body <= maxBytes /\
   readValue body = match Json.text body with
                    | Json.Value v _ => inr v
                    | Json.Blank => inl io_EOF
                    | Json.Cut => inl io_ErrUnexpectedEOF
                    | Json.Malformed _ => inl SyntaxError
                    end).
Proof.
  unfold readValue. destruct (maxBytes <? Json.needed body) eqn:Hbig.
  - left. split; [ lia | reflexivity ].
  - right. split; [ lia | reflexivity ].
Qed.

Lemma readValue_inr (body : Json.Body) (v : Json.value) :
  readValue body = inr v <->
  Json.doc body = Some v /\ Json.needed body <= maxBytes.
Proof.
  unfold Json.doc.
  destruct (readValue_cases body) as [[Hbig ->] | [Hle ->]].
  - split; [ discriminate | lia ].
  - destruct (Json.text body) as [v0 ends | | | at_]; split;
      try discriminate; try (intros [H _]; discriminate H).
    + intros H. injection H as <-. split; [ reflexivity | exact Hle ].
    + intros [H _]. injection H as <-. reflexivity.
Qed.

Section Reader.
Context {L : GoLib}.
Variable P : Type.
Variable T : Target P.

Lemma decode_saved (ms : list (gostring * Json.value)) (acc : P) (e : error) :
  snd (decodeMembers T ms acc (Some e)) = Some e.
Proof.
  revert acc. induction ms as [| [key v] ms IH]; intros acc; [ reflexivity | ].
  cbn [decodeMembers].
  destruct (findField (names T) key); [ destruct v | ]; cbn [saveError]; apply IH.
Qed.

Lemma decode_unknown (ms : list (gostring * Json.value)) (key : gostring)
      (v : Json.value) :
  In (key, v) ms -> findField (names T) key = None ->
  forall acc saved, exists e, snd (decodeMembers T ms acc saved) = Some e.
Proof.
  induction ms as [| [k' v'] ms IH]; intros Hin Hf acc saved; [ destruct Hin | ].
  cbn [decodeMembers]. destruct Hin as [Hin | Hin].
  - injection Hin as -> ->. rewrite Hf.
    destruct saved as [e |]; cbn [saveError]; eexists; apply decode_saved.
  - destruct (findField (names T) k'); [ destruct v' | ]; apply (IH Hin Hf).
Qed.

Lemma decode_clean (ms : list (gostring * Json.value)) (acc : P) (saved : option error) :
  snd (decodeMembers T ms acc saved) = None ->
  forall key v, In (key, v) ms ->
    findField (names T) key <> None /\ (v = Json.Null \/ exists s, v = Json.Str s).
Proof.
  revert acc saved. induction ms as [| [k' v'] ms IH]; intros acc saved H key v Hin;
    [ destruct Hin | ].
  cbn [decodeMembers] in H.
  destruct (findField (names T) k') as [n |] eqn:Hf.
  - destruct Hin as [Hin | Hin].
    + injection Hin as <- <-. split; [ congruence | ].
      destruct v'; try (left; reflexivity); try (right; eexists; reflexivity);
        exfalso; destruct saved; cbn [saveError] in H;
        rewrite decode_saved in H; discriminate H.
    + destruct v'; exact (IH _ _ H _ _ Hin).
  - exfalso. destruct saved; cbn [saveError] in H;
      rewrite decode_saved in H; discriminate H.
Qed.

Lemma readJSON_rejected (body : Json.Body) :
  rejected (names T) body -> exists err, readJSON T body = inl err.
Proof.
  unfold readJSON. intros [Hbig | (ms & key & v & Hdoc & Hin & Hf)].
  - destruct (readValue_cases body) as [[_ ->] | [Hle _]]; [ | lia ].
    eexists. reflexivity.
  - destruct (readValue body) as [e | v0] eqn:Hrv; [ eexists; reflexivity | ].
    apply readValue_inr in Hrv. destruct Hrv as [Hd _].
    rewrite Hdoc in Hd. injection Hd as <-.
    destruct (@decode_unknown ms key v Hin Hf (zero T) None) as [e He].
    destruct (decodeMembers T ms (zero T) None) as [p o]. cbn [snd] in He. subst o.
    eexists. reflexivity.
Qed.

Lemma readJSON_accepted (body : Json.Body) (p : P) :
  readJSON T body = inr p -> acceptable (names T) body.
Proof.
  unfold readJSON, acceptable. intros H.
  destruct (readValue body) as [e | v] eqn:Hrv; [ discriminate H | ].
  apply readValue_inr in Hrv. destruct Hrv as [Hdoc Hle].
  split; [ exact Hle | ]. rewrite Hdoc.
  destruct v as [ | b | n | s0 | items | ms ]; try discriminate H.
  - left. reflexivity.
  - right. exists ms. split; [ reflexivity | ].
    destruct (decodeMembers T ms (zero T) None) as [q o] eqn:Hd.
    destruct o; [ discriminate H | ].
    apply (@decode_clean ms (zero T) None). rewrite Hd. reflexivity.
Qed.

Lemma decode_accepts (ms : list (gostring * Json.value)) (acc : P) :
  (forall key v, In (key, v) ms ->
     findField (names T) key <> None /\ (v = Json.Null \/ exists s, v = Json.Str s)) ->
  snd (decodeMembers T ms acc None) = None.
Proof.
  revert acc. induction ms as [| [key v] ms IH]; intros acc H; [ reflexivity | ].
  cbn [decodeMembers].
  destruct (H key v (or_introl eq_refl)) as [Hf Hv].
  destruct (findField (names T) key) as [n |]; [ | contradiction ].
  assert (Hrest : forall key0 v0, In (key0, v0) ms ->
            findField (names T) key0 <> None /\
            (v0 = Json.Null \/ exists s, v0 = Json.Str s)).
  { intros key0 v0 Hin. apply H. right. exact Hin. }
  destruct Hv as [-> | [s0 ->]]; apply IH; exact Hrest.
Qed.

Lemma readJSON_accepts (body : Json.Body) :
  acceptable (names T) body -> exists p, readJSON T body = inr p.
Proof.
  unfold acceptable, readJSON. intros [Hle [Hdoc | (ms & Hdoc & Hms)]].
  - rewrite (proj2 (readValue_inr body Json.Null) (conj Hdoc Hle)).
    eexists. reflexivity.
  - rewrite (proj2 (readValue_inr body (Json.Object ms)) (conj Hdoc Hle)).
    pose proof (decode_accepts ms (zero T) Hms) as Hd.
    destruct (decodeMembers T ms (zero T) None) as [p o]. cbn [snd] in Hd. subst o.
    eexists. reflexivity.
Qed.

End Reader.

(** C10, as the code has it.  The body reader hands the decoder at
    most 1,048,578 bytes, and the decoder takes the first JSON value of
    the body.  For the registration handler and for the login handler
    alike, a body whose first value is not complete within those bytes,
    or is an object with a key that matches no field of the payload,
    makes [readJSON] fail; the handler then answers with a bad request
    carrying that error and returns: this is its only call, so that the
    payload is not validated, the repository is not called and the
    world, the repository with it, is as before.  A body is accepted by
    [readJSON] exactly when its first value is complete within the limit
    and is [null] or an object whose keys all match fields of the
    payload, with strings or [null] as values.  An array or an object is
    complete within the limit when its closing bracket is among the
    first 1,048,578 bytes, whatever follows it and however long the body
    is; another value when it ends before byte 1,048,578, or ends the
    body at that byte. *)
Theorem readJSON_rejects_before_validation :
  forall (L : GoLib) (S M : Type) (U : UserStore S) (Ml : Mailer M)
         (app : config) (w : World S M) (body : Json.Body),
    maxBytes = 1048578 /\
    (rejected (names registerTarget) body ->
     exists err,
       readJSON registerTarget body = inl err /\
       run worldEnv (registerUserHandler app body) w = ([oBadRequest err], tt, w)) /\
    (rejected (names tokenTarget) body ->
     exists err,
       readJSON tokenTarget body = inl err /\
       run worldEnv (createTokenHandler app body) w = ([oBadRequest err], tt, w)) /\
    (forall p, readJSON registerTarget body = inr p ->
               acceptable (names registerTarget) body) /\
    (forall p, readJSON tokenTarget body = inr p ->
               acceptable (names tokenTarget) body) /\
    (acceptable (names registerTarget) body ->
     exists p, readJSON registerTarget body = inr p) /\
    (acceptable (names tokenTarget) body ->
     exists p, readJSON tokenTarget body = inr p) /\
    (forall v ends,
        Json.text body = Json.Value v ends ->
        (Json.needed body <= maxBytes <->
         ends <= maxBytes /\
         (Json.inBrackets v = true \/ ends < maxBytes \/ Json.size body <= ends))).
Proof.
  intros L S M U Ml app w body.
  split; [ reflexivity | ].
  split.
  { intros H. destruct (readJSON_rejected registerTarget H) as [err He].
    exists err. split; [ exact He | ].
    unfold registerUserHandler. rewrite He. reflexivity. }
  split.
  { intros H. destruct (readJSON_rejected tokenTarget H) as [err He].
    exists err. split; [ exact He | ].
    unfold createTokenHandler. rewrite He. reflexivity. }
  split; [ intros p H; exact (readJSON_accepted _ _ H) | ].
  split; [ intros p H; exact (readJSON_accepted _ _ H) | ].
  split; [ exact (@readJSON_accepts _ _ registerTarget body) | ].
  split; [ exact (@readJSON_accepts _ _ tokenTarget body) | ].
  intros v ends Ht. unfold Json.needed. rewrite Ht.
  destruct (Json.inBrackets v); cbn [orb].
  - split; [ intros H; split; [ exact H | left; reflexivity ] | intros [H _]; exact H ].
  - destruct (Json.size body <=? ends) eqn:Hs.
    + apply Z.leb_le in Hs.
      split; [ intros H; split; [ exact H | right; right; exact Hs ]
             | intros [H _]; exact H ].
    + apply Z.leb_gt in Hs. split.
      * intros H. split; [ lia | right; left; lia ].
      * intros [H [Hb | [Hlt | Hsz]]]; [ discriminate Hb | lia | lia ].
Qed.

(** A registration that names a role, a login whose object closes at
    byte 2,097,152, and Ann's registration within the limit. *)
Lemma readJSON_rejects_before_validation_witness :
  let w := scenario.noopWorld scenario.annRepo [] [] in
  let huge :=
    {| Json.text := Json.Value
                      (Json.Object [(lit "email", scenario.str "ann@example.com");
                                    (lit "password", scenario.str "Str0ng!Pass")])
                      2097152;
       Json.size := 2097152 |} in
  (exists err,
     readJSON (L:=asciiLib) registerTarget scenario.adminBody = inl err /\
     run worldEnv (registerUserHandler (L:=asciiLib) scenario.cfg scenario.adminBody) w =
       ([oBadRequest err], tt, w)) /\
  (exists err,
     readJSON (L:=asciiLib) tokenTarget huge = inl err /\
     run worldEnv (createTokenHandler (L:=asciiLib) scenario.cfg huge) w =
       ([oBadRequest err], tt, w)) /\
  acceptable (L:=asciiLib) (names registerTarget) scenario.annBody.
Proof.
  cbv zeta.
  pose proof (@readJSON_rejects_before_validation asciiLib _ _ MemStore NoopMailer
                scenario.cfg (scenario.noopWorld scenario.annRepo [] [])
                scenario.adminBody) as (_ & H1 & _).
  pose proof (@readJSON_rejects_before_validation asciiLib _ _ MemStore NoopMailer
                scenario.cfg (scenario.noopWorld scenario.annRepo [] [])
                {| Json.text := Json.Value
                      (Json.Object [(lit "email", scenario.str "ann@example.com");
                                    (lit "password", scenario.str "Str0ng!Pass")])
                      2097152;
                   Json.size := 2097152 |}) as (_ & _ & H2 & _).
  pose proof (@readJSON_rejects_before_validation asciiLib _ _ MemStore NoopMailer
                scenario.cfg (scenario.noopWorld scenario.annRepo [] [])
                scenario.annBody) as (_ & _ & _ & H3 & _).
  split; [ | split ].
  - apply H1. right.
    exists [(lit "first_name", scenario.str "Ann"); (lit "last_name", scenario.str "Lee");
            (lit "country", scenario.str "KZ"); (lit "email", scenario.str "ann@example.com");
            (lit "password", scenario.str "Str0ng!Pass");
            (lit "password_confirmation", scenario.str "Str0ng!Pass");
            (lit "role", scenario.str "admin")],
      (lit "role"), (scenario.str "admin").
    split; [ reflexivity | ]. split; [ do 6 right; left; reflexivity | ].
    vm_compute. reflexivity.
  - apply H2. left. cbn. reflexivity.
  - eapply H3. vm_compute. reflexivity.
Defined.

(** C10, as the claim words it, with a cap on the body, fails: the
    limit is on what the decoder needs, and it needs the first value
    only.  A registration of 2,097,152 bytes that starts with Ann's
    object, 161 bytes long, is read, validated and stored: the account
    is created and the answer is 201. *)
Lemma register_accepts_a_body_over_the_limit :
  let body := scenario.padded scenario.annBody 2097152 in
  let w := scenario.noopWorld (scenario.emptyRepo []) [[1; 2; 3]; [4; 5; 6]] [] in
  let r := run worldEnv (registerUserHandler (L:=asciiLib) scenario.cfg body) w in
  maxBytes < Json.size body /\
  (exists p, readJSON (L:=asciiLib) registerTarget body = inr p) /\
  count isCreate (fst (fst r)) = 1%nat /\
  (exists data,
      responses (fst (fst r)) = [oJsonResponse StatusCreated data None]) /\
  hasAccount (w_store w) 1 = false /\
  hasAccount (w_store (snd r)) 1 = true.
Proof.
  cbv zeta.
  split; [ vm_compute; reflexivity | ].
  split; [ eexists; vm_compute; reflexivity | ].
  split; [ vm_compute; reflexivity | ].
  split; [ eexists; vm_compute; reflexivity | ].
  split; vm_compute; reflexivity.
Qed.

Example rejected_bodies :
  readJSON (L:=asciiLib) registerTarget scenario.adminBody
    = inl (UnknownFieldError (lit "role")) /\
  readJSON (L:=asciiLib) registerTarget
    (scenario.only (Json.Object [(lit "email", scenario.str "ann@example.com")]) 1048579)
    = inl (MaxBytesError 1048578) /\
  readJSON (L:=asciiLib) registerTarget
    (scenario.only (Json.Object [(lit "email", scenario.str "ann@example.com")]) 1048578)
    = inr (Build_RegisterUserPayload [] [] [] (lit "ann@example.com") [] [] []) /\
  readJSON (L:=asciiLib) registerTarget
    {| Json.text := Json.Value Json.Null 1048578; Json.size := 1048579 |}
    = inl (MaxBytesError 1048578) /\
  readJSON (L:=asciiLib) registerTarget (scenario.only Json.Null 1048578)
    = inr (zero registerTarget) /\
  readJSON (L:=asciiLib) registerTarget {| Json.text := Json.Blank; Json.size := 0 |}
    = inl io_EOF /\
  readJSON (L:=asciiLib) registerTarget {| Json.text := Json.Cut; Json.size := 17 |}
    = inl io_ErrUnexpectedEOF /\
  readJSON (L:=asciiLib) registerTarget {| Json.text := Json.Malformed 2; Json.size := 17 |}
    = inl SyntaxError.
Proof. repeat split; vm_compute; reflexivity. Qed.

(* ================================================================== *)
(** ** Regular expressions: the matcher and the texts matched *)

Module RegexpFacts.
Import Regexp.

Lemma nullable_matches (r : re) : nullable r = true <-> matches r [].
Proof.
  split.
  - induction r as [| | p | a IHa b IHb | a IHa b IHb | a IHa]; cbn [nullable];
      intros H; try discriminate H.
    + constructor.
    + apply andb_true_iff in H. destruct H as [Ha Hb].
      exact (m_cat (IHa Ha) (IHb Hb)).
    + apply orb_true_iff in H. destruct H as [Ha | Hb].
      * apply m_alt_l. exact (IHa Ha).
      * apply m_alt_r. exact (IHb Hb).
    + constructor.
  - intros H. remember [] as s eqn:Es.
    induction H as [ | p c Hp | a b s1 s2 H1 IH1 H2 IH2 | a b s H IH | a b s H IH
                     | a | a s1 s2 H1 IH1 H2 IH2 ]; cbn [nullable];
      try reflexivity; try discriminate Es.
    + apply app_eq_nil in Es. destruct Es as [-> ->].
      rewrite IH1, IH2; reflexivity.
    + rewrite (IH Es). reflexivity.
    + rewrite (IH Es). apply orb_true_r.
Qed.

Lemma deriv_sound (c : rune) (r : re) (s : gostring) :
  matches (deriv c r) s -> matches r (c :: s).
Proof.
  revert s. induction r as [| | p | a IHa b IHb | a IHa b IHb | a IHa];
    intros s H; cbn [deriv] in H.
  - inversion H.
  - inversion H.
  - destruct (p c) eqn:Hp; inversion H; subst. constructor. exact Hp.
  - destruct (nullable a) eqn:Hn.
    + inversion H as [ | | | ? ? ? H' | ? ? ? H' | | ]; subst.
      * inversion H' as [ | | ? ? s1 s2 H1 H2 | | | | ]; subst.
        exact (m_cat (IHa _ H1) H2).
      * apply nullable_matches in Hn.
        exact (m_cat Hn (IHb _ H')).
    + inversion H as [ | | ? ? s1 s2 H1 H2 | | | | ]; subst.
      exact (m_cat (IHa _ H1) H2).
  - inversion H as [ | | | ? ? ? H' | ? ? ? H' | | ]; subst.
    + apply m_alt_l. exact (IHa _ H').
    + apply m_alt_r. exact (IHb _ H').
  - inversion H as [ | | ? ? s1 s2 H1 H2 | | | | ]; subst.
    exact (m_star_cons (IHa _ H1) H2).
Qed.

Lemma deriv_complete (c : rune) (r : re) (s0 : gostring) :
  matches r s0 -> forall s, s0 = c :: s -> matches (deriv c r) s.
Proof.
  induction 1 as [ | p c' Hp | a b s1 s2 H1 IH1 H2 IH2 | a b s' H IH | a b s' H IH
                   | a | a s1 s2 H1 IH1 H2 IH2 ]; intros s Es; cbn [deriv].
  - discriminate Es.
  - injection Es as -> <-. rewrite Hp. constructor.
  - destruct s1 as [| c1 s1]; cbn [List.app] in Es.
    + apply nullable_matches in H1. rewrite H1.
      apply m_alt_r. exact (IH2 _ Es).
    + injection Es as -> <-.
      pose proof (m_cat (IH1 _ eq_refl) H2) as Hc.
      destruct (nullable a); [ apply m_alt_l | ]; exact Hc.
  - apply m_alt_l. exact (IH _ Es).
  - apply m_alt_r. exact (IH _ Es).
  - discriminate Es.
  - destruct s1 as [| c1 s1]; cbn [List.app] in Es.
    + exact (IH2 _ Es).
    + injection Es as -> <-. exact (m_cat (IH1 _ eq_refl) H2).
Qed.

(** The matcher decides the texts of an expression. *)
Lemma MatchString_matches (r : re) (s : gostring) :
  MatchString r s = true <-> matches r s.
Proof.
  revert r. induction s as [| c s IH]; intros r; cbn [MatchString].
  - apply nullable_matches.
  - rewrite IH. split.
    + apply deriv_sound.
    + intros H. exact (deriv_complete H eq_refl).
Qed.

Lemma matches_cat (a b : re) (s : gostring) :
  matches (Cat a b) s <->
  exists s1 s2, s = s1 ++ s2 /\ matches a s1 /\ matches b s2.
Proof.
  split.
  - intros H. inversion H as [ | | ? ? s1 s2 H1 H2 | | | | ]; subst.
    exists s1, s2. repeat split; assumption.
  - intros (s1 & s2 & -> & H1 & H2). exact (m_cat H1 H2).
Qed.

Lemma matches_class (p : rune -> bool) (s : gostring) :
  matches (Class p) s <-> exists c, s = [c] /\ p c = true.
Proof.
  split.
  - intros H. inversion H; subst. eexists. split; [ reflexivity | assumption ].
  - intros (c & -> & Hp). constructor. exact Hp.
Qed.

Lemma matches_star_class (p : rune -> bool) (s : gostring) :
  matches (Star (Class p)) s <-> forallb p s = true.
Proof.
  split.
  - intros H. remember (Star (Class p)) as r eqn:Er.
    induction H as [ | | | | | a | a s1 s2 H1 _ H2 IH2 ]; try discriminate Er.
    + reflexivity.
    + injection Er as ->. rewrite forallb_app, (IH2 eq_refl).
      inversion H1; subst. cbn [forallb]. rewrite H0. reflexivity.
  - induction s as [| c s IH]; cbn [forallb]; intros H.
    + constructor.
    + apply andb_true_iff in H. destruct H as [Hc Hs].
      exact (m_star_cons (s1:=[c]) (m_class p c Hc) (IH Hs)).
Qed.

Lemma matches_plus_class (p : rune -> bool) (s : gostring) :
  matches (Plus (Class p)) s <-> s <> [] /\ forallb p s = true.
Proof.
  unfold Plus. rewrite matches_cat. split.
  - intros (s1 & s2 & -> & H1 & H2).
    apply matches_class in H1. destruct H1 as (c & -> & Hc).
    apply matches_star_class in H2.
    split; [ discriminate | ]. cbn [List.app forallb]. rewrite Hc, H2. reflexivity.
  - intros [Hne H]. destruct s as [| c s]; [ contradiction | ].
    cbn [forallb] in H. apply andb_true_iff in H. destruct H as [Hc Hs].
    exists [c], s. split; [ reflexivity | ].
    split; [ constructor; exact Hc | apply matches_star_class; exact Hs ].
Qed.

Lemma matches_atleast2_class (p : rune -> bool) (s : gostring) :
  matches (AtLeast 2 (Class p)) s <->
  (2 <= List.length s)%nat /\ forallb p s = true.
Proof.
  unfold AtLeast. cbn [Times]. split.
  - intros H.
    apply matches_cat in H. destruct H as (s12 & s3 & -> & H12 & H3).
    apply matches_cat in H12. destruct H12 as (s1 & s2' & -> & H1 & H2).
    apply matches_cat in H2. destruct H2 as (s2 & s0 & -> & H2 & H0).
    apply matches_class in H1. destruct H1 as (c1 & -> & Hc1).
    apply matches_class in H2. destruct H2 as (c2 & -> & Hc2).
    inversion H0; subst. apply matches_star_class in H3.
    cbn [List.app forallb List.length]. rewrite Hc1, Hc2, H3.
    split; [ lia | reflexivity ].
  - intros [Hlen H]. destruct s as [| c1 [| c2 s]]; cbn [List.length] in Hlen; try lia.
    cbn [forallb] in H. apply andb_true_iff in H. destruct H as [Hc1 H].
    apply andb_true_iff in H. destruct H as [Hc2 Hs].
    change (c1 :: c2 :: s) with (([c1] ++ [c2] ++ []) ++ s).
    apply m_cat; [ | apply matches_star_class; exact Hs ].
    apply m_cat; [ constructor; exact Hc1 | ].
    apply m_cat; [ constructor; exact Hc2 | constructor ].
Qed.

End RegexpFacts.

(* ================================================================== *)
(** ** json.go: validateEmailRegex and validateName *)

Section RegisteredExpressions.
Variable letterTable markTable : rune -> bool.
Variable base : GoLib.

Local Abbreviation lib := (withExpressions letterTable markTable base).

Lemma email_shape (v : gostring) :
  Regexp.MatchString emailRegex v = true <->
  exists l d t,
    v = l ++ 64 :: d ++ 46 :: t /\
    l <> [] /\ forallb emailLocalChar l = true /\
    d <> [] /\ forallb emailDomainChar d = true /\
    (2 <= List.length t)%nat /\ forallb isAsciiLetter t = true.
Proof.
  rewrite RegexpFacts.MatchString_matches. unfold emailRegex. split.
  - intros H.
    apply RegexpFacts.matches_cat in H. destruct H as (l & r1 & -> & Hl & H).
    apply RegexpFacts.matches_cat in H. destruct H as (a & r2 & -> & Ha & H).
    apply RegexpFacts.matches_cat in H. destruct H as (d & r3 & -> & Hd & H).
    apply RegexpFacts.matches_cat in H. destruct H as (o & t & -> & Ho & Ht).
    apply RegexpFacts.matches_plus_class in Hl. destruct Hl as [Hl1 Hl2].
    apply RegexpFacts.matches_plus_class in Hd. destruct Hd as [Hd1 Hd2].
    apply RegexpFacts.matches_class in Ha. destruct Ha as (ca & -> & Hca).
    apply RegexpFacts.matches_class in Ho. destruct Ho as (co & -> & Hco).
    apply RegexpFacts.matches_atleast2_class in Ht. destruct Ht as [Ht1 Ht2].
    apply Z.eqb_eq in Hca. apply Z.eqb_eq in Hco. subst ca co.
    exists l, d, t. repeat split; assumption.
  - intros (l & d & t & -> & Hl1 & Hl2 & Hd1 & Hd2 & Ht1 & Ht2).
    apply Regexp.m_cat; [ apply RegexpFacts.matches_plus_class; split; assumption | ].
    apply (Regexp.m_cat (s1:=[64])); [ constructor; reflexivity | ].
    apply Regexp.m_cat; [ apply RegexpFacts.matches_plus_class; split; assumption | ].
    apply (Regexp.m_cat (s1:=[46])); [ constructor; reflexivity | ].
    apply RegexpFacts.matches_atleast2_class. split; assumption.
Qed.

Lemma filter_none (p q : Z -> bool) (s : list Z) :
  forallb p s = true -> (forall r, p r = true -> q r = false) -> filter q s = [].
Proof.
  intros H Hpq. induction s as [| c s IH]; [ reflexivity | ].
  cbn [forallb] in H. apply andb_true_iff in H. destruct H as [Hc Hs].
  cbn [filter]. rewrite (Hpq _ Hc). exact (IH Hs).
Qed.

Lemma forallb_weaken (p q : Z -> bool) (s : list Z) :
  forallb p s = true -> (forall r, p r = true -> q r = true) -> forallb q s = true.
Proof.
  intros H Hpq. induction s as [| c s IH]; [ reflexivity | ].
  cbn [forallb] in *. apply andb_true_iff in H. destruct H as [Hc Hs].
  rewrite (Hpq _ Hc), (IH Hs). reflexivity.
Qed.

Lemma local_printable (r : rune) :
  emailLocalChar r = true -> between 33 126 r = true /\ (r =? 64) = false.
Proof.
  unfold emailLocalChar, isAsciiLetter, isAsciiDigit, between. intros H.
  repeat rewrite orb_true_iff in H. repeat rewrite andb_true_iff in H.
  split; [ apply andb_true_iff | apply Z.eqb_neq ]; lia.
Qed.

Lemma domain_printable (r : rune) :
  emailDomainChar r = true -> between 33 126 r = true /\ (r =? 64) = false.
Proof.
  unfold emailDomainChar, isAsciiLetter, isAsciiDigit, between. intros H.
  repeat rewrite orb_true_iff in H. repeat rewrite andb_true_iff in H.
  split; [ apply andb_true_iff | apply Z.eqb_neq ]; lia.
Qed.

Lemma letter_printable (r : rune) :
  isAsciiLetter r = true -> between 33 126 r = true /\ (r =? 64) = false.
Proof.
  unfold isAsciiLetter, between. intros H.
  repeat rewrite orb_true_iff in H. repeat rewrite andb_true_iff in H.
  split; [ apply andb_true_iff | apply Z.eqb_neq ]; lia.
Qed.

(** X5.  [validateEmailRegex] accepts exactly the texts made of a
    non-empty local part over [A-Za-z0-9._%+-], an '@', a non-empty domain
    over [A-Za-z0-9.-], a dot and at least two ASCII letters. *)
Theorem validateEmailRegex_accepts :
  forall v : gostring,
    validateEmailRegex (L:=lib) v = true <->
    exists l d t,
      v = l ++ lit "@" ++ d ++ lit "." ++ t /\
      l <> [] /\ forallb emailLocalChar l = true /\
      d <> [] /\ forallb emailDomainChar d = true /\
      (2 <= List.length t)%nat /\ forallb isAsciiLetter t = true.
Proof.
  intros v. unfold validateEmailRegex.
  cbn [emailRegex_MatchString withExpressions].
  apply email_shape.
Qed.

(** X6.  An address accepted by [validateEmailRegex] has exactly one '@',
    consists of printable ASCII characters without blanks, and has at
    least 6 characters. *)
Theorem validateEmailRegex_one_at_sign :
  forall v : gostring,
    validateEmailRegex (L:=lib) v = true ->
    List.length (filter (fun r => r =? 64) v) = 1%nat /\
    forallb (between 33 126) v = true /\
    (6 <= List.length v)%nat.
Proof.
  intros v H. unfold validateEmailRegex in H.
  cbn [emailRegex_MatchString withExpressions] in H.
  apply email_shape in H.
  destruct H as (l & d & t & -> & Hl1 & Hl2 & Hd1 & Hd2 & Ht1 & Ht2).
  change (l ++ 64 :: d ++ 46 :: t) with (l ++ [64] ++ d ++ [46] ++ t).
  unfold gostring, rune in *.
  split; [ | split ].
  - rewrite !filter_app.
    rewrite (@filter_none _ (fun r => r =? 64) _ Hl2),
      (@filter_none _ (fun r => r =? 64) _ Hd2),
      (@filter_none _ (fun r => r =? 64) _ Ht2);
      [ reflexivity | | | ]; intros r Hr.
    + apply letter_printable in Hr. apply Hr.
    + apply domain_printable in Hr. apply Hr.
    + apply local_printable in Hr. apply Hr.
  - rewrite !forallb_app.
    rewrite (@forallb_weaken _ (between 33 126) _ Hl2),
      (@forallb_weaken _ (between 33 126) _ Hd2),
      (@forallb_weaken _ (between 33 126) _ Ht2);
      [ reflexivity | | | ]; intros r Hr.
    + apply letter_printable in Hr. apply Hr.
    + apply domain_printable in Hr. apply Hr.
    + apply local_printable in Hr. apply Hr.
  - rewrite !length_app. cbn [List.length].
    destruct l; [ contradiction | ]. destruct d; [ contradiction | ].
    cbn [List.length]. lia.
Qed.

Lemma name_shape (v : gostring) :
  Regexp.MatchString (nameRegex letterTable markTable) v = true <->
  exists c rest,
    v = c :: rest /\ isLetter letterTable c = true /\
    forallb (nameChar letterTable markTable) rest = true.
Proof.
  rewrite RegexpFacts.MatchString_matches. unfold nameRegex.
  rewrite RegexpFacts.matches_cat. split.
  - intros (s1 & s2 & -> & H1 & H2).
    apply RegexpFacts.matches_class in H1. destruct H1 as (c & -> & Hc).
    apply RegexpFacts.matches_star_class in H2.
    exists c, s2. repeat split; assumption.
  - intros (c & rest & -> & Hc & Hr).
    exists [c], rest. split; [ reflexivity | ].
    split; [ constructor; exact Hc | apply RegexpFacts.matches_star_class; exact Hr ].
Qed.

(** X7.  [validateName] accepts exactly the texts that start with a
    letter and go on with letters, marks, apostrophes, hyphens and the
    blanks tab, line feed, form feed, carriage return and space.  So it
    refuses the empty name and any name with an ASCII digit, and it
    accepts a name that ends in a line feed. *)
Theorem validateName_accepts :
  forall v : gostring,
    (validateName (L:=lib) v = true <->
     exists c rest,
       v = c :: rest /\ isLetter letterTable c = true /\
       forallb (nameChar letterTable markTable) rest = true) /\
    validateName (L:=lib) [] = false /\
    (forall r, In r v -> isAsciiDigit r = true -> validateName (L:=lib) v = false) /\
    (validateName (L:=lib) v = true -> validateName (L:=lib) (v ++ [10]) = true).
Proof.
  intros v.
  assert (Hiff : forall w, validateName (L:=lib) w = true <->
            exists c rest,
              w = c :: rest /\ isLetter letterTable c = true /\
              forallb (nameChar letterTable markTable) rest = true).
  { intros w. unfold validateName.
    cbn [nameRegex_MatchString withExpressions]. apply name_shape. }
  split; [ apply Hiff | ]. split; [ reflexivity | ]. split.
  - intros r Hin Hd.
    destruct (validateName (L:=lib) v) eqn:Hv; [ exfalso | reflexivity ].
    apply Hiff in Hv. destruct Hv as (c & rest & -> & Hc & Hrest).
    assert (Hr : (r <=? 127) = true /\ isAsciiLetter r = false /\
                 (r =? 39) = false /\ (r =? 45) = false /\ isPerlSpace r = false).
    { unfold isAsciiDigit, isAsciiLetter, isPerlSpace, between in *.
      rewrite andb_true_iff, !Z.leb_le in Hd.
      rewrite !orb_false_iff, !andb_false_iff, !Z.eqb_neq, !Z.leb_gt, Z.leb_le.
      lia. }
    destruct Hr as (H127 & Hal & H39 & H45 & Hsp).
    destruct Hin as [-> | Hin].
    + unfold isLetter in Hc. rewrite H127, Hal in Hc. discriminate Hc.
    + rewrite forallb_forall in Hrest. specialize (Hrest _ Hin).
      unfold nameChar, isLetter, isMark in Hrest.
      rewrite H127, Hal, H39, H45, Hsp in Hrest. discriminate Hrest.
  - intros Hv. apply Hiff in Hv. destruct Hv as (c & rest & -> & Hc & Hrest).
    apply Hiff. exists c, (rest ++ [10]). split; [ reflexivity | ].
    split; [ exact Hc | ]. rewrite forallb_app, Hrest. cbn [forallb].
    unfold nameChar, isPerlSpace. cbn [Z.eqb Pos.eqb].
    rewrite !orb_true_r. reflexivity.
Qed.

End RegisteredExpressions.

(** The address of the design document's example. *)
Lemma validateEmailRegex_one_at_sign_witness :
  List.length (filter (fun r => r =? 64) (lit "ann@example.com")) = 1%nat /\
  forallb (between 33 126) (lit "ann@example.com") = true /\
  (6 <= List.length (lit "ann@example.com"))%nat.
Proof.
  apply (@validateEmailRegex_one_at_sign (fun _ => false) (fun _ => false) asciiLib).
  vm_compute. reflexivity.
Defined.

(* ================================================================== *)
(** ** json.go: validatePassword *)

Section PasswordRule.
Context {L : GoLib}.

Lemma pwStep_fold (v : gostring) (f : pwFlags) :
  fold_left pwStep v f =
  PwFlags (hasLower f || existsb countsAsLower v)
          (hasUpper f || existsb countsAsUpper v)
          (hasDigit f || existsb countsAsDigit v)
          (hasSpecial f || existsb countsAsSpecial v).
Proof.
  revert f. induction v as [| c v IH]; intros f; cbn [fold_left existsb].
  - destruct f. cbn [hasLower hasUpper hasDigit hasSpecial].
    rewrite !orb_false_r. reflexivity.
  - rewrite IH. unfold pwStep, countsAsLower, countsAsUpper, countsAsDigit,
      countsAsSpecial.
    destruct (unicode_IsLower c), (unicode_IsUpper c), (unicode_IsDigit c),
      (unicode_IsPunct c || unicode_IsSymbol c);
      cbn [hasLower hasUpper hasDigit hasSpecial negb andb orb];
      rewrite ?orb_true_r, ?orb_false_r; reflexivity.
Qed.

Lemma kinds_disjoint (v : gostring) :
  (List.length (filter countsAsLower v) + List.length (filter countsAsUpper v) +
   List.length (filter countsAsDigit v) + List.length (filter countsAsSpecial v)
   <= List.length v)%nat.
Proof.
  induction v as [| c v IH]; [ reflexivity | ].
  cbn [filter]. unfold countsAsLower, countsAsUpper, countsAsDigit, countsAsSpecial in *.
  destruct (unicode_IsLower c), (unicode_IsUpper c), (unicode_IsDigit c),
    (unicode_IsPunct c || unicode_IsSymbol c);
    cbn [negb andb List.length]; lia.
Qed.

Lemma existsb_filter (p : rune -> bool) (v : gostring) :
  existsb p v = true -> (1 <= List.length (filter p v))%nat.
Proof.
  induction v as [| c v IH]; cbn [existsb filter]; [ discriminate | ].
  destruct (p c); cbn [orb List.length]; [ lia | exact IH ].
Qed.

End PasswordRule.

(** X3.  [validatePassword] accepts a text exactly when it has at least 8
    bytes and contains a lower-case letter, an upper-case letter, a digit
    and a punctuation mark or symbol, each character counting for the
    first of these kinds it belongs to. *)
Theorem validatePassword_accepts :
  forall (L : GoLib) (v : gostring),
    validatePassword v =
      (8 <=? len v) && existsb countsAsLower v && existsb countsAsUpper v &&
      existsb countsAsDigit v && existsb countsAsSpecial v.
Proof.
  intros L v. unfold validatePassword. rewrite pwStep_fold. reflexivity.
Qed.

(** X4.  The length [validatePassword] asks for is in bytes, not in
    characters: an accepted password has at least 8 bytes and at least 4
    characters, and "aA1" followed by two copies of a symbol that UTF-8
    encodes on three bytes or more is accepted with its 5 characters. *)
Theorem validatePassword_counts_bytes :
  forall (L : GoLib),
    (forall v, validatePassword v = true ->
               8 <= len v /\ (4 <= List.length v)%nat) /\
    (forall r, 2048 <= r -> countsAsSpecial r = true ->
               validatePassword (lit "aA1" ++ [r; r]) = true /\
               runeCount (lit "aA1" ++ [r; r]) = 5).
Proof.
  intros L. split.
  - intros v H. unfold validatePassword in H. rewrite pwStep_fold in H.
    cbn [hasLower hasUpper hasDigit hasSpecial orb] in H.
    repeat (apply andb_true_iff in H; destruct H as [H ?]).
    split; [ apply Z.leb_le; exact H | ].
    pose proof (kinds_disjoint v).
    repeat match goal with
           | Hx : existsb _ v = true |- _ => apply existsb_filter in Hx
           end.
    lia.
  - intros r Hr Hs. split; [ | reflexivity ].
    unfold validatePassword. rewrite pwStep_fold.
    cbn [hasLower hasUpper hasDigit hasSpecial orb].
    assert (Hlen : 8 <= len (lit "aA1" ++ [r; r])).
    { change (len (lit "aA1" ++ [r; r])) with (1 + (1 + (1 + (runeLen r + (runeLen r + 0))))).
      assert (3 <= runeLen r).
      { unfold runeLen, between.
        destruct (r <? 0) eqn:E0; [ lia | ].
        destruct (r <? 128) eqn:E1; [ lia | ].
        destruct (r <? 2048) eqn:E2; [ lia | ].
        destruct ((55296 <=? r) && (r <=? 57343)); [ lia | ].
        destruct (r <? 65536); [ lia | ].
        destruct (r <=? 1114111); lia. }
      lia. }
    apply Z.leb_le in Hlen. rewrite Hlen.
    assert (Hnl : unicode_IsLower r = false /\ unicode_IsUpper r = false /\
                  unicode_IsDigit r = false).
    { unfold countsAsSpecial in Hs.
      destruct (unicode_IsLower r), (unicode_IsUpper r), (unicode_IsDigit r);
        cbn in Hs; try discriminate Hs. repeat split. }
    change (lit "aA1" ++ [r; r]) with (97 :: 65 :: 49 :: r :: [r]).
    cbn [existsb]. rewrite Hs.
    unfold countsAsLower, countsAsUpper, countsAsDigit.
    cbn -[unicode_IsLower unicode_IsUpper unicode_IsDigit].
    rewrite ?orb_true_r. reflexivity.
Qed.

(** "aA1" and two euro signs. *)
Lemma validatePassword_counts_bytes_witness :
  validatePassword (L:=euroLib) (lit "aA1" ++ [8364; 8364]) = true /\
  runeCount (lit "aA1" ++ [8364; 8364]) = 5 /\
  len (lit "aA1" ++ [8364; 8364]) = 9.
Proof.
  destruct (@validatePassword_counts_bytes euroLib) as [_ H].
  destruct (H 8364) as [H1 H2]; [ lia | reflexivity | ].
  split; [ exact H1 | ]. split; [ exact H2 | reflexivity ].
Defined.

(* ================================================================== *)
(** ** auth.go: more on generateUsername *)

Section UsernameFacts.
Context {L : GoLib}.

Lemma generateUsername_cases (f l e : gostring) (rnd : list Z) :
  generateUsername f l e rnd =
  if isEmpty (handleBase f l e) then prefix 12 (Uuid.String (Uuid.New rnd))
  else firstn 20 (handleBase f l e) ++ prefix 6 (Uuid.String (Uuid.New rnd)).
Proof.
  unfold generateUsername. rewrite usernameBase_handleBase.
  destruct (isEmpty (handleBase f l e)); [ reflexivity | ].
  rewrite (truncate20 _ (handleBase_alnum f l e)). reflexivity.
Qed.

Lemma hex_handle (bs : list Z) :
  Forall (fun b => 0 <= b < 256) bs ->
  forallb isHandleChar (Hex.EncodeToString bs) = true.
Proof.
  induction 1 as [| b bs Hb _ IH]; [ reflexivity | ].
  change (Hex.EncodeToString (b :: bs))
    with (Hex.digit (Z.shiftr b 4) :: Hex.digit (Z.land b 15) :: Hex.EncodeToString bs).
  cbn [forallb]. unfold isHandleChar at 1 2.
  rewrite (digit_alnum (hi_nibble Hb)), (digit_alnum (lo_nibble b)), IH.
  reflexivity.
Qed.

Lemma forallb_firstn (p : rune -> bool) (n : nat) (s : gostring) :
  forallb p s = true -> forallb p (firstn n s) = true.
Proof.
  revert n. induction s as [| c s IH]; intros [| n] H; try reflexivity.
  cbn [forallb firstn] in *. apply andb_true_iff in H. destruct H as [Hc Hs].
  rewrite Hc, (IH n Hs). reflexivity.
Qed.

Lemma uuid_text_handle (rnd : list Z) :
  forallb isHandleChar (Uuid.String (Uuid.New rnd)) = true.
Proof.
  pose proof (uuid_byte_range rnd) as H. unfold Uuid.String.
  assert (Hf : forall n (u : list Z),
             Forall (fun b => 0 <= b < 256) u -> Forall (fun b => 0 <= b < 256) (firstn n u)).
  { intros n u Hu. revert n.
    induction Hu as [| b u Hb _ IH]; intros [| n]; cbn [firstn]; auto. }
  assert (Hs : forall n (u : list Z),
             Forall (fun b => 0 <= b < 256) u -> Forall (fun b => 0 <= b < 256) (skipn n u)).
  { intros n u Hu. revert n.
    induction Hu as [| b u Hb Hu IH]; intros [| n]; cbn [skipn]; auto. }
  rewrite !forallb_app.
  rewrite !hex_handle by auto.
  reflexivity.
Qed.

End UsernameFacts.

(** X1.  Whatever the names, the e-mail and the random draw,
    [generateUsername] returns between 7 and 26 characters, all of them
    from [a-z0-9] or hyphens and each one byte long, so that the result is
    never empty and always passes the payload's own [max=100] on
    usernames. *)
Theorem generateUsername_bounds :
  forall (L : GoLib) (firstName lastName email : gostring) (rnd : list Z)
         (reg : registry) (all : structFields),
    let u := generateUsername firstName lastName email rnd in
    (7 <= List.length u <= 26)%nat /\
    forallb isHandleChar u = true /\
    checkTags reg all u [tOmitempty; tMax 100] = None.
Proof.
  intros L f l e rnd reg all u.
  assert (Hlen : (7 <= List.length u <= 26)%nat).
  { subst u. rewrite generateUsername_cases.
    destruct (handleBase f l e) as [| c base] eqn:Hb; cbn [isEmpty].
    - cbn. lia.
    - rewrite length_app.
      change (List.length (prefix 6 (Uuid.String (Uuid.New rnd)))) with 6%nat.
      pose proof (firstn_le_length 20 (c :: base)) as H1.
      assert (H2 : (List.length (firstn 20 (c :: base)) <= 20)%nat).
      { rewrite length_firstn. lia. }
      cbn [firstn List.length] in *. lia. }
  split; [ exact Hlen | ]. split.
  - subst u. rewrite generateUsername_cases.
    destruct (isEmpty (handleBase f l e)).
    + apply forallb_firstn. apply uuid_text_handle.
    + rewrite forallb_app. unfold prefix.
      rewrite (forallb_firstn _ 6 _ (uuid_text_handle rnd)).
      rewrite (@forallb_weaken isAlnumLower isHandleChar);
        [ reflexivity | apply forallb_firstn, handleBase_alnum | ].
      intros r Hr. unfold isHandleChar. rewrite Hr. reflexivity.
  - apply check_omitempty_max. right. unfold runeCount. lia.
Qed.

(** X2.  When the names or the e-mail give a base, two draws give the
    same username exactly when their first three random bytes agree: of
    the 16 random bytes read, a username keeps 24 bits. *)
Theorem generateUsername_collides :
  forall (L : GoLib) (firstName lastName email : gostring) (r1 r2 : list Z),
    isEmpty (handleBase firstName lastName email) = false ->
    (generateUsername firstName lastName email r1 =
     generateUsername firstName lastName email r2 <->
     Uuid.byteAt r1 0 = Uuid.byteAt r2 0 /\
     Uuid.byteAt r1 1 = Uuid.byteAt r2 1 /\
     Uuid.byteAt r1 2 = Uuid.byteAt r2 2).
Proof.
  intros L f l e r1 r2 Hb. rewrite !generateUsername_cases, Hb.
  destruct (uuid_prefix6 r1) as (-> & _). destruct (uuid_prefix6 r2) as (-> & _).
  split.
  - intros H. apply app_inv_head in H.
    change (Hex.EncodeToString [Uuid.byteAt r1 0; Uuid.byteAt r1 1; Uuid.byteAt r1 2])
      with [Hex.digit (Z.shiftr (Uuid.byteAt r1 0) 4); Hex.digit (Z.land (Uuid.byteAt r1 0) 15);
            Hex.digit (Z.shiftr (Uuid.byteAt r1 1) 4); Hex.digit (Z.land (Uuid.byteAt r1 1) 15);
            Hex.digit (Z.shiftr (Uuid.byteAt r1 2) 4); Hex.digit (Z.land (Uuid.byteAt r1 2) 15)]
      in H.
    change (Hex.EncodeToString [Uuid.byteAt r2 0; Uuid.byteAt r2 1; Uuid.byteAt r2 2])
      with [Hex.digit (Z.shiftr (Uuid.byteAt r2 0) 4); Hex.digit (Z.land (Uuid.byteAt r2 0) 15);
            Hex.digit (Z.shiftr (Uuid.byteAt r2 1) 4); Hex.digit (Z.land (Uuid.byteAt r2 1) 15);
            Hex.digit (Z.shiftr (Uuid.byteAt r2 2) 4); Hex.digit (Z.land (Uuid.byteAt r2 2) 15)]
      in H.
    injection H as H0 H0' H1 H1' H2 H2'.
    repeat split; apply hex_byte_inj; auto using byteAt_range.
  - intros (-> & -> & ->). reflexivity.
Qed.

(** Two draws for Ann Lee that differ from the fourth byte on. *)
Lemma generateUsername_collides_witness :
  generateUsername (L:=asciiLib) (lit "Ann") (lit "Lee") (lit "ann@example.com")
    [171; 205; 239; 1; 1; 1] =
  generateUsername (L:=asciiLib) (lit "Ann") (lit "Lee") (lit "ann@example.com")
    [171; 205; 239; 2; 2; 2; 2].
Proof.
  apply (@generateUsername_collides asciiLib); [ reflexivity | ].
  repeat split.
Defined.

(* ================================================================== *)
(** ** registerUserHandler: the calls around a create *)

Lemma count_quiet (p q : Obs -> bool) (t : list Obs) :
  Forall (fun o => q o = true) t -> (forall o, q o = true -> p o = false) ->
  count p t = 0%nat.
Proof.
  intros H Hpq. induction H as [| o t Ho _ IH]; [ reflexivity | ].
  rewrite count_cons, (Hpq o Ho), IH. reflexivity.
Qed.

Lemma loopCall_quiet (o : Obs) :
  loopCall o = true ->
  isResponse o = false /\ isSend o = false /\ isDelete o = false /\
  isPasswordSet o = false.
Proof. destruct o; cbn; intros H; repeat split; discriminate H. Qed.

Section RegisterCalls.
Context {L : GoLib}.
Variable app : config.
Variable payload : RegisterUserPayload.

(** A create of the loop: what came before it, what it was given, and
    what its answer makes the loop do. *)
Lemma loop_create (tok : gostring) (n : nat) (u : store.User) (t : list Obs)
      (out : option store.User) :
  loopRun app payload tok n u t out ->
  forall a u' tok' exp' res b,
    t = a ++ oCreateAndInvite u' tok' exp' res :: b ->
    Forall (fun o => loopCall o = true) a /\
    store.setUsername u' [] = store.setUsername u [] /\
    tok' = tok /\ exp' = mail_exp app /\
    (u' = u \/
     exists rnd, In (oRandRead rnd) a /\
       store.Username u' =
         generateUsername (FirstName payload) (LastName payload) (Email payload) rnd) /\
    match res with
    | inl ErrDuplicateUsername => True
    | inl ErrDuplicateEmail => b = [oBadRequest ErrDuplicateEmail] /\ out = None
    | inl e => b = [oInternalServerError e] /\ out = None
    | inr id => b = [] /\ out = Some (store.setID u' id)
    end.
Proof.
  induction 1 as [u | n u id | n u | n u e He1 He2 | n u rnd t out H IH];
    intros a u' tok' exp' res b Heq.
  - destruct a; discriminate Heq.
  - destruct a as [| ? [| ? ?]]; try discriminate Heq.
    injection Heq as <- <- <- <- <-.
    repeat split; first [ left; reflexivity | constructor ].
  - destruct a as [| ? [| ? [| ? ?]]]; try discriminate Heq.
    injection Heq as <- <- <- <- <-.
    repeat split; first [ left; reflexivity | constructor ].
  - destruct a as [| ? [| ? [| ? ?]]]; try discriminate Heq.
    injection Heq as <- <- <- <- <-.
    split; [ constructor | ]. do 3 (split; [ reflexivity | ]).
    split; [ left; reflexivity | ].
    destruct e; first [ contradiction | split; reflexivity ].
  - destruct a as [| c [| d a]]; cbn [List.app] in Heq.
    + injection Heq as <- <- <- <- <-.
      split; [ constructor | ]. do 3 (split; [ reflexivity | ]).
      split; [ left; reflexivity | exact I ].
    + discriminate Heq.
    + injection Heq as <- <- Heq.
      destruct (IH _ _ _ _ _ _ Heq) as (Hq & Hu & Htok & Hexp & Hname & Hres).
      split; [ repeat constructor; exact Hq | ].
      split; [ rewrite Hu; reflexivity | ].
      split; [ exact Htok | ]. split; [ exact Hexp | ].
      split; [ | exact Hres ].
      right. destruct Hname as [-> | (rnd' & Hin & Hn)].
      * exists rnd. split; [ right; left; reflexivity | reflexivity ].
      * exists rnd'. split; [ right; right; exact Hin | exact Hn ].
Qed.

(** The loop makes creates and draws only, then answers or leaves. *)
Lemma loop_calls (tok : gostring) (n : nat) (u : store.User) (t : list Obs)
      (out : option store.User) :
  loopRun app payload tok n u t out ->
  exists t0 fin,
    t = t0 ++ fin /\ Forall (fun o => loopCall o = true) t0 /\
    match out with
    | Some _ => fin = []
    | None => exists r, fin = [r] /\ isResponse r = true
    end.
Proof.
  induction 1 as [u | n u id | n u | n u e He1 He2 | n u rnd t out H IH].
  - exists [], []. repeat split. constructor.
  - eexists [_], []. repeat split. repeat constructor.
  - eexists [_], [_]. repeat split; [ repeat constructor | ].
    eexists. split; reflexivity.
  - eexists [_], [_]. repeat split; [ repeat constructor | ].
    eexists. split; reflexivity.
  - destruct IH as (t0 & fin & -> & Hq & Hfin).
    eexists (_ :: _ :: t0), fin. repeat split; [ repeat constructor; exact Hq | exact Hfin ].
Qed.

(** The statements after the loop end with a response, make no create
    and hash no password. *)
Lemma tail_calls (u : store.User) (plain : gostring) (t : list Obs) :
  tailRun app u plain t ->
  count isPasswordSet t = 0%nat /\ (count isSend t <= 1)%nat /\
  exists t0 r,
    t = t0 ++ [r] /\ isResponse r = true /\
    (responses t0 = [] \/
     exists d e, responses t0 = [oJsonResponse StatusCreated d (Some e)] /\
                 r = oInternalServerError e).
Proof.
  intros H. destruct H as [Hz | status werr Hnz | status merr derr Hnz].
  - split; [ reflexivity | ]. split; [ cbn; lia | ].
    exists [], (oBadRequest ErrDuplicateUsername). repeat split. left. reflexivity.
  - destruct werr as [e |]; (split; [ reflexivity | ]); (split; [ cbn; lia | ]).
    + eexists [_; _; _], _. repeat split. right. eexists _, _. split; reflexivity.
    + eexists [_; _], _. repeat split. left. reflexivity.
  - destruct derr as [e |]; (split; [ reflexivity | ]); (split; [ cbn; lia | ]).
    + eexists [_; _; _; _], _. repeat split. left. reflexivity.
    + eexists [_; _; _], _. repeat split. left. reflexivity.
Qed.

Lemma username_calls (pre : list Obs) (name : gostring) :
  usernameRun payload pre name -> Forall (fun o => loopCall o = true) pre.
Proof. intros H. destruct H; repeat constructor. Qed.

(** Every trace of the handler body ends with its response. *)
Lemma body_ends (t : list Obs) :
  bodyRun app payload t ->
  exists t0 r,
    t = t0 ++ [r] /\ isResponse r = true /\
    (responses t0 = [] \/
     exists d e, responses t0 = [oJsonResponse StatusCreated d (Some e)] /\
                 r = oInternalServerError e).
Proof.
  intros H.
  destruct H as [pre name err Hu | pre name pw rnd0 t1 out t2 Hu Hl Ht];
    destruct (username_counts Hu) as (_ & _ & _ & Hr & _).
  { exists (pre ++ [oPasswordSet (Password payload) (inl err)]), (oInternalServerError err).
    split; [ rewrite <- app_assoc; reflexivity | ]. split; [ reflexivity | ].
    left. rewrite responses_app, Hr. reflexivity. }
  destruct (loop_calls Hl) as (t10 & fin & -> & Hq & Hfin).
  assert (Hr1 : responses t10 = []).
  { apply length_zero_iff_nil. apply (@count_quiet isResponse _ _ Hq).
    intros o Ho. apply loopCall_quiet in Ho. tauto. }
  destruct out as [u' |].
  - subst fin. destruct (tail_calls Ht) as (_ & _ & t20 & r & -> & Hresp & Hcase).
    exists (pre ++ oPasswordSet (Password payload) (inr pw) :: oRandRead rnd0 :: t10 ++ t20), r.
    split; [ rewrite app_nil_r, <- !app_assoc; cbn [List.app];
             rewrite <- !app_assoc; reflexivity | ].
    split; [ exact Hresp | ].
    assert (Hall : responses (pre ++ oPasswordSet (Password payload) (inr pw)
                                :: oRandRead rnd0 :: t10 ++ t20) = responses t20).
    { rewrite responses_app, Hr. cbn [List.app]. unfold responses at 1.
      cbn [filter isResponse].
      change (filter isResponse (t10 ++ t20)) with (responses (t10 ++ t20)).
      rewrite responses_app, Hr1. reflexivity. }
    rewrite Hall. exact Hcase.
  - subst t2. destruct Hfin as (r & -> & Hresp).
    exists (pre ++ oPasswordSet (Password payload) (inr pw) :: oRandRead rnd0 :: t10), r.
    split; [ rewrite app_nil_r, <- !app_assoc; cbn [List.app]; reflexivity | ].
    split; [ exact Hresp | ].
    left. rewrite responses_app, Hr. cbn [List.app]. unfold responses.
    cbn [filter isResponse]. exact Hr1.
Qed.

(** A create of the handler body: the calls before it, its arguments,
    and what follows its answer. *)
Lemma body_create (t : list Obs) :
  bodyRun app payload t ->
  forall a u tok exp res b,
    t = a ++ oCreateAndInvite u tok exp res :: b ->
    exists pre name pw rnd a',
      usernameRun payload pre name /\
      a = pre ++ oPasswordSet (Password payload) (inr pw) :: oRandRead rnd :: a' /\
      Forall (fun o => loopCall o = true) a' /\
      store.setUsername u [] = store.setUsername (newUser payload name pw) [] /\
      tok = hashTokenOf (plainTokenOf rnd) /\ exp = mail_exp app /\
      (store.Username u = name \/
       exists rnd', In (oRandRead rnd') a' /\
         store.Username u =
           generateUsername (FirstName payload) (LastName payload) (Email payload) rnd') /\
      match res with
      | inl ErrDuplicateUsername => True
      | inl ErrDuplicateEmail => b = [oBadRequest ErrDuplicateEmail]
      | inl e => b = [oInternalServerError e]
      | inr id => tailRun app (store.setID u id) (plainTokenOf rnd) b
      end.
Proof.
  intros H a u tok exp res b Heq.
  destruct H as [pre name err Hu | pre name pw rnd0 t1 out t2 Hu Hl Ht].
  { exfalso. destruct (username_counts Hu) as (Hc & _).
    apply (f_equal (count isCreate)) in Heq.
    rewrite !count_app, Hc, count_cons in Heq. cbn in Heq. lia. }
  destruct (username_counts Hu) as (Hc & _).
  change (pre ++ oPasswordSet (Password payload) (inr pw) :: oRandRead rnd0 :: t1 ++ t2)
    with (pre ++ [oPasswordSet (Password payload) (inr pw); oRandRead rnd0] ++ t1 ++ t2)
    in Heq.
  rewrite app_assoc in Heq.
  apply (split_behind isCreate) in Heq;
    [ | reflexivity | rewrite count_app, Hc; reflexivity ].
  destruct Heq as (a' & -> & Heq).
  assert (Hc2 : count isCreate t2 = 0%nat).
  { destruct out as [u' |].
    - destruct (tail_counts Ht) as (H1 & _). exact H1.
    - subst t2. reflexivity. }
  apply (split_before isCreate) in Heq; [ | reflexivity | exact Hc2 ].
  destruct Heq as (bl & -> & ->).
  destruct (loop_create Hl a' u tok exp res bl eq_refl)
    as (Hq & Hsame & -> & -> & Hname & Hres).
  exists pre, name, pw, rnd0, a'.
  split; [ exact Hu | ].
  split; [ rewrite <- app_assoc; reflexivity | ].
  split; [ exact Hq | ]. split; [ exact Hsame | ].
  split; [ reflexivity | ]. split; [ reflexivity | ].
  split.
  { destruct Hname as [-> | Hn]; [ left; reflexivity | right; exact Hn ]. }
  destruct res as [e | id].
  - destruct e; try exact I; destruct Hres as [-> ->]; subst t2; reflexivity.
  - destruct Hres as [-> ->]. exact Ht.
Qed.

(** What the calls before a create amount to. *)
Lemma before_create (pre : list Obs) (name : gostring) (pw : store.password)
      (rnd : list Z) (a' : list Obs) :
  usernameRun payload pre name ->
  Forall (fun o => loopCall o = true) a' ->
  let a := pre ++ oPasswordSet (Password payload) (inr pw) :: oRandRead rnd :: a' in
  responses a = [] /\ count isSend a = 0%nat /\ count isDelete a = 0%nat /\
  count isPasswordSet a = 1%nat.
Proof.
  intros Hu Hq a. subst a.
  apply username_calls in Hu.
  assert (Hall : forall p, (forall o, loopCall o = true -> p o = false) ->
                           count p pre = 0%nat /\ count p a' = 0%nat).
  { intros p Hp. split; eapply count_quiet; eassumption. }
  destruct (Hall isResponse) as [R1 R2]; [ intros o Ho; apply loopCall_quiet in Ho; tauto | ].
  destruct (Hall isSend) as [S1 S2]; [ intros o Ho; apply loopCall_quiet in Ho; tauto | ].
  destruct (Hall isDelete) as [D1 D2]; [ intros o Ho; apply loopCall_quiet in Ho; tauto | ].
  destruct (Hall isPasswordSet) as [P1 P2]; [ intros o Ho; apply loopCall_quiet in Ho; tauto | ].
  split.
  { apply length_zero_iff_nil. change (count isResponse
      (pre ++ oPasswordSet (Password payload) (inr pw) :: oRandRead rnd :: a') = 0%nat).
    rewrite count_app, !count_cons, R1, R2. reflexivity. }
  rewrite !count_app, !count_cons, S1, S2, D1, D2, P1, P2. repeat split.
Qed.

End RegisterCalls.

Section RegisterBody.
Context {L : GoLib}.
Variable app : config.
Variable payload : RegisterUserPayload.

Lemma body_hash_failure (t : list Obs) :
  bodyRun app payload t ->
  forall p e, In (oPasswordSet p (inl e)) t ->
    exists pre name,
      usernameRun payload pre name /\ p = Password payload /\
      t = pre ++ [oPasswordSet p (inl e); oInternalServerError e].
Proof.
  intros H p e Hin.
  destruct H as [pre name err Hu | pre name pw rnd0 t1 out t2 Hu Hl Ht].
  - exists pre, name. split; [ exact Hu | ].
    apply in_app_or in Hin. destruct Hin as [Hin | Hin].
    + apply username_calls in Hu.
      pose proof (@count_quiet isPasswordSet _ _ Hu) as Hz.
      apply (count_none_in _ _ _ (Hz (fun o Ho => proj2 (proj2 (proj2 (loopCall_quiet o Ho)))))) in Hin.
      discriminate Hin.
    + destruct Hin as [Hin | [Hin | []]]; [ | discriminate Hin ].
      injection Hin as <- <-. split; reflexivity.
  - exfalso.
    assert (Hz : count isPasswordSet
                   (pre ++ oRandRead rnd0 :: t1 ++ t2) = 0%nat).
    { destruct (loop_calls Hl) as (t10 & fin & -> & Hq & Hfin).
      rewrite count_app, count_cons, !count_app.
      rewrite (@count_quiet isPasswordSet _ _ (username_calls Hu)
                 (fun o Ho => proj2 (proj2 (proj2 (loopCall_quiet o Ho))))).
      rewrite (@count_quiet isPasswordSet _ _ Hq
                 (fun o Ho => proj2 (proj2 (proj2 (loopCall_quiet o Ho))))).
      destruct out as [u' |].
      - subst fin. destruct (tail_calls Ht) as (-> & _). reflexivity.
      - subst t2. destruct Hfin as (r & -> & Hr).
        destruct r; try discriminate Hr; reflexivity. }
    apply in_app_or in Hin. destruct Hin as [Hin | [Hin | Hin]];
      [ | discriminate Hin | ].
    + assert (Hin' : In (oPasswordSet p (inl e)) (pre ++ oRandRead rnd0 :: t1 ++ t2)).
      { apply in_or_app. left. exact Hin. }
      apply (count_none_in _ _ _ Hz) in Hin'. discriminate Hin'.
    + assert (Hin' : In (oPasswordSet p (inl e)) (pre ++ oRandRead rnd0 :: t1 ++ t2)).
      { apply in_or_app. right. exact Hin. }
      apply (count_none_in _ _ _ Hz) in Hin'. discriminate Hin'.
Qed.

(** The mailer is called once at most, right after a create that gave
    an id other than 0. *)
Lemma body_send (t : list Obs) :
  bodyRun app payload t ->
  forall tmpl un em d sb res,
    In (oSend tmpl un em d sb res) t ->
    count isSend t = 1%nat /\
    exists a u tok exp id rnd b,
      t = a ++ oCreateAndInvite u tok exp (inr id) :: oSend tmpl un em d sb res :: b /\
      id <> 0 /\ responses a = [] /\ count isDelete a = 0%nat /\
      oSend tmpl un em d sb res = welcome app (store.setID u id) (plainTokenOf rnd) res /\
      tok = hashTokenOf (plainTokenOf rnd) /\
      store.Email u = Email payload.
Proof.
  intros H tmpl un em d sb res Hin.
  assert (Hb := H).
  destruct H as [pre name err Hu | pre name pw rnd0 t1 out t2 Hu Hl Ht];
    destruct (username_counts Hu) as (_ & _ & Hs & Hr & _).
  { exfalso. apply in_app_or in Hin. destruct Hin as [Hin | Hin].
    - pose proof (count_none_in _ _ _ Hs Hin) as Hf. discriminate Hf.
    - destruct Hin as [Hin | [Hin | []]]; discriminate Hin. }
  destruct (loop_counts Hl) as (_ & _ & Hs1 & _).
  destruct (loop_success Hl) as [Hd1 Hok].
  assert (Hin2 : In (oSend tmpl un em d sb res) t2).
  { apply in_app_or in Hin. destruct Hin as [Hin | Hin].
    - pose proof (count_none_in _ _ _ Hs Hin) as Hf. discriminate Hf.
    - destruct Hin as [Hin | [Hin | Hin]]; try discriminate Hin.
      apply in_app_or in Hin. destruct Hin as [Hin | Hin]; [ | exact Hin ].
      pose proof (count_none_in _ _ _ Hs1 Hin) as Hf. discriminate Hf. }
  destruct out as [u' |]; [ | subst t2; destruct Hin2 ].
  assert (Hshape : store.ID u' <> 0 /\ count isSend t2 = 1%nat /\
                   exists b, t2 = oSend tmpl un em d sb res :: b /\
                     oSend tmpl un em d sb res =
                       welcome app u' (plainTokenOf rnd0) res).
  { destruct Ht as [Hz | status werr Hnz | status merr derr Hnz].
    - destruct Hin2 as [Hin2 | []]. discriminate Hin2.
    - split; [ exact Hnz | ].
      split; [ destruct werr; reflexivity | ].
      assert (He : oSend tmpl un em d sb res =
                   welcome app u' (Uuid.String (Uuid.New rnd0)) (status, None)).
      { destruct werr; cbn in Hin2;
          repeat (destruct Hin2 as [Hin2 | Hin2]; try discriminate Hin2);
          first [ symmetry; exact Hin2 | contradiction ]. }
      assert (Hres : res = (status, None)).
      { unfold welcome in He. injection He as _ _ _ _ _ He. exact He. }
      subst res. rewrite He. eexists. split; reflexivity.
    - split; [ exact Hnz | ].
      split; [ destruct derr; reflexivity | ].
      assert (He : oSend tmpl un em d sb res =
                   welcome app u' (Uuid.String (Uuid.New rnd0)) (status, Some merr)).
      { destruct derr; cbn in Hin2;
          repeat (destruct Hin2 as [Hin2 | Hin2]; try discriminate Hin2);
          first [ symmetry; exact Hin2 | contradiction ]. }
      assert (Hres : res = (status, Some merr)).
      { unfold welcome in He. injection He as _ _ _ _ _ He. exact He. }
      subst res. rewrite He. eexists. split; reflexivity. }
  destruct Hshape as (Hnz & Hone & b & -> & Hw).
  destruct (Hok u' eq_refl) as (t0 & u0 & id & -> & -> & Hr0).
  { cbn [newUser store.ID]. exact Hnz. }
  split.
  { rewrite count_app, !count_cons, count_app, Hs, Hs1, Hone. reflexivity. }
  assert (Heq : pre ++ oPasswordSet (Password payload) (inr pw) :: oRandRead rnd0
                  :: (t0 ++ [oCreateAndInvite u0
                        (Hex.EncodeToString (Sha256.Sum256 (bytes (Uuid.String (Uuid.New rnd0)))))
                        (mail_exp app) (inr id)])
                  ++ oSend tmpl un em d sb res :: b =
                (pre ++ oPasswordSet (Password payload) (inr pw) :: oRandRead rnd0 :: t0)
                  ++ oCreateAndInvite u0 (hashTokenOf (plainTokenOf rnd0)) (mail_exp app) (inr id)
                  :: oSend tmpl un em d sb res :: b).
  { rewrite <- ?app_assoc. cbn [List.app]. rewrite <- ?app_assoc. reflexivity. }
  destruct (body_create Hb _ _ _ _ _ _ Heq)
    as (pre' & name' & pw' & rnd' & a' & Hu' & Ha & Hq & Hsame & _ & _ & _ & _).
  exists (pre ++ oPasswordSet (Password payload) (inr pw) :: oRandRead rnd0 :: t0),
    u0, (hashTokenOf (plainTokenOf rnd0)), (mail_exp app), id, rnd0, b.
  split; [ exact Heq | ].
  split; [ exact Hnz | ].
  destruct (before_create pw' rnd' Hu' Hq) as (R & _ & D & _).
  rewrite <- Ha in R, D.
  split; [ exact R | ]. split; [ exact D | ].
  split; [ exact Hw | ]. split; [ reflexivity | ].
  apply (f_equal store.Email) in Hsame. exact Hsame.
Qed.

Lemma body_delete (t : list Obs) :
  bodyRun app payload t ->
  forall id derr, In (oDelete id derr) t ->
    exists tmpl un em d sb status merr,
      In (oSend tmpl un em d sb (status, Some merr)) t.
Proof.
  intros H id derr Hin.
  destruct H as [pre name err Hu | pre name pw rnd0 t1 out t2 Hu Hl Ht].
  { exfalso. apply in_app_or in Hin. destruct Hin as [Hin | Hin].
    - destruct Hu; [ destruct Hin | destruct Hin as [Hin | []]; discriminate Hin ].
    - destruct Hin as [Hin | [Hin | []]]; discriminate Hin. }
  destruct (loop_success Hl) as [Hd1 _].
  assert (Hin2 : In (oDelete id derr) t2).
  { apply in_app_or in Hin. destruct Hin as [Hin | Hin].
    - destruct Hu; [ destruct Hin | destruct Hin as [Hin | []]; discriminate Hin ].
    - destruct Hin as [Hin | [Hin | Hin]]; try discriminate Hin.
      apply in_app_or in Hin. destruct Hin as [Hin | Hin]; [ | exact Hin ].
      pose proof (count_none_in _ _ _ Hd1 Hin) as Hf. discriminate Hf. }
  destruct out as [u' |]; [ | subst t2; destruct Hin2 ].
  destruct Ht as [Hz | status werr Hnz | status merr derr' Hnz].
  - destruct Hin2 as [Hin2 | []]. discriminate Hin2.
  - exfalso. destruct werr; cbn in Hin2;
      repeat (destruct Hin2 as [Hin2 | Hin2]; try discriminate Hin2); exact Hin2.
  - eexists _, _, _, _, _, status, merr.
    apply in_or_app. right. right. right.
    apply in_or_app. right. left. reflexivity.
Qed.

End RegisterBody.

Lemma count_some (p : Obs -> bool) (t : list Obs) :
  count p t <> 0%nat -> exists x, In x t /\ p x = true.
Proof.
  induction t as [| o t IH]; intros H; [ contradiction H; reflexivity | ].
  rewrite count_cons in H. destruct (p o) eqn:Hp.
  - exists o. split; [ left; reflexivity | exact Hp ].
  - destruct (IH H) as (x & Hin & Hx). exists x. split; [ right; exact Hin | exact Hx ].
Qed.

Section NoopWorld.
Context {S : Type} {U : UserStore S}.

(** noop.go under the handlers: every send is answered with 200 and no
    error. *)
Lemma noop_run_sends A (p : Prog A) (w w' : World S mailer.NoopClient)
      (t : list Obs) (a : A) :
  run worldEnv p w = (t, a, w') ->
  forall tmpl un em d sb res, In (oSend tmpl un em d sb res) t -> res = (200, None).
Proof.
  revert w t. induction p as [a0 | X e k IH]; intros w t H; cbn [run] in H.
  - injection H as <- <- <-. intros ? ? ? ? ? ? [].
  - destruct (step worldEnv e w) as [x w1] eqn:Hs.
    destruct (run worldEnv (k x) w1) as [[t0 a0] w2] eqn:Hr.
    injection H as <- <- <-.
    intros tmpl un em d sb res [Hin | Hin]; [ | exact (IH x _ _ Hr _ _ _ _ _ _ Hin) ].
    cbn [step worldEnv] in Hs.
    destruct e; cbn [observe] in Hin; try discriminate Hin.
    cbn [worldStep mailer_Send NoopMailer mailer.Noop_Send] in Hs.
    injection Hs as <- _. injection Hin as _ _ _ _ _ <-. reflexivity.
Qed.

End NoopWorld.

(* ================================================================== *)
(** ** registerUserHandler: its response, its failures, its calls *)

(** X8.  Every run of the registration handler ends with a response and
    calls nothing after it.  It is the only response of the run, except
    when writing the 201 response failed: the handler then answers once
    more, with an internal server error carrying the error of the write. *)
Theorem register_answers_last :
  forall (L : GoLib) (app : config) (E : Env) (s s' : state E)
         (body : Json.Body) (t : list Obs),
    run E (registerUserHandler app body) s = (t, tt, s') ->
    exists t0 r,
      t = t0 ++ [r] /\ isResponse r = true /\
      (responses t0 = [] \/
       exists d e, responses t0 = [oJsonResponse StatusCreated d (Some e)] /\
                   r = oInternalServerError e).
Proof.
  intros L app E s s' body t Hrun.
  apply run_exec, register_shape in Hrun.
  destruct (readJSON registerTarget body) as [err | payload].
  { subst t. exists [], (oBadRequest err). repeat split. left. reflexivity. }
  destruct (Validate_Struct Validate (registerFields payload)) as [err |].
  { subst t. exists [], (oBadRequest err). repeat split. left. reflexivity. }
  exact (body_ends Hrun).
Qed.

(** Ann registers while the connection to her breaks: the write of the
    201 response fails and an internal server error follows. *)
Lemma register_answers_last_witness :
  let r := run worldEnv
               (registerUserHandler (L:=asciiLib) scenario.cfg scenario.annBody)
               (faults.world (scenario.emptyRepo [])
                  (faults.oracle None None [Some faults.brokenPipe]
                     [[1; 2; 3]; [4; 5; 6]])) in
  (exists t0 r0,
     fst (fst r) = t0 ++ [r0] /\ isResponse r0 = true /\
     (responses t0 = [] \/
      exists d e, responses t0 = [oJsonResponse StatusCreated d (Some e)] /\
                  r0 = oInternalServerError e)) /\
  map kindOf (responses (fst (fst r))) =
    [Some (Written 201); Some InternalServerError].
Proof.
  cbv zeta. split; [ | vm_compute; reflexivity ].
  exact (@register_answers_last asciiLib scenario.cfg worldEnv _ _
           scenario.annBody _ (run_unit _ _ _)).
Defined.

(** X9.  When hashing the password fails, the registration handler
    answers with an internal server error carrying that error and stops:
    the password hashed was the payload's, at most the draw for a
    username came before, no invitation token is drawn, and neither the
    repository nor the mailer is called. *)
Theorem register_hash_failure :
  forall (L : GoLib) (app : config) (E : Env) (s s' : state E)
         (body : Json.Body) (t : list Obs),
    run E (registerUserHandler app body) s = (t, tt, s') ->
    forall p e,
      In (oPasswordSet p (inl e)) t ->
      (exists pre,
         t = pre ++ [oPasswordSet p (inl e); oInternalServerError e] /\
         (pre = [] \/ exists rnd, pre = [oRandRead rnd])) /\
      (exists payload,
         readJSON registerTarget body = inr payload /\ p = Password payload) /\
      responses t = [oInternalServerError e] /\
      count isStoreCall t = 0%nat /\ count isSend t = 0%nat.
Proof.
  intros L app E s s' body t Hrun p e Hin.
  apply run_exec, register_shape in Hrun.
  destruct (readJSON registerTarget body) as [err | payload].
  { subst t. destruct Hin as [Hin | []]. discriminate Hin. }
  destruct (Validate_Struct Validate (registerFields payload)) as [err |].
  { subst t. destruct Hin as [Hin | []]. discriminate Hin. }
  destruct (body_hash_failure Hrun _ _ Hin) as (pre & name & Hu & -> & ->).
  split.
  { exists pre. split; [ reflexivity | ].
    destruct Hu; [ left; reflexivity | right; eexists; reflexivity ]. }
  split; [ exists payload; split; reflexivity | ].
  destruct Hu; repeat split.
Qed.

(** Ann registers while the hasher refuses every password. *)
Lemma register_hash_failure_witness :
  let r := run worldEnv
               (registerUserHandler (L:=asciiLib) scenario.cfg scenario.annBody)
               (faults.world (scenario.emptyRepo [])
                  (faults.oracle (Some faults.tooLong) None [] [])) in
  responses (fst (fst r)) = [oInternalServerError faults.tooLong] /\
  count isStoreCall (fst (fst r)) = 0%nat /\
  count isSend (fst (fst r)) = 0%nat.
Proof.
  cbv zeta.
  pose proof (@register_hash_failure asciiLib scenario.cfg worldEnv
                (faults.world (scenario.emptyRepo [])
                   (faults.oracle (Some faults.tooLong) None [] []))
                _ scenario.annBody _ (run_unit _ _ _)) as H.
  edestruct H as (_ & _ & H3 & H4 & H5).
  { vm_compute. right. left. reflexivity. }
  repeat split; assumption.
Defined.

(** X10.  A create that fails with an error other than the two conflicts
    ends the registration: the next and last event is an internal server
    error carrying that error, the only response of the run; there is no
    retry, no mail and no delete. *)
Theorem register_create_failure_is_final :
  forall (L : GoLib) (app : config) (E : Env) (s s' : state E)
         (body : Json.Body) (t : list Obs),
    run E (registerUserHandler app body) s = (t, tt, s') ->
    forall u tok exp e,
      In (oCreateAndInvite u tok exp (inl e)) t ->
      e <> ErrDuplicateUsername -> e <> ErrDuplicateEmail ->
      (exists a,
         t = a ++ [oCreateAndInvite u tok exp (inl e); oInternalServerError e] /\
         responses a = []) /\
      responses t = [oInternalServerError e] /\
      count isSend t = 0%nat /\ count isDelete t = 0%nat.
Proof.
  intros L app E s s' body t Hrun u tok exp e Hin Hu He.
  apply run_exec, register_shape in Hrun.
  destruct (readJSON registerTarget body) as [err | payload].
  { subst t. destruct Hin as [Hin | []]. discriminate Hin. }
  destruct (Validate_Struct Validate (registerFields payload)) as [err |].
  { subst t. destruct Hin as [Hin | []]. discriminate Hin. }
  destruct (in_split _ _ Hin) as (a & b & ->).
  destruct (body_create Hrun _ _ _ _ _ _ eq_refl)
    as (pre & name & pw & rnd & a' & Hpre & -> & Hq & _ & _ & _ & _ & Hb).
  destruct (before_create pw rnd Hpre Hq) as (R & Sd & D & _).
  assert (Hb' : b = [oInternalServerError e]).
  { destruct e; first [ exact Hb | contradiction ]. }
  subst b.
  split; [ eexists; split; [ reflexivity | exact R ] | ].
  split; [ rewrite responses_app, R; reflexivity | ].
  split; [ rewrite count_app, Sd | rewrite count_app, D ]; reflexivity.
Qed.

(** Ann registers while the database is down. *)
Lemma register_create_failure_is_final_witness :
  let r := run worldEnv
               (registerUserHandler (L:=asciiLib) scenario.cfg scenario.annBody)
               (scenario.noopWorld (scenario.emptyRepo [Some faults.refused])
                  [[1; 2; 3]; [4; 5; 6]] []) in
  responses (fst (fst r)) = [oInternalServerError faults.refused] /\
  count isSend (fst (fst r)) = 0%nat /\
  count isCreate (fst (fst r)) = 1%nat.
Proof.
  cbv zeta.
  pose proof (@register_create_failure_is_final asciiLib scenario.cfg worldEnv
                (scenario.noopWorld (scenario.emptyRepo [Some faults.refused])
                   [[1; 2; 3]; [4; 5; 6]] [])
                _ scenario.annBody _ (run_unit _ _ _)) as H.
  edestruct H as (_ & H2 & H3 & _).
  { vm_compute. do 3 right. left. reflexivity. }
  { discriminate. }
  { discriminate. }
  split; [ exact H2 | ]. split; [ exact H3 | vm_compute; reflexivity ].
Defined.

(** X11.  A create that reports success with the id 0 is answered like
    an exhausted retry loop: the next and last event is a bad request
    carrying [ErrDuplicateUsername], the only response of the run; no
    mail is sent and the account is not deleted. *)
Theorem register_zero_id_is_a_conflict :
  forall (L : GoLib) (app : config) (E : Env) (s s' : state E)
         (body : Json.Body) (t : list Obs),
    run E (registerUserHandler app body) s = (t, tt, s') ->
    forall u tok exp,
      In (oCreateAndInvite u tok exp (inr 0)) t ->
      (exists a,
         t = a ++ [oCreateAndInvite u tok exp (inr 0);
                   oBadRequest ErrDuplicateUsername] /\
         responses a = []) /\
      responses t = [oBadRequest ErrDuplicateUsername] /\
      count isSend t = 0%nat /\ count isDelete t = 0%nat.
Proof.
  intros L app E s s' body t Hrun u tok exp Hin.
  apply run_exec, register_shape in Hrun.
  destruct (readJSON registerTarget body) as [err | payload].
  { subst t. destruct Hin as [Hin | []]. discriminate Hin. }
  destruct (Validate_Struct Validate (registerFields payload)) as [err |].
  { subst t. destruct Hin as [Hin | []]. discriminate Hin. }
  destruct (in_split _ _ Hin) as (a & b & ->).
  destruct (body_create Hrun _ _ _ _ _ _ eq_refl)
    as (pre & name & pw & rnd & a' & Hpre & -> & Hq & _ & _ & _ & _ & Hb).
  destruct (before_create pw rnd Hpre Hq) as (R & Sd & D & _).
  destruct (tail_counts Hb) as (_ & _ & Hz).
  rewrite (Hz eq_refl).
  split; [ eexists; split; [ reflexivity | exact R ] | ].
  split; [ rewrite responses_app, R; reflexivity | ].
  split; [ rewrite count_app, Sd | rewrite count_app, D ]; reflexivity.
Qed.

(** Ann registers in a repository that numbers its first account 0: the
    account is stored and stays, and Ann is told her username is taken. *)
Lemma register_zero_id_is_a_conflict_witness :
  let r := run worldEnv
               (registerUserHandler (L:=asciiLib) scenario.cfg scenario.annBody)
               (scenario.noopWorld faults.zeroRepo [[1; 2; 3]; [4; 5; 6]] []) in
  responses (fst (fst r)) = [oBadRequest ErrDuplicateUsername] /\
  count isSend (fst (fst r)) = 0%nat /\
  hasAccount (w_store (snd r)) 0 = true.
Proof.
  cbv zeta.
  pose proof (@register_zero_id_is_a_conflict asciiLib scenario.cfg worldEnv
                (scenario.noopWorld faults.zeroRepo [[1; 2; 3]; [4; 5; 6]] [])
                _ scenario.annBody _ (run_unit _ _ _)) as H.
  edestruct H as (_ & H2 & H3 & _).
  { vm_compute. do 3 right. left. reflexivity. }
  split; [ exact H2 | ]. split; [ exact H3 | vm_compute; reflexivity ].
Defined.

(** X12.  Every create of the registration handler is made for a decoded
    and valid payload, after its password has been hashed and the token
    drawn: the account has the id 0, the names, country and e-mail of
    the payload, the role "user" and the hash the hasher returned; the
    token is the hexadecimal SHA-256 of the text of the draw, the expiry
    the configured one; the username is the payload's, if it has one, or
    one that [generateUsername] made from a draw of the run. *)
Theorem register_creates_from_payload :
  forall (L : GoLib) (app : config) (E : Env) (s s' : state E)
         (body : Json.Body) (t : list Obs),
    run E (registerUserHandler app body) s = (t, tt, s') ->
    forall u tok exp res,
      In (oCreateAndInvite u tok exp res) t ->
      exists payload pw rnd a b,
        readJSON registerTarget body = inr payload /\
        Validate_Struct Validate (registerFields payload) = None /\
        t = a ++ oCreateAndInvite u tok exp res :: b /\
        In (oPasswordSet (Password payload) (inr pw)) a /\
        In (oRandRead rnd) a /\
        u = newUser payload (store.Username u) pw /\
        tok = hashTokenOf (plainTokenOf rnd) /\ exp = mail_exp app /\
        ((isEmpty (Username payload) = false /\
          store.Username u = Username payload) \/
         exists rnd',
           In (oRandRead rnd') a /\
           store.Username u =
             generateUsername (FirstName payload) (LastName payload)
                              (Email payload) rnd').
Proof.
  intros L app E s s' body t Hrun u tok exp res Hin.
  apply run_exec, register_shape in Hrun.
  destruct (readJSON registerTarget body) as [err | payload].
  { subst t. destruct Hin as [Hin | []]. discriminate Hin. }
  destruct (Validate_Struct Validate (registerFields payload)) as [err |] eqn:Hval.
  { subst t. destruct Hin as [Hin | []]. discriminate Hin. }
  destruct (in_split _ _ Hin) as (a & b & ->).
  destruct (body_create Hrun _ _ _ _ _ _ eq_refl)
    as (pre & name & pw & rnd & a' & Hpre & -> & Hq & Hsame & -> & -> & Hname & _).
  exists payload, pw, rnd,
    (pre ++ oPasswordSet (Password payload) (inr pw) :: oRandRead rnd :: a'), b.
  split; [ reflexivity | ]. split; [ exact Hval | ]. split; [ reflexivity | ].
  split; [ apply in_or_app; right; left; reflexivity | ].
  split; [ apply in_or_app; right; right; left; reflexivity | ].
  split.
  { clear - Hsame. destruct u. unfold newUser, store.setUsername in *.
    cbn [store.ID store.Username store.FirstName store.LastName store.Country
         store.Email store.Password store.Role_] in *.
    injection Hsame as -> -> -> -> -> -> ->. reflexivity. }
  split; [ reflexivity | ]. split; [ reflexivity | ].
  destruct Hname as [Hn | (rnd' & Hr & Hn)].
  - destruct Hpre as [He | rnd' He].
    + left. split; assumption.
    + right. exists rnd'. split; [ | exact Hn ].
      apply in_or_app. left. left. reflexivity.
  - right. exists rnd'. split; [ | exact Hn ].
    apply in_or_app. right. right. right. exact Hr.
Qed.

(** Ann registers in an empty repository. *)
Lemma register_creates_from_payload_witness :
  let r := run worldEnv
               (registerUserHandler (L:=asciiLib) scenario.cfg scenario.annBody)
               (scenario.noopWorld (scenario.emptyRepo []) [[1; 2; 3]; [4; 5; 6]] []) in
  count isCreate (fst (fst r)) = 1%nat /\
  forall u tok exp res,
    In (oCreateAndInvite u tok exp res) (fst (fst r)) ->
    exists pw, u = newUser (Build_RegisterUserPayload (lit "Ann") (lit "Lee") (lit "KZ")
                              (lit "ann@example.com") (lit "Str0ng!Pass")
                              (lit "Str0ng!Pass") [])
                           (store.Username u) pw.
Proof.
  cbv zeta. split; [ vm_compute; reflexivity | ]. intros u tok exp res Hin.
  destruct (@register_creates_from_payload asciiLib scenario.cfg worldEnv
              (scenario.noopWorld (scenario.emptyRepo []) [[1; 2; 3]; [4; 5; 6]] [])
              _ scenario.annBody _ (run_unit _ _ _) _ _ _ _ Hin)
    as (payload & pw & rnd & a & b & Hread & _ & _ & _ & _ & Hu & _).
  exists pw.
  assert (Hp : payload = Build_RegisterUserPayload (lit "Ann") (lit "Lee") (lit "KZ")
                           (lit "ann@example.com") (lit "Str0ng!Pass")
                           (lit "Str0ng!Pass") []).
  { vm_compute in Hread. injection Hread as <-. reflexivity. }
  rewrite <- Hp. exact Hu.
Defined.

(** X13.  The registration handler calls the mailer at most once, and
    only right after a create that gave an id other than 0, before
    anything is answered: with the welcome template, the username of the
    created account both as recipient name and in the template data, the
    e-mail of the payload, and the sandbox flag set exactly when the
    configured environment is not "production". *)
Theorem register_sends_one_welcome :
  forall (L : GoLib) (app : config) (E : Env) (s s' : state E)
         (body : Json.Body) (t : list Obs),
    run E (registerUserHandler app body) s = (t, tt, s') ->
    forall tmpl un em d sb res,
      In (oSend tmpl un em d sb res) t ->
      count isSend t = 1%nat /\
      tmpl = UserWelcomeTemplate app /\
      sb = negb (GoStr.eqb (env app) (lit "production")) /\
      vars_Username d = un /\
      exists payload a u tok exp id b,
        readJSON registerTarget body = inr payload /\
        t = a ++ oCreateAndInvite u tok exp (inr id)
              :: oSend tmpl un em d sb res :: b /\
        id <> 0 /\ responses a = [] /\
        un = store.Username u /\ em = Email payload.
Proof.
  intros L app E s s' body t Hrun tmpl un em d sb res Hin.
  apply run_exec, register_shape in Hrun.
  destruct (readJSON registerTarget body) as [err | payload].
  { subst t. destruct Hin as [Hin | []]. discriminate Hin. }
  destruct (Validate_Struct Validate (registerFields payload)) as [err |].
  { subst t. destruct Hin as [Hin | []]. discriminate Hin. }
  destruct (body_send Hrun _ _ _ _ _ _ Hin)
    as (Hone & a & u & tok & exp & id & rnd & b & -> & Hid & R & _ & Hw & _ & Hem).
  unfold welcome in Hw. injection Hw as -> -> -> -> ->.
  split; [ exact Hone | ].
  do 3 (split; [ reflexivity | ]).
  exists payload, a, u, tok, exp, id, b.
  split; [ reflexivity | ]. split; [ reflexivity | ].
  split; [ exact Hid | ]. split; [ exact R | ].
  split; [ reflexivity | exact Hem ].
Qed.

(** Ann registers in an empty repository: one mail, in the sandbox. *)
Lemma register_sends_one_welcome_witness :
  let r := run worldEnv
               (registerUserHandler (L:=asciiLib) scenario.cfg scenario.annBody)
               (scenario.noopWorld (scenario.emptyRepo []) [[1; 2; 3]; [4; 5; 6]] []) in
  count isSend (fst (fst r)) = 1%nat /\
  In (oSend (lit "user_invitation.tmpl") (lit "annlee010203") (lit "ann@example.com")
        {| vars_Username := lit "annlee010203";
           ActivationURL :=
             lit "http://localhost:5173/confirm/04050600-0000-4000-8000-000000000000" |}
        true (200, None))
     (fst (fst r)).
Proof.
  cbv zeta.
  assert (Hin : In (oSend (lit "user_invitation.tmpl") (lit "annlee010203")
                      (lit "ann@example.com")
                      {| vars_Username := lit "annlee010203";
                         ActivationURL :=
                           lit "http://localhost:5173/confirm/04050600-0000-4000-8000-000000000000" |}
                      true (200, None))
                   (fst (fst (run worldEnv
                      (registerUserHandler (L:=asciiLib) scenario.cfg scenario.annBody)
                      (scenario.noopWorld (scenario.emptyRepo [])
                         [[1; 2; 3]; [4; 5; 6]] []))))).
  { vm_compute. do 4 right. left. reflexivity. }
  split; [ | exact Hin ].
  exact (proj1 (@register_sends_one_welcome asciiLib scenario.cfg worldEnv
                  (scenario.noopWorld (scenario.emptyRepo []) [[1; 2; 3]; [4; 5; 6]] [])
                  _ scenario.annBody _ (run_unit _ _ _) _ _ _ _ _ _ Hin)).
Defined.

(** X14.  With the no-op mailer of noop.go in place of a mail service
    the registration handler never deletes an account, and every create
    that gives an id other than 0 is followed by the send, answered with
    200, the log entry and the 201 response for that account. *)
Theorem register_with_noop_mailer :
  forall (L : GoLib) (S : Type) (U : UserStore S) (app : config)
         (w w' : World S mailer.NoopClient) (body : Json.Body) (t : list Obs),
    run worldEnv (registerUserHandler app body) w = (t, tt, w') ->
    count isDelete t = 0%nat /\
    (forall u tok exp id,
        In (oCreateAndInvite u tok exp (inr id)) t -> id <> 0 ->
        exists a rnd werr,
          t = a ++ [oCreateAndInvite u tok exp (inr id);
                    welcome app (store.setID u id) (plainTokenOf rnd) (200, None);
                    oInfow "Email sent" 200;
                    created (store.setID u id) (plainTokenOf rnd) werr]
                ++ afterError werr oInternalServerError).
Proof.
  intros L S U app w w' body t Hrun.
  pose proof (noop_run_sends _ _ Hrun) as Hsend.
  apply run_exec, register_shape in Hrun.
  destruct (readJSON registerTarget body) as [err | payload].
  { subst t. split; [ reflexivity | ].
    intros u tok exp id [Hin | []]. discriminate Hin. }
  destruct (Validate_Struct Validate (registerFields payload)) as [err |].
  { subst t. split; [ reflexivity | ].
    intros u tok exp id [Hin | []]. discriminate Hin. }
  split.
  { destruct (Nat.eq_dec (count isDelete t) 0) as [Hz | Hnz]; [ exact Hz | exfalso ].
    destruct (count_some _ _ Hnz) as (x & Hin & Hx).
    destruct x; try discriminate Hx.
    destruct (body_delete Hrun _ _ Hin) as (tmpl & un & em & d & sb & status & merr & Hs).
    apply Hsend in Hs. discriminate Hs. }
  intros u tok exp id Hin Hid.
  destruct (in_split _ _ Hin) as (a & b & ->).
  destruct (body_create Hrun _ _ _ _ _ _ eq_refl)
    as (pre & name & pw & rnd & a' & Hpre & Ha & Hq & _ & _ & _ & _ & Hb).
  exists a, rnd.
  destruct Hb as [Hz | status werr Hnz | status merr derr Hnz].
  - contradiction.
  - exists werr.
    assert (Hst : (status, @None error) = (200, None)).
    { eapply Hsend. apply in_or_app. right. right. left. reflexivity. }
    injection Hst as ->. reflexivity.
  - exfalso.
    assert (Hst : (status, Some merr) = (200, None)).
    { eapply Hsend. apply in_or_app. right. right. left. reflexivity. }
    discriminate Hst.
Qed.

(** Ann registers in an empty repository, the mailer being the no-op
    one: no delete, and the account is there afterwards. *)
Lemma register_with_noop_mailer_witness :
  let r := run worldEnv
               (registerUserHandler (L:=asciiLib) scenario.cfg scenario.annBody)
               (scenario.noopWorld (scenario.emptyRepo []) [[1; 2; 3]; [4; 5; 6]] []) in
  count isDelete (fst (fst r)) = 0%nat /\
  map kindOf (responses (fst (fst r))) = [Some (Written 201)] /\
  hasAccount (w_store (snd r)) 1 = true.
Proof.
  cbv zeta.
  split; [ | split; vm_compute; reflexivity ].
  exact (proj1 (@register_with_noop_mailer asciiLib _ MemStore scenario.cfg
                  (scenario.noopWorld (scenario.emptyRepo []) [[1; 2; 3]; [4; 5; 6]] [])
                  _ scenario.annBody _ (run_unit _ _ _))).
Defined.

(* ================================================================== *)
(** ** createTokenHandler: its response, its failures, its calls *)

Section QuietWorld.
Context {S M : Type} {U : UserStore S} {Ml : Mailer M}.

(** The mailer is moved by sends alone, the random source by draws
    alone. *)
Lemma world_run_quiet A (p : Prog A) (w w' : World S M) (t : list Obs) (a : A) :
  run worldEnv p w = (t, a, w') ->
  (count isSend t = 0%nat -> w_mailer w' = w_mailer w) /\
  (count isRandRead t = 0%nat -> randoms (w_oracle w') = randoms (w_oracle w)).
Proof.
  revert w t. induction p as [a0 | X e k IH]; intros w t H; cbn [run] in H.
  - injection H as <- <- <-. split; reflexivity.
  - destruct (step worldEnv e w) as [x w1] eqn:Hs.
    destruct (run worldEnv (k x) w1) as [[t0 a0] w2] eqn:Hr.
    injection H as <- <- <-.
    destruct (IH x _ _ Hr) as [H1 H2].
    cbn [step worldEnv] in Hs. rewrite !count_cons.
    destruct e; cbn [worldStep observe isSend isRandRead] in *;
      try (injection Hs as <- <-; split; intros Hc;
           [ apply H1; exact Hc | apply H2; exact Hc ]).
    + injection Hs as <- <-. split; intros Hc; [ apply H1; exact Hc | discriminate Hc ].
    + destruct (store_CreateAndInvite (w_store w) u tok exp) as [r s1].
      injection Hs as <- <-. split; intros Hc; [ apply H1; exact Hc | apply H2; exact Hc ].
    + destruct (store_Delete (w_store w) id) as [r s1].
      injection Hs as <- <-. split; intros Hc; [ apply H1; exact Hc | apply H2; exact Hc ].
    + destruct (store_GetByEmail (w_store w) email) as [r s1].
      injection Hs as <- <-. split; intros Hc; [ apply H1; exact Hc | apply H2; exact Hc ].
    + destruct (mailer_Send (w_mailer w) templateFile username email data isSandbox)
        as [r m1].
      injection Hs as <- <-. split; intros Hc; [ discriminate Hc | apply H2; exact Hc ].
Qed.

End QuietWorld.

(** X15.  Every run of the login handler ends with a response and calls
    nothing after it.  It is the only response of the run, except when
    writing the 201 response failed: the handler then answers once more,
    with an internal server error carrying the error of the write. *)
Theorem login_answers_last :
  forall (L : GoLib) (app : config) (E : Env) (s s' : state E)
         (body : Json.Body) (t : list Obs),
    run E (createTokenHandler app body) s = (t, tt, s') ->
    exists t0 r,
      t = t0 ++ [r] /\ isResponse r = true /\
      (responses t0 = [] \/
       exists d e, responses t0 = [oJsonResponse StatusCreated d (Some e)] /\
                   r = oInternalServerError e).
Proof.
  intros L app E s s' body t Hrun.
  apply run_exec, login_shape in Hrun.
  destruct (readJSON tokenTarget body) as [err | payload].
  { subst t. exists [], (oBadRequest err). repeat split. left. reflexivity. }
  destruct (Validate_Struct Validate (tokenFields payload)) as [err |].
  { subst t. exists [], (oBadRequest err). repeat split. left. reflexivity. }
  destruct Hrun as [ | err Hne | user err | user t1 t2 t3 err | user t1 t2 t3 tk werr ].
  - eexists [_], _. repeat split. left. reflexivity.
  - eexists [_], _. repeat split. left. reflexivity.
  - eexists (checked payload user (Some err)), _. repeat split. left. reflexivity.
  - eexists (checked payload user None ++ [_; _; _; _]), _.
    split; [ rewrite <- app_assoc; reflexivity | ]. split; [ reflexivity | ].
    left. reflexivity.
  - destruct werr as [e |].
    + eexists (checked payload user None ++ [_; _; _; _; _]), _.
      split; [ rewrite <- app_assoc; reflexivity | ]. split; [ reflexivity | ].
      right. eexists _, _. split; reflexivity.
    + eexists (checked payload user None ++ [_; _; _; _]), _.
      split; [ rewrite <- app_assoc; reflexivity | ]. split; [ reflexivity | ].
      left. reflexivity.
Qed.

(** Ann logs in while the connection to her breaks. *)
Lemma login_answers_last_witness :
  let r := run worldEnv
               (createTokenHandler (L:=asciiLib) scenario.cfg
                  (scenario.loginBody "Str0ng!Pass"))
               (faults.world scenario.annRepo
                  (faults.oracle None None [Some faults.brokenPipe] [])) in
  (exists t0 r0,
     fst (fst r) = t0 ++ [r0] /\ isResponse r0 = true /\
     (responses t0 = [] \/
      exists d e, responses t0 = [oJsonResponse StatusCreated d (Some e)] /\
                  r0 = oInternalServerError e)) /\
  map kindOf (responses (fst (fst r))) =
    [Some (Written 201); Some InternalServerError].
Proof.
  cbv zeta. split; [ | vm_compute; reflexivity ].
  exact (@login_answers_last asciiLib scenario.cfg worldEnv _ _
           (scenario.loginBody "Str0ng!Pass") _ (run_unit _ _ _)).
Defined.

(** X16.  The login handler only reads: no run of it creates or deletes
    an account, sends mail, draws random bytes or hashes a password; the
    repository is called once at most, as are the password comparison
    and the signer; the mailer and the random source are afterwards as
    they were before. *)
Theorem login_only_reads :
  forall (L : GoLib) (S M : Type) (U : UserStore S) (Ml : Mailer M)
         (app : config) (w w' : World S M) (body : Json.Body) (t : list Obs),
    run worldEnv (createTokenHandler app body) w = (t, tt, w') ->
    count isCreate t = 0%nat /\ count isDelete t = 0%nat /\
    count isSend t = 0%nat /\ count isRandRead t = 0%nat /\
    count isPasswordSet t = 0%nat /\
    (count isStoreCall t <= 1)%nat /\ (count isPasswordCompare t <= 1)%nat /\
    (count isGenerateToken t <= 1)%nat /\
    w_mailer w' = w_mailer w /\
    randoms (w_oracle w') = randoms (w_oracle w).
Proof.
  intros L S M U Ml app w w' body t Hrun.
  destruct (world_run_quiet _ _ Hrun) as [Hm Hr].
  apply run_exec, login_shape in Hrun.
  assert (Hc : count isCreate t = 0%nat /\ count isDelete t = 0%nat /\
               count isSend t = 0%nat /\ count isRandRead t = 0%nat /\
               count isPasswordSet t = 0%nat /\
               (count isStoreCall t <= 1)%nat /\ (count isPasswordCompare t <= 1)%nat /\
               (count isGenerateToken t <= 1)%nat).
  { destruct (readJSON tokenTarget body) as [err | payload].
    { subst t. cbn. repeat split; lia. }
    destruct (Validate_Struct Validate (tokenFields payload)) as [err |].
    { subst t. cbn. repeat split; lia. }
    destruct Hrun as [ | err Hne | user err | user t1 t2 t3 err | user t1 t2 t3 tk werr ];
      try destruct werr; cbn; repeat split; lia. }
  destruct Hc as (C1 & C2 & C3 & C4 & C5 & C6 & C7 & C8).
  repeat (split; [ assumption | ]).
  split; [ exact (Hm C3) | exact (Hr C4) ].
Qed.

(** Ann logs in: one call to the repository, and the random source is
    left alone. *)
Lemma login_only_reads_witness :
  let r := run worldEnv
               (createTokenHandler (L:=asciiLib) scenario.cfg
                  (scenario.loginBody "Str0ng!Pass"))
               (scenario.noopWorld scenario.annRepo [[7; 7; 7]] []) in
  count isStoreCall (fst (fst r)) = 1%nat /\
  count isSend (fst (fst r)) = 0%nat /\
  randoms (w_oracle (snd r)) = [[7; 7; 7]].
Proof.
  cbv zeta.
  pose proof (@login_only_reads asciiLib _ _ MemStore NoopMailer scenario.cfg
                (scenario.noopWorld scenario.annRepo [[7; 7; 7]] []) _
                (scenario.loginBody "Str0ng!Pass") _ (run_unit _ _ _))
    as (_ & _ & H3 & _ & _ & _ & _ & _ & _ & H10).
  split; [ vm_compute; reflexivity | ]. split; [ exact H3 | exact H10 ].
Defined.

(** X17.  The login handler looks an account up only for a payload that
    was decoded and passed validation, by the e-mail of that payload,
    which the e-mail tag has accepted.  A lookup that fails with an error
    other than [ErrNotFound] is answered with an internal server error
    carrying it, without any comparison of passwords; a lookup that finds
    an account is followed by the comparison of the stored hash of that
    account with the password of the payload. *)
Theorem login_lookup :
  forall (L : GoLib) (app : config) (E : Env) (s s' : state E)
         (body : Json.Body) (t : list Obs),
    run E (createTokenHandler app body) s = (t, tt, s') ->
    forall em res,
      In (oGetByEmail em res) t ->
      exists payload,
        readJSON tokenTarget body = inr payload /\ em = token.Email payload /\
        isEmpty em = false /\ isEmail em = true /\ runeCount em <= 255 /\
        3 <= runeCount (token.Password payload) <= 72 /\
        match res with
        | inl ErrNotFound => t = [oGetByEmail em res; oUnauthorized ErrNotFound]
        | inl err => t = [oGetByEmail em res; oInternalServerError err]
        | inr user =>
            exists cmp rest,
              t = oGetByEmail em res
                    :: oPasswordCompare (store.Password user)
                                        (token.Password payload) cmp
                    :: rest
        end.
Proof.
  intros L app E s s' body t Hrun em res Hin.
  apply run_exec, login_shape in Hrun.
  destruct (readJSON tokenTarget body) as [err | payload].
  { subst t. destruct Hin as [H | []]. discriminate H. }
  destruct (Validate_Struct Validate (tokenFields payload)) as [err |] eqn:Hval.
  { subst t. destruct Hin as [H | []]. discriminate H. }
  exists payload. split; [ reflexivity | ].
  assert (Hv : isEmpty (token.Email payload) = false /\
               isEmail (token.Email payload) = true /\
               runeCount (token.Email payload) <= 255 /\
               3 <= runeCount (token.Password payload) <= 72).
  { apply Validate_Struct_ok, failures_nil in Hval. unfold tokenFields in Hval.
    rewrite !Forall_cons_iff in Hval. cbn [fst snd] in Hval.
    rewrite check_required_email_max, (check_required_min_max _ _ _ (lo:=3)) in Hval by lia.
    tauto. }
  assert (Hem : em = token.Email payload /\
                match res with
                | inl ErrNotFound => t = [oGetByEmail em res; oUnauthorized ErrNotFound]
                | inl err => t = [oGetByEmail em res; oInternalServerError err]
                | inr user =>
                    exists cmp rest,
                      t = oGetByEmail em res
                            :: oPasswordCompare (store.Password user)
                                                (token.Password payload) cmp
                            :: rest
                end).
  { destruct Hrun as [ | err Hne | user err | user t1 t2 t3 err | user t1 t2 t3 tk werr ].
    - destruct Hin as [H | [H | []]]; [ | discriminate H ].
      injection H as <- <-. split; reflexivity.
    - destruct Hin as [H | [H | []]]; [ | discriminate H ].
      injection H as <- <-. split; [ reflexivity | ].
      destruct err; first [ reflexivity | contradiction ].
    - destruct Hin as [H | [H | [H | []]]]; try discriminate H.
      injection H as <- <-. split; [ reflexivity | ].
      eexists _, _. reflexivity.
    - cbn in Hin. repeat (destruct Hin as [Hin | Hin]; try discriminate Hin);
        [ | contradiction ].
      injection Hin as <- <-. split; [ reflexivity | ].
      eexists _, _. reflexivity.
    - assert (Hg : em = token.Email payload /\ res = inr user).
      { destruct werr; cbn in Hin;
          repeat (destruct Hin as [Hin | Hin]; try discriminate Hin);
          try contradiction; injection Hin as <- <-; split; reflexivity. }
      destruct Hg as [-> ->]. split; [ reflexivity | ].
      eexists _, _. reflexivity. }
  destruct Hem as [-> Hres].
  destruct Hv as (V1 & V2 & V3 & V4).
  split; [ reflexivity | ].
  repeat (split; [ assumption | ]). exact Hres.
Qed.

(** Ann logs in while the database is down. *)
Lemma login_lookup_witness :
  let r := run worldEnv
               (createTokenHandler (L:=asciiLib) scenario.cfg
                  (scenario.loginBody "Str0ng!Pass"))
               (scenario.noopWorld (scenario.emptyRepo [Some faults.refused]) [] []) in
  fst (fst r) = [oGetByEmail (lit "ann@example.com") (inl faults.refused);
                 oInternalServerError faults.refused].
Proof.
  cbv zeta.
  pose proof (@login_lookup asciiLib scenario.cfg worldEnv
                (scenario.noopWorld (scenario.emptyRepo [Some faults.refused]) [] []) _
                (scenario.loginBody "Str0ng!Pass") _ (run_unit _ _ _)
                (lit "ann@example.com") (inl faults.refused)) as H.
  destruct H as (payload & _ & _ & _ & _ & _ & _ & Ht).
  { vm_compute. left. reflexivity. }
  exact Ht.
Defined.

(** X18.  What the signer returns decides the end of a login: when
    signing fails the next and last event is an internal server error
    carrying the signer's error, and nothing is written; when it returns
    a token, that token is written with the status 201, with an internal
    server error behind it only if the write failed.  Nothing was
    answered before the signer was called. *)
Theorem login_token_response :
  forall (L : GoLib) (app : config) (E : Env) (s s' : state E)
         (body : Json.Body) (t : list Obs),
    run E (createTokenHandler app body) s = (t, tt, s') ->
    forall claims res,
      In (oGenerateToken claims res) t ->
      exists a,
        responses a = [] /\
        match res with
        | inl err =>
            t = a ++ [oGenerateToken claims res; oInternalServerError err]
        | inr tk =>
            exists werr,
              t = a ++ [oGenerateToken claims res;
                        oJsonResponse StatusCreated (dataToken tk) werr]
                    ++ afterError werr oInternalServerError
        end.
Proof.
  intros L app E s s' body t Hrun claims res Hin.
  apply run_exec, login_shape in Hrun.
  destruct (readJSON tokenTarget body) as [err | payload].
  { subst t. destruct Hin as [H | []]. discriminate H. }
  destruct (Validate_Struct Validate (tokenFields payload)) as [err |].
  { subst t. destruct Hin as [H | []]. discriminate H. }
  destruct Hrun as [ | err Hne | user err | user t1 t2 t3 err | user t1 t2 t3 tk werr ].
  - destruct Hin as [H | [H | []]]; discriminate H.
  - destruct Hin as [H | [H | []]]; discriminate H.
  - destruct Hin as [H | [H | [H | []]]]; discriminate H.
  - cbn in Hin. repeat (destruct Hin as [Hin | Hin]; try discriminate Hin);
      [ | contradiction ].
    injection Hin as <- <-.
    exists (checked payload user None ++ [oNow t1; oNow t2; oNow t3]).
    split; [ reflexivity | ]. rewrite <- app_assoc. reflexivity.
  - assert (Hg : claims = loginClaims app user t1 t2 t3 /\ res = inr tk).
    { destruct werr; cbn in Hin;
        repeat (destruct Hin as [Hin | Hin]; try discriminate Hin);
        try contradiction; injection Hin as <- <-; split; reflexivity. }
    destruct Hg as [-> ->].
    exists (checked payload user None ++ [oNow t1; oNow t2; oNow t3]).
    split; [ reflexivity | ]. exists werr.
    rewrite <- !app_assoc. reflexivity.
Qed.

(** Ann logs in while the signing key is unusable. *)
Lemma login_token_response_witness :
  let r := run worldEnv
               (createTokenHandler (L:=asciiLib) scenario.cfg
                  (scenario.loginBody "Str0ng!Pass"))
               (faults.world scenario.annRepo
                  (faults.oracle None (Some faults.noKey) [] [])) in
  exists a claims,
    responses a = [] /\
    fst (fst r) = a ++ [oGenerateToken claims (inl faults.noKey);
                        oInternalServerError faults.noKey].
Proof.
  cbv zeta.
  pose proof (@login_token_response asciiLib scenario.cfg worldEnv
                (faults.world scenario.annRepo
                   (faults.oracle None (Some faults.noKey) [] [])) _
                (scenario.loginBody "Str0ng!Pass") _ (run_unit _ _ _)) as H.
  edestruct H as (a & Ha & Ht).
  { vm_compute. do 5 right. left. reflexivity. }
  exists a. eexists. split; [ exact Ha | exact Ht ].
Defined.

(* ================================================================== *)
(** ** internal/mailer/smtp.go *)

(** X19.  [NewSMTPClient] returns a client exactly for a configuration
    with a host, a port above 0, a username, a password and a sender
    address; the client then has the seven settings of the
    configuration.  Otherwise it returns the zero client with an error
    that names the first setting missing, in the order host, port,
    username, password, sender address. *)
Theorem NewSMTPClient_accepts :
  forall cfg : smtp.SMTPConfig,
    let r := smtp.NewSMTPClient cfg in
    (snd r = None <->
     smtp.Host cfg <> [] /\ 0 < smtp.Port cfg /\ smtp.Username cfg <> [] /\
     smtp.Password cfg <> [] /\ smtp.FromEmail cfg <> []) /\
    (snd r = None ->
     smtp.host (fst r) = smtp.Host cfg /\ smtp.port (fst r) = smtp.Port cfg /\
     smtp.username (fst r) = smtp.Username cfg /\
     smtp.password (fst r) = smtp.Password cfg /\
     smtp.fromEmail (fst r) = smtp.FromEmail cfg /\
     smtp.useTLS (fst r) = smtp.UseTLS cfg /\
     smtp.insecureSkipVerify (fst r) = smtp.InsecureSkipVerify cfg) /\
    (forall e, snd r = Some e ->
       fst r = smtp.zeroClient /\
       ((smtp.Host cfg = [] /\ e = OtherError "SMTP host is required") \/
        (smtp.Host cfg <> [] /\ smtp.Port cfg <= 0 /\
         e = OtherError "SMTP port is required") \/
        (smtp.Host cfg <> [] /\ 0 < smtp.Port cfg /\ smtp.Username cfg = [] /\
         e = OtherError "SMTP username is required") \/
        (smtp.Host cfg <> [] /\ 0 < smtp.Port cfg /\ smtp.Username cfg <> [] /\
         smtp.Password cfg = [] /\ e = OtherError "SMTP password is required") \/
        (smtp.Host cfg <> [] /\ 0 < smtp.Port cfg /\ smtp.Username cfg <> [] /\
         smtp.Password cfg <> [] /\ smtp.FromEmail cfg = [] /\
         e = OtherError "FROM_EMAIL is required"))).
Proof.
  intros cfg r. subst r. unfold smtp.NewSMTPClient.
  destruct (smtp.Host cfg) as [| h0 h]; cbn [isEmpty fst snd].
  { split; [ split; [ discriminate | intros (H & _); contradiction H; reflexivity ] | ].
    split; [ discriminate | ].
    intros e He. injection He as <-. split; [ reflexivity | ]. left. split; reflexivity. }
  destruct (smtp.Port cfg <=? 0) eqn:Hp; cbn [fst snd].
  { apply Z.leb_le in Hp.
    split; [ split; [ discriminate | intros (_ & H & _); lia ] | ].
    split; [ discriminate | ].
    intros e He. injection He as <-. split; [ reflexivity | ].
    right. left. repeat split; first [ discriminate | assumption ]. }
  apply Z.leb_gt in Hp.
  destruct (smtp.Username cfg) as [| u0 u]; cbn [isEmpty fst snd].
  { split; [ split; [ discriminate | intros (_ & _ & H & _); contradiction H; reflexivity ] | ].
    split; [ discriminate | ].
    intros e He. injection He as <-. split; [ reflexivity | ].
    right. right. left. repeat split; first [ discriminate | assumption ]. }
  destruct (smtp.Password cfg) as [| p0 p]; cbn [isEmpty fst snd].
  { split; [ split; [ discriminate | intros (_ & _ & _ & H & _); contradiction H; reflexivity ] | ].
    split; [ discriminate | ].
    intros e He. injection He as <-. split; [ reflexivity | ].
    do 3 right. left. repeat split; first [ discriminate | assumption ]. }
  destruct (smtp.FromEmail cfg) as [| f0 f]; cbn [isEmpty fst snd].
  { split; [ split; [ discriminate | intros (_ & _ & _ & _ & H); contradiction H; reflexivity ] | ].
    split; [ discriminate | ].
    intros e He. injection He as <-. split; [ reflexivity | ].
    do 4 right. repeat split; first [ discriminate | assumption ]. }
  split; [ split; [ intros _; repeat split; first [ discriminate | assumption ] | reflexivity ] | ].
  split; [ intros _; repeat split | discriminate ].
Qed.

(** What an accepted configuration gives. *)
Lemma NewSMTPClient_some (cfg : smtp.SMTPConfig) (m : smtp.smtpClient) :
  smtp.NewSMTPClient cfg = (m, None) ->
  (smtp.Host cfg <> [] /\ 0 < smtp.Port cfg /\ smtp.Username cfg <> [] /\
   smtp.Password cfg <> [] /\ smtp.FromEmail cfg <> []) /\
  m = {| smtp.host := smtp.Host cfg; smtp.port := smtp.Port cfg;
         smtp.username := smtp.Username cfg; smtp.password := smtp.Password cfg;
         smtp.fromEmail := smtp.FromEmail cfg; smtp.useTLS := smtp.UseTLS cfg;
         smtp.insecureSkipVerify := smtp.InsecureSkipVerify cfg |}.
Proof.
  unfold smtp.NewSMTPClient. intros H.
  destruct (smtp.Host cfg) as [| h0 h]; [ discriminate H | ].
  destruct (smtp.Port cfg <=? 0) eqn:Hp; [ discriminate H | ].
  destruct (smtp.Username cfg) as [| u0 u]; [ discriminate H | ].
  destruct (smtp.Password cfg) as [| p0 p]; [ discriminate H | ].
  destruct (smtp.FromEmail cfg) as [| f0 f]; [ discriminate H | ].
  cbn [isEmpty] in H. injection H as <-.
  apply Z.leb_gt in Hp.
  split; [ repeat split; first [ discriminate | assumption ] | reflexivity ].
Qed.

Section SmtpSend.
Variable o : smtp.Outside.
Variable m : smtp.smtpClient.
Variables templateFile email : gostring.
Variable data : welcomeVars.

(** [Send] either fails to render the template and connects to nothing,
    or builds one message and one connection and hands them to the
    server. *)
Lemma Send_cases (username : gostring) (isSandbox : bool) :
  let r := smtp.Send o m templateFile username email data isSandbox in
  (snd r = [] /\
   exists e,
     fst r = (-1, Some e) /\
     (smtp.ParseFS o (lit "templates/" ++ templateFile) = inl e \/
      exists tmpl,
        smtp.ParseFS o (lit "templates/" ++ templateFile) = inr tmpl /\
        (smtp.ExecuteTemplate tmpl "subject" data = inl e \/
         (exists subject, smtp.ExecuteTemplate tmpl "subject" data = inr subject) /\
         smtp.ExecuteTemplate tmpl "body" data = inl e))) \/
  exists tmpl subject body d msg,
    smtp.ParseFS o (lit "templates/" ++ templateFile) = inr tmpl /\
    smtp.ExecuteTemplate tmpl "subject" data = inr subject /\
    smtp.ExecuteTemplate tmpl "body" data = inr body /\
    snd r = [(d, msg)] /\
    (smtp.From msg = (smtp.fromEmail m, smtp.FromName o) /\
     smtp.To msg = email /\ smtp.Subject msg = subject /\
     smtp.parts msg = [(lit "text/html", body)]) /\
    (smtp.d_Host d = smtp.host m /\ smtp.d_Port d = smtp.port m /\
     smtp.d_Username d = smtp.username m /\ smtp.d_Password d = smtp.password m /\
     smtp.SSL d = smtp.useTLS m || (smtp.port m =? 465) /\
     smtp.TLSConfig d =
       Some {| smtp.ServerName := smtp.host m;
               smtp.tls_InsecureSkipVerify := smtp.insecureSkipVerify m |}) /\
    match smtp.DialAndSend o d msg with
    | Some e => fst r = (-1, Some e)
    | None => fst r = (200, None)
    end.
Proof.
  intros r. subst r. unfold smtp.Send.
  destruct (smtp.ParseFS o (lit "templates/" ++ templateFile)) as [e | tmpl].
  { left. split; [ reflexivity | exists e; split; [ reflexivity | left; reflexivity ] ]. }
  destruct (smtp.ExecuteTemplate tmpl "subject" data) as [e | subject] eqn:Hs.
  { left. split; [ reflexivity | exists e; split; [ reflexivity | ] ].
    right. exists tmpl. split; [ reflexivity | left; exact Hs ]. }
  destruct (smtp.ExecuteTemplate tmpl "body" data) as [e | body] eqn:Hb.
  { left. split; [ reflexivity | exists e; split; [ reflexivity | ] ].
    right. exists tmpl. split; [ reflexivity | right ].
    split; [ exists subject; exact Hs | exact Hb ]. }
  right. cbv zeta.
  cbn [smtp.NewDialer smtp.d_Host smtp.d_Port smtp.d_Username smtp.d_Password].
  eexists tmpl, subject, body, _, _.
  split; [ reflexivity | ]. split; [ exact Hs | ]. split; [ exact Hb | ].
  split.
  { destruct (smtp.DialAndSend o _ _); reflexivity. }
  split; [ repeat split | ]. split; [ repeat split | ].
  destruct (smtp.DialAndSend o _ _); reflexivity.
Qed.

End SmtpSend.

(** X20.  [smtpClient.Send] returns 200 without error or -1 with an
    error, and nothing else.  It connects to the server once at most,
    and not at all exactly when the template cannot be parsed or its
    subject or body cannot be rendered; when it connects, the error it
    returns is the server's.  The recipient's name and the sandbox flag
    have no effect on what it does. *)
Theorem smtp_Send_outcome :
  forall (o : smtp.Outside) (m : smtp.smtpClient)
         (templateFile username email : gostring) (data : welcomeVars)
         (isSandbox : bool),
    let r := smtp.Send o m templateFile username email data isSandbox in
    (fst r = (200, None) \/ exists e, fst r = (-1, Some e)) /\
    (List.length (snd r) <= 1)%nat /\
    (snd r = [] <->
     (exists e, smtp.ParseFS o (lit "templates/" ++ templateFile) = inl e) \/
     exists tmpl,
       smtp.ParseFS o (lit "templates/" ++ templateFile) = inr tmpl /\
       ((exists e, smtp.ExecuteTemplate tmpl "subject" data = inl e) \/
        (exists e, smtp.ExecuteTemplate tmpl "body" data = inl e))) /\
    (forall d msg, In (d, msg) (snd r) -> snd (fst r) = smtp.DialAndSend o d msg) /\
    (forall username' isSandbox',
        smtp.Send o m templateFile username' email data isSandbox' = r).
Proof.
  intros o m tf un em data sb r.
  pose proof (Send_cases o m tf em data un sb) as H. cbv zeta in H. fold r in H.
  split.
  { destruct H as [(_ & e & He & _) | (tmpl & subject & body & d & msg & _ & _ & _ & _ & _ & _ & Hd)].
    - right. exists e. exact He.
    - destruct (smtp.DialAndSend o d msg) as [e |]; [ right; exists e | left ]; exact Hd. }
  split.
  { destruct H as [(-> & _) | (tmpl & subject & body & d & msg & _ & _ & _ & -> & _)];
      cbn; lia. }
  split.
  { destruct H as [(Hn & e & _ & Hwhy) | (tmpl & subject & body & d & msg & Hp & Hs & Hb & Hsent & _)].
    - split; [ intros _ | intros _; exact Hn ].
      destruct Hwhy as [Hp | (tmpl & Hp & [Hs | [_ Hb]])].
      + left. exists e. exact Hp.
      + right. exists tmpl. split; [ exact Hp | left; exists e; exact Hs ].
      + right. exists tmpl. split; [ exact Hp | right; exists e; exact Hb ].
    - split; [ intros Hn; rewrite Hn in Hsent; discriminate Hsent | ].
      intros [(e & He) | (tmpl' & Hp' & [(e & He) | (e & He)])]; exfalso.
      + rewrite Hp in He. discriminate He.
      + rewrite Hp in Hp'. injection Hp' as <-. rewrite Hs in He. discriminate He.
      + rewrite Hp in Hp'. injection Hp' as <-. rewrite Hb in He. discriminate He. }
  split.
  { intros d msg Hin.
    destruct H as [(Hn & _) | (tmpl & subject & body & d' & msg' & _ & _ & _ & Hsent & _ & _ & Hd)].
    - rewrite Hn in Hin. destruct Hin.
    - rewrite Hsent in Hin. destruct Hin as [Hin | []]. injection Hin as <- <-.
      destruct (smtp.DialAndSend o d' msg'); rewrite Hd; reflexivity. }
  intros un' sb'. reflexivity.
Qed.

(** X21.  A client that [NewSMTPClient] has accepted connects, when it
    sends, to the host and port of the configuration with its
    credentials, the host being named and the port above 0; it uses
    implicit TLS exactly when the configuration asks for TLS or the port
    is 465, and checks the certificate against the host unless told to
    skip it.  The message goes to the address given to [Send], from the
    configured sender, with the rendered subject and the rendered body
    as its only part, of type text/html. *)
Theorem smtp_Send_message :
  forall (o : smtp.Outside) (cfg : smtp.SMTPConfig) (m : smtp.smtpClient)
         (templateFile username email : gostring) (data : welcomeVars)
         (isSandbox : bool),
    smtp.NewSMTPClient cfg = (m, None) ->
    forall d msg,
      In (d, msg) (snd (smtp.Send o m templateFile username email data isSandbox)) ->
      (smtp.d_Host d = smtp.Host cfg /\ smtp.Host cfg <> [] /\
       smtp.d_Port d = smtp.Port cfg /\ 0 < smtp.Port cfg /\
       smtp.d_Username d = smtp.Username cfg /\
       smtp.d_Password d = smtp.Password cfg /\
       smtp.SSL d = smtp.UseTLS cfg || (smtp.Port cfg =? 465) /\
       smtp.TLSConfig d =
         Some {| smtp.ServerName := smtp.Host cfg;
                 smtp.tls_InsecureSkipVerify := smtp.InsecureSkipVerify cfg |}) /\
      smtp.To msg = email /\
      smtp.From msg = (smtp.FromEmail cfg, smtp.FromName o) /\
      smtp.FromEmail cfg <> [] /\
      exists tmpl body,
        smtp.ParseFS o (lit "templates/" ++ templateFile) = inr tmpl /\
        smtp.ExecuteTemplate tmpl "subject" data = inr (smtp.Subject msg) /\
        smtp.ExecuteTemplate tmpl "body" data = inr body /\
        smtp.parts msg = [(lit "text/html", body)].
Proof.
  intros o cfg m tf un em data sb Hnew d msg Hin.
  destruct (NewSMTPClient_some _ Hnew) as ((Hh & Hp & _ & _ & Hf) & Hm).
  pose proof (Send_cases o m tf em data un sb) as H. cbv zeta in H.
  destruct H as [(Hn & _) | (tmpl & subject & body & d' & msg' & Hparse & Hs & Hb & Hsent
                              & (M1 & M2 & M3 & M4) & (D1 & D2 & D3 & D4 & D5 & D6) & _)].
  { rewrite Hn in Hin. destruct Hin. }
  rewrite Hsent in Hin. destruct Hin as [Hin | []]. injection Hin as <- <-.
  subst m. cbn [smtp.host smtp.port smtp.username smtp.password smtp.fromEmail
                smtp.useTLS smtp.insecureSkipVerify] in *.
  split; [ repeat split; assumption | ].
  split; [ exact M2 | ]. split; [ exact M1 | ]. split; [ exact Hf | ].
  exists tmpl, body. rewrite M3. repeat split; assumption.
Qed.

(** The welcome mail of Ann through a server on port 587. *)
Lemma smtp_Send_message_witness :
  let r := smtp.Send mailbox.outside (fst (smtp.NewSMTPClient (mailbox.config 587)))
             (lit "user_invitation.tmpl") (lit "annlee010203") (lit "ann@example.com")
             {| vars_Username := lit "annlee010203";
                ActivationURL := lit "http://localhost:5173/confirm/t" |} true in
  fst r = (200, None) /\
  forall d msg, In (d, msg) (snd r) ->
    smtp.SSL d = false /\ smtp.To msg = lit "ann@example.com" /\
    smtp.From msg = (lit "no-reply@example.com", lit "RealEstate").
Proof.
  cbv zeta. split; [ vm_compute; reflexivity | ].
  intros d msg Hin.
  destruct (@smtp_Send_message mailbox.outside (mailbox.config 587) _ _ _ _ _ _
              eq_refl d msg Hin)
    as ((_ & _ & _ & _ & _ & _ & Hssl & _) & Hto & Hfrom & _).
  split; [ exact Hssl | ]. split; [ exact Hto | exact Hfrom ].
Defined.

(* ================================================================== *)
(** ** registerUserHandler over the SMTP client *)

Section MailRuns.
Context {S M : Type} {U : UserStore S} {Ml : Mailer M}.

(** In a run against a world the mailer is moved by the sends of the
    trace alone, and the trace records its answers. *)
Lemma world_run_mailer A (p : Prog A) (w w' : World S M) (t : list Obs) (a : A) :
  run worldEnv p w = (t, a, w') ->
  w_mailer w' = mailerAfter t (w_mailer w) /\ mailAnswers t (w_mailer w).
Proof.
  revert w t. induction p as [a0 | X e k IH]; intros w t H; cbn [run] in H.
  - injection H as <- <- <-. split; [ reflexivity | exact I ].
  - destruct (step worldEnv e w) as [x w1] eqn:Hs.
    destruct (run worldEnv (k x) w1) as [[t0 a0] w2] eqn:Hr.
    injection H as <- <- <-.
    destruct (IH x _ _ Hr) as [H1 H2].
    cbn [step worldEnv] in Hs.
    destruct e; cbn [worldStep] in Hs;
      try (injection Hs as <- <-; cbn [observe mailerAfter mailAnswers];
           split; assumption).
    + destruct (store_CreateAndInvite (w_store w) u tok exp) as [r s1].
      injection Hs as <- <-. cbn [observe mailerAfter mailAnswers]. split; assumption.
    + destruct (store_Delete (w_store w) id) as [r s1].
      injection Hs as <- <-. cbn [observe mailerAfter mailAnswers]. split; assumption.
    + destruct (store_GetByEmail (w_store w) email) as [r s1].
      injection Hs as <- <-. cbn [observe mailerAfter mailAnswers]. split; assumption.
    + destruct (mailer_Send (w_mailer w) templateFile username email data isSandbox)
        as [r m1] eqn:Hc.
      injection Hs as <- <-. cbn [observe mailerAfter mailAnswers].
      rewrite Hc. cbn [fst snd]. repeat split; assumption.
Qed.

Lemma mailerAfter_quiet (t : list Obs) (m : M) :
  count isSend t = 0%nat -> mailerAfter t m = m.
Proof.
  induction t as [| o t IH]; intros H; [ reflexivity | ].
  rewrite count_cons in H.
  destruct o; cbn [isSend] in H; try discriminate H; cbn [mailerAfter]; apply IH; exact H.
Qed.

Lemma mailerAfter_app (a b : list Obs) (m : M) :
  mailerAfter (a ++ b) m = mailerAfter b (mailerAfter a m).
Proof.
  revert m. induction a as [| o a IH]; intros m; [ reflexivity | ].
  destruct o; cbn [List.app mailerAfter]; apply IH.
Qed.

Lemma mailAnswers_app (a b : list Obs) (m : M) :
  mailAnswers (a ++ b) m -> mailAnswers b (mailerAfter a m).
Proof.
  revert m. induction a as [| o a IH]; intros m H; [ exact H | ].
  destruct o; cbn [List.app mailerAfter mailAnswers] in *;
    try (apply IH; exact H); destruct H as [_ H]; apply IH; exact H.
Qed.

End MailRuns.

(** X22.  Registration over the SMTP client.  A run that does not call
    the mailer leaves the list of connections as it was.  A run that
    does adds to it what [Send] did for the welcome template, the
    username of the created account and the e-mail of the payload, and
    the trace records [Send]'s answer.  If the 201 response is written,
    one message went to the payload's e-mail and the server took it; if
    no connection was made, because the template could not be rendered,
    the handler has called [Delete] and written no 201 response. *)
Theorem register_with_smtp_service :
  forall (L : GoLib) (S : Type) (U : UserStore S) (app : config)
         (w w' : World S smtp.Service) (body : Json.Body) (t : list Obs),
    run worldEnv (registerUserHandler app body) w = (t, tt, w') ->
    (count isSend t = 0%nat -> w_mailer w' = w_mailer w) /\
    (forall tmpl un em d sb res,
        In (oSend tmpl un em d sb res) t ->
        exists payload,
          readJSON registerTarget body = inr payload /\
          let r := smtp.Send (smtp.outside (w_mailer w)) (smtp.client (w_mailer w))
                             (UserWelcomeTemplate app) un (Email payload) d sb in
          res = fst r /\
          smtp.outbox (w_mailer w') = smtp.outbox (w_mailer w) ++ snd r /\
          (forall st dt werr,
              In (oJsonResponse st dt werr) t ->
              exists dl msg,
                snd r = [(dl, msg)] /\ smtp.To msg = Email payload /\
                smtp.DialAndSend (smtp.outside (w_mailer w)) dl msg = None) /\
          (snd r = [] ->
           (exists id derr, In (oDelete id derr) t) /\
           forall st dt werr, ~ In (oJsonResponse st dt werr) t)).
Proof.
  intros L S U app w w' body t Hrun.
  destruct (world_run_mailer _ _ Hrun) as [Hm Hans].
  split.
  { intros Hz. rewrite Hm. apply mailerAfter_quiet. exact Hz. }
  intros tmpl un em d sb res Hin.
  apply run_exec, register_shape in Hrun.
  destruct (readJSON registerTarget body) as [err | payload].
  { subst t. destruct Hin as [Hin | []]. discriminate Hin. }
  destruct (Validate_Struct Validate (registerFields payload)) as [err |].
  { subst t. destruct Hin as [Hin | []]. discriminate Hin. }
  exists payload. split; [ reflexivity | ].
  destruct (body_send Hrun _ _ _ _ _ _ Hin)
    as (Hone & a & u & tok & exp & id & rnd & b & Ht & Hid & R & _ & Hw & _ & Hem).
  assert (Ha : count isSend a = 0%nat /\ count isSend b = 0%nat).
  { rewrite Ht, count_app, !count_cons in Hone. cbn [isSend] in Hone. lia. }
  destruct Ha as [Ha Hb].
  destruct (body_create Hrun _ _ _ _ _ _ Ht)
    as (pre & name & pw & rnd' & a' & _ & _ & _ & _ & _ & _ & _ & Htail).
  assert (Htmpl : tmpl = UserWelcomeTemplate app /\ em = Email payload).
  { unfold welcome in Hw. injection Hw as -> _ -> _ _.
    split; [ reflexivity | exact Hem ]. }
  destruct Htmpl as [Htm Hem2]. subst tmpl em.
  (* the mailer across the trace *)
  assert (Hmail : res = fst (smtp.Service_Send (w_mailer w) (UserWelcomeTemplate app)
                               un (Email payload) d sb) /\
                  w_mailer w' = snd (smtp.Service_Send (w_mailer w) (UserWelcomeTemplate app)
                                       un (Email payload) d sb)).
  { rewrite Hm. rewrite Ht in Hans |- *.
    rewrite mailerAfter_app. apply mailAnswers_app in Hans.
    rewrite (mailerAfter_quiet _ _ Ha) in Hans |- *.
    cbn [mailerAfter mailAnswers mailer_Send SmtpService] in Hans |- *.
    destruct Hans as [Hres _]. split; [ exact Hres | ].
    apply mailerAfter_quiet. exact Hb. }
  unfold smtp.Service_Send in Hmail.
  cbv zeta.
  destruct (smtp.Send (smtp.outside (w_mailer w)) (smtp.client (w_mailer w))
                      (UserWelcomeTemplate app) un (Email payload) d sb)
    as [res0 sent] eqn:Hsend.
  cbn [fst snd] in Hmail |- *. destruct Hmail as [-> Hw'].
  split; [ reflexivity | ]. split; [ rewrite Hw'; reflexivity | ].
  pose proof (Send_cases (smtp.outside (w_mailer w)) (smtp.client (w_mailer w))
                (UserWelcomeTemplate app) (Email payload) d un sb) as Hc.
  cbv zeta in Hc. rewrite Hsend in Hc. cbn [fst snd] in Hc.
  (* what the trace holds after the send *)
  assert (Hjson : forall st dt werr, In (oJsonResponse st dt werr) t ->
                                     In (oJsonResponse st dt werr) b).
  { intros st dt werr Hj. rewrite Ht in Hj.
    apply in_app_or in Hj. destruct Hj as [Hj | [Hj | [Hj | Hj]]];
      try discriminate Hj; [ | exact Hj ].
    exfalso. assert (Hr : count isResponse a = 0%nat).
    { unfold count. fold (responses a). rewrite R. reflexivity. }
    apply (count_none_in _ _ _ Hr) in Hj. discriminate Hj. }
  remember (oSend (UserWelcomeTemplate app) un (Email payload) d sb res0 :: b)
    as tl eqn:Htl.
  destruct Htail as [Hz | status werr Hnz | status merr derr Hnz].
  - discriminate Htl.
  - (* the mailer reported no error *)
    assert (Hres0 : res0 = (status, None)).
    { unfold welcome in Htl. cbn [List.app] in Htl. congruence. }
    split.
    + intros st dt werr' _.
      destruct Hc as [(_ & e & He & _) | (tp & sj & bd & dl & msg & _ & _ & _ & Hsent
                                          & (_ & Hto & _) & _ & Hd)].
      { rewrite He in Hres0. discriminate Hres0. }
      exists dl, msg. split; [ exact Hsent | ]. split; [ exact Hto | ].
      destruct (smtp.DialAndSend (smtp.outside (w_mailer w)) dl msg); [ | reflexivity ].
      rewrite Hd in Hres0. discriminate Hres0.
    + intros Hn. exfalso.
      destruct Hc as [(_ & e & He & _) | (tp & sj & bd & dl & msg & _ & _ & _ & Hsent & _)].
      * rewrite He in Hres0. discriminate Hres0.
      * rewrite Hn in Hsent. discriminate Hsent.
  - (* the mailer reported an error *)
    assert (Hb' : b = [oErrorw "error sending welcome email" merr;
                       oDelete (store.ID (store.setID u id)) derr]
                      ++ afterError derr (oErrorw "error deleting user")
                      ++ [oInternalServerError merr]).
    { unfold welcome in Htl. cbn [List.app] in Htl. cbn [List.app]. congruence. }
    assert (Hnj : forall st dt werr, ~ In (oJsonResponse st dt werr) t).
    { intros st dt werr Hj. apply Hjson in Hj. rewrite Hb' in Hj.
      destruct derr; cbn in Hj;
        repeat (destruct Hj as [Hj | Hj]; try discriminate Hj); exact Hj. }
    split.
    + intros st dt werr Hj. exfalso. exact (Hnj _ _ _ Hj).
    + intros _. split; [ | exact Hnj ].
      exists (store.ID (store.setID u id)), derr. rewrite Ht.
      apply in_or_app. right. right. right. right. left. reflexivity.
Qed.

(** Ann registers in an empty repository, the mail going through a
    server on port 587. *)
Lemma register_with_smtp_service_witness :
  let r := run worldEnv
               (registerUserHandler (L:=asciiLib) scenario.cfg scenario.annBody)
               (mailbox.world (scenario.emptyRepo []) 587) in
  map kindOf (responses (fst (fst r))) = [Some (Written 201)] /\
  exists dl msg,
    smtp.outbox (w_mailer (snd r)) = [(dl, msg)] /\
    smtp.To msg = lit "ann@example.com".
Proof.
  cbv zeta. split; [ vm_compute; reflexivity | ].
  pose proof (@register_with_smtp_service asciiLib _ MemStore scenario.cfg
                (mailbox.world (scenario.emptyRepo []) 587) _ scenario.annBody _
                (run_unit _ _ _)) as [_ H].
  edestruct H as (payload & Hread & Hres & Hbox & Hjson & _).
  { vm_compute. do 4 right. left. reflexivity. }
  cbv zeta in *.
  edestruct Hjson as (dl & msg & Hsent & Hto & _).
  { vm_compute. do 6 right. left. reflexivity. }
  exists dl, msg. split.
  - rewrite Hbox, Hsent. reflexivity.
  - rewrite Hto. vm_compute in Hread. injection Hread as <-. reflexivity.
Defined.

(* ================================================================== *)
(** ** cmd/mailtest/main.go *)

Section MailTest.
Variable prog : gostring.
Variable arguments : list gostring.
Variable env : mailtest.Environ.
Variable o : smtp.Outside.
Variable UserWelcomeTemplate : gostring.

(** The ways [main] ends: in [flag.Parse], or in one of the three ways
    of its own. *)
Lemma main_cases :
  let e := mailtest.main prog arguments env o UserWelcomeTemplate in
  let lines := map (fun l => mailtest.Stderr [mailtest.written l]) in
  let cfg := {|
    smtp.Host := mailtest.GetString env "SMTP_HOST" [];
    smtp.Port := mailtest.GetInt env "SMTP_PORT" 587;
    smtp.Username := mailtest.GetString env "SMTP_USERNAME" [];
    smtp.Password := mailtest.GetString env "SMTP_PASSWORD" [];
    smtp.FromEmail := mailtest.GetString env "FROM_EMAIL" [];
    smtp.UseTLS := mailtest.GetBool env "SMTP_TLS" false;
    smtp.InsecureSkipVerify := mailtest.GetBool env "SMTP_INSECURE_SKIP_VERIFY" false
  |} in
  (flag.Parse mailtest.flags arguments [] = flag.ErrHelp /\
   mailtest.code e = 0 /\ mailtest.dialed e = [] /\
   mailtest.printed e = lines (flag.usage prog mailtest.flags)) \/
  (exists msg,
     flag.Parse mailtest.flags arguments [] = flag.Failed msg /\
     mailtest.code e = 2 /\ mailtest.dialed e = [] /\
     mailtest.printed e = lines (msg :: flag.usage prog mailtest.flags)) \/
  (exists args,
     flag.Parse mailtest.flags arguments [] = flag.Parsed args /\
     let to := mailtest.flag_String args "to" [] in
     ((to = [] /\ mailtest.code e = 2 /\ mailtest.dialed e = [] /\
       mailtest.printed e = [mailtest.Stderr [mailtest.text "missing required --to"]]) \/
      (to <> [] /\ exists err,
         snd (smtp.NewSMTPClient cfg) = Some err /\
         mailtest.code e = 1 /\ mailtest.dialed e = [] /\
         mailtest.printed e =
           [mailtest.Stderr [mailtest.text "SMTP config error:"; mailtest.errorValue err]]) \/
      (to <> [] /\ exists client,
         smtp.NewSMTPClient cfg = (client, None) /\
         let r := smtp.Send o client UserWelcomeTemplate
                    (mailtest.flag_String args "username" (lit "Test User")) to
                    {| vars_Username := mailtest.flag_String args "username" (lit "Test User");
                       ActivationURL :=
                         mailtest.flag_String args "activation-url"
                           (lit "http://localhost:5173/confirm/test-token") |}
                    true in
         mailtest.dialed e = snd r /\
         match snd (fst r) with
         | Some err =>
             mailtest.code e = 1 /\
             mailtest.printed e =
               [mailtest.Stderr [mailtest.text "send failed:"; mailtest.errorValue err]]
         | None =>
             mailtest.code e = 0 /\
             mailtest.printed e =
               [mailtest.Stdout [mailtest.text "sent OK, status:";
                                 mailtest.intValue (fst (fst r))]]
         end))).
Proof.
  cbv zeta. unfold mailtest.main, flag.CommandLine_Parse.
  destruct (flag.Parse mailtest.flags arguments []) as [args | | msg].
  2: { left. repeat split. }
  2: { right. left. exists msg. repeat split. }
  right. right. exists args. split; [ reflexivity | ].
  destruct (mailtest.flag_String args "to" []) as [| c to] eqn:Hto; cbn [isEmpty].
  { left. repeat split. }
  right.
  destruct (smtp.NewSMTPClient _) as [client [err |]] eqn:Hnew.
  { left. split; [ discriminate | ]. exists err. repeat split. }
  right. split; [ discriminate | ]. exists client. split; [ reflexivity | ].
  destruct (smtp.Send o client UserWelcomeTemplate _ _ _ true) as [[status err] sent].
  cbn [fst snd]. split; [ destruct err; reflexivity | ].
  destruct err; split; reflexivity.
Qed.

End MailTest.

(** The flags of mailtest, by name. *)
Lemma mailtest_defined (name : gostring) :
  flag.defined mailtest.flags name = true ->
  name = lit "to" \/ name = lit "username" \/ name = lit "activation-url".
Proof.
  unfold flag.defined, mailtest.flags. cbn [existsb flag.Name].
  intros H.
  destruct (GoStr.eqb (lit "to") name) eqn:E1;
    [ left; symmetry; apply eqb_eq; exact E1 | ].
  destruct (GoStr.eqb (lit "username") name) eqn:E2;
    [ right; left; symmetry; apply eqb_eq; exact E2 | ].
  destruct (GoStr.eqb (lit "activation-url") name) eqn:E3;
    [ right; right; symmetry; apply eqb_eq; exact E3 | ].
  discriminate H.
Qed.

(** A flag of mailtest followed by its value. *)
Lemma Parse_flag_value (name v : gostring) (rest : list gostring)
      (actual : list (gostring * gostring)) :
  flag.defined mailtest.flags name = true ->
  flag.Parse mailtest.flags ((lit "--" ++ name) :: v :: rest) actual =
  flag.Parse mailtest.flags rest (actual ++ [(name, v)]).
Proof.
  intros H. destruct (mailtest_defined name H) as [-> | [-> | ->]]; reflexivity.
Qed.

Lemma Parse_commandLine (pairs : mailtest.Args) :
  Forall (fun kv => flag.defined mailtest.flags (fst kv) = true) pairs ->
  forall actual,
    flag.Parse mailtest.flags (mailtest.commandLine pairs) actual =
    flag.Parsed (actual ++ pairs).
Proof.
  induction 1 as [| [name v] pairs Hd _ IH]; intros actual.
  - cbn. rewrite app_nil_r. reflexivity.
  - cbn [fst] in Hd. unfold mailtest.commandLine in *.
    cbn [flat_map fst snd List.app].
    rewrite (Parse_flag_value name v _ actual Hd), IH, <- app_assoc. reflexivity.
Qed.

Lemma len_nonneg (s : gostring) : 0 <= len s.
Proof.
  induction s as [| r s IH]; [ reflexivity | ].
  cbn [len fold_right]. fold (len s).
  assert (0 < GoStr.runeLen r).
  { unfold GoStr.runeLen.
    repeat match goal with |- context [if ?c then _ else _] => destruct c end; lia. }
  lia.
Qed.

(** A flag that is not defined, written with two dashes. *)
Lemma Parse_undefined (name : gostring) (rest : list gostring)
      (actual : list (gostring * gostring)) :
  flag.defined mailtest.flags name = false ->
  name <> [] -> nth 0 name 0 <> 45 -> ~ In 61 name ->
  flag.Parse mailtest.flags ((lit "--" ++ name) :: rest) actual =
  if GoStr.eqb name (lit "help") || GoStr.eqb name (lit "h") then flag.ErrHelp
  else flag.Failed (lit "flag provided but not defined: -" ++ name).
Proof.
  intros Hdef Hne Hdash Heq.
  assert (Hcut : forall s, ~ In 61 s -> flag.cut s = (s, None)).
  { induction s as [| c s IH]; intros Hs; [ reflexivity | ].
    cbn [flag.cut]. destruct (c =? 61) eqn:E.
    - apply Z.eqb_eq in E. exfalso. apply Hs. left. exact E.
    - rewrite IH; [ reflexivity | ]. intros Hin. apply Hs. right. exact Hin. }
  destruct name as [| c name]; [ contradiction Hne; reflexivity | ].
  cbn [nth] in Hdash.
  assert (Hc : (c =? 61) = false).
  { apply Z.eqb_neq. intros ->. apply Heq. left. reflexivity. }
  assert (Hlen : 0 < len (c :: name)).
  { cbn [len fold_right]. fold (len name). pose proof (len_nonneg name).
    assert (0 < GoStr.runeLen c).
    { unfold GoStr.runeLen.
      repeat match goal with |- context [if ?x then _ else _] => destruct x end; lia. }
    lia. }
  assert (Hs : len (lit "--" ++ c :: name) = 1 + (1 + len (c :: name))).
  { reflexivity. }
  cbn [flag.Parse]. rewrite Hs.
  replace (1 + (1 + len (c :: name)) <? 2) with false
    by (symmetry; apply Z.ltb_ge; lia).
  replace (1 + (1 + len (c :: name)) =? 2) with false
    by (symmetry; apply Z.eqb_neq; lia).
  cbn [lit List.app nth Z.eqb Pos.eqb negb orb andb Nat.eqb skipn isEmpty
       nat_of_ascii Z.of_nat].
  change (Z.of_nat (nat_of_ascii "-")) with 45. cbn [nth skipn].
  rewrite Z.eqb_refl. cbn [negb andb orb Nat.eqb skipn isEmpty nth].
  replace (c =? 45) with false by (symmetry; apply Z.eqb_neq; exact Hdash).
  rewrite Hc. cbn [orb flag.nameValue].
  rewrite (Hcut name) by (intros Hin; apply Heq; right; exact Hin).
  rewrite Hdef. reflexivity.
Qed.

(** X23.  [main] of mailtest ends with code 0, 1 or 2.  When the command
    line does not parse, the program ends in [flag.Parse] without a
    connection: with code 0 after the usage for -h or -help, with code 2
    after the error and the usage otherwise, as for a flag that is not
    defined; the usage is seven lines on the standard error.  When the
    command line parses, [main] prints one line: "missing required --to"
    with code 2 when no recipient was given, "sent OK, status: 200" on
    the standard output with code 0 when the server took the message,
    and a line on the standard error with any other code.  So the code
    is 2 exactly when the command line does not parse or names no
    recipient, and 0 exactly when help was asked for or one connection
    was made and the server took the message.  With an incomplete
    configuration no connection is made.  A command line that gives
    flags of the program, each with two dashes and followed by its
    value, parses to these values. *)
Theorem mailtest_main_exit :
  forall (prog : gostring) (arguments : list gostring) (env : mailtest.Environ)
         (o : smtp.Outside) (UserWelcomeTemplate : gostring),
    let e := mailtest.main prog arguments env o UserWelcomeTemplate in
    let parse := flag.Parse mailtest.flags arguments [] in
    let lines := map (fun l => mailtest.Stderr [mailtest.written l]) in
    (mailtest.code e = 0 \/ mailtest.code e = 1 \/ mailtest.code e = 2) /\
    (mailtest.code e = 2 <->
     (exists msg, parse = flag.Failed msg) \/
     (exists args, parse = flag.Parsed args /\ mailtest.flag_String args "to" [] = [])) /\
    (mailtest.code e = 0 <->
     parse = flag.ErrHelp \/
     exists d msg,
       mailtest.dialed e = [(d, msg)] /\ smtp.DialAndSend o d msg = None) /\
    (parse = flag.ErrHelp ->
     mailtest.printed e = lines (flag.usage prog mailtest.flags) /\
     mailtest.dialed e = []) /\
    (forall msg, parse = flag.Failed msg ->
     mailtest.printed e = lines (msg :: flag.usage prog mailtest.flags) /\
     mailtest.dialed e = []) /\
    (forall args, parse = flag.Parsed args ->
     (mailtest.code e = 0 ->
      mailtest.printed e =
        [mailtest.Stdout [mailtest.text "sent OK, status:"; mailtest.intValue 200]]) /\
     (mailtest.code e <> 0 -> exists ops, mailtest.printed e = [mailtest.Stderr ops]) /\
     (mailtest.flag_String args "to" [] = [] ->
      mailtest.printed e = [mailtest.Stderr [mailtest.text "missing required --to"]] /\
      mailtest.dialed e = [])) /\
    (forall err,
        snd (smtp.NewSMTPClient
               {| smtp.Host := mailtest.GetString env "SMTP_HOST" [];
                  smtp.Port := mailtest.GetInt env "SMTP_PORT" 587;
                  smtp.Username := mailtest.GetString env "SMTP_USERNAME" [];
                  smtp.Password := mailtest.GetString env "SMTP_PASSWORD" [];
                  smtp.FromEmail := mailtest.GetString env "FROM_EMAIL" [];
                  smtp.UseTLS := mailtest.GetBool env "SMTP_TLS" false;
                  smtp.InsecureSkipVerify :=
                    mailtest.GetBool env "SMTP_INSECURE_SKIP_VERIFY" false |})
          = Some err ->
        mailtest.dialed e = []) /\
    List.length (flag.usage prog mailtest.flags) = 7%nat /\
    (forall pairs,
        Forall (fun kv => flag.defined mailtest.flags (fst kv) = true) pairs ->
        flag.Parse mailtest.flags (mailtest.commandLine pairs) [] = flag.Parsed pairs) /\
    (forall name rest actual,
        flag.defined mailtest.flags name = false ->
        name <> [] -> nth 0 name 0 <> 45 -> ~ In 61 name ->
        flag.Parse mailtest.flags ((lit "--" ++ name) :: rest) actual =
        if GoStr.eqb name (lit "help") || GoStr.eqb name (lit "h") then flag.ErrHelp
        else flag.Failed (lit "flag provided but not defined: -" ++ name)).
Proof.
  intros prog arguments env o tmplName e parse lines.
  assert (Hlast :
    List.length (flag.usage prog mailtest.flags) = 7%nat /\
    (forall pairs,
        Forall (fun kv => flag.defined mailtest.flags (fst kv) = true) pairs ->
        flag.Parse mailtest.flags (mailtest.commandLine pairs) [] = flag.Parsed pairs) /\
    (forall name rest actual,
        flag.defined mailtest.flags name = false ->
        name <> [] -> nth 0 name 0 <> 45 -> ~ In 61 name ->
        flag.Parse mailtest.flags ((lit "--" ++ name) :: rest) actual =
        if GoStr.eqb name (lit "help") || GoStr.eqb name (lit "h") then flag.ErrHelp
        else flag.Failed (lit "flag provided but not defined: -" ++ name))).
  { split; [ reflexivity | ].
    split; [ intros pairs Hp; exact (Parse_commandLine Hp []) | ].
    intros name rest actual. apply Parse_undefined. }
  pose proof (main_cases prog arguments env o tmplName) as H. cbv zeta in H.
  fold e in H. fold parse in H. fold lines in H.
  destruct H as [(Hparse & Hc & Hd & Hp) | [(m & Hparse & Hc & Hd & Hp)
                                         | (args & Hparse & H)]].
  - rewrite Hparse, Hc, Hd, Hp.
    split; [ left; reflexivity | ].
    split; [ split; [ discriminate
                    | intros [(m & Hm) | (a & Ha & _)]; discriminate ] | ].
    split; [ split; [ intros _; left; reflexivity | reflexivity ] | ].
    split; [ intros _; split; reflexivity | ].
    split; [ intros m Hm; discriminate Hm | ].
    split; [ intros a Ha; discriminate Ha | ].
    split; [ reflexivity | exact Hlast ].
  - rewrite Hparse, Hc, Hd, Hp.
    split; [ right; right; reflexivity | ].
    split; [ split; [ intros _; left; exists m; reflexivity | reflexivity ] | ].
    split; [ split; [ discriminate
                    | intros [Hh | (d & msg & Hx & _)]; discriminate ] | ].
    split; [ intros Hh; discriminate Hh | ].
    split; [ intros m' Hm; injection Hm as <-; split; reflexivity | ].
    split; [ intros a Ha; discriminate Ha | ].
    split; [ reflexivity | exact Hlast ].
  - rewrite Hparse.
    assert (Hmain :
      (mailtest.code e = 0 \/ mailtest.code e = 1 \/ mailtest.code e = 2) /\
      (mailtest.code e = 2 <-> mailtest.flag_String args "to" [] = []) /\
      (mailtest.code e = 0 <->
       exists d msg,
         mailtest.dialed e = [(d, msg)] /\ smtp.DialAndSend o d msg = None) /\
      (mailtest.code e = 0 ->
       mailtest.printed e =
         [mailtest.Stdout [mailtest.text "sent OK, status:"; mailtest.intValue 200]]) /\
      (mailtest.code e <> 0 -> exists ops, mailtest.printed e = [mailtest.Stderr ops]) /\
      (mailtest.flag_String args "to" [] = [] ->
       mailtest.printed e = [mailtest.Stderr [mailtest.text "missing required --to"]] /\
       mailtest.dialed e = []) /\
      (forall err,
        snd (smtp.NewSMTPClient
               {| smtp.Host := mailtest.GetString env "SMTP_HOST" [];
                  smtp.Port := mailtest.GetInt env "SMTP_PORT" 587;
                  smtp.Username := mailtest.GetString env "SMTP_USERNAME" [];
                  smtp.Password := mailtest.GetString env "SMTP_PASSWORD" [];
                  smtp.FromEmail := mailtest.GetString env "FROM_EMAIL" [];
                  smtp.UseTLS := mailtest.GetBool env "SMTP_TLS" false;
                  smtp.InsecureSkipVerify :=
                    mailtest.GetBool env "SMTP_INSECURE_SKIP_VERIFY" false |})
          = Some err ->
        mailtest.dialed e = [])).
    { destruct H as [(Hto & Hc & Hd & Hp) | [(Hto & err & Hnew & Hc & Hd & Hp)
                                            | (Hto & client & Hnew & Hd & Hres)]].
      - rewrite Hc, Hd, Hp.
        split; [ right; right; reflexivity | ].
        split; [ split; [ intros _; exact Hto | reflexivity ] | ].
        split; [ split; [ discriminate | intros (d & msg & H & _); discriminate H ] | ].
        split; [ discriminate | ].
        split; [ intros _; eexists; reflexivity | ].
        split; [ intros _; split; reflexivity | reflexivity ].
      - rewrite Hc, Hd, Hp.
        split; [ right; left; reflexivity | ].
        split; [ split; [ discriminate | intros H; contradiction ] | ].
        split; [ split; [ discriminate | intros (d & msg & H & _); discriminate H ] | ].
        split; [ discriminate | ].
        split; [ intros _; eexists; reflexivity | ].
        split; [ intros H; contradiction | reflexivity ].
      - rewrite Hnew. cbn [snd].
        pose proof (Send_cases o client tmplName (mailtest.flag_String args "to" [])
                      {| vars_Username := mailtest.flag_String args "username" (lit "Test User");
                         ActivationURL :=
                           mailtest.flag_String args "activation-url"
                             (lit "http://localhost:5173/confirm/test-token") |}
                      (mailtest.flag_String args "username" (lit "Test User")) true) as Hs.
        cbv zeta in Hs.
        destruct Hs as [(Hn & e0 & He & _)
                       | (tp & sj & bd & d & msg & _ & _ & _ & Hsent & _ & _ & Hdial)].
        + rewrite He in Hres. cbn [fst snd] in Hres. destruct Hres as [Hc Hp].
          rewrite Hd, Hn, Hc, Hp.
          split; [ right; left; reflexivity | ].
          split; [ split; [ discriminate | intros H; contradiction ] | ].
          split; [ split; [ discriminate | intros (d & msg & H & _); discriminate H ] | ].
          split; [ discriminate | ].
          split; [ intros _; eexists; reflexivity | ].
          split; [ intros H; contradiction | discriminate ].
        + rewrite Hd, Hsent.
          destruct (smtp.DialAndSend o d msg) as [e0 |] eqn:Hds;
            rewrite Hdial in Hres; cbn [fst snd] in Hres; destruct Hres as [Hc Hp];
            rewrite Hc, Hp.
          * split; [ right; left; reflexivity | ].
            split; [ split; [ discriminate | intros H; contradiction ] | ].
            split.
            { split; [ discriminate | ].
              intros (d' & msg' & H & Hnone). injection H as <- <-.
              rewrite Hds in Hnone. discriminate Hnone. }
            split; [ discriminate | ].
            split; [ intros _; eexists; reflexivity | ].
            split; [ intros H; contradiction | discriminate ].
          * split; [ left; reflexivity | ].
            split; [ split; [ discriminate | intros H; contradiction ] | ].
            split; [ split; [ intros _; exists d, msg; split; [ reflexivity | exact Hds ]
                            | reflexivity ] | ].
            split; [ reflexivity | ].
            split; [ intros H; contradiction H; reflexivity | ].
            split; [ intros H; contradiction | discriminate ]. }
    destruct Hmain as (M1 & M2 & M3 & M4 & M5 & M6 & M7).
    split; [ exact M1 | ].
    split.
    { split.
      - intros Hc. right. exists args. split; [ reflexivity | apply M2; exact Hc ].
      - intros [(m & Hm) | (a & Ha & Hto)]; [ discriminate Hm | ].
        injection Ha as <-. apply M2. exact Hto. }
    split.
    { split.
      - intros Hc. right. apply M3. exact Hc.
      - intros [Hh | Hx]; [ discriminate Hh | apply M3; exact Hx ]. }
    split; [ intros Hh; discriminate Hh | ].
    split; [ intros m Hm; discriminate Hm | ].
    split.
    { intros a Ha. injection Ha as <-. split; [ exact M4 | ]. split; [ exact M5 | exact M6 ]. }
    split; [ exact M7 | exact Hlast ].
Qed.

(** mailtest run with a flag it does not have, with -h, without a
    recipient, and for Ann. *)
Lemma mailtest_main_exit_witness :
  let run args := mailtest.main (lit "mailtest") (map lit args)
                    (mailbox.environ 587) mailbox.outside (lit "user_invitation.tmpl") in
  (mailtest.code (run ["--to"; "ann@example.com"; "--nope"; "x"]%string) = 2 /\
   List.length (mailtest.printed (run ["--to"; "ann@example.com"; "--nope"; "x"]%string))
     = 8%nat /\
   nth 0 (mailtest.printed (run ["--to"; "ann@example.com"; "--nope"; "x"]%string))
       (mailtest.Stdout [])
     = mailtest.Stderr
         [mailtest.written (lit "flag provided but not defined: -nope")] /\
   mailtest.dialed (run ["--to"; "ann@example.com"; "--nope"; "x"]%string) = []) /\
  (mailtest.code (run ["-h"]%string) = 0 /\
   List.length (mailtest.printed (run ["-h"]%string)) = 7%nat /\
   mailtest.dialed (run ["-h"]%string) = []) /\
  (mailtest.code (run ["--username"; "Ann"]%string) = 2 /\
   mailtest.printed (run ["--username"; "Ann"]%string) =
     [mailtest.Stderr [mailtest.text "missing required --to"]]) /\
  (mailtest.code (run ["--to=ann@example.com"]%string) = 0 /\
   mailtest.printed (run ["--to=ann@example.com"]%string) =
     [mailtest.Stdout [mailtest.text "sent OK, status:"; mailtest.intValue 200]]) /\
  mailtest.code (run ["--to"]%string) = 2 /\
  map show (flag.usage (lit "mailtest") mailtest.flags) =
    ["Usage of mailtest:";
     "  -activation-url string";
     String.append "    " (String (ascii_of_nat 9)
       (String.append "activation URL to include in email (default "
          (String (ascii_of_nat 34)
             (String.append "http://localhost:5173/confirm/test-token"
                (String (ascii_of_nat 34) ")")))));
     "  -to string";
     String.append "    " (String (ascii_of_nat 9) "recipient email address");
     "  -username string";
     String.append "    " (String (ascii_of_nat 9)
       (String.append "recipient display username (default "
          (String (ascii_of_nat 34)
             (String.append "Test User" (String (ascii_of_nat 34) ")")))))]%string.
Proof.
  cbv zeta.
  pose proof (@mailtest_main_exit (lit "mailtest")
                (map lit ["--to"; "ann@example.com"; "--nope"; "x"]%string)
                (mailbox.environ 587) mailbox.outside (lit "user_invitation.tmpl")) as H.
  cbv zeta in H.
  destruct H as (_ & H2 & _ & _ & H5 & _).
  split.
  { split; [ apply H2; left; eexists; vm_compute; reflexivity | ].
    destruct (H5 (lit "flag provided but not defined: -nope")) as [Hp Hd];
      [ vm_compute; reflexivity | ].
    rewrite Hp, Hd. repeat split. }
  repeat split; vm_compute; reflexivity.
Defined.

(** X24.  Whenever [main] of mailtest connects to a server, its command
    line has parsed, and it does so with the host, port, credentials and
    TLS settings read from the environment, the port defaulting to 587;
    the message goes to the address given with --to, from the address in
    FROM_EMAIL, and its subject and body are the welcome template
    rendered with the username and the activation address of the command
    line, "Test User" and the local test address when they are not
    given. *)
Theorem mailtest_main_message :
  forall (prog : gostring) (arguments : list gostring) (env : mailtest.Environ)
         (o : smtp.Outside)
         (UserWelcomeTemplate : gostring) (d : smtp.Dialer) (msg : smtp.Message),
    In (d, msg)
       (mailtest.dialed (mailtest.main prog arguments env o UserWelcomeTemplate)) ->
    exists args,
    flag.Parse mailtest.flags arguments [] = flag.Parsed args /\
    (smtp.To msg = mailtest.flag_String args "to" [] /\ smtp.To msg <> []) /\
    smtp.From msg = (mailtest.GetString env "FROM_EMAIL" [], smtp.FromName o) /\
    (smtp.d_Host d = mailtest.GetString env "SMTP_HOST" [] /\
     smtp.d_Port d = mailtest.GetInt env "SMTP_PORT" 587 /\ 0 < smtp.d_Port d /\
     smtp.d_Username d = mailtest.GetString env "SMTP_USERNAME" [] /\
     smtp.d_Password d = mailtest.GetString env "SMTP_PASSWORD" [] /\
     smtp.SSL d = mailtest.GetBool env "SMTP_TLS" false
                  || (mailtest.GetInt env "SMTP_PORT" 587 =? 465)) /\
    exists tmpl body,
      smtp.ParseFS o (lit "templates/" ++ UserWelcomeTemplate) = inr tmpl /\
      let vars := {|
        vars_Username := mailtest.flag_String args "username" (lit "Test User");
        ActivationURL :=
          mailtest.flag_String args "activation-url"
            (lit "http://localhost:5173/confirm/test-token") |} in
      smtp.ExecuteTemplate tmpl "subject" vars = inr (smtp.Subject msg) /\
      smtp.ExecuteTemplate tmpl "body" vars = inr body /\
      smtp.parts msg = [(lit "text/html", body)].
Proof.
  intros prog arguments env o tmplName d msg Hin.
  pose proof (main_cases prog arguments env o tmplName) as H. cbv zeta in H.
  destruct H as [(_ & _ & Hd & _) | [(m & _ & _ & Hd & _) | (args & Hparse & H)]];
    try (rewrite Hd in Hin; destruct Hin).
  exists args. split; [ exact Hparse | ].
  destruct H as [(_ & _ & Hd & _) | [(_ & err & _ & _ & Hd & _)
                                    | (Hto & client & Hnew & Hd & _)]];
    try (rewrite Hd in Hin; destruct Hin).
  rewrite Hd in Hin.
  destruct (NewSMTPClient_some _ Hnew) as ((_ & Hp & _) & Hm).
  cbn [smtp.Host smtp.Port smtp.Username smtp.Password smtp.FromEmail smtp.UseTLS
       smtp.InsecureSkipVerify] in Hp, Hm.
  pose proof (Send_cases o client tmplName (mailtest.flag_String args "to" [])
                {| vars_Username := mailtest.flag_String args "username" (lit "Test User");
                   ActivationURL :=
                     mailtest.flag_String args "activation-url"
                       (lit "http://localhost:5173/confirm/test-token") |}
                (mailtest.flag_String args "username" (lit "Test User")) true) as Hs.
  cbv zeta in Hs.
  destruct Hs as [(Hn & _) | (tp & sj & bd & d' & msg' & Hparse' & Hsj & Hbd & Hsent
                              & (M1 & M2 & M3 & M4) & (D1 & D2 & D3 & D4 & D5 & _) & _)].
  { rewrite Hn in Hin. destruct Hin. }
  rewrite Hsent in Hin. destruct Hin as [Hin | []]. injection Hin as <- <-.
  subst client.
  cbn [smtp.host smtp.port smtp.username smtp.password smtp.fromEmail smtp.useTLS]
    in M1, D1, D2, D3, D4, D5.
  split; [ split; [ exact M2 | rewrite M2; exact Hto ] | ].
  split; [ exact M1 | ].
  split; [ repeat split; first [ assumption | rewrite D2; exact Hp ] | ].
  exists tp, bd. cbv zeta. rewrite M3. repeat split; assumption.
Qed.

(** mailtest run for Ann against a server on port 587, and against one
    on port 25 that refuses the connection. *)
Lemma mailtest_main_message_witness :
  let ok := mailtest.main (lit "mailtest") [lit "--to"; lit "ann@example.com"]
              (mailbox.environ 587) mailbox.outside (lit "user_invitation.tmpl") in
  let refused := mailtest.main (lit "mailtest") [lit "--to"; lit "ann@example.com"]
                   (mailbox.environ 25) mailbox.outside (lit "user_invitation.tmpl") in
  mailtest.code ok = 0 /\ mailtest.code refused = 1 /\
  forall d msg, In (d, msg) (mailtest.dialed ok) ->
    smtp.To msg = lit "ann@example.com" /\ smtp.d_Port d = 587 /\ smtp.SSL d = false.
Proof.
  cbv zeta. split; [ vm_compute; reflexivity | ]. split; [ vm_compute; reflexivity | ].
  intros d msg Hin.
  destruct (@mailtest_main_message _ _ _ _ _ d msg Hin)
    as (args & Hparse & (Hto & _) & _ & (_ & Hport & _ & _ & _ & Hssl) & _).
  vm_compute in Hparse. injection Hparse as <-.
  split; [ exact Hto | ]. split; [ exact Hport | exact Hssl ].
Defined.

(* ================================================================== *)
(** ** readJSON: the error reported, and the fields left empty *)

Section ReaderErrors.
Context {L : GoLib}.
Variable P : Type.
Variable T : Target P.

(** The error kept by the decoder is that of the first member it cannot
    take. *)
Lemma decode_first_error (ms : list (gostring * Json.value)) (acc p : P) (e : error) :
  decodeMembers T ms acc None = (p, Some e) ->
  exists before key v after,
    ms = before ++ (key, v) :: after /\
    Forall (taken (names T)) before /\
    ((findField (names T) key = None /\ e = UnknownFieldError key) \/
     (exists n, findField (names T) key = Some n /\ e = UnmarshalTypeError n /\
                v <> Json.Null /\ forall s, v <> Json.Str s)).
Proof.
  revert acc. induction ms as [| [key v] ms IH]; intros acc H; [ discriminate H | ].
  cbn [decodeMembers] in H.
  destruct (findField (names T) key) as [n |] eqn:Hf.
  - assert (Hbad : forall acc', decodeMembers T ms acc' (Some (UnmarshalTypeError n))
                                = (p, Some e) ->
                   v <> Json.Null -> (forall s, v <> Json.Str s) ->
                   exists before key0 v0 after,
                     (key, v) :: ms = before ++ (key0, v0) :: after /\
                     Forall (taken (names T)) before /\
                     ((findField (names T) key0 = None /\ e = UnknownFieldError key0) \/
                      (exists n0, findField (names T) key0 = Some n0 /\
                                  e = UnmarshalTypeError n0 /\
                                  v0 <> Json.Null /\ forall s, v0 <> Json.Str s))).
    { intros acc' H' Hn Hs.
      pose proof (decode_saved T ms acc' (UnmarshalTypeError n)) as Hsv.
      rewrite H' in Hsv. cbn [snd] in Hsv. injection Hsv as ->.
      exists [], key, v, ms. split; [ reflexivity | ]. split; [ constructor | ].
      right. exists n. repeat split; assumption. }
    assert (Hgood : forall acc', decodeMembers T ms acc' None = (p, Some e) ->
                    (v = Json.Null \/ exists s, v = Json.Str s) ->
                    exists before key0 v0 after,
                      (key, v) :: ms = before ++ (key0, v0) :: after /\
                      Forall (taken (names T)) before /\
                      ((findField (names T) key0 = None /\ e = UnknownFieldError key0) \/
                       (exists n0, findField (names T) key0 = Some n0 /\
                                   e = UnmarshalTypeError n0 /\
                                   v0 <> Json.Null /\ forall s, v0 <> Json.Str s))).
    { intros acc' H' Hv.
      destruct (IH _ H') as (before & key0 & v0 & after & -> & Hb & Hwhy).
      exists ((key, v) :: before), key0, v0, after.
      split; [ reflexivity | ]. split; [ | exact Hwhy ].
      constructor; [ | exact Hb ]. split; [ cbn [fst]; congruence | exact Hv ]. }
    destruct v; cbn [saveError] in H;
      first [ apply (Hgood _ H); first [ left; reflexivity | right; eexists; reflexivity ]
            | apply (Hbad _ H); [ discriminate | intros s0; discriminate ] ].
  - cbn [saveError] in H.
    pose proof (decode_saved T ms acc (UnknownFieldError key)) as Hsv.
    rewrite H in Hsv. cbn [snd] in Hsv. injection Hsv as ->.
    exists [], key, v, ms. split; [ reflexivity | ]. split; [ constructor | ].
    left. split; [ exact Hf | reflexivity ].
Qed.

End ReaderErrors.

(** X25.  The errors of [readJSON].  A body in which the bytes the
    decoder needs go past byte 1,048,578 is reported as too large,
    whatever it holds.  Within the limit, a body that is empty or all
    white space is reported as [io.EOF], a body that stops inside its
    value as [io.ErrUnexpectedEOF], a byte no JSON value can go on with
    as a syntax error; a value other than an object or [null] is a type
    error, and an object is refused for the first of its members that
    names no field of the payload or gives a field something other than
    a string or [null]: the members before it were taken, and those
    after it are not looked at for the error. *)
Theorem readJSON_errors :
  forall (L : GoLib) (P : Type) (T : Target P) (body : Json.Body) (e : error),
    readJSON T body = inl e ->
    (maxBytes < Json.needed body /\ e = MaxBytesError maxBytes) \/
    (Json.needed body <= maxBytes /\
     ((Json.text body = Json.Blank /\ e = io_EOF) \/
      (Json.text body = Json.Cut /\ e = io_ErrUnexpectedEOF) \/
      (exists offset, Json.text body = Json.Malformed offset /\ e = SyntaxError) \/
      (exists v, Json.doc body = Some v /\ v <> Json.Null /\
                 (forall ms, v <> Json.Object ms) /\ e = UnmarshalTypeError []) \/
      (exists before key v after,
          Json.doc body = Some (Json.Object (before ++ (key, v) :: after)) /\
          Forall (taken (names T)) before /\
          ((findField (names T) key = None /\ e = UnknownFieldError key) \/
           (exists n, findField (names T) key = Some n /\ e = UnmarshalTypeError n /\
                      v <> Json.Null /\ forall s, v <> Json.Str s))))).
Proof.
  intros L P T body e H. unfold readJSON in H.
  destruct (readValue_cases body) as [[Hbig Hrv] | [Hle Hrv]]; rewrite Hrv in H.
  { left. injection H as <-. split; [ exact Hbig | reflexivity ]. }
  right. split; [ exact Hle | ].
  unfold Json.doc.
  destruct (Json.text body) as [v ends | | | offset].
  2: { left. injection H as <-. split; reflexivity. }
  2: { right. left. injection H as <-. split; reflexivity. }
  2: { right. right. left. injection H as <-. exists offset. split; reflexivity. }
  do 3 right.
  destruct v as [ | b | n | s0 | items | ms ]; try discriminate H;
    try (left; injection H as <-; eexists; split; [ reflexivity | ];
         split; [ discriminate | ]; split; [ intros ms; discriminate | reflexivity ]).
  right.
  destruct (decodeMembers T ms (zero T) None) as [p [e' |]] eqn:Hd; [ | discriminate H ].
  injection H as <-.
  destruct (decode_first_error T ms (zero T) Hd)
    as (before & key & v & after & -> & Hb & Hwhy).
  exists before, key, v, after. split; [ reflexivity | ]. split; assumption.
Qed.

(** A registration that names a role: the six members before it are
    taken, and the error is that of the seventh.  An empty body, and a
    body cut after seventeen bytes. *)
Lemma readJSON_errors_witness :
  let e := UnknownFieldError (lit "role") in
  let T := registerTarget in
  ((maxBytes < Json.needed scenario.adminBody /\ e = MaxBytesError maxBytes) \/
   (Json.needed scenario.adminBody <= maxBytes /\
    ((Json.text scenario.adminBody = Json.Blank /\ e = io_EOF) \/
     (Json.text scenario.adminBody = Json.Cut /\ e = io_ErrUnexpectedEOF) \/
     (exists offset,
         Json.text scenario.adminBody = Json.Malformed offset /\ e = SyntaxError) \/
     (exists v, Json.doc scenario.adminBody = Some v /\ v <> Json.Null /\
                (forall ms, v <> Json.Object ms) /\ e = UnmarshalTypeError []) \/
     (exists before key v after,
         Json.doc scenario.adminBody =
           Some (Json.Object (before ++ (key, v) :: after)) /\
         Forall (taken (L:=asciiLib) (names T)) before /\
         ((findField (L:=asciiLib) (names T) key = None /\ e = UnknownFieldError key) \/
          (exists n, findField (L:=asciiLib) (names T) key = Some n /\
                     e = UnmarshalTypeError n /\
                     v <> Json.Null /\ forall s, v <> Json.Str s)))))) /\
  readJSON (L:=asciiLib) T {| Json.text := Json.Blank; Json.size := 0 |} = inl io_EOF /\
  readJSON (L:=asciiLib) T {| Json.text := Json.Cut; Json.size := 17 |} =
    inl io_ErrUnexpectedEOF.
Proof.
  cbv zeta. split; [ | split; vm_compute; reflexivity ].
  apply (@readJSON_errors asciiLib _ registerTarget scenario.adminBody).
  vm_compute. reflexivity.
Defined.

Section RequiredFields.
Context {L : GoLib}.

(** Assigning to one field leaves the others as they were. *)
Lemma assign_other (jn fn : string) (g : RegisterUserPayload -> gostring)
      (n v : gostring) (p : RegisterUserPayload) :
  In (jn, fn, g) requiredFields -> n <> lit jn ->
  g (assign registerTarget n v p) = g p.
Proof.
  intros Hin Hne. cbn [requiredFields In] in Hin.
  cbn [assign registerTarget].
  repeat (destruct Hin as [Hin | Hin];
          [ injection Hin as <- <- <-;
            repeat match goal with
                   | |- context [GoStr.eqb n ?x] =>
                       let E := fresh "E" in
                       destruct (GoStr.eqb n x) eqn:E;
                       [ first [ reflexivity
                               | apply eqb_eq in E; contradiction ] | ]
                   end;
            reflexivity | ]).
  destruct Hin.
Qed.

(** A field for which the body has no string keeps the value it had. *)
Lemma decode_keeps (jn fn : string) (g : RegisterUserPayload -> gostring)
      (ms : list (gostring * Json.value)) :
  In (jn, fn, g) requiredFields ->
  (forall key v, In (key, v) ms ->
     findField (names registerTarget) key = Some (lit jn) -> v = Json.Null) ->
  forall acc saved, g (fst (decodeMembers registerTarget ms acc saved)) = g acc.
Proof.
  intros Hin. induction ms as [| [key v] ms IH]; intros Hnull acc saved; [ reflexivity | ].
  assert (Hrest : forall key0 v0, In (key0, v0) ms ->
            findField (names registerTarget) key0 = Some (lit jn) -> v0 = Json.Null).
  { intros key0 v0 H0. apply Hnull. right. exact H0. }
  cbn [decodeMembers].
  destruct (findField (names registerTarget) key) as [n |] eqn:Hf;
    [ | apply (IH Hrest) ].
  destruct v; try apply (IH Hrest).
  rewrite (IH Hrest). apply (assign_other _ _ Hin).
  intros ->. specialize (Hnull key (Json.Str s) (or_introl eq_refl) Hf).
  discriminate Hnull.
Qed.

Lemma failures_in (reg : registry) (all fs : structFields) (n : string)
      (v : gostring) (ts : list tag) (tg : string) :
  In (n, v, ts) fs -> checkTags reg all v ts = Some tg ->
  In (n, tg) (failures reg all fs).
Proof.
  induction fs as [| [[n' v'] ts'] fs IH]; intros Hin Hc; [ destruct Hin | ].
  cbn [failures]. destruct Hin as [Hin | Hin].
  - injection Hin as -> -> ->. rewrite Hc. left. reflexivity.
  - destruct (checkTags reg all v' ts'); [ right | ]; exact (IH Hin Hc).
Qed.

Lemma required_tag (jn fn : string) (g : RegisterUserPayload -> gostring)
      (p : RegisterUserPayload) :
  In (jn, fn, g) requiredFields ->
  exists ts, In (fn, g p, tRequired :: ts) (registerFields p).
Proof.
  intros Hin. cbn [requiredFields In] in Hin. unfold registerFields.
  repeat (destruct Hin as [Hin | Hin];
          [ injection Hin as <- <- <-; eexists; cbn [In];
            first [ left; reflexivity
                  | right; left; reflexivity
                  | do 2 right; left; reflexivity
                  | do 3 right; left; reflexivity
                  | do 4 right; left; reflexivity
                  | do 5 right; left; reflexivity ] | ]).
  destruct Hin.
Qed.

End RequiredFields.

(** X26.  The six fields of the registration payload tagged [required]
    are required of the body: when the body is [null], or an object in
    which every member for such a field is [null] or missing, the
    decoder leaves the field empty, validation reports it as "required",
    and the handler answers with that bad request and nothing else (or
    with the bad request of the reader's error, if the body has one). *)
Theorem register_requires_its_fields :
  forall (L : GoLib) (app : config) (E : Env) (s s' : state E)
         (body : Json.Body) (t : list Obs)
         (jn fn : string) (g : RegisterUserPayload -> gostring),
    run E (registerUserHandler app body) s = (t, tt, s') ->
    In (jn, fn, g) requiredFields ->
    (Json.doc body = Some Json.Null \/
     exists ms,
       Json.doc body = Some (Json.Object ms) /\
       forall key v, In (key, v) ms ->
         findField (names registerTarget) key = Some (lit jn) -> v = Json.Null) ->
    match readJSON registerTarget body with
    | inl e => t = [oBadRequest e]
    | inr p =>
        g p = [] /\
        exists fs, t = [oBadRequest (ValidationErrors fs)] /\ In (fn, "required"%string) fs
    end.
Proof.
  intros L app E s s' body t jn fn g Hrun Hin Hbody.
  apply run_exec, register_shape in Hrun.
  destruct (readJSON registerTarget body) as [err | payload] eqn:Hread; [ exact Hrun | ].
  assert (Hempty : g payload = []).
  { unfold readJSON in Hread.
    destruct (readValue body) as [e0 | v0] eqn:Hrv; [ discriminate Hread | ].
    apply readValue_inr in Hrv. destruct Hrv as [Hv0 _].
    destruct Hbody as [Hdoc | (ms & Hdoc & Hnull)]; rewrite Hdoc in Hv0;
      injection Hv0 as <-.
    - injection Hread as <-. cbn [zero registerTarget].
      cbn [requiredFields In] in Hin.
      repeat (destruct Hin as [Hin | Hin]; [ injection Hin as _ _ <-; reflexivity | ]).
      destruct Hin.
    - pose proof (@decode_keeps _ _ _ _ ms Hin Hnull (zero registerTarget) None) as Hk.
      destruct (decodeMembers registerTarget ms (zero registerTarget) None) as [p [e |]];
        [ discriminate Hread | ].
      injection Hread as <-. cbn [fst] in Hk. rewrite Hk.
      cbn [zero registerTarget].
      cbn [requiredFields In] in Hin.
      repeat (destruct Hin as [Hin | Hin]; [ injection Hin as _ _ <-; reflexivity | ]).
      destruct Hin. }
  split; [ exact Hempty | ].
  destruct (@required_tag _ _ _ payload Hin) as (ts & Htag).
  rewrite Hempty in Htag.
  assert (Hfail : In (fn, "required"%string)
                     (failures Validate (registerFields payload) (registerFields payload))).
  { eapply failures_in; [ exact Htag | reflexivity ]. }
  unfold Validate_Struct in Hrun.
  destruct (failures Validate (registerFields payload) (registerFields payload))
    as [| f fs]; [ destruct Hfail | ].
  exists (f :: fs). split; [ exact Hrun | exact Hfail ].
Qed.

(** A registration whose body is [null]. *)
Lemma register_requires_its_fields_witness :
  let r := run worldEnv
               (registerUserHandler (L:=asciiLib) scenario.cfg
                  (scenario.only Json.Null 4))
               (scenario.noopWorld (scenario.emptyRepo []) [] []) in
  exists fs,
    fst (fst r) = [oBadRequest (ValidationErrors fs)] /\
    In ("Email", "required")%string fs.
Proof.
  cbv zeta.
  pose proof (@register_requires_its_fields asciiLib scenario.cfg worldEnv
                (scenario.noopWorld (scenario.emptyRepo []) [] []) _
                (scenario.only Json.Null 4) _
                "email" "Email" Email (run_unit _ _ _)) as H.
  change (readJSON (L:=asciiLib) registerTarget (scenario.only Json.Null 4))
    with (@inr error _ (zero registerTarget)) in H.
  destruct H as (_ & fs & Ht & Hin).
  - do 3 right. left. reflexivity.
  - left. reflexivity.
  - exists fs. split; [ exact Ht | exact Hin ].
Defined.

(* ================================================================== *)
(** ** createTokenHandler: the order of the time claims *)

(** X27.  The time claims of a login follow the clock.  When a token is
    requested from the signer the clock has been read exactly three
    times; if it did not go back between the second and the third
    reading, "iat" is not after "nbf"; if the configured lifetime covers
    the time between the first reading and a later one, the claim taken
    from the later one is not after "exp"; and with a lifetime of minus
    one second or less and a clock that does not go back, "exp" is
    before "iat": the token is expired when it is issued. *)
Theorem login_claims_ordered :
  forall (L : GoLib) (app : config) (E : Env) (s s' : state E)
         (body : Json.Body) (t : list Obs),
    run E (createTokenHandler app body) s = (t, tt, s') ->
    forall claims res,
      In (oGenerateToken claims res) t ->
      exists t1 t2 t3 iat nbf exp,
        filter isNow t = [oNow t1; oNow t2; oNow t3] /\
        getClaim claims "iat" = Some (claimInt iat) /\
        getClaim claims "nbf" = Some (claimInt nbf) /\
        getClaim claims "exp" = Some (claimInt exp) /\
        (t2 <= t3 -> iat <= nbf) /\
        (t2 <= t1 + auth_token_exp app -> iat <= exp) /\
        (t3 <= t1 + auth_token_exp app -> nbf <= exp) /\
        (auth_token_exp app <= -1000000000 -> t1 <= t2 -> exp < iat).
Proof.
  intros L app E s s' body t Hrun claims res Hin.
  apply run_exec, login_shape in Hrun.
  destruct (readJSON tokenTarget body) as [err | payload].
  { subst t. destruct Hin as [H | []]. discriminate H. }
  destruct (Validate_Struct Validate (tokenFields payload)) as [err |].
  { subst t. destruct Hin as [H | []]. discriminate H. }
  assert (Hc : exists user t1 t2 t3,
             claims = loginClaims app user t1 t2 t3 /\
             filter isNow t = [oNow t1; oNow t2; oNow t3]).
  { destruct Hrun as [ | err Hne | user err | user t1 t2 t3 err | user t1 t2 t3 tk werr ].
    - destruct Hin as [H | [H | []]]; discriminate H.
    - destruct Hin as [H | [H | []]]; discriminate H.
    - destruct Hin as [H | [H | [H | []]]]; discriminate H.
    - cbn in Hin. repeat (destruct Hin as [Hin | Hin]; try discriminate Hin);
        [ | contradiction ].
      injection Hin as <- _. exists user, t1, t2, t3. split; reflexivity.
    - exists user, t1, t2, t3.
      split; [ | destruct werr; reflexivity ].
      destruct werr; cbn in Hin;
        repeat (destruct Hin as [Hin | Hin]; try discriminate Hin);
        try contradiction; injection Hin as <- _; reflexivity. }
  destruct Hc as (user & t1 & t2 & t3 & -> & Hnow).
  exists t1, t2, t3, (time_Unix t2), (time_Unix t3),
    (time_Unix (time_Add t1 (auth_token_exp app))).
  split; [ exact Hnow | ].
  do 3 (split; [ reflexivity | ]).
  unfold time_Unix, time_Add.
  split; [ intros H; apply Z.div_le_mono; lia | ].
  split; [ intros H; apply Z.div_le_mono; lia | ].
  split; [ intros H; apply Z.div_le_mono; lia | ].
  intros Hd H12.
  assert (Hle : (t1 + auth_token_exp app) / 1000000000
                <= (t2 - 1 * 1000000000) / 1000000000).
  { apply Z.div_le_mono; lia. }
  replace (t2 - 1 * 1000000000) with (t2 + (-1) * 1000000000) in Hle by lia.
  rewrite Z.div_add in Hle by lia. lia.
Qed.

(** Ann logs in at 1700000000.25 s with a lifetime of three days. *)
Lemma login_claims_ordered_witness :
  let r := run worldEnv
               (createTokenHandler (L:=asciiLib) scenario.cfg
                  (scenario.loginBody "Str0ng!Pass"))
               (scenario.noopWorld scenario.annRepo []
                  [1700000000250000000; 1700000000250000400; 1700000000250000900]) in
  exists claims iat nbf exp,
    In (oGenerateToken claims (inr (lit "header.claims.signature"))) (fst (fst r)) /\
    getClaim claims "iat" = Some (claimInt iat) /\
    getClaim claims "nbf" = Some (claimInt nbf) /\
    getClaim claims "exp" = Some (claimInt exp) /\
    iat <= nbf /\ nbf <= exp.
Proof.
  cbv zeta.
  pose proof (@login_claims_ordered asciiLib scenario.cfg worldEnv
                (scenario.noopWorld scenario.annRepo []
                   [1700000000250000000; 1700000000250000400; 1700000000250000900])
                _ (scenario.loginBody "Str0ng!Pass") _ (run_unit _ _ _)) as H.
  edestruct H as (t1 & t2 & t3 & iat & nbf & exp & Hnow & Hi & Hn & He & H1 & _ & H3 & _).
  { vm_compute. do 5 right. left. reflexivity. }
  vm_compute in Hnow. injection Hnow as <- <- <-.
  eexists _, iat, nbf, exp.
  split; [ vm_compute; do 5 right; left; reflexivity | ].
  split; [ exact Hi | ]. split; [ exact Hn | ]. split; [ exact He | ].
  split; [ apply H1; lia | apply H3; vm_compute; discriminate ].
Defined.

(* ================================================================== *)
(** ** registerUserHandler: the random draws *)

Section RandomDraws.
Context {L : GoLib}.
Variable app : config.
Variable payload : RegisterUserPayload.

Lemma loop_draws (tok : gostring) (n : nat) (u : store.User) (t : list Obs)
      (out : option store.User) :
  loopRun app payload tok n u t out ->
  count isRandRead t = count isUsernameConflict t /\ count isHashed t = 0%nat.
Proof.
  induction 1 as [u | n u id | n u | n u e He1 He2 | n u rnd t out H IH].
  - split; reflexivity.
  - split; reflexivity.
  - split; reflexivity.
  - rewrite !count_cons. cbn [isRandRead isHashed count filter List.length].
    destruct e; first [ contradiction | split; reflexivity ].
  - destruct IH as [IH1 IH2]. rewrite !count_cons.
    cbn [isRandRead isUsernameConflict isHashed]. split; lia.
Qed.

Lemma body_draws (t : list Obs) :
  bodyRun app payload t ->
  count isRandRead t =
    ((if isEmpty (Username payload) then 1 else 0) + count isHashed t
     + count isUsernameConflict t)%nat /\
  (count isHashed t <= 1)%nat.
Proof.
  intros H.
  destruct H as [pre name err Hu | pre name pw rnd0 t1 out t2 Hu Hl Ht].
  - rewrite !count_app. destruct Hu as [He | rnd He]; rewrite He; cbn; split; lia.
  - destruct (loop_draws Hl) as [Hd Hh].
    assert (Ht2 : count isRandRead t2 = 0%nat /\ count isUsernameConflict t2 = 0%nat /\
                  count isHashed t2 = 0%nat).
    { destruct out as [u' |]; [ | subst t2; repeat split ].
      destruct Ht as [Hz | status werr Hnz | status merr derr Hnz];
        [ | destruct werr | destruct derr ]; repeat split. }
    destruct Ht2 as (T1 & T2 & T3).
    rewrite !count_app, !count_cons, !count_app, Hd, Hh, T1, T2, T3.
    cbn [isRandRead isHashed isUsernameConflict].
    destruct Hu as [He | rnd He]; rewrite He; cbn; split; lia.
Qed.

End RandomDraws.

Section Randoms.
Context {S M : Type} {U : UserStore S} {Ml : Mailer M}.

(** Every draw of a run takes one entry from the random source. *)
Lemma world_run_randoms A (p : Prog A) (w w' : World S M) (t : list Obs) (a : A) :
  run worldEnv p w = (t, a, w') ->
  randoms (w_oracle w') = skipn (count isRandRead t) (randoms (w_oracle w)).
Proof.
  revert w t. induction p as [a0 | X e k IH]; intros w t H; cbn [run] in H.
  - injection H as <- <- <-. reflexivity.
  - destruct (step worldEnv e w) as [x w1] eqn:Hs.
    destruct (run worldEnv (k x) w1) as [[t0 a0] w2] eqn:Hr.
    injection H as <- <- <-.
    rewrite (IH x _ _ Hr), count_cons.
    cbn [step worldEnv] in Hs.
    destruct e; cbn [worldStep observe isRandRead Nat.add] in *;
      try (injection Hs as <- <-; reflexivity).
    + injection Hs as <- <-. cbn [w_oracle withOracle popRandom randoms].
      destruct (randoms (w_oracle w)) as [| r rs]; cbn [tl skipn]; [ | reflexivity ].
      destruct (count isRandRead t0); reflexivity.
    + destruct (store_CreateAndInvite (w_store w) u tok exp) as [r s1].
      injection Hs as <- <-. reflexivity.
    + destruct (store_Delete (w_store w) id) as [r s1].
      injection Hs as <- <-. reflexivity.
    + destruct (store_GetByEmail (w_store w) email) as [r s1].
      injection Hs as <- <-. reflexivity.
    + destruct (mailer_Send (w_mailer w) templateFile username email data isSandbox)
        as [r m1].
      injection Hs as <- <-. reflexivity.
Qed.

End Randoms.

(** X28.  The random draws of a registration.  For a decoded and valid
    payload the handler draws 16 random bytes once for the username, if
    the payload has none, once for the invitation token, if the password
    was hashed, and once after every create answered with a username
    conflict, and at no other time: seven draws at most.  The random
    source is afterwards shorter by that many entries. *)
Theorem register_random_draws :
  forall (L : GoLib) (S M : Type) (U : UserStore S) (Ml : Mailer M)
         (app : config) (w w' : World S M) (body : Json.Body) (t : list Obs)
         (payload : RegisterUserPayload),
    run worldEnv (registerUserHandler app body) w = (t, tt, w') ->
    readJSON registerTarget body = inr payload ->
    Validate_Struct Validate (registerFields payload) = None ->
    count isRandRead t =
      ((if isEmpty (Username payload) then 1 else 0) + count isHashed t
       + count isUsernameConflict t)%nat /\
    (count isHashed t <= 1)%nat /\
    (count isRandRead t <= 7)%nat /\
    randoms (w_oracle w') = skipn (count isRandRead t) (randoms (w_oracle w)).
Proof.
  intros L S M U Ml app w w' body t payload Hrun Hread Hval.
  pose proof (world_run_randoms _ _ Hrun) as Hw.
  apply run_exec, register_shape in Hrun.
  rewrite Hread, Hval in Hrun.
  destruct (body_draws Hrun) as [Hd Hh].
  destruct (body_counts Hrun) as [Hc _].
  assert (Hcc : (count isUsernameConflict t <= count isCreate t)%nat).
  { clear. induction t as [| o t IH]; [ reflexivity | ].
    rewrite !count_cons.
    destruct o; cbn [isUsernameConflict isCreate]; try lia.
    destruct res as [[] |]; lia. }
  split; [ exact Hd | ]. split; [ exact Hh | ]. split; [ | exact Hw ].
  destruct (isEmpty (Username payload)); lia.
Qed.

(** Ann registers while "annlee000000" is taken and the random source
    keeps giving zeros: seven draws. *)
Lemma register_random_draws_witness :
  let r := run worldEnv
               (registerUserHandler (L:=asciiLib) scenario.cfg scenario.annBody)
               (scenario.noopWorld scenario.crowdedRepo
                  [[]; []; []; []; []; []; []; [9; 9]] []) in
  count isRandRead (fst (fst r)) = 7%nat /\
  randoms (w_oracle (snd r)) = [[9; 9]].
Proof.
  cbv zeta.
  destruct (@register_random_draws asciiLib _ _ MemStore NoopMailer scenario.cfg
              (scenario.noopWorld scenario.crowdedRepo
                 [[]; []; []; []; []; []; []; [9; 9]] []) _ scenario.annBody _
              (Build_RegisterUserPayload (lit "Ann") (lit "Lee") (lit "KZ")
                 (lit "ann@example.com") (lit "Str0ng!Pass") (lit "Str0ng!Pass") [])
              (run_unit _ _ _))
    as (Hd & _ & _ & Hw).
  - vm_compute. reflexivity.
  - vm_compute. reflexivity.
  - assert (H7 : count isRandRead
                   (fst (fst (run worldEnv
                      (registerUserHandler (L:=asciiLib) scenario.cfg scenario.annBody)
                      (scenario.noopWorld scenario.crowdedRepo
                         [[]; []; []; []; []; []; []; [9; 9]] [])))) = 7%nat).
    { vm_compute. reflexivity. }
    split; [ exact H7 | ]. rewrite Hw, H7. reflexivity.
Defined.
